(** * markdown2text: a shallow embedding of [markdown2text.py]

    The program turns Markdown into plain text by running a fixed sequence
    of rewriting passes over one string, and records what it strips in a
    [StrippedContentLogger].  Almost every pass is a Python [re] call, so
    the embedding has three layers:

    - [Py]: the [str] methods the program uses ([split], [join], [strip],
      [startswith], ...);
    - [Re]: the fragment of Python's [re] the program's patterns are
      written in, as a backtracking matcher with the priorities of the
      [sre] engine (greedy and lazy repetition, groups, [^] and [$],
      one-character look-around), and [findall] / [sub] on top of it;
    - the program itself, pass by pass, in a monad that threads the logger
      and the two output streams and can raise.

    A Python [str] is modelled as a [string]: each [ascii] is one code
    point in U+0000..U+00FF.  On that range [\s] and [str.strip] agree on
    the white-space set of [is_space] and [\d] is the ASCII digits. *)

From Stdlib Require Import Bool Arith Lia List Ascii String.
From Stdlib Require Import ZArith DecimalString.
Import ListNotations.

Set Implicit Arguments.
Open Scope string_scope.
Open Scope list_scope.
Open Scope nat_scope.

(* ================================================================== *)
(** ** Python [str] operations *)
(* ================================================================== *)

Module Py.

Definition NL : ascii := "010"%char.

Definition code (c : ascii) : nat := nat_of_ascii c.

(** [Py_UNICODE_ISSPACE] on code points below 256. *)
Definition is_space (c : ascii) : bool :=
  let n := code c in
  ((9 <=? n) && (n <=? 13)) || ((28 <=? n) && (n <=? 32))
  || (n =? 133) || (n =? 160).

(** [Py_UNICODE_ISDECIMAL] on code points below 256. *)
Definition is_digit (c : ascii) : bool :=
  let n := code c in (48 <=? n) && (n <=? 57).

(** [c in s] for a one-character [c]. *)
Fixpoint mem (c : ascii) (s : string) : bool :=
  match s with
  | EmptyString => false
  | String a s' => Ascii.eqb c a || mem c s'
  end.

(** [str.lstrip()] *)
Fixpoint lstrip (s : string) : string :=
  match s with
  | EmptyString => EmptyString
  | String a s' => if is_space a then lstrip s' else s
  end.

(** [s[::-1]], used only to define [rstrip]. *)
Fixpoint rev_onto (s acc : string) : string :=
  match s with
  | EmptyString => acc
  | String a s' => rev_onto s' (String a acc)
  end.

Definition rev (s : string) : string := rev_onto s EmptyString.

(** [str.rstrip()] *)
Definition rstrip (s : string) : string := rev (lstrip (rev s)).

(** [str.strip()] *)
Definition strip (s : string) : string := rstrip (lstrip s).

(** [str.strip(ch)] for a one-character argument. *)
Fixpoint lstrip_chr (ch : ascii) (s : string) : string :=
  match s with
  | EmptyString => EmptyString
  | String a s' => if Ascii.eqb a ch then lstrip_chr ch s' else s
  end.

Definition strip_chr (ch : ascii) (s : string) : string :=
  rev (lstrip_chr ch (rev (lstrip_chr ch s))).

(** [s.startswith(p)] *)
Fixpoint startswith (p s : string) : bool :=
  match p, s with
  | EmptyString, _ => true
  | String a p', String b s' => Ascii.eqb a b && startswith p' s'
  | String _ _, EmptyString => false
  end.

(** [s.endswith(p)] *)
Definition endswith (p s : string) : bool := startswith (rev p) (rev s).

(** [p in s], for strings. *)
Fixpoint contains (p s : string) : bool :=
  startswith p s
  || match s with
     | EmptyString => false
     | String _ s' => contains p s'
     end.

(** [s.split(sep)] for a one-character separator: never the empty list. *)
Fixpoint split_aux (sep : ascii) (s : string) (cur : string) : list string :=
  match s with
  | EmptyString => [rev cur]
  | String a s' =>
      if Ascii.eqb a sep then rev cur :: split_aux sep s' EmptyString
      else split_aux sep s' (String a cur)
  end.

Definition split (sep : ascii) (s : string) : list string :=
  split_aux sep s EmptyString.

(** [s.split(sep, 1)] for a one-character separator. *)
Fixpoint split1_aux (sep : ascii) (s : string) (cur : string) : list string :=
  match s with
  | EmptyString => [rev cur]
  | String a s' =>
      if Ascii.eqb a sep then [rev cur; s']
      else split1_aux sep s' (String a cur)
  end.

Definition split1 (sep : ascii) (s : string) : list string :=
  split1_aux sep s EmptyString.

(** [sep.join(l)] *)
Fixpoint join (sep : string) (l : list string) : string :=
  match l with
  | [] => EmptyString
  | [x] => x
  | x :: l' => x ++ sep ++ join sep l'
  end.

(** [s.replace(old, new)] for a non-empty [old]: leftmost occurrences,
    not overlapping. [skip] counts the characters of the occurrence
    that is being replaced. *)
Fixpoint replace_aux (old new : string) (skip : nat) (s : string) : string :=
  match s with
  | EmptyString => EmptyString
  | String a s' =>
      match skip with
      | S n => replace_aux old new n s'
      | O =>
          if startswith old s
          then new ++ replace_aux old new (length old - 1) s'
          else String a (replace_aux old new 0 s')
      end
  end.

Definition replace (old new s : string) : string := replace_aux old new 0 s.

(** [s[1:-1]] *)
Definition slice_1_m1 (s : string) : string :=
  match s with
  | EmptyString => EmptyString
  | String _ s' => substring 0 (length s' - 1) s'
  end.

(** [s[:k]]: a negative [k] counts from the end. *)
Definition slice_to (k : Z) (s : string) : string :=
  if (k <? 0)%Z
  then substring 0 (Z.to_nat (Z.of_nat (length s) + k)) s
  else substring 0 (Z.to_nat k) s.

(** [s[n:]] for [n >= 0]. *)
Fixpoint slice_from (n : nat) (s : string) : string :=
  match n, s with
  | O, _ => s
  | S n', String _ s' => slice_from n' s'
  | S _, EmptyString => EmptyString
  end.

(** [ch * n] *)
Fixpoint repeat_chr (ch : ascii) (n : nat) : string :=
  match n with
  | O => EmptyString
  | S n' => String ch (repeat_chr ch n')
  end.

(** [str(n)] for a non-negative [int]. *)
Definition str_of_nat (n : nat) : string :=
  NilZero.string_of_uint (Nat.to_uint n).

End Py.

(* ================================================================== *)
(** ** The fragment of Python's [re] the program uses *)
(* ================================================================== *)

Module Re.

(** An item of a bracketed set: a literal character, [\s] or [\d]. *)
Inductive item : Type :=
| ILit (c : ascii)
| ISpace
| IDigit.

Definition item_ok (a : ascii) (i : item) : bool :=
  match i with
  | ILit c => Ascii.eqb a c
  | ISpace => Py.is_space a
  | IDigit => Py.is_digit a
  end.

(** What consumes exactly one character. *)
Inductive cls : Type :=
| CLit (c : ascii)        (* a literal, escaped or not *)
| CDot                    (* [.]: anything but a newline *)
| CSet (l : list item)    (* [[...]], and [\s], [\d] as one-item sets *)
| CNot (l : list item).   (* [[^...]] *)

Definition cls_ok (k : cls) (a : ascii) : bool :=
  match k with
  | CLit c => Ascii.eqb a c
  | CDot => negb (Ascii.eqb a Py.NL)
  | CSet l => existsb (item_ok a) l
  | CNot l => negb (existsb (item_ok a) l)
  end.

(** Patterns. [Rep greedy lo hi r] is [r{lo,hi}] ([hi = None]: no upper
    bound) or its lazy form [r{lo,hi}?]; [*], [+], [?] are instances.
    [(?:r)] is [r] itself. *)
Inductive re : Type :=
| Eps
| One (k : cls)
| Bol                                   (* [^] *)
| Eol                                   (* [$] *)
| Seq (r1 r2 : re)
| Rep (greedy : bool) (lo : nat) (hi : option nat) (r : re)
| Grp (i : nat) (r : re)                (* capturing group number [i] *)
| NotBehind (c : ascii)                 (* [(?<!c)] *)
| NotAhead (c : ascii).                 (* [(?!c)] *)

(** A position in the subject string: the character before it, its
    index, and what is left. *)
Record cursor : Type := Cursor {
  before : option ascii;
  pos : nat;
  rest : string
}.

Definition start (s : string) : cursor := Cursor None 0 s.

Definition caps : Type := list (nat * string).

Fixpoint group (g : caps) (i : nat) : option string :=
  match g with
  | [] => None
  | (j, v) :: g' => if Nat.eqb i j then Some v else group g' i
  end.

Definition at_bol (ml : bool) (c : cursor) : bool :=
  match before c with
  | None => true
  | Some a => ml && Ascii.eqb a Py.NL
  end.

Definition at_eol (ml : bool) (c : cursor) : bool :=
  match rest c with
  | EmptyString => true
  | String a s' =>
      Ascii.eqb a Py.NL && (ml || match s' with EmptyString => true | _ => false end)
  end.

Definition result : Type := (cursor * caps)%type.
Definition cont : Type := cursor -> caps -> option result.

(** The loop of a repetition [r{lo,hi}], over a matcher [body] for [r]:
    [n] rounds are still allowed and [i] have been made.  A greedy loop
    prefers one more round, a lazy one prefers to stop.  A round has to
    consume a character. *)
Fixpoint rep_loop (body : cont -> cont) (greedy : bool) (lo : nat) (k : cont)
  (n i : nat) (c : cursor) (g : caps) {struct n} : option result :=
  match n with
  | O => if lo <=? i then k c g else None
  | S n' =>
      if greedy then
        match body (fun c' g' =>
                 if pos c <? pos c' then rep_loop body greedy lo k n' (S i) c' g'
                 else None) c g
        with
        | Some x => Some x
        | None => if lo <=? i then k c g else None
        end
      else
        match (if lo <=? i then k c g else None) with
        | Some x => Some x
        | None =>
            body (fun c' g' =>
              if pos c <? pos c' then rep_loop body greedy lo k n' (S i) c' g'
              else None) c g
        end
  end.

(** The backtracking matcher, in continuation-passing style: [m ml r k c g]
    matches [r] at [c] and hands every way of doing so to [k], in the
    engine's order of preference, until [k] accepts one.  [ml] is
    [re.MULTILINE].  Since a round of a repetition consumes a character,
    [length (rest c)] bounds the rounds of an unbounded one. *)
Fixpoint m (ml : bool) (r : re) (k : cont) (c : cursor) (g : caps)
  {struct r} : option result :=
  match r with
  | Eps => k c g
  | One cl =>
      match rest c with
      | String a s' =>
          if cls_ok cl a then k (Cursor (Some a) (S (pos c)) s') g else None
      | EmptyString => None
      end
  | Bol => if at_bol ml c then k c g else None
  | Eol => if at_eol ml c then k c g else None
  | Seq r1 r2 => m ml r1 (m ml r2 k) c g
  | Rep greedy lo hi r1 =>
      rep_loop (m ml r1) greedy lo k
        (match hi with Some h => h | None => length (rest c) end) 0 c g
  | Grp i r1 =>
      m ml r1 (fun c' g' =>
        k c' ((i, substring 0 (pos c' - pos c) (rest c)) :: g')) c g
  | NotBehind a =>
      match before c with
      | Some b => if Ascii.eqb b a then None else k c g
      | None => k c g
      end
  | NotAhead a =>
      match rest c with
      | String b _ => if Ascii.eqb b a then None else k c g
      | EmptyString => k c g
      end
  end.

(** A match object: where it starts, [group(0)], and the groups. *)
Record mtch : Type := Mtch {
  m_start : nat;
  m_len : nat;
  m_text : string;
  m_groups : caps
}.

(** [group(i)] of a match, the empty string for a group that took no
    part (what a template [\i] expands to). *)
Definition grp (x : mtch) (i : nat) : string :=
  match group (m_groups x) i with Some v => v | None => EmptyString end.

(** One attempt at the position [c]. With [must_advance] an empty match
    there is refused (the engine's flag after an empty match). *)
Definition try_at (ml : bool) (r : re) (must_advance : bool) (c : cursor)
  : option mtch :=
  match m ml r (fun c' g =>
           if must_advance && (pos c' =? pos c) then None
           else Some (c', g)) c []
  with
  | Some (c', g) =>
      Some (Mtch (pos c) (pos c' - pos c)
              (substring 0 (pos c' - pos c) (rest c)) g)
  | None => None
  end.

(** [re.match(r, s)] *)
Definition rmatch (ml : bool) (r : re) (s : string) : option mtch :=
  try_at ml r false (start s).

(** [re.search(r, s)]: the first position, from the left, with a match. *)
Fixpoint search_from (ml : bool) (r : re) (bf : option ascii) (p : nat)
  (s : string) {struct s} : option mtch :=
  match try_at ml r false (Cursor bf p s) with
  | Some x => Some x
  | None =>
      match s with
      | EmptyString => None
      | String a s' => search_from ml r (Some a) (S p) s'
      end
  end.

Definition search (ml : bool) (r : re) (s : string) : option mtch :=
  search_from ml r None 0 s.

(** The subject string cut into the matches, left to right and not
    overlapping, and the characters between them. *)
Inductive seg : Type :=
| Keep (a : ascii)
| Hit (x : mtch).

(** [skip] is the number of characters still to pass of the match that
    was last found. After a match that is not empty the next attempt is
    at its end; after an empty one the same position is tried again for
    a match that is not empty. *)
Fixpoint scan (ml : bool) (r : re) (skip : nat) (bf : option ascii)
  (p : nat) (s : string) {struct s} : list seg :=
  match skip, s with
  | S n, String a s' => scan ml r n (Some a) (S p) s'
  | S _, EmptyString => []
  | O, EmptyString =>
      match try_at ml r false (Cursor bf p s) with
      | Some x => [Hit x]
      | None => []
      end
  | O, String a s' =>
      match try_at ml r false (Cursor bf p s) with
      | None => Keep a :: scan ml r 0 (Some a) (S p) s'
      | Some x =>
          match m_len x with
          | S n => Hit x :: scan ml r n (Some a) (S p) s'
          | O =>
              match try_at ml r true (Cursor bf p s) with
              | Some y =>
                  Hit x :: Hit y :: scan ml r (m_len y - 1) (Some a) (S p) s'
              | None => Hit x :: Keep a :: scan ml r 0 (Some a) (S p) s'
              end
          end
      end
  end.

Definition segments (ml : bool) (r : re) (s : string) : list seg :=
  scan ml r 0 None 0 s.

Fixpoint hits (l : list seg) : list mtch :=
  match l with
  | [] => []
  | Keep _ :: l' => hits l'
  | Hit x :: l' => x :: hits l'
  end.

(** [re.finditer(r, s)]; [re.findall] is this with a projection. *)
Definition finditer (ml : bool) (r : re) (s : string) : list mtch :=
  hits (segments ml r s).

(** [re.sub(r, repl, s)] for a replacement that has no effect. *)
Fixpoint subst (repl : mtch -> string) (l : list seg) : string :=
  match l with
  | [] => EmptyString
  | Keep a :: l' => String a (subst repl l')
  | Hit x :: l' => repl x ++ subst repl l'
  end.

Definition sub (ml : bool) (r : re) (repl : mtch -> string) (s : string)
  : string :=
  subst repl (segments ml r s).

(** Short forms. *)
Definition star (r : re) : re := Rep true 0 None r.
Definition plus (r : re) : re := Rep true 1 None r.
Definition opt (r : re) : re := Rep true 0 (Some 1) r.
Definition lit (c : ascii) : re := One (CLit c).
Definition ws : re := One (CSet [ISpace]).

(** A literal string. *)
Fixpoint str (s : string) : re :=
  match s with
  | EmptyString => Eps
  | String a EmptyString => lit a
  | String a s' => Seq (lit a) (str s')
  end.

(** A sequence. *)
Fixpoint seq (l : list re) : re :=
  match l with
  | [] => Eps
  | [r] => r
  | r :: l' => Seq r (seq l')
  end.

(** *** What a pattern can match

    [matches ml r c c']: the pattern [r] can match from the position [c]
    to the position [c'], whatever the engine prefers.  Groups leave no
    trace here. *)

Definition next (c : cursor) (a : ascii) (c' : cursor) : Prop :=
  exists s', rest c = String a s' /\ c' = Cursor (Some a) (S (pos c)) s'.

Fixpoint iter (R : cursor -> cursor -> Prop) (j : nat) (c c' : cursor)
  : Prop :=
  match j with
  | O => c' = c
  | S j' => exists c1, R c c1 /\ pos c < pos c1 /\ iter R j' c1 c'
  end.

Definition within (j : nat) (hi : option nat) : Prop :=
  match hi with Some h => j <= h | None => True end.

Fixpoint matches (ml : bool) (r : re) (c c' : cursor) : Prop :=
  match r with
  | Eps => c' = c
  | One cl => exists a, cls_ok cl a = true /\ next c a c'
  | Bol => at_bol ml c = true /\ c' = c
  | Eol => at_eol ml c = true /\ c' = c
  | Seq r1 r2 => exists c1, matches ml r1 c c1 /\ matches ml r2 c1 c'
  | Rep _ lo hi r1 =>
      exists j, lo <= j /\ within j hi /\ iter (matches ml r1) j c c'
  | Grp _ r1 => matches ml r1 c c'
  | NotBehind a => before c <> Some a /\ c' = c
  | NotAhead a => (forall s', rest c <> String a s') /\ c' = c
  end.

(** A continuation that takes the position [c], whatever the groups. *)
Definition accepts (k : cont) (c : cursor) : Prop :=
  forall g, k c g <> None.

(** [w] is what lies between the positions [c] and [c']. *)
Definition between (c : cursor) (w : string) (c' : cursor) : Prop :=
  rest c = (w ++ rest c')%string /\ pos c' = pos c + String.length w.

(** The position after the longest run of characters that satisfy [f],
    from the position given by its three fields. *)
Fixpoint eat (f : ascii -> bool) (bf : option ascii) (p : nat) (s : string)
  : cursor :=
  match s with
  | String a s' => if f a then eat f (Some a) (S p) s' else Cursor bf p s
  | EmptyString => Cursor bf p s
  end.

(** The acceptance of an attempt that may be empty. *)
Definition accept : cont := fun c g => Some (c, g).

(** The positions of a string, from [c] on. *)
Inductive reach (c : cursor) : cursor -> Prop :=
| reach_here : reach c c
| reach_next a c1 c' : next c a c1 -> reach c1 c' -> reach c c'.

End Re.

(* ================================================================== *)
(** ** Effects: the logger, the two streams, exceptions *)
(* ================================================================== *)

(** [StrippedContentLogger]: [sections] is a Python [dict], which keeps
    its keys in the order they were first inserted. *)
Record StrippedContentLogger : Type := Logger {
  enabled : bool;
  sections : list (string * list string)
}.

(** [self.sections[step_name].append(removed_content)], after the key has
    been created when it was missing. *)
Fixpoint sections_append (step_name removed_content : string)
  (secs : list (string * list string)) : list (string * list string) :=
  match secs with
  | [] => [(step_name, [removed_content])]
  | (k, v) :: secs' =>
      if String.eqb k step_name then (k, v ++ [removed_content]) :: secs'
      else (k, v) :: sections_append step_name removed_content secs'
  end.

(** [StrippedContentLogger.log] *)
Definition logger_log (self : StrippedContentLogger)
  (step_name removed_content : string) : StrippedContentLogger :=
  if negb (enabled self) || String.eqb (Py.strip removed_content) ""
  then self
  else Logger (enabled self)
         (sections_append step_name removed_content (sections self)).

(** [self.sections.get(step_name, [])] *)
Fixpoint section (secs : list (string * list string)) (step_name : string)
  : list string :=
  match secs with
  | [] => []
  | (k, v) :: secs' =>
      if String.eqb k step_name then v else section secs' step_name
  end.

(* ================================================================== *)
(** ** [StrippedContentLogger.save_to_file] *)
(* ================================================================== *)

(** What [save_to_file] passes to [f.write], call by call:
    - [W_title]: the line [MARKDOWN CONVERTER - REMOVED CONTENT LOG];
    - [W_rule]: fifty [=], a newline and an empty line;
    - [W_step step_name]: [step_name.upper()] and a newline;
    - [W_dashes n]: [n] dashes and a newline;
    - [W_item i]: a newline, [[Item i]] and a newline;
    - [W_content content]: [content];
    - [W_newline]: a newline;
    - [W_end]: a newline, fifty [=], a newline and an empty line. *)
Inductive written : Type :=
| W_title
| W_rule
| W_step (step_name : string)
| W_dashes (n : nat)
| W_item (i : nat)
| W_content (content : string)
| W_newline
| W_end.

(** [enumerate(lst, start)] *)
Definition enumerate_from {A} (start : nat) (lst : list A) : list (nat * A) :=
  combine (List.seq start (List.length lst)) lst.

(** The writes for one key of [self.sections.items()]. *)
Definition save_section (kv : string * list string) : list written :=
  let (step_name, content_list) := kv in
  match content_list with
  | [] => []
  | _ :: _ =>
      [W_step step_name; W_dashes (String.length step_name)]
      ++ flat_map (fun ic : nat * string =>
                     [W_item (fst ic); W_content (snd ic); W_newline])
           (enumerate_from 1 content_list)
      ++ [W_end]
  end.

(** [StrippedContentLogger.save_to_file]: the writes to the file at
    [output_path], or [None] when the file is not opened. *)
Definition save_to_file (self : StrippedContentLogger)
  : option (list written) :=
  if negb (enabled self)
     || match sections self with [] => true | _ :: _ => false end
  then None
  else Some ([W_title; W_rule] ++ flat_map save_section (sections self)).

(** What [print] writes to [sys.stdout]: the three messages of the debug
    mode, by their fields. *)
Inductive out_line : Type :=
| Out_start (original_length : nat)
| Out_step (step_name : string) (before_len after_len : nat) (diff : Z)
| Out_final (final_length : nat) (reduction : Z).

(** What is written to [sys.stderr]:
    [Warning: Unclosed code block starting at line {line}]. *)
Inductive err_line : Type :=
| Warn_unclosed (line : Z).

Record world : Type := World {
  logger : StrippedContentLogger;
  stdout : list out_line;
  stderr : list err_line
}.

Inductive exn : Type :=
| AttributeError      (* [None.group()] *)
| IndexError.         (* a list index out of range *)

Inductive outcome (A : Type) : Type :=
| Ok (a : A) (w : world)
| Raise (e : exn) (w : world).

Arguments Raise {A} e w.

Definition M (A : Type) : Type := world -> outcome A.

Definition ret {A} (a : A) : M A := fun w => Ok a w.

Definition bind {A B} (x : M A) (f : A -> M B) : M B :=
  fun w => match x w with
           | Ok a w' => f a w'
           | Raise e w' => Raise e w'
           end.

Definition raise {A} (e : exn) : M A := fun w => Raise e w.

(** [try: body / except Exception: handler] *)
Definition try_except {A} (body : M A) (handler : M A) : M A :=
  fun w => match body w with
           | Ok a w' => Ok a w'
           | Raise _ w' => handler w'
           end.

Declare Scope monad_scope.
Delimit Scope monad_scope with monad.
Notation "x <- e ;; k" := (bind e (fun x => k))
  (at level 61, e at next level, right associativity) : monad_scope.
Notation "e ;;; k" := (bind e (fun _ => k))
  (at level 61, right associativity) : monad_scope.
Open Scope monad_scope.

(** [logger.log(step_name, removed_content)] *)
Definition log (step_name removed_content : string) : M unit :=
  fun w => Ok tt (World (logger_log (logger w) step_name removed_content)
                    (stdout w) (stderr w)).

(** [print(..)] *)
Definition print (l : out_line) : M unit :=
  fun w => Ok tt (World (logger w) (stdout w ++ [l]) (stderr w)).

(** [print(.., file=sys.stderr)] *)
Definition eprint (l : err_line) : M unit :=
  fun w => Ok tt (World (logger w) (stdout w) (stderr w ++ [l])).

(** [for x in l: body(x)] *)
Fixpoint for_ {A} (l : list A) (body : A -> M unit) : M unit :=
  match l with
  | [] => ret tt
  | x :: l' => body x ;;; for_ l' body
  end.

(** A loop [for x in l] that appends one string per round to a list. *)
Fixpoint for_collect {A} (l : list A) (body : A -> M string)
  : M (list string) :=
  match l with
  | [] => ret []
  | x :: l' => y <- body x ;; ys <- for_collect l' body ;; ret (y :: ys)
  end.

(** [lst[i]] *)
Definition index {A} (lst : list A) (i : nat) : M A :=
  match nth_error lst i with
  | Some x => ret x
  | None => raise IndexError
  end.

(** [enumerate(lst)] *)
Definition enumerate {A} (lst : list A) : list (nat * A) :=
  combine (List.seq 0 (List.length lst)) lst.

(** [x.group()] for [x] the value of [re.search]. *)
Definition group0 (x : option Re.mtch) : M string :=
  match x with
  | Some y => ret (Re.m_text y)
  | None => raise AttributeError
  end.

(** [re.sub(r, repl, s)] with a function [repl] that has effects: it is
    called once per match, from left to right. *)
Fixpoint subst_M (repl : Re.mtch -> M string) (l : list Re.seg) : M string :=
  match l with
  | [] => ret EmptyString
  | Re.Keep a :: l' => t <- subst_M repl l' ;; ret (String a t)
  | Re.Hit x :: l' =>
      y <- repl x ;; t <- subst_M repl l' ;; ret (y ++ t)%string
  end.

Definition sub_M (ml : bool) (r : Re.re) (repl : Re.mtch -> M string)
  (s : string) : M string :=
  subst_M repl (Re.segments ml r s).

(** [for x in l: st = body(st, x)], the loops that update local
    variables. *)
Fixpoint for_fold {A S} (l : list A) (st : S) (body : S -> A -> M S) : M S :=
  match l with
  | [] => ret st
  | x :: l' => st' <- body st x ;; for_fold l' st' body
  end.

(** The three lines the program repeats for most constructs:
    [matches = re.findall(r_find, text)], then
    [for match in matches: logger.log(step_name, fmt(match))], then
    [text = re.sub(r_sub, repl, text)]. *)
Definition log_and_sub (ml : bool) (r_find : Re.re) (step_name : string)
  (fmt : Re.mtch -> string) (r_sub : Re.re) (repl : Re.mtch -> string)
  (text : string) : M string :=
  for_ (Re.finditer ml r_find text) (fun x => log step_name (fmt x)) ;;;
  ret (Re.sub ml r_sub repl text).

(* ================================================================== *)
(** ** The program's patterns *)
(* ================================================================== *)

(** Each pattern is quoted above its definition; where the pattern has a
    star before a closing parenthesis, the quotation puts a blank between
    the two, which is not part of the pattern. *)

Module Pat.
Import Re.

Definition NL : ascii := Py.NL.
Definition DQ : ascii := "034"%char.
Definition BS : ascii := "\"%char.

(** [[^c\n]] *)
Definition not_chr_nl (c : ascii) : re := One (CNot [ILit c; ILit NL]).

(** [`([^`\n]+)`] *)
Definition inline_code : re :=
  seq [lit "`"; Grp 1 (plus (not_chr_nl "`")); lit "`"].

(** [^(#{1,6}\s+.* )$] *)
Definition hash_header_find : re :=
  seq [Bol;
       Grp 1 (seq [Rep true 1 (Some 6) (lit "#"); plus ws; star (One CDot)]);
       Eol].

(** [^#{1,6}\s+] *)
Definition hash_header_sub : re :=
  seq [Bol; Rep true 1 (Some 6) (lit "#"); plus ws].

(** [^=+\s*$] and [^-+\s*$] *)
Definition underline (c : ascii) : re :=
  seq [Bol; plus (lit c); star ws; Eol].

(** [\*\*\*([^*\n]{1,125}?)\*\*\*], [\*\*([^*\n]{1,125}?)\*\*],
    [__([^_\n]{1,125}?)__] and [~~([^~\n]{1,125}?)~~]: the delimiter [d]
    made of the character [c], on both sides of at most 125 characters
    that are neither [c] nor a newline, as few as possible. *)
Definition span (d : string) (c : ascii) : re :=
  seq [str d; Grp 1 (Rep false 1 (Some 125) (not_chr_nl c)); str d].

Definition bold_italic : re := span "***" "*".
Definition bold_asterisks : re := span "**" "*".
Definition bold_underscores : re := span "__" "_".
Definition strikethrough : re := span "~~" "~".

(** [(?<!\* )\*([^*\n]{1,125}?)\*(?!\* )] and [(?<!_)_([^_\n]{1,125}?)_(?!_)] *)
Definition italic (c : ascii) : re :=
  seq [NotBehind c; lit c;
       Grp 1 (Rep false 1 (Some 125) (not_chr_nl c));
       lit c; NotAhead c].

(** [[^\]]+] *)
Definition label : re := plus (One (CNot [ILit "]"])).

(** [^(\[([^\]]+)\]:\s*[^\n]* )$] *)
Definition ref_def_find : re :=
  seq [Bol;
       Grp 1 (seq [lit "["; Grp 2 label; lit "]"; lit ":"; star ws;
                   star (One (CNot [ILit NL]))]);
       Eol].

(** [^\[([^\]]+)\]:\s*[^\n]*$] *)
Definition ref_def_sub : re :=
  seq [Bol; lit "["; Grp 1 label; lit "]"; lit ":"; star ws;
       star (One (CNot [ILit NL])); Eol].

(** [\[([^\]]+)\]\[[^\]]*\]] *)
Definition ref_link : re :=
  seq [lit "["; Grp 1 label; lit "]"; lit "[";
       star (One (CNot [ILit "]"])); lit "]"].

(** [\([^)\n]{1,125}\)] *)
Definition target : re :=
  seq [lit "("; Rep true 1 (Some 125) (not_chr_nl ")"); lit ")"].

(** [!\[([^\]\n]{0,125})\]\([^)\n]{1,125}\)] *)
Definition image : re :=
  seq [lit "!"; lit "["; Grp 1 (Rep true 0 (Some 125) (not_chr_nl "]"));
       lit "]"; target].

(** [!\[[^\]\n]{0,125}\]\([^)\n]{1,125}\)] *)
Definition image_whole : re :=
  seq [lit "!"; lit "["; Rep true 0 (Some 125) (not_chr_nl "]");
       lit "]"; target].

(** [\[([^\]\n]{1,125})\]\([^)\n]{1,125}\)] *)
Definition link : re :=
  seq [lit "["; Grp 1 (Rep true 1 (Some 125) (not_chr_nl "]"));
       lit "]"; target].

(** [\[[^\]\n]{1,125}\]\([^)\n]{1,125}\)] *)
Definition link_whole : re :=
  seq [lit "["; Rep true 1 (Some 125) (not_chr_nl "]"); lit "]"; target].

(** [[-*+]] *)
Definition bullet : re := One (CSet [ILit "-"; ILit "*"; ILit "+"]).

(** [\[([ xX])\]], the group numbered [i]. *)
Definition checkbox (i : nat) : re :=
  seq [lit "["; Grp i (One (CSet [ILit " "; ILit "x"; ILit "X"])); lit "]"].

(** [^(\s*[-*+]\s+\[([ xX])\]\s*(.+))$] *)
Definition task_find : re :=
  seq [Bol;
       Grp 1 (seq [star ws; bullet; plus ws; checkbox 2; star ws;
                   Grp 3 (plus (One CDot))]);
       Eol].

(** [^\s*[-*+]\s+\[([ xX])\]\s*(.+)$] *)
Definition task_sub : re :=
  seq [Bol; star ws; bullet; plus ws; checkbox 1; star ws;
       Grp 2 (plus (One CDot)); Eol].

(** [^(\s*[-*+]\s+)(.+)] *)
Definition unordered_find : re :=
  seq [Bol; Grp 1 (seq [star ws; bullet; plus ws]); Grp 2 (plus (One CDot))].

(** [^\s*[-*+]\s+(.+)] *)
Definition unordered_sub : re :=
  seq [Bol; star ws; bullet; plus ws; Grp 1 (plus (One CDot))].

(** [\d+\.] *)
Definition number : re := seq [plus (One (CSet [IDigit])); lit "."].

(** [^(\s*\d+\.\s+)(.+)] *)
Definition ordered_find : re :=
  seq [Bol; Grp 1 (seq [star ws; number; plus ws]); Grp 2 (plus (One CDot))].

(** [^\s*\d+\.\s+(.+)] *)
Definition ordered_sub : re :=
  seq [Bol; star ws; number; plus ws; Grp 1 (plus (One CDot))].

(** The characters of the set in the pattern of the escapes. *)
Definition escapable : list item :=
  [ILit BS; ILit "`"; ILit "*"; ILit "_"; ILit "{"; ILit "}"; ILit "[";
   ILit "]"; ILit "("; ILit ")"; ILit "#"; ILit "+"; ILit "-"; ILit ".";
   ILit "!"].

(** [\\([\\`*_{}\[\]()#+\-.!])] *)
Definition escape : re := seq [lit BS; Grp 1 (One (CSet escapable))].

(** [>] *)
Definition gt : re := lit ">".

(** [>\s*] *)
Definition marker : re := seq [lit ">"; star ws].

(** [^\s*(?:>\s* )+] *)
Definition quote_prefix : re := seq [Bol; star ws; plus marker].

(** [[-*_]] *)
Definition rule_chr : re := One (CSet [ILit "-"; ILit "*"; ILit "_"]).

(** [^\s*[-*_](\s*[-*_])*\s*$] *)
Definition horizontal_rule : re :=
  seq [Bol; star ws; rule_chr; star (Grp 1 (seq [star ws; rule_chr]));
       star ws; Eol].

(** [^[\s\-:|\|]*$] *)
Definition separator_chars : re :=
  seq [Bol;
       star (One (CSet [ISpace; ILit "-"; ILit ":"; ILit "|"; ILit "|"]));
       Eol].

(** [^:?-+:?$] *)
Definition alignment : re :=
  seq [Bol; opt (lit ":"); plus (lit "-"); opt (lit ":"); Eol].

(** [<[^>\n]{0,125}>] *)
Definition html_tag : re :=
  seq [lit "<"; Rep true 0 (Some 125) (not_chr_nl ">"); lit ">"].

(** [\[\^([^\]\n]{1,125})\](?!:)] *)
Definition footnote_ref : re :=
  seq [lit "["; lit "^"; Grp 1 (Rep true 1 (Some 125) (not_chr_nl "]"));
       lit "]"; NotAhead ":"].

(** [^(\[\^([^\]]+)\]:\s*(.+))$] *)
Definition footnote_def_find : re :=
  seq [Bol;
       Grp 1 (seq [lit "["; lit "^"; Grp 2 label; lit "]"; lit ":"; star ws;
                   Grp 3 (plus (One CDot))]);
       Eol].

(** [^\[\^([^\]]+)\]:\s*(.+)$] *)
Definition footnote_def_sub : re :=
  seq [Bol; lit "["; lit "^"; Grp 1 label; lit "]"; lit ":"; star ws;
       Grp 2 (plus (One CDot)); Eol].

(** [\n{3,}] *)
Definition newlines3 : re := Rep true 3 None (lit NL).

End Pat.

(* ================================================================== *)
(** ** The program *)
(* ================================================================== *)

Definition NLs : string := String Py.NL EmptyString.

(** *** [safe_remove_code_blocks] *)

Record cb_state : Type := CB {
  result_lines : list string;
  in_code_block : bool;
  code_block_start_line : Z;
  current_code_block : list string
}.

Definition cb_init : cb_state := CB [] false (-1)%Z [].

Definition is_fence (line : string) : bool :=
  Py.startswith "```" (Py.strip line).

(** The body of the loop over [enumerate(lines)]. *)
Definition cb_body (st : cb_state) (il : nat * string) : M cb_state :=
  let (i, line) := il in
  if is_fence line then
    if negb (in_code_block st) then
      ret (CB (result_lines st ++ ["[CODE BLOCK]"]) true (Z.of_nat i) [line])
    else
      log "code_blocks"
        (Py.join NLs (current_code_block st ++ [line])) ;;;
      ret (CB (result_lines st) false (code_block_start_line st) [])
  else if in_code_block st then
    ret (CB (result_lines st) true (code_block_start_line st)
           (current_code_block st ++ [line]))
  else
    ret (CB (result_lines st ++ [line]) false (code_block_start_line st)
           (current_code_block st)).

Definition safe_remove_code_blocks (text : string) : M string :=
  let lines := Py.split Py.NL text in
  st <- for_fold (enumerate lines) cb_init cb_body ;;
  (if in_code_block st then
     eprint (Warn_unclosed (code_block_start_line st + 1)) ;;;
     match current_code_block st with
     | [] => ret tt
     | _ :: _ =>
         log "code_blocks_unclosed" (Py.join NLs (current_code_block st))
     end
   else ret tt) ;;;
  ret (Py.join NLs (result_lines st)).

(** *** [safe_remove_emphasis] *)

Definition wrap (l : string) (r : string) (x : Re.mtch) : string :=
  (l ++ Re.grp x 1 ++ r)%string.

Definition group1 (x : Re.mtch) : string := Re.grp x 1.
Definition group2 (x : Re.mtch) : string := Re.grp x 2.
Definition nothing (x : Re.mtch) : string := EmptyString.

(** The body of the loop over the lines. *)
Definition emphasis_line (line : string) : M string :=
  processed_line <-
    log_and_sub false Pat.bold_italic "bold_italic" (wrap "***" "***")
      Pat.bold_italic group1 line ;;
  processed_line <-
    log_and_sub false Pat.bold_asterisks "bold_asterisks" (wrap "**" "**")
      Pat.bold_asterisks group1 processed_line ;;
  processed_line <-
    log_and_sub false Pat.bold_underscores "bold_underscores" (wrap "__" "__")
      Pat.bold_underscores group1 processed_line ;;
  processed_line <-
    log_and_sub false (Pat.italic "*") "italic_asterisks" (wrap "*" "*")
      (Pat.italic "*") group1 processed_line ;;
  log_and_sub false (Pat.italic "_") "italic_underscores" (wrap "_" "_")
    (Pat.italic "_") group1 processed_line.

Definition safe_remove_emphasis (text : string) : M string :=
  let lines := Py.split Py.NL text in
  result_lines <- for_collect lines emphasis_line ;;
  ret (Py.join NLs result_lines).

(** *** [conservative_remove_tables] *)

Definition is_some {A} (x : option A) : bool :=
  match x with Some _ => true | None => false end.

Definition is_table_separator (line : string) : bool :=
  let stripped_line := Py.strip line in
  if Py.startswith "|" stripped_line && Py.endswith "|" stripped_line then
    let content_between_pipes := Py.slice_1_m1 stripped_line in
    if is_some (Re.rmatch false Pat.separator_chars content_between_pipes)
       && Py.mem "-" content_between_pipes
    then
      let parts :=
        map Py.strip
          (filter (fun part => negb (String.eqb (Py.strip part) ""))
             (Py.split "|" content_between_pipes)) in
      (2 <=? List.length parts)
      && forallb (fun part =>
           is_some (Re.rmatch false Pat.alignment (Py.strip part))) parts
    else false
  else false.

Definition tables_body (result_lines : list string) (il : nat * string)
  : M (list string) :=
  let (i, line) := il in
  if is_table_separator line then
    log "table_separators" line ;;; ret result_lines
  else ret (result_lines ++ [line]).

Definition conservative_remove_tables (text : string) : M string :=
  let lines := Py.split Py.NL text in
  result_lines <- for_fold (enumerate lines) [] tables_body ;;
  ret (Py.join NLs result_lines).

(** *** [convert_markdown_to_text] *)

Section Convert.

Variable debug : bool.

(** The inner function [debug_step]. *)
Definition debug_step (step_name before_text after_text : string) : M unit :=
  if debug then
    let before_len := String.length before_text in
    let after_len := String.length after_text in
    let diff := (Z.of_nat before_len - Z.of_nat after_len)%Z in
    print (Out_step step_name before_len after_len diff)
  else ret tt.

(** A numbered step: [before = text], the step, then [debug_step]. *)
Definition step (step_name : string) (pass : string -> M string)
  (text : string) : M string :=
  let before := text in
  text <- pass text ;;
  debug_step step_name before text ;;;
  ret text.

(** The input that looks like a JSON string. *)
Definition unwrap (markdown_content : string) : M string :=
  if Py.startswith (String Pat.DQ "") markdown_content
     && Py.mem ":" markdown_content
  then
    try_except
      (content <- index (Py.split1 ":" markdown_content) 1 ;;
       let content := Py.strip_chr Pat.DQ (Py.strip content) in
       ret (Py.replace (String Pat.BS (String Pat.DQ "")) (String Pat.DQ "")
              (Py.replace "\n" NLs content)))
      (ret markdown_content)
  else ret markdown_content.

(** Step 2 *)
Definition inline_code (text : string) : M string :=
  log_and_sub false Pat.inline_code "inline_code" (wrap "`" "`")
    Pat.inline_code group1 text.

(** Step 3a *)
Definition hash_headers (text : string) : M string :=
  log_and_sub true Pat.hash_header_find "hash_headers" group1
    Pat.hash_header_sub nothing text.

(** Step 3b: the body of the loop over [enumerate(lines)]; the state is
    [processed_lines] and [skip_next]. *)
Definition underline_body (lines : list string)
  (st : list string * bool) (il : nat * string) : M (list string * bool) :=
  let (processed_lines, skip_next) := st in
  let (i, line) := il in
  if skip_next then
    x <- index lines i ;;
    log "underline_headers" x ;;;
    ret (processed_lines, false)
  else if (Z.of_nat i <? Z.of_nat (List.length lines) - 1)%Z then
    next_line <- index lines (i + 1) ;;
    if is_some (Re.rmatch false (Pat.underline "=") next_line)
       || is_some (Re.rmatch false (Pat.underline "-") next_line)
    then ret (processed_lines ++ [line], true)
    else ret (processed_lines ++ [line], false)
  else ret (processed_lines ++ [line], skip_next).

Definition underline_headers (text : string) : M string :=
  let lines := Py.split Py.NL text in
  st <- for_fold (enumerate lines) ([], false) (underline_body lines) ;;
  ret (Py.join NLs (fst st)).

(** Step 5 *)
Definition reference_links (text : string) : M string :=
  text <- log_and_sub true Pat.ref_def_find "reference_link_definitions"
            group1 Pat.ref_def_sub nothing text ;;
  log_and_sub false Pat.ref_link "reference_links" (wrap "[" "][]")
    Pat.ref_link group1 text.

(** Step 6: the body of the loop over the lines. *)
Definition links_line (line : string) : M string :=
  for_ (Re.finditer false Pat.image line) (fun _ =>
    full_match <- group0 (Re.search false Pat.image_whole line) ;;
    log "images" full_match) ;;;
  let line := Re.sub false Pat.image group1 line in
  for_ (Re.finditer false Pat.link line) (fun _ =>
    full_match <- group0 (Re.search false Pat.link_whole line) ;;
    log "links" full_match) ;;;
  ret (Re.sub false Pat.link group1 line).

Definition links_and_images (text : string) : M string :=
  let lines := Py.split Py.NL text in
  processed_lines <- for_collect lines links_line ;;
  ret (Py.join NLs processed_lines).

(** Step 7 *)
Definition task_lists (text : string) : M string :=
  log_and_sub true Pat.task_find "task_lists" group1
    Pat.task_sub group2 text.

(** Step 8 *)
Definition regular_lists (text : string) : M string :=
  text <- log_and_sub true Pat.unordered_find "unordered_lists" group1
            Pat.unordered_sub group1 text ;;
  log_and_sub true Pat.ordered_find "ordered_lists" group1
    Pat.ordered_sub group1 text.

(** Step 9: the inner function [replace_escape], and the loop
    [for _ in range(2)]. *)
Definition replace_escape (x : Re.mtch) : M string :=
  let char := Re.grp x 1 in
  log "escaped_characters" (String Pat.BS char) ;;;
  ret (if Py.contains char "`*_{}[]()#+-.!\\" then char
       else String Pat.BS char).

Definition escaped_characters (text : string) : M string :=
  for_fold [0; 1] text (fun text _ =>
    sub_M false Pat.escape replace_escape text).

(** Step 10: the body of the loop over the lines. *)
Definition blockquote_line (line : string) : M string :=
  let original_line := line in
  let gt_count := List.length (Re.finditer false Pat.gt line) in
  let processed_line :=
    Re.sub false Pat.quote_prefix
      (fun _ => Py.repeat_chr " " (gt_count + 1)) line in
  (if negb (String.eqb original_line processed_line) then
     let removed_part :=
       Py.slice_to (Z.of_nat (String.length original_line)
                    - Z.of_nat (String.length (Py.lstrip processed_line)))
         original_line in
     log "blockquotes" removed_part
   else ret tt) ;;;
  ret processed_line.

Definition blockquotes (text : string) : M string :=
  let lines := Py.split Py.NL text in
  result <- for_collect lines blockquote_line ;;
  ret (Py.join NLs result).

(** Step 11 *)
Definition is_horizontal_rule (line : string) : bool :=
  is_some (Re.rmatch false Pat.horizontal_rule line).

Definition rules_body (result_lines : list string) (line : string)
  : M (list string) :=
  if is_horizontal_rule line then
    log "horizontal_rules" line ;;; ret result_lines
  else ret (result_lines ++ [line]).

Definition horizontal_rules (text : string) : M string :=
  let lines := Py.split Py.NL text in
  result_lines <- for_fold lines [] rules_body ;;
  ret (Py.join NLs result_lines).

(** Step 13: the body of the loop over the lines. *)
Definition html_line (line : string) : M string :=
  log_and_sub false Pat.html_tag "html_tags" Re.m_text
    Pat.html_tag nothing line.

Definition html_tags (text : string) : M string :=
  let lines := Py.split Py.NL text in
  processed_lines <- for_collect lines html_line ;;
  ret (Py.join NLs processed_lines).

(** Step 14 *)
Definition strikethrough (text : string) : M string :=
  log_and_sub false Pat.strikethrough "strikethrough" (wrap "~~" "~~")
    Pat.strikethrough group1 text.

(** Step 15 *)
Definition footnotes (text : string) : M string :=
  text <- log_and_sub false Pat.footnote_ref "footnote_references"
            (wrap "[^" "]") Pat.footnote_ref nothing text ;;
  log_and_sub true Pat.footnote_def_find "footnote_definitions" group1
    Pat.footnote_def_sub nothing text.

(** Step 16 *)
Definition clean_whitespace (text : string) : M string :=
  let excessive_newlines := Re.finditer false Pat.newlines3 text in
  match excessive_newlines with
  | [] => ret tt
  | _ :: _ =>
      log "excessive_whitespace"
        ("Found " ++ Py.str_of_nat (List.length excessive_newlines)
         ++ " instances of 3+ consecutive newlines")%string
  end ;;;
  let text := Re.sub false Pat.newlines3 (fun _ => NLs ++ NLs)%string text in
  ret (Py.join NLs (map Py.strip (Py.split Py.NL text))).

(** Steps 2 to 16, in the order of the source. *)
Definition steps_2_to_16 (text : string) : M string :=
  text <- step "Step 2 - Inline code" inline_code text ;;
  text <- step "Step 3a - Hash headers" hash_headers text ;;
  text <- step "Step 3b - Underline headers" underline_headers text ;;
  text <- step "Step 4 - All emphasis" safe_remove_emphasis text ;;
  text <- step "Step 5 - Reference links" reference_links text ;;
  text <- step "Step 6 - Links and images" links_and_images text ;;
  text <- step "Step 7 - Task lists" task_lists text ;;
  text <- step "Step 8 - Regular lists" regular_lists text ;;
  text <- step "Step 9 - Escaped characters" escaped_characters text ;;
  text <- step "Step 10 - Blockquotes" blockquotes text ;;
  text <- step "Step 11 - Horizontal rules" horizontal_rules text ;;
  text <- step "Step 12 - Tables (conservative)"
            conservative_remove_tables text ;;
  text <- step "Step 13 - HTML tags" html_tags text ;;
  text <- step "Step 14 - Strikethrough" strikethrough text ;;
  text <- step "Step 15 - Footnotes" footnotes text ;;
  step "Step 16 - Clean whitespace" clean_whitespace text.

(** The body of the function, after [logger] has been given its default. *)
Definition convert_body (markdown_content : string) : M string :=
  content <- unwrap markdown_content ;;
  let text := content in
  let original_length := String.length text in
  (if debug then print (Out_start original_length) else ret tt) ;;;
  text <- step "Step 1 - Code blocks" safe_remove_code_blocks text ;;
  text <- steps_2_to_16 text ;;
  let final_length := String.length (Py.strip text) in
  (if debug then
     print (Out_final final_length
              (Z.of_nat original_length - Z.of_nat final_length)%Z)
   else ret tt) ;;;
  ret (Py.strip text).

End Convert.

(** [convert_markdown_to_text(markdown_content, debug, logger)]: the value
    or the exception, with the logger and the two streams as the call
    leaves them. *)
Definition convert_markdown_to_text (markdown_content : string)
  (debug : bool) (logger : option StrippedContentLogger) : outcome string :=
  let logger :=
    match logger with
    | None => Logger false []
    | Some l => l
    end in
  convert_body debug markdown_content (World logger [] []).

(** The returned string, when there is one. *)
Definition returned {A} (o : outcome A) : option A :=
  match o with Ok a _ => Some a | Raise _ _ => None end.

Definition final_world {A} (o : outcome A) : world :=
  match o with Ok _ w => w | Raise _ w => w end.

(** The call with the defaults of the two optional arguments. *)
Definition convert (markdown_content : string) : option string :=
  returned (convert_markdown_to_text markdown_content false None).


(* ================================================================== *)
(** ** Vocabulary of the properties *)
(* ================================================================== *)

(** A computation that, from any world, returns [a] and raises nothing,
    leaving the world in the relation [F] with the one it started from. *)
Definition yields (F : world -> world -> Prop) {A} (x : M A) (a : A) : Prop :=
  forall w, exists w', x w = Ok a w' /\ F w w'.

(** No condition on the world. *)
Definition anyhow (w w' : world) : Prop := True.

(** Nothing written to [sys.stderr], and nothing logged under
    [code_blocks_unclosed]: what holds of every pass but the first. *)
Definition quiet (w w' : world) : Prop :=
  stderr w' = stderr w
  /\ enabled (logger w') = enabled (logger w)
  /\ section (sections (logger w')) "code_blocks_unclosed"
     = section (sections (logger w)) "code_blocks_unclosed".

(** The world a call starts from. *)
Definition world0 (logger : option StrippedContentLogger) : world :=
  World (match logger with None => Logger false [] | Some l => l end) [] [].

(** The text the steps work on: what [unwrap] returns. *)
Definition content_of (markdown_content : string) : string :=
  match unwrap markdown_content (world0 None) with
  | Ok content _ => content
  | Raise _ _ => markdown_content
  end.

(** Whether a code block is open after the lines [lines], when it was
    [open] before them: every fence line toggles. *)
Fixpoint fence_open (open : bool) (lines : list string) : bool :=
  match lines with
  | [] => open
  | l :: lines' => fence_open (if is_fence l then negb open else open) lines'
  end.

(** The lines have none that is a fence. *)
Definition no_fence (lines : list string) : bool :=
  forallb (fun l => negb (is_fence l)) lines.

(** A pass that returns a string whatever the world is, and is [quiet]. *)
Definition total (p : string -> M string) : Prop :=
  forall text, exists out, yields quiet (p text) out.

(** Every character of the string satisfies [f]. *)
Fixpoint all_chr (f : ascii -> bool) (s : string) : bool :=
  match s with
  | EmptyString => true
  | String a s' => f a && all_chr f s'
  end.

(** Every character of the string is white space. *)
Fixpoint all_space (s : string) : bool :=
  match s with
  | EmptyString => true
  | String a s' => Py.is_space a && all_space s'
  end.

(** The lines the first pass keeps, by the words of its description: a
    fence that opens a block leaves the placeholder, the lines of a block
    and the fence that closes it leave nothing, every other line stays. *)
Fixpoint kept_lines (open : bool) (lines : list string) : list string :=
  match lines with
  | [] => []
  | l :: lines' =>
      if is_fence l then
        if open then kept_lines false lines'
        else "[CODE BLOCK]" :: kept_lines true lines'
      else if open then kept_lines true lines'
      else l :: kept_lines false lines'
  end.

(** An input with a fence that is never closed: [pre] leaves no block open,
    [f] is a fence, and no line of [body] is one. *)
Definition unclosed (lines pre : list string) (f : string)
  (body : list string) : Prop :=
  lines = pre ++ f :: body
  /\ fence_open false pre = false
  /\ is_fence f = true
  /\ no_fence body = true.

Definition ex_unclosed : string := Py.join NLs ["intro"; "```python"; "x = 1"].

(** The table of two lines, a data row and a separator row. *)
Definition ex_table : string := Py.join NLs ["| A | B |"; "|---|---|"].

(** The characters an escape is resolved for, as the description of the
    escape pass lists them. *)
Definition markup_punctuation : string := "`*_{}[]()#+-.!\".

(** One round of escape resolution, by the words of its description: from
    left to right, a backslash followed by a character of
    [markup_punctuation] is dropped and the character is kept; every
    other character, a backslash before any other character included,
    stays. *)
Fixpoint unescape (s : string) : string :=
  match s with
  | EmptyString => EmptyString
  | String a t =>
      match t with
      | String b s' =>
          if Ascii.eqb a Pat.BS && Py.mem b markup_punctuation
          then String b (unescape s')
          else String a (unescape t)
      | EmptyString => s
      end
  end.

(** The longest prefix of characters that satisfy [f], and what follows
    it. *)
Fixpoint take_while (f : ascii -> bool) (s : string) : string :=
  match s with
  | String a s' => if f a then String a (take_while f s') else EmptyString
  | EmptyString => EmptyString
  end.

Fixpoint drop_while (f : ascii -> bool) (s : string) : string :=
  match s with
  | String a s' => if f a then drop_while f s' else s
  | EmptyString => EmptyString
  end.

(** The number of occurrences of a character. *)
Fixpoint count_chr (c : ascii) (s : string) : nat :=
  match s with
  | String a s' => (if Ascii.eqb a c then 1 else 0) + count_chr c s'
  | EmptyString => 0
  end.

(** A character of the prefix of a quoted line: white space or [>]. *)
Definition quote_chr (a : ascii) : bool := Py.is_space a || Ascii.eqb a ">".

(** The leading run of [>] markers of a line, with the white space around
    and between them: empty when the first character that is not white
    space is not a [>]. *)
Definition quote_markers (line : string) : string :=
  if Py.mem ">" (take_while quote_chr line)
  then take_while quote_chr line
  else EmptyString.

(** What follows the markers. *)
Definition quoted_text (line : string) : string :=
  if Py.mem ">" (take_while quote_chr line)
  then drop_while quote_chr line
  else line.

(** Some character of the string satisfies [f]. *)
Fixpoint some_chr (f : ascii -> bool) (s : string) : bool :=
  match s with
  | EmptyString => false
  | String a s' => f a || some_chr f s'
  end.








(** The 256 characters. *)
Definition all_ascii : list ascii := map ascii_of_nat (List.seq 0 256).

(** [needs f r]: the pattern [r] cannot match without taking a character
    that satisfies [f]. *)
Fixpoint needs (f : ascii -> bool) (r : Re.re) : bool :=
  match r with
  | Re.One cl => forallb (fun a => implb (Re.cls_ok cl a) (f a)) all_ascii
  | Re.Seq r1 r2 => needs f r1 || needs f r2
  | Re.Rep _ lo _ r1 => (1 <=? lo) && needs f r1
  | Re.Grp _ r1 => needs f r1
  | _ => false
  end.

(** The characters one of which every construct of the program needs:
    the backtick, [* _ # [ > < ~ | - + = \], the double quote of the JSON
    prelude, and the digits of an ordered list. *)
Definition markup (a : ascii) : bool :=
  Py.mem a "`*_#[><~|-+=\" || Ascii.eqb a Pat.DQ || Py.is_digit a.

(** A text with no such character. *)
Definition plain (s : string) : bool := all_chr (fun a => negb (markup a)) s.


(** Every line is empty. *)
Definition all_blank (ls : list string) : bool :=
  forallb (fun l => String.eqb l "") ls.

(** The lines without the empty ones at the front, and without those at
    the end. *)
Fixpoint drop_blank (ls : list string) : list string :=
  match ls with
  | [] => []
  | l :: ls' => if String.eqb l "" then drop_blank ls' else ls
  end.

Fixpoint drop_blank_end (ls : list string) : list string :=
  match ls with
  | [] => []
  | l :: ls' => if all_blank ls then [] else l :: drop_blank_end ls'
  end.

(** A line as the last step leaves it: trimmed, and without a newline. *)
Definition trimmed (l : string) : Prop :=
  Py.strip l = l /\ Py.mem Py.NL l = false.

(** A text as the conversion returns it: trimmed, and with trimmed
    lines. *)
Definition normal (y : string) : Prop :=
  Py.strip y = y /\ map Py.strip (Py.split Py.NL y) = Py.split Py.NL y.

(** The logger after the calls [log(step_name, removed_content)] for the
    pairs of [entries], one after the other. *)
Definition log_all (self : StrippedContentLogger)
  (entries : list (string * string)) : StrippedContentLogger :=
  fold_left (fun lg e => logger_log lg (fst e) (snd e)) entries self.

(** A content that [log] records: not blank. *)
Definition recordable (removed_content : string) : bool :=
  negb (String.eqb (Py.strip removed_content) "").

(** The contents of [entries] that were logged under [step_name] and are
    not blank, in the order of the calls. *)
Definition recorded (step_name : string) (entries : list (string * string))
  : list string :=
  map snd
    (filter (fun e => String.eqb (fst e) step_name && recordable (snd e))
       entries).

(** The names of a list, each once, in the order of their first
    occurrence, after the names [seen]. *)
Fixpoint first_seen (seen : list string) (names : list string)
  : list string :=
  match names with
  | [] => []
  | k :: names' =>
      if existsb (String.eqb k) seen then first_seen seen names'
      else k :: first_seen (k :: seen) names'
  end.

(** The sections of a logger as [log] builds them: no key twice, no empty
    list and no blank content. *)
Definition well_formed (secs : list (string * list string)) : Prop :=
  NoDup (map fst secs)
  /\ Forall (fun kv => snd kv <> []
                       /\ Forall (fun c => recordable c = true) (snd kv))
       secs.




(** What a pass does to the world: it leaves the two streams as they
    were, and the logger is what some calls of [log] make of it. *)
Definition logs (w w' : world) : Prop :=
  exists entries,
    w' = World (log_all (logger w) entries) (stdout w) (stderr w).

(** The names the steps have in the messages of the debug mode. *)
Definition step_names : list string :=
  ["Step 1 - Code blocks"; "Step 2 - Inline code"; "Step 3a - Hash headers";
   "Step 3b - Underline headers"; "Step 4 - All emphasis";
   "Step 5 - Reference links"; "Step 6 - Links and images";
   "Step 7 - Task lists"; "Step 8 - Regular lists";
   "Step 9 - Escaped characters"; "Step 10 - Blockquotes";
   "Step 11 - Horizontal rules"; "Step 12 - Tables (conservative)";
   "Step 13 - HTML tags"; "Step 14 - Strikethrough"; "Step 15 - Footnotes";
   "Step 16 - Clean whitespace"].

(** The messages of the steps [names], for the text [before] they start
    from and the texts [texts] they leave, one after the other. *)
Fixpoint step_lines (names : list string) (before : string)
  (texts : list string) : list out_line :=
  match names, texts with
  | name :: names', after :: texts' =>
      Out_step name (String.length before) (String.length after)
        (Z.of_nat (String.length before) - Z.of_nat (String.length after))
      :: step_lines names' after texts'
  | _, _ => []
  end.

(** The messages of a whole conversion in debug mode. *)
Definition debug_trace (content : string) (texts : list string)
  : list out_line :=
  let final_length := String.length (Py.strip (last texts content)) in
  Out_start (String.length content)
  :: step_lines step_names content texts
  ++ [Out_final final_length
        (Z.of_nat (String.length content) - Z.of_nat final_length)].

(** In a list of messages: the sum of the differences of the steps, the
    length the last step reports, and the final length and the total
    reduction of the last message. *)
Fixpoint step_diffs (l : list out_line) : Z :=
  match l with
  | [] => 0%Z
  | Out_step _ _ _ diff :: l' => (diff + step_diffs l')%Z
  | _ :: l' => step_diffs l'
  end.

Fixpoint last_after_len (l : list out_line) (d : nat) : nat :=
  match l with
  | [] => d
  | Out_step _ _ after_len _ :: l' => last_after_len l' after_len
  | _ :: l' => last_after_len l' d
  end.

Fixpoint final_message (l : list out_line) : option (nat * Z) :=
  match l with
  | [] => None
  | Out_final final_length reduction :: l' =>
      match final_message l' with
      | Some x => Some x
      | None => Some (final_length, reduction)
      end
  | _ :: l' => final_message l'
  end.

(** What a part of the conversion does to the world: it logs, in debug
    mode it prints the messages [lines], and it writes [errs] to
    [sys.stderr]. *)
Definition traced (debug : bool) (lines : list out_line)
  (errs : list err_line) (w w' : world) : Prop :=
  exists entries,
    w' = World (log_all (logger w) entries)
           (stdout w ++ (if debug then lines else []))
           (stderr w ++ errs).


(** A character a table separator row can have: a pipe, a dash, a colon
    or white space. *)
Definition separator_chr (a : ascii) : bool :=
  Py.mem a "|-:" || Py.is_space a.

(** A line that underlines a header: one or more [=], or one or more
    [-], and then nothing but white space. *)
Definition underline_like (line : string) : bool :=
  match line with
  | EmptyString => false
  | String a _ =>
      (Ascii.eqb a "=" || Ascii.eqb a "-")
      && all_space (drop_while (fun b => Ascii.eqb b a) line)
  end.

(** The lines step 3b keeps and the lines it drops.  [skip] tells that
    the line before was kept and is underlined by the one that comes: a
    line is dropped when it is an underline and the line before it was
    kept; the first line is never dropped, and no two lines in a row
    are. *)
Fixpoint underline_kept (skip : bool) (lines : list string) : list string :=
  match lines with
  | [] => []
  | l :: rest =>
      if skip then underline_kept false rest
      else l :: underline_kept
                  (match rest with
                   | u :: _ => underline_like u
                   | [] => false
                   end) rest
  end.

Fixpoint underline_dropped (skip : bool) (lines : list string)
  : list string :=
  match lines with
  | [] => []
  | l :: rest =>
      if skip then l :: underline_dropped false rest
      else underline_dropped
             (match rest with
              | u :: _ => underline_like u
              | [] => false
              end) rest
  end.

(** Runs of newlines cut to two: of every run of newlines the first two
    are kept.  [run] is the number of newlines that precede, in the run
    the string starts in. *)
Fixpoint squeeze (run : nat) (s : string) : string :=
  match s with
  | EmptyString => EmptyString
  | String a s' =>
      if Ascii.eqb a Py.NL then
        if run <? 2 then String a (squeeze (S run) s')
        else squeeze (S run) s'
      else String a (squeeze 0 s')
  end.

(** The character before the position that follows [s], when [bf] is the
    character before [s]. *)
Fixpoint last_chr (bf : option ascii) (s : string) : option ascii :=
  match s with
  | EmptyString => bf
  | String a s' => last_chr (Some a) s'
  end.

(** The string has no occurrence of the character [c]. *)
Definition without (c : ascii) (s : string) : bool := negb (Py.mem c s).

(** The interior of a span: one to 125 characters, none of them the
    delimiter character [c] or a newline. *)
Definition span_interior (c : ascii) (t : string) : bool :=
  (1 <=? String.length t) && (String.length t <=? 125)
  && without c t && without Py.NL t.

(** The five forms of emphasis of step 4, by delimiter, with the names
    they are logged under. *)
Definition emphasis_forms : list (string * string) :=
  [("***", "bold_italic"); ("**", "bold_asterisks");
   ("__", "bold_underscores"); ("*", "italic_asterisks");
   ("_", "italic_underscores")].

(** A text with no asterisk and no underscore. *)
Definition no_emphasis (s : string) : bool := without "*" s && without "_" s.

(** A text beside an emphasised one: no asterisk, no underscore and no
    newline. *)
Definition unmarked (s : string) : bool := no_emphasis s && without Py.NL s.

(** A text that can be emphasised: unmarked, of one to 125 characters. *)
Definition emphasised (t : string) : bool :=
  unmarked t && (1 <=? String.length t) && (String.length t <=? 125).

(** The interior of an inline code span: at least one character, none of
    them a backtick or a newline. *)
Definition code_interior (t : string) : bool :=
  (1 <=? String.length t) && without "`" t && without Py.NL t.

(** The text and the target of a link: up to 125 characters that are
    neither the closing character [c] nor a newline, and at least
    [lo]. *)
Definition bracketed (lo : nat) (c : ascii) (t : string) : bool :=
  (lo <=? String.length t) && (String.length t <=? 125)
  && without c t && without Py.NL t.

(** An inline link, as it is written. *)
Definition link_text (t u : string) : string :=
  ("[" ++ t ++ "](" ++ u ++ ")")%string.


(** An inline image, as it is written. *)
Definition image_text (alt u : string) : string :=
  ("![" ++ alt ++ "](" ++ u ++ ")")%string.

(** A line with inline links or images: an item is the text before one,
    its text (the alternative text of an image) and its target; [post]
    follows the last one.  [with_texts] is the line with each of them
    replaced by its text. *)
Fixpoint with_links (l : list (string * string * string)) (post : string)
  : string :=
  match l with
  | [] => post
  | (pre, t, u) :: l' => (pre ++ link_text t u ++ with_links l' post)%string
  end.

Fixpoint with_images (l : list (string * string * string)) (post : string)
  : string :=
  match l with
  | [] => post
  | (pre, alt, u) :: l' =>
      (pre ++ image_text alt u ++ with_images l' post)%string
  end.

Fixpoint with_texts (l : list (string * string * string)) (post : string)
  : string :=
  match l with
  | [] => post
  | (pre, t, _) :: l' => (pre ++ t ++ with_texts l' post)%string
  end.

(** An item of a line of links: no opening bracket before the link, a
    text of one to 125 characters and a target of one to 125. *)
Definition link_ok (x : string * string * string) : bool :=
  let '(pre, t, u) := x in
  without "[" pre && bracketed 1 "]" t && bracketed 1 ")" u.

(** An item of a line of images: no exclamation mark and no opening
    bracket before the image nor in its alternative text, which has at
    most 125 characters, and a target of one to 125. *)
Definition image_ok (x : string * string * string) : bool :=
  let '(pre, alt, u) := x in
  without "!" pre && without "[" pre
  && bracketed 0 "]" alt && without "[" alt
  && bracketed 1 ")" u.

(** What step 6 logs for a line of links or images: the first of them,
    as it is written, once for each of them. *)
Definition first_each_time (step_name : string)
  (text : string -> string -> string) (l : list (string * string * string))
  : list (string * string) :=
  match l with
  | [] => []
  | (_, t, u) :: _ => repeat (step_name, text t u) (List.length l)
  end.


(** A tag, as it is written. *)
Definition tag_text (t : string) : string := ("<" ++ t ++ ">")%string.

(** A line with tags: an item is the text before a tag and what the tag
    has between its angle brackets; [post] follows the last tag.
    [without_tags] is the line with the tags taken out. *)
Fixpoint with_tags (l : list (string * string)) (post : string) : string :=
  match l with
  | [] => post
  | (pre, t) :: l' => (pre ++ tag_text t ++ with_tags l' post)%string
  end.

Fixpoint without_tags (l : list (string * string)) (post : string)
  : string :=
  match l with
  | [] => post
  | (pre, _) :: l' => (pre ++ without_tags l' post)%string
  end.

(** An item of a line with tags: no opening angle bracket before the
    tag, and at most 125 characters in it, none of them a closing angle
    bracket or a newline. *)
Definition tag_ok (x : string * string) : bool :=
  without "<" (fst x) && bracketed 0 ">" (snd x).


(** The character before a position, if there is one, is a newline. *)
Definition after_newline (bf : option ascii) : bool :=
  match bf with
  | None => true
  | Some a => Ascii.eqb a Py.NL
  end.

(** The position after [pre] is the start of a line: [pre] is empty or
    ends with a newline. *)
Definition ends_line (pre : string) : bool :=
  after_newline (last_chr None pre).

(** The position before [post] is the end of a line: [post] is empty or
    starts with a newline. *)
Definition starts_line (post : string) : bool :=
  match post with
  | EmptyString => true
  | String a _ => Ascii.eqb a Py.NL
  end.

(** The white space between a marker and what it marks: at least one
    character, each of them white space. *)
Definition gap_ok (gap : string) : bool :=
  (1 <=? String.length gap) && all_chr Py.is_space gap.

(** The title of a header: its first character is not white space, and
    it has no newline and no hash. *)
Definition title_ok (title : string) : bool :=
  match title with
  | EmptyString => false
  | String a _ => negb (Py.is_space a)
  end && without Py.NL title && without "#" title.


(** Every character of [s] passes the test [ok], which is given the
    character before it; [bf] is the character before [s]. *)
Fixpoint every_position (ok : option ascii -> ascii -> bool)
  (bf : option ascii) (s : string) : bool :=
  match s with
  | EmptyString => true
  | String a s' => ok bf a && every_position ok (Some a) s'
  end.

(** The bullets of step 8. *)
Definition is_bullet (a : ascii) : bool :=
  Ascii.eqb a "-" || Ascii.eqb a "*" || Ascii.eqb a "+".

(** A character is not where a list item can start: it is not at the
    start of a line, or it is neither white space, a bullet nor a
    digit. *)
Definition no_item_start (bf : option ascii) (a : ascii) : bool :=
  negb (after_newline bf && (Py.is_space a || is_bullet a || Py.is_digit a)).

(** No line of [s] starts with white space, a bullet or a digit; an
    empty line inside [s] starts with its newline, which is white
    space. *)
Definition plain_lines (bf : option ascii) (s : string) : bool :=
  every_position no_item_start bf s.

(** What a list item marks: at least one character, and no newline. *)
Definition item_text_ok (item : string) : bool :=
  (1 <=? String.length item) && without Py.NL item.

(** The same for one kind of list: a character is not where an item with
    a bullet, or with a number, can start. *)
Definition no_bullet_start (bf : option ascii) (a : ascii) : bool :=
  negb (after_newline bf && (Py.is_space a || is_bullet a)).

Definition no_number_start (bf : option ascii) (a : ascii) : bool :=
  negb (after_newline bf && (Py.is_space a || Py.is_digit a)).

(** The number of an ordered item: at least one digit, and only
    digits. *)
Definition digits_ok (digits : string) : bool :=
  (1 <=? String.length digits) && all_chr Py.is_digit digits.

(* ================================================================== *)
(** * Properties *)
(* ================================================================== *)

(** ** The matcher against [matches] *)

Module ReFacts.
Import Re.

Lemma rep_loop_sound (R : cursor -> cursor -> Prop) (body : cont -> cont)
  (greedy : bool) (lo : nat) (k : cont) :
  (forall k' c g x, body k' c g = Some x ->
     exists c' g', R c c' /\ k' c' g' = Some x) ->
  forall n i c g x,
    rep_loop body greedy lo k n i c g = Some x ->
    exists j c' g', iter R j c c' /\ lo <= i + j /\ j <= n
                    /\ k c' g' = Some x.
Proof.
  intros Hbody. induction n as [|n IH]; intros i c g x H; simpl in H.
  - destruct (Nat.leb_spec lo i); [|discriminate].
    exists 0, c, g. simpl. repeat split; auto; lia.
  - assert (Hstop : (if lo <=? i then k c g else None) = Some x ->
              exists j c' g', iter R j c c' /\ lo <= i + j /\ j <= S n
                              /\ k c' g' = Some x).
    { intros E. destruct (Nat.leb_spec lo i); [|discriminate].
      exists 0, c, g. simpl. repeat split; auto; lia. }
    assert (Hmore : body (fun c' g' =>
                if pos c <? pos c' then rep_loop body greedy lo k n (S i) c' g'
                else None) c g = Some x ->
              exists j c' g', iter R j c c' /\ lo <= i + j /\ j <= S n
                              /\ k c' g' = Some x).
    { intros E. apply Hbody in E. destruct E as (c1 & g1 & HR & E).
      destruct (Nat.ltb_spec (pos c) (pos c1)); [|discriminate].
      apply IH in E. destruct E as (j & c' & g' & Hit & Hlo & Hn & Hk).
      exists (S j), c', g'. simpl. repeat split; try lia; auto.
      exists c1. auto. }
    destruct greedy.
    + destruct (body _ c g) eqn:E.
      * inversion H; subst. apply Hmore. reflexivity.
      * apply Hstop. exact H.
    + destruct (if lo <=? i then k c g else None) eqn:E.
      * inversion H; subst. apply Hstop. reflexivity.
      * apply Hmore. exact H.
Qed.

Theorem m_sound (ml : bool) (r : re) :
  forall k c g x, m ml r k c g = Some x ->
    exists c' g', matches ml r c c' /\ k c' g' = Some x.
Proof.
  induction r as [|cl| | |r1 IH1 r2 IH2|greedy lo hi r1 IH|i r1 IH|a|a];
    intros k c g x H; simpl in H.
  - exists c, g. simpl. auto.
  - destruct (rest c) as [|a s'] eqn:E; [discriminate|].
    destruct (cls_ok cl a) eqn:Ea; [|discriminate].
    eexists; eexists. split; [|exact H]. simpl.
    exists a. split; auto. exists s'. auto.
  - destruct (at_bol ml c) eqn:E; [|discriminate].
    exists c, g. simpl. auto.
  - destruct (at_eol ml c) eqn:E; [|discriminate].
    exists c, g. simpl. auto.
  - apply IH1 in H. destruct H as (c1 & g1 & H1 & H).
    apply IH2 in H. destruct H as (c2 & g2 & H2 & H).
    exists c2, g2. split; auto. simpl. exists c1. auto.
  - apply (rep_loop_sound (matches ml r1)) in H; [|exact IH].
    destruct H as (j & c' & g' & Hit & Hlo & Hn & Hk).
    exists c', g'. split; auto. simpl. exists j. repeat split; auto.
    destruct hi; simpl; auto.
  - apply IH in H. destruct H as (c' & g' & H1 & H).
    eexists; eexists. split; [exact H1|exact H].
  - exists c, g. simpl. destruct (before c) as [b|] eqn:E.
    + destruct (Ascii.eqb_spec b a); [discriminate|].
      repeat split; auto. congruence.
    + repeat split; auto. congruence.
  - exists c, g. simpl. destruct (rest c) as [|b s] eqn:E.
    + repeat split; auto. congruence.
    + destruct (Ascii.eqb_spec b a); [discriminate|].
      repeat split; auto. congruence.
Qed.

Lemma append_assoc (a b c : string) :
  ((a ++ b) ++ c)%string = (a ++ (b ++ c))%string.
Proof. induction a; simpl; congruence. Qed.

Lemma append_length (a b : string) :
  String.length (a ++ b) = String.length a + String.length b.
Proof. induction a; simpl; auto. Qed.

Lemma append_nil_r (a : string) : (a ++ "")%string = a.
Proof. induction a; simpl; congruence. Qed.

Lemma between_refl c : between c "" c.
Proof. split; simpl; auto. Qed.

Lemma between_trans c1 w1 c2 w2 c3 :
  between c1 w1 c2 -> between c2 w2 c3 -> between c1 (w1 ++ w2) c3.
Proof.
  intros [E1 P1] [E2 P2]. split.
  - rewrite E1, E2, append_assoc. reflexivity.
  - rewrite P2, P1, append_length. lia.
Qed.

Lemma next_between c a c' : next c a c' -> between c (String a "") c'.
Proof.
  intros (s' & E & ->). split; simpl; auto. lia.
Qed.

Lemma iter_between (R : cursor -> cursor -> Prop) :
  (forall c c', R c c' -> exists w, between c w c') ->
  forall j c c', iter R j c c' ->
    exists w, between c w c' /\ j <= String.length w.
Proof.
  intros HR. induction j as [|j IH]; simpl; intros c c' H.
  - subst. exists "". split; [apply between_refl|simpl; lia].
  - destruct H as (c1 & H1 & Hlt & H2).
    apply HR in H1. destruct H1 as (w1 & B1).
    apply IH in H2. destruct H2 as (w2 & B2 & Hj).
    exists (w1 ++ w2)%string. split; [eapply between_trans; eauto|].
    rewrite append_length. destruct B1 as [_ P1]. lia.
Qed.

Lemma matches_between (ml : bool) (r : re) :
  forall c c', matches ml r c c' -> exists w, between c w c'.
Proof.
  induction r as [|cl| | |r1 IH1 r2 IH2|greedy lo hi r1 IH|i r1 IH|a|a];
    simpl; intros c c' H.
  - subst. exists "". apply between_refl.
  - destruct H as (a & _ & H). eexists. apply next_between. exact H.
  - destruct H as [_ ->]. exists "". apply between_refl.
  - destruct H as [_ ->]. exists "". apply between_refl.
  - destruct H as (c1 & H1 & H2).
    apply IH1 in H1. apply IH2 in H2.
    destruct H1 as (w1 & B1). destruct H2 as (w2 & B2).
    eexists. eapply between_trans; eauto.
  - destruct H as (j & _ & _ & H).
    apply (iter_between _ IH) in H. destruct H as (w & B & _). eauto.
  - auto.
  - destruct H as [_ ->]. exists "". apply between_refl.
  - destruct H as [_ ->]. exists "". apply between_refl.
Qed.

Lemma between_length c w c' :
  between c w c' -> String.length w <= String.length (rest c).
Proof. intros [E _]. rewrite E, append_length. lia. Qed.

Lemma rep_loop_complete (R : cursor -> cursor -> Prop) (body : cont -> cont)
  (greedy : bool) (lo : nat) (k : cont) :
  (forall k' c c1, R c c1 -> accepts k' c1 -> accepts (body k') c) ->
  forall j n i c c',
    iter R j c c' -> j <= n -> lo <= i + j -> accepts k c' ->
    accepts (rep_loop body greedy lo k n i) c.
Proof.
  intros Hbody. induction j as [|j IH]; intros n i c c' Hit Hn Hlo Hk g.
  - simpl in Hit. subst c'.
    assert (Hstop : (if lo <=? i then k c g else None) <> None).
    { destruct (Nat.leb_spec lo i); [apply Hk|lia]. }
    destruct n as [|n]; simpl; auto.
    destruct greedy.
    + destruct (body _ c g); [discriminate|exact Hstop].
    + destruct (if lo <=? i then k c g else None); [discriminate|].
      contradiction.
  - destruct n as [|n]; [lia|]. simpl in Hit.
    destruct Hit as (c1 & H1 & Hlt & Hit). simpl.
    assert (Hmore : body (fun c' g' =>
               if pos c <? pos c' then rep_loop body greedy lo k n (S i) c' g'
               else None) c g <> None).
    { apply (Hbody _ c c1 H1). intros g1.
      destruct (Nat.ltb_spec (pos c) (pos c1)); [|lia].
      apply (IH n (S i) c1 c'); auto; lia. }
    destruct greedy.
    + destruct (body _ c g); [discriminate|contradiction].
    + destruct (if lo <=? i then k c g else None); [discriminate|].
      exact Hmore.
Qed.

Theorem m_complete (ml : bool) (r : re) :
  forall k c c', matches ml r c c' -> accepts k c' -> accepts (m ml r k) c.
Proof.
  induction r as [|cl| | |r1 IH1 r2 IH2|greedy lo hi r1 IH|i r1 IH|a|a];
    simpl; intros k c c' H Hk g.
  - subst. apply Hk.
  - destruct H as (a & Ha & s' & E & ->). rewrite E, Ha. apply Hk.
  - destruct H as [E ->]. rewrite E. apply Hk.
  - destruct H as [E ->]. rewrite E. apply Hk.
  - destruct H as (c1 & H1 & H2).
    apply (IH1 _ c c1 H1). intros g1. apply (IH2 _ c1 c' H2 Hk).
  - destruct H as (j & Hlo & Hhi & Hit).
    apply (@rep_loop_complete (matches ml r1) (m ml r1) greedy lo k IH j)
      with (c' := c'); auto.
    destruct hi as [h|]; simpl in *; auto.
    apply (iter_between _ (matches_between ml r1)) in Hit.
    destruct Hit as (w & B & Hj). apply between_length in B. lia.
  - apply (IH _ c c' H). intros g1. apply Hk.
  - destruct H as [Hb ->]. destruct (before c) as [b|]; [|apply Hk].
    destruct (Ascii.eqb_spec b a); [congruence|apply Hk].
  - destruct H as [Ha ->]. destruct (rest c) as [|b s]; [apply Hk|].
    destruct (Ascii.eqb_spec b a); [|apply Hk].
    subst. exfalso. apply (Ha s). reflexivity.
Qed.

(** *** Attempts, [search] and the scan *)

Lemma try_at_some ml r b c x :
  try_at ml r b c = Some x ->
  exists c', matches ml r c c' /\ m_start x = pos c
             /\ m_len x = pos c' - pos c
             /\ m_text x = substring 0 (pos c' - pos c) (rest c).
Proof.
  unfold try_at. intros H.
  destruct (m ml r _ c []) as [[c' g]|] eqn:E; [|discriminate].
  apply m_sound in E. destruct E as (c1 & g1 & Hm & Hk).
  destruct (b && (pos c1 =? pos c)); [discriminate|].
  inversion Hk; subst. inversion H; subst. simpl. eauto.
Qed.

Lemma try_at_complete ml r c c' :
  matches ml r c c' -> try_at ml r false c <> None.
Proof.
  intros H. unfold try_at.
  destruct (m ml r _ c []) as [[c1 g]|] eqn:E; [discriminate|].
  exfalso. revert E. apply (m_complete ml r _ H). intros g. simpl.
  discriminate.
Qed.

Lemma try_at_none ml r b c :
  (forall c', ~ matches ml r c c') -> try_at ml r b c = None.
Proof.
  intros H. destruct (try_at ml r b c) eqn:E; auto.
  apply try_at_some in E. destruct E as (c' & Hm & _).
  exfalso. eapply H; eauto.
Qed.

Lemma search_from_complete ml r s :
  forall bf p c c',
    reach (Cursor bf p s) c -> matches ml r c c' ->
    search_from ml r bf p s <> None.
Proof.
  induction s as [|a s IH]; intros bf p c c' Hr Hm; simpl.
  - inversion Hr; subst.
    + destruct (try_at ml r false _) eqn:E; [discriminate|].
      exfalso. eapply try_at_complete; eauto.
    + destruct H as (s' & E & _). discriminate.
  - destruct (try_at ml r false _) eqn:E; [discriminate|].
    inversion Hr; subst.
    + exfalso. eapply try_at_complete; eauto.
    + destruct H as (s' & E1 & ->). simpl in E1. inversion E1; subst.
      eapply IH; eauto.
Qed.

Lemma reach_step bf p a s c :
  reach (Cursor (Some a) (S p) s) c -> reach (Cursor bf p (String a s)) c.
Proof.
  intros H. eapply reach_next; [|exact H]. exists s. split; reflexivity.
Qed.

Lemma scan_hit ml r s :
  forall skip bf p,
    hits (scan ml r skip bf p s) <> [] ->
    exists c c', reach (Cursor bf p s) c /\ matches ml r c c'.
Proof.
  induction s as [|a s IH]; intros skip bf p H.
  - destruct skip; simpl in H; [|congruence].
    destruct (try_at ml r false _) eqn:E; [|simpl in H; congruence].
    apply try_at_some in E. destruct E as (c' & Hm & _).
    eexists; eexists. split; [apply reach_here|exact Hm].
  - destruct skip as [|n]; simpl in H.
    + destruct (try_at ml r false _) eqn:E.
      * apply try_at_some in E. destruct E as (c' & Hm & _).
        eexists; eexists. split; [apply reach_here|exact Hm].
      * simpl in H. apply IH in H. destruct H as (c & c' & Hr & Hm).
        exists c, c'. split; auto. apply reach_step. exact Hr.
    + apply IH in H. destruct H as (c & c' & Hr & Hm).
      exists c, c'. split; auto. apply reach_step. exact Hr.
Qed.

(** Where nothing matches, the scan keeps every character. *)
Lemma scan_nothing ml r repl s :
  forall bf p,
    (forall c c', reach (Cursor bf p s) c -> ~ matches ml r c c') ->
    hits (scan ml r 0 bf p s) = [] /\ subst repl (scan ml r 0 bf p s) = s.
Proof.
  induction s as [|a s IH]; intros bf p H; simpl.
  - rewrite try_at_none; [simpl; auto|].
    intros c'. apply H. apply reach_here.
  - rewrite try_at_none; [|intros c'; apply H; apply reach_here].
    simpl. destruct (IH (Some a) (S p)) as [E1 E2].
    { intros c c' Hr. apply H. apply reach_step. exact Hr. }
    rewrite E1, E2. auto.
Qed.

Lemma nothing_matches ml r s :
  (forall c c', reach (start s) c -> ~ matches ml r c c') ->
  finditer ml r s = [] /\ (forall repl, sub ml r repl s = s)
  /\ rmatch ml r s = None.
Proof.
  intros H. unfold finditer, sub, segments, rmatch. repeat split.
  - apply (@scan_nothing ml r (fun _ => "") s None 0 H).
  - intros repl. apply (@scan_nothing ml r repl s None 0 H).
  - apply try_at_none. intros c'. apply H. apply reach_here.
Qed.

(** [re.search] finds something wherever [re.findall] does, for a
    pattern that matches at least what the other matches. *)
Lemma finditer_search ml r r' s :
  (forall c c', matches ml r c c' -> matches ml r' c c') ->
  finditer ml r s <> [] -> exists y, search ml r' s = Some y.
Proof.
  intros Hsub H. apply scan_hit in H. destruct H as (c & c' & Hr & Hm).
  destruct (search ml r' s) eqn:E; eauto.
  exfalso. revert E. eapply search_from_complete; eauto.
Qed.

(** *** What a repetition of one class has matched *)

Lemma iter_class ml cl :
  forall j c c', iter (matches ml (One cl)) j c c' ->
    exists v, between c v c' /\ String.length v = j
              /\ all_chr (cls_ok cl) v = true.
Proof.
  induction j as [|j IH]; simpl; intros c c' H.
  - subst. exists "". repeat split; auto.
  - destruct H as (c1 & (a & Ha & Hn) & _ & H).
    apply IH in H. destruct H as (v & B & L & A).
    exists (String a v). split; [|split].
    + apply (between_trans (next_between Hn) B).
    + simpl. congruence.
    + simpl. rewrite Ha, A. reflexivity.
Qed.


End ReFacts.

(** ** The effects of the passes *)

Section Yields.

Variable F : world -> world -> Prop.
Hypothesis F_refl : forall w, F w w.
Hypothesis F_trans : forall w1 w2 w3, F w1 w2 -> F w2 w3 -> F w1 w3.

Lemma yields_ret A (a : A) : yields F (ret a) a.
Proof. intros w. exists w. split; auto. Qed.

Lemma yields_bind A B (x : M A) (f : A -> M B) a b :
  yields F x a -> yields F (f a) b -> yields F (bind x f) b.
Proof.
  intros Hx Hf w. destruct (Hx w) as (w1 & E1 & F1).
  destruct (Hf w1) as (w2 & E2 & F2).
  exists w2. unfold bind. rewrite E1. split; eauto.
Qed.

Lemma yields_for A (l : list A) (body : A -> M unit) :
  (forall x, In x l -> yields F (body x) tt) -> yields F (for_ l body) tt.
Proof.
  induction l as [|x l IH]; intros H; simpl.
  - apply yields_ret.
  - eapply yields_bind; [apply H; left; auto|].
    apply IH. intros y Hy. apply H. right. exact Hy.
Qed.

Lemma yields_for_collect A (l : list A) (body : A -> M string) :
  (forall x, In x l -> exists y, yields F (body x) y) ->
  exists ys, yields F (for_collect l body) ys.
Proof.
  induction l as [|x l IH]; intros H; simpl.
  - exists []. apply yields_ret.
  - destruct (H x) as (y & Hy); [left; auto|].
    destruct IH as (ys & Hys); [intros z Hz; apply H; right; exact Hz|].
    exists (y :: ys).
    eapply yields_bind; [exact Hy|].
    eapply yields_bind; [exact Hys|]. apply yields_ret.
Qed.

Lemma yields_for_fold A S (l : list A) (body : S -> A -> M S) :
  (forall st x, In x l -> exists st', yields F (body st x) st') ->
  forall st, exists st', yields F (for_fold l st body) st'.
Proof.
  induction l as [|x l IH]; intros H st; simpl.
  - exists st. apply yields_ret.
  - destruct (H st x) as (st1 & H1); [left; auto|].
    destruct (IH (fun s y Hy => H s y (or_intror Hy)) st1) as (st2 & H2).
    exists st2. eapply yields_bind; eauto.
Qed.

Lemma yields_try A (body handler : M A) a :
  yields F body a -> yields F (try_except body handler) a.
Proof.
  intros H w. destruct (H w) as (w1 & E & F1).
  exists w1. unfold try_except. rewrite E. auto.
Qed.

End Yields.

Lemma yields_weaken (F G : world -> world -> Prop) A (x : M A) a :
  (forall w w', F w w' -> G w w') -> yields F x a -> yields G x a.
Proof.
  intros HFG H w. destruct (H w) as (w' & E & Hw). eauto.
Qed.

Lemma quiet_refl w : quiet w w.
Proof. repeat split. Qed.

Lemma quiet_trans w1 w2 w3 : quiet w1 w2 -> quiet w2 w3 -> quiet w1 w3.
Proof.
  intros (A1 & B1 & C1) (A2 & B2 & C2). repeat split; congruence.
Qed.

Lemma section_append_other k v k' secs :
  String.eqb k k' = false ->
  section (sections_append k v secs) k' = section secs k'.
Proof.
  intros Hk. induction secs as [|[k0 v0] secs IH]; simpl.
  - rewrite Hk. reflexivity.
  - destruct (String.eqb_spec k0 k).
    + subst. simpl. rewrite Hk. reflexivity.
    + simpl. rewrite IH. reflexivity.
Qed.

Lemma section_append_same k v secs :
  section (sections_append k v secs) k = section secs k ++ [v].
Proof.
  induction secs as [|[k0 v0] secs IH]; simpl.
  - rewrite String.eqb_refl. reflexivity.
  - destruct (String.eqb_spec k0 k).
    + subst. simpl. rewrite String.eqb_refl. reflexivity.
    + simpl. destruct (String.eqb_spec k0 k); [contradiction|]. exact IH.
Qed.

Lemma yields_log step_name removed_content :
  String.eqb step_name "code_blocks_unclosed" = false ->
  yields quiet (log step_name removed_content) tt.
Proof.
  intros Hk w. eexists. split; [reflexivity|].
  unfold quiet, logger_log. simpl.
  destruct (negb (enabled (logger w)) || _); simpl; repeat split.
  apply section_append_other. exact Hk.
Qed.

Lemma yields_print l : yields quiet (print l) tt.
Proof. intros w. eexists. split; [reflexivity|]. repeat split. Qed.

Lemma yields_log_and_sub ml r_find step_name fmt r_sub repl text :
  String.eqb step_name "code_blocks_unclosed" = false ->
  yields quiet (log_and_sub ml r_find step_name fmt r_sub repl text)
    (Re.sub ml r_sub repl text).
Proof.
  intros Hk. unfold log_and_sub.
  eapply yields_bind; [apply quiet_trans| |apply yields_ret; apply quiet_refl].
  apply yields_for; [apply quiet_refl|apply quiet_trans|].
  intros x _. apply yields_log. exact Hk.
Qed.

(** Every pass after the first returns a string whatever the world is,
    raises nothing, and is [quiet]. *)

Ltac quiet_bind := eapply yields_bind; [apply quiet_trans| |].
Ltac quiet_ret := apply yields_ret; apply quiet_refl.
Ltac quiet_sub := apply yields_log_and_sub; reflexivity.

Lemma total_lines (body : string -> M string) :
  total body ->
  total (fun text =>
    ls <- for_collect (Py.split Py.NL text) body ;; ret (Py.join NLs ls)).
Proof.
  intros H text.
  destruct (@yields_for_collect quiet quiet_refl quiet_trans _
              (Py.split Py.NL text) body) as (ys & Hys).
  { intros x _. apply H. }
  exists (Py.join NLs ys). quiet_bind; [exact Hys|quiet_ret].
Qed.

Lemma inline_code_total : total inline_code.
Proof. intros text. eexists. unfold inline_code. quiet_sub. Qed.

Lemma hash_headers_total : total hash_headers.
Proof. intros text. eexists. unfold hash_headers. quiet_sub. Qed.

Lemma nth_error_enumerate A (lines : list A) i line :
  In (i, line) (enumerate lines) -> nth_error lines i = Some line.
Proof.
  unfold enumerate.
  assert (G : forall (l : list A) k, In (i, line) (combine (List.seq k (List.length l)) l)
              -> k <= i /\ nth_error l (i - k) = Some line).
  { induction l as [|x l IH]; simpl; intros k0 H; [contradiction|].
    destruct H as [H|H].
    - inversion H; subst. rewrite Nat.sub_diag. simpl. auto.
    - apply IH in H. destruct H as [Hle H]. split; [lia|].
      replace (i - k0) with (S (i - S k0)) by lia. exact H. }
  intros H. apply G in H. destruct H as [_ H].
  rewrite Nat.sub_0_r in H. exact H.
Qed.

Lemma yields_index A (lst : list A) i x :
  nth_error lst i = Some x -> yields quiet (index lst i) x.
Proof. intros H. unfold index. rewrite H. quiet_ret. Qed.

Lemma underline_body_total lines st il :
  In il (enumerate lines) ->
  exists st', yields quiet (underline_body lines st il) st'.
Proof.
  destruct st as [processed_lines skip_next]. destruct il as [i line].
  intros Hin. pose proof (nth_error_enumerate _ _ _ Hin) as Hi.
  unfold underline_body. destruct skip_next.
  - eexists. quiet_bind; [apply yields_index; exact Hi|].
    quiet_bind; [apply yields_log; reflexivity|quiet_ret].
  - destruct (Z.ltb_spec (Z.of_nat i) (Z.of_nat (List.length lines) - 1)).
    + destruct (nth_error lines (i + 1)) as [next_line|] eqn:E.
      * destruct (is_some (Re.rmatch false (Pat.underline "=") next_line)
                  || is_some (Re.rmatch false (Pat.underline "-") next_line))
          eqn:Eu; eexists;
          (quiet_bind; [apply yields_index; exact E|]); rewrite Eu; quiet_ret.
      * apply nth_error_None in E. lia.
    + eexists. quiet_ret.
Qed.

Lemma underline_headers_total : total underline_headers.
Proof.
  intros text. unfold underline_headers.
  destruct (@yields_for_fold quiet quiet_refl quiet_trans _ _
              (enumerate (Py.split Py.NL text))
              (underline_body (Py.split Py.NL text))) with (st := (@nil string, false))
    as (st' & H).
  { intros st x Hx. apply underline_body_total. exact Hx. }
  exists (Py.join NLs (fst st')). quiet_bind; [exact H|quiet_ret].
Qed.

Lemma emphasis_line_total : total emphasis_line.
Proof.
  intros line. eexists. unfold emphasis_line.
  repeat (quiet_bind; [quiet_sub|]). quiet_sub.
Qed.

Lemma safe_remove_emphasis_total : total safe_remove_emphasis.
Proof. apply total_lines. apply emphasis_line_total. Qed.

Lemma reference_links_total : total reference_links.
Proof.
  intros text. eexists. unfold reference_links.
  quiet_bind; quiet_sub.
Qed.

(** The loop of step 6 that logs: [re.search] never returns [None] in it,
    because it is run on the line [re.findall] found a match in, with the
    same pattern but for the group. *)
Lemma log_full_match_total r r' step_name line :
  (forall c c', Re.matches false r c c' -> Re.matches false r' c c') ->
  String.eqb step_name "code_blocks_unclosed" = false ->
  yields quiet
    (for_ (Re.finditer false r line) (fun _ =>
       full_match <- group0 (Re.search false r' line) ;;
       log step_name full_match)) tt.
Proof.
  intros Hsub Hk.
  destruct (Re.finditer false r line) as [|x l] eqn:E.
  - simpl. quiet_ret.
  - destruct (@ReFacts.finditer_search false r r' line Hsub) as (y & Hy).
    { rewrite E. discriminate. }
    rewrite Hy. apply yields_for; [apply quiet_refl|apply quiet_trans|].
    intros _ _. simpl. quiet_bind; [quiet_ret|].
    apply yields_log. exact Hk.
Qed.

Lemma links_line_total : total links_line.
Proof.
  intros line. eexists. unfold links_line.
  quiet_bind.
  { apply log_full_match_total; [|reflexivity]. intros c c' H. exact H. }
  quiet_bind; [|quiet_ret].
  apply log_full_match_total; [|reflexivity]. intros c c' H. exact H.
Qed.

Lemma links_and_images_total : total links_and_images.
Proof. apply total_lines. apply links_line_total. Qed.

Lemma task_lists_total : total task_lists.
Proof. intros text. eexists. unfold task_lists. quiet_sub. Qed.

Lemma regular_lists_total : total regular_lists.
Proof.
  intros text. eexists. unfold regular_lists. quiet_bind; quiet_sub.
Qed.

Lemma subst_M_total (repl : Re.mtch -> M string) l :
  (forall x, exists y, yields quiet (repl x) y) ->
  exists t, yields quiet (subst_M repl l) t.
Proof.
  intros H. induction l as [|[a|x] l (t & IH)]; simpl.
  - eexists. quiet_ret.
  - eexists. quiet_bind; [exact IH|quiet_ret].
  - destruct (H x) as (y & Hy). eexists.
    quiet_bind; [exact Hy|]. quiet_bind; [exact IH|quiet_ret].
Qed.

Lemma replace_escape_total x : exists y, yields quiet (replace_escape x) y.
Proof.
  eexists. unfold replace_escape.
  quiet_bind; [apply yields_log; reflexivity|quiet_ret].
Qed.

Lemma escaped_characters_total : total escaped_characters.
Proof.
  intros text. unfold escaped_characters, sub_M. simpl.
  destruct (subst_M_total replace_escape (Re.segments false Pat.escape text)
              replace_escape_total) as (t1 & H1).
  destruct (subst_M_total replace_escape (Re.segments false Pat.escape t1)
              replace_escape_total) as (t2 & H2).
  exists t2. quiet_bind; [exact H1|]. quiet_bind; [exact H2|quiet_ret].
Qed.

Lemma blockquote_line_total : total blockquote_line.
Proof.
  intros line. eexists. unfold blockquote_line.
  quiet_bind; [|quiet_ret].
  destruct (negb _); [apply yields_log; reflexivity|quiet_ret].
Qed.

Lemma blockquotes_total : total blockquotes.
Proof. apply total_lines. apply blockquote_line_total. Qed.

Lemma rules_body_total result_lines line :
  exists st', yields quiet (rules_body result_lines line) st'.
Proof.
  unfold rules_body. destruct (is_horizontal_rule line); eexists.
  - quiet_bind; [apply yields_log; reflexivity|quiet_ret].
  - quiet_ret.
Qed.

Lemma horizontal_rules_total : total horizontal_rules.
Proof.
  intros text. unfold horizontal_rules.
  destruct (@yields_for_fold quiet quiet_refl quiet_trans _ _
              (Py.split Py.NL text) rules_body) with (st := @nil string)
    as (st' & H).
  { intros st x _. apply rules_body_total. }
  exists (Py.join NLs st'). quiet_bind; [exact H|quiet_ret].
Qed.

Lemma tables_body_total result_lines il :
  exists st', yields quiet (tables_body result_lines il) st'.
Proof.
  unfold tables_body. destruct il as [i line].
  destruct (is_table_separator line); eexists.
  - quiet_bind; [apply yields_log; reflexivity|quiet_ret].
  - quiet_ret.
Qed.

Lemma conservative_remove_tables_total : total conservative_remove_tables.
Proof.
  intros text. unfold conservative_remove_tables.
  destruct (@yields_for_fold quiet quiet_refl quiet_trans _ _
              (enumerate (Py.split Py.NL text)) tables_body)
    with (st := @nil string) as (st' & H).
  { intros st x _. apply tables_body_total. }
  exists (Py.join NLs st'). quiet_bind; [exact H|quiet_ret].
Qed.

Lemma html_tags_total : total html_tags.
Proof.
  apply total_lines. intros line. eexists. unfold html_line. quiet_sub.
Qed.

Lemma strikethrough_total : total strikethrough.
Proof. intros text. eexists. unfold strikethrough. quiet_sub. Qed.

Lemma footnotes_total : total footnotes.
Proof.
  intros text. eexists. unfold footnotes. quiet_bind; quiet_sub.
Qed.

Lemma clean_whitespace_total : total clean_whitespace.
Proof.
  intros text. eexists. unfold clean_whitespace.
  quiet_bind; [|quiet_ret].
  destruct (Re.finditer false Pat.newlines3 text);
    [quiet_ret|apply yields_log; reflexivity].
Qed.

Lemma step_yields debug step_name pass text out :
  yields quiet (pass text) out ->
  yields quiet (step debug step_name pass text) out.
Proof.
  intros H. unfold step. quiet_bind; [exact H|].
  quiet_bind; [|quiet_ret].
  unfold debug_step. destruct debug; [apply yields_print|quiet_ret].
Qed.

(** ** Facts on the [str] operations *)

Module PyFacts.
Import Py.

Lemma rev_onto_app s : forall acc, rev_onto s acc = (rev s ++ acc)%string.
Proof.
  unfold rev. induction s as [|a s IH]; intros acc; simpl; auto.
  rewrite IH, (IH (String a "")), ReFacts.append_assoc. reflexivity.
Qed.

Lemma rev_cons a s : rev (String a s) = (rev s ++ String a "")%string.
Proof. unfold rev at 1. simpl. apply rev_onto_app. Qed.

Lemma rev_app s t : rev (s ++ t) = (rev t ++ rev s)%string.
Proof.
  induction s as [|a s IH]; simpl.
  - rewrite ReFacts.append_nil_r. reflexivity.
  - rewrite !rev_cons, IH, ReFacts.append_assoc. reflexivity.
Qed.

Lemma rev_involutive s : rev (rev s) = s.
Proof.
  induction s as [|a s IH]; auto.
  rewrite rev_cons, rev_app, IH. reflexivity.
Qed.

Lemma rev_empty s : rev s = "" -> s = "".
Proof. intros H. rewrite <- (rev_involutive s), H. reflexivity. Qed.

Lemma all_space_app s t : all_space (s ++ t) = all_space s && all_space t.
Proof.
  induction s as [|a s IH]; simpl; auto.
  rewrite IH, andb_assoc. reflexivity.
Qed.

Lemma all_space_rev s : all_space (rev s) = all_space s.
Proof.
  induction s as [|a s IH]; auto.
  rewrite rev_cons, all_space_app, IH. simpl.
  rewrite andb_true_r, andb_comm. reflexivity.
Qed.

Lemma lstrip_all_space s : all_space s = true -> lstrip s = "".
Proof.
  induction s as [|a s IH]; simpl; auto.
  intros H. apply andb_true_iff in H. destruct H as [Ha Hs].
  rewrite Ha. auto.
Qed.

Lemma lstrip_empty s : lstrip s = "" -> all_space s = true.
Proof.
  induction s as [|a s IH]; simpl; auto.
  destruct (is_space a); simpl; [exact IH|discriminate].
Qed.

(** [lstrip] leaves the empty string or a string that begins with a
    character that is not white space. *)
Lemma lstrip_head s a t : lstrip s = String a t -> is_space a = false.
Proof.
  induction s as [|b s IH]; simpl; [discriminate|].
  destruct (is_space b) eqn:E; auto. intros H. inversion H; subst. exact E.
Qed.

Lemma lstrip_suffix s : exists w, s = (w ++ lstrip s)%string /\ all_space w = true.
Proof.
  induction s as [|a s (w & E & Hw)]; simpl.
  - exists "". auto.
  - destruct (is_space a) eqn:Ea.
    + exists (String a w). simpl. rewrite Ea, Hw.
      split; [f_equal; exact E|reflexivity].
    + exists "". auto.
Qed.

Lemma strip_empty_iff s : strip s = "" <-> all_space s = true.
Proof.
  unfold strip, rstrip. split; intros H.
  - apply rev_empty, lstrip_empty in H. rewrite all_space_rev in H.
    destruct (lstrip_suffix s) as (w & E & Hw).
    rewrite E, all_space_app, Hw, H. reflexivity.
  - rewrite (lstrip_all_space _ H). reflexivity.
Qed.


End PyFacts.

(** ** The first pass *)

Lemma for_fold_app A S (l1 l2 : list A) (body : S -> A -> M S) :
  forall st w,
    for_fold (l1 ++ l2) st body w
    = match for_fold l1 st body w with
      | Ok st1 w1 => for_fold l2 st1 body w1
      | Raise e w1 => Raise e w1
      end.
Proof.
  induction l1 as [|x l1 IH]; intros st w; simpl; auto.
  unfold bind. destruct (body st x w); auto.
Qed.


Lemma enumerate_from_app A (l1 l2 : list A) k :
  combine (List.seq k (List.length (l1 ++ l2))) (l1 ++ l2)
  = combine (List.seq k (List.length l1)) l1
    ++ combine (List.seq (k + List.length l1) (List.length l2)) l2.
Proof.
  revert k. induction l1 as [|x l1 IH]; intros k; simpl.
  - rewrite Nat.add_0_r. reflexivity.
  - rewrite IH. replace (S k + List.length l1) with (k + S (List.length l1))
      by lia. reflexivity.
Qed.

(** The loop of the first pass, from any state and any first index. *)
Lemma cb_loop_spec lines :
  forall k st,
  exists st',
    yields quiet
      (for_fold (combine (List.seq k (List.length lines)) lines) st cb_body)
      st'
    /\ result_lines st'
       = result_lines st ++ kept_lines (in_code_block st) lines
    /\ in_code_block st' = fence_open (in_code_block st) lines.
Proof.
  induction lines as [|l lines IH]; intros k st;
    cbn [List.length List.seq combine for_fold kept_lines fence_open].
  - exists st. rewrite app_nil_r. repeat split. quiet_ret.
  - destruct (is_fence l) eqn:Ef; destruct (in_code_block st) eqn:Eo.
    + destruct (IH (S k)
                  (CB (result_lines st) false (code_block_start_line st) []))
        as (st' & Hy & Hr & Hi).
      exists st'. repeat split; auto.
      quiet_bind; [|exact Hy]. unfold cb_body. rewrite Ef, Eo. simpl.
      quiet_bind; [apply yields_log; reflexivity|quiet_ret].
    + destruct (IH (S k)
                  (CB (result_lines st ++ ["[CODE BLOCK]"]) true
                     (Z.of_nat k) [l]))
        as (st' & Hy & Hr & Hi).
      exists st'. repeat split; auto.
      * quiet_bind; [|exact Hy]. unfold cb_body. rewrite Ef, Eo. simpl.
        quiet_ret.
      * rewrite Hr. simpl. rewrite <- app_assoc. reflexivity.
    + destruct (IH (S k)
                  (CB (result_lines st) true (code_block_start_line st)
                     (current_code_block st ++ [l])))
        as (st' & Hy & Hr & Hi).
      exists st'. repeat split; auto.
      quiet_bind; [|exact Hy]. unfold cb_body. rewrite Ef, Eo. quiet_ret.
    + destruct (IH (S k)
                  (CB (result_lines st ++ [l]) false
                     (code_block_start_line st) (current_code_block st)))
        as (st' & Hy & Hr & Hi).
      exists st'. repeat split; auto.
      * quiet_bind; [|exact Hy]. unfold cb_body. rewrite Ef, Eo. quiet_ret.
      * rewrite Hr. simpl. rewrite <- app_assoc. reflexivity.
Qed.


Lemma safe_remove_code_blocks_total text :
  exists out, yields anyhow (safe_remove_code_blocks text) out.
Proof.
  unfold safe_remove_code_blocks.
  destruct (cb_loop_spec (Py.split Py.NL text) 0 cb_init)
    as (st & Hy & _ & _).
  exists (Py.join NLs (result_lines st)). intros w.
  destruct (Hy w) as (w1 & E1 & _).
  unfold bind. unfold enumerate. rewrite E1.
  destruct (in_code_block st); simpl; [|eexists; split; [reflexivity|exact I]].
  destruct (current_code_block st); simpl;
    eexists; (split; [reflexivity|exact I]).
Qed.

(** ** The whole conversion *)

Lemma unwrap_value markdown_content w :
  unwrap markdown_content w = Ok (content_of markdown_content) w.
Proof.
  unfold content_of, unwrap.
  destruct (Py.startswith _ markdown_content && Py.mem ":" markdown_content);
    [|reflexivity].
  unfold try_except, bind, index.
  destruct (nth_error (Py.split1 ":" markdown_content) 1); reflexivity.
Qed.

Lemma steps_2_to_16_total text :
  exists out, forall debug, yields quiet (steps_2_to_16 debug text) out.
Proof.
  destruct (inline_code_total text) as (t2 & H2).
  destruct (hash_headers_total t2) as (t3 & H3).
  destruct (underline_headers_total t3) as (t3b & H3b).
  destruct (safe_remove_emphasis_total t3b) as (t4 & H4).
  destruct (reference_links_total t4) as (t5 & H5).
  destruct (links_and_images_total t5) as (t6 & H6).
  destruct (task_lists_total t6) as (t7 & H7).
  destruct (regular_lists_total t7) as (t8 & H8).
  destruct (escaped_characters_total t8) as (t9 & H9).
  destruct (blockquotes_total t9) as (t10 & H10).
  destruct (horizontal_rules_total t10) as (t11 & H11).
  destruct (conservative_remove_tables_total t11) as (t12 & H12).
  destruct (html_tags_total t12) as (t13 & H13).
  destruct (strikethrough_total t13) as (t14 & H14).
  destruct (footnotes_total t14) as (t15 & H15).
  destruct (clean_whitespace_total t15) as (t16 & H16).
  exists t16. intros debug. unfold steps_2_to_16.
  repeat (quiet_bind; [apply step_yields; eassumption|]).
  apply step_yields. assumption.
Qed.

(** The conversion, from the value of the first pass and of the later
    steps: they fix the returned string, and the later steps are quiet. *)
Lemma convert_body_spec (debug : bool) markdown_content w t1 w1 t2 :
  safe_remove_code_blocks (content_of markdown_content)
    (if debug
     then World (logger w)
            (stdout w
             ++ [Out_start (String.length (content_of markdown_content))])
            (stderr w)
     else w) = Ok t1 w1 ->
  yields quiet (steps_2_to_16 debug t1) t2 ->
  exists w', convert_body debug markdown_content w = Ok (Py.strip t2) w'
             /\ quiet w1 w'.
Proof.
  intros H1 H2. unfold convert_body. unfold bind at 1.
  rewrite unwrap_value.
  assert (Hd : forall name a b, yields quiet (debug_step debug name a b) tt).
  { intros. unfold debug_step. destruct debug; [apply yields_print|quiet_ret]. }
  assert (Hs : forall K : string -> M string,
             yields quiet (K t1) (Py.strip t2) ->
             exists w',
               bind (step debug "Step 1 - Code blocks" safe_remove_code_blocks
                       (content_of markdown_content)) K
                 (if debug
                  then World (logger w)
                         (stdout w
                          ++ [Out_start
                                (String.length (content_of markdown_content))])
                         (stderr w)
                  else w)
               = Ok (Py.strip t2) w' /\ quiet w1 w').
  { intros K HK. unfold step. unfold bind at 1. unfold bind at 1.
    rewrite H1. unfold bind at 1.
    destruct (Hd "Step 1 - Code blocks" (content_of markdown_content) t1 w1)
      as (w2 & E2 & Q2).
    rewrite E2. unfold ret at 1.
    destruct (HK w2) as (w3 & E3 & Q3). exists w3.
    split; [exact E3|]. eapply quiet_trans; eauto. }
  assert (HK : forall n, yields quiet
              (text0 <- steps_2_to_16 debug t1 ;;
               (if debug
                then print (Out_final (String.length (Py.strip text0))
                              (Z.of_nat n
                               - Z.of_nat (String.length (Py.strip text0))))
                else ret tt) ;;; ret (Py.strip text0)) (Py.strip t2)).
  { intros n. quiet_bind; [exact H2|]. quiet_bind; [|quiet_ret].
    destruct debug; [apply yields_print|quiet_ret]. }
  destruct debug; unfold bind at 1; [unfold print|unfold ret at 1];
    apply Hs; cbv beta; [apply HK|apply (HK 0)].
Qed.

(** The string a call returns depends on [markdown_content] alone. *)
Lemma convert_value markdown_content :
  exists out, forall debug lg,
    exists w', convert_markdown_to_text markdown_content debug lg
               = Ok out w'.
Proof.
  destruct (safe_remove_code_blocks_total (content_of markdown_content))
    as (t1 & H1).
  destruct (steps_2_to_16_total t1) as (t2 & H2).
  exists (Py.strip t2). intros debug lg.
  unfold convert_markdown_to_text.
  match goal with |- context [convert_body _ _ ?w] => set (w0 := w) end.
  destruct (H1 (if debug
                then World (logger w0)
                       (stdout w0
                        ++ [Out_start
                              (String.length (content_of markdown_content))])
                       (stderr w0)
                else w0)) as (w1 & E1 & _).
  destruct (@convert_body_spec debug markdown_content w0 t1 w1 t2 E1 (H2 debug))
    as (w' & E & _).
  exists w'. exact E.
Qed.



(** ** The fence that is never closed *)


(** A text that ends inside a block has a fence that is never closed. *)
Lemma unclosed_decomposition lines :
  forall open,
    fence_open open lines = true ->
    (open = true /\ no_fence lines = true)
    \/ exists pre f body,
        lines = pre ++ f :: body /\ fence_open open pre = false
        /\ is_fence f = true /\ no_fence body = true.
Proof.
  induction lines as [|l ls IH]; intros open H; cbn [fence_open] in H.
  - left. auto.
  - destruct (IH _ H) as [[Ho Hn]|(pre & f & body & -> & Hp & Hf & Hb)].
    + destruct (is_fence l) eqn:El.
      * right. exists [], l, ls. cbn [app fence_open].
        destruct open; [discriminate|]. auto.
      * left. subst open. cbn [no_fence forallb]. rewrite El.
        split; [reflexivity|exact Hn].
    + right. exists (l :: pre), f, body. cbn [app fence_open]. auto.
Qed.

Lemma open_at_end_unclosed lines :
  fence_open false lines = true ->
  exists pre f body, unclosed lines pre f body.
Proof.
  intros H. destruct (unclosed_decomposition lines false H)
    as [[Ho _]|(pre & f & body & Hd)]; [discriminate|].
  exists pre, f, body. exact Hd.
Qed.


Lemma yields_value F A (x : M A) a w b w' :
  yields F x a -> x w = Ok b w' -> a = b /\ F w w'.
Proof.
  intros H E. destruct (H w) as (w1 & E1 & F1). rewrite E in E1.
  inversion E1; subst. auto.
Qed.




Lemma kept_lines_app l1 :
  forall open l2,
    kept_lines open (l1 ++ l2)
    = kept_lines open l1 ++ kept_lines (fence_open open l1) l2.
Proof.
  induction l1 as [|l l1 IH]; intros open l2; cbn [app kept_lines fence_open].
  - reflexivity.
  - destruct (is_fence l), open; cbn [negb]; rewrite IH; reflexivity.
Qed.

Lemma kept_lines_buffered body :
  no_fence body = true -> kept_lines true body = [].
Proof.
  induction body as [|l body IH]; cbn [no_fence forallb kept_lines]; auto.
  intros H. apply andb_true_iff in H. destruct H as [Hl Hb].
  apply negb_true_iff in Hl. rewrite Hl. apply IH. exact Hb.
Qed.

Lemma safe_remove_code_blocks_kept text w :
  exists w',
    safe_remove_code_blocks text w
    = Ok (Py.join NLs (kept_lines false (Py.split Py.NL text))) w'.
Proof.
  unfold safe_remove_code_blocks.
  destruct (cb_loop_spec (Py.split Py.NL text) 0 cb_init)
    as (st & Hy & Hr & _).
  cbn [cb_init result_lines in_code_block app] in Hr. rewrite <- Hr.
  destruct (Hy w) as (w1 & E1 & _).
  unfold bind. unfold enumerate. rewrite E1.
  destruct (in_code_block st); simpl; [|eexists; reflexivity].
  destruct (current_code_block st); simpl; eexists; reflexivity.
Qed.

(** C10. The first pass returns the lines [kept_lines] keeps, which have
    one line [[CODE BLOCK]] for every fence that opens a block.  On a
    text with a fence that is never closed, they are the lines kept of
    what precedes the fence, followed by the placeholder of the unclosed
    block: the placeholder is in the output, and the buffered lines are
    not. *)
Theorem unclosed_block_leaves_placeholder :
  forall (text : string) (pre : list string) (f : string)
         (body : list string) (w : world),
    unclosed (Py.split Py.NL text) pre f body ->
    kept_lines false (Py.split Py.NL text)
    = kept_lines false pre ++ ["[CODE BLOCK]"]
    /\ exists w',
        safe_remove_code_blocks text w
        = Ok (Py.join NLs (kept_lines false pre ++ ["[CODE BLOCK]"])) w'.
Proof.
  intros text pre f body w Hu.
  assert (E : kept_lines false (Py.split Py.NL text)
              = kept_lines false pre ++ ["[CODE BLOCK]"]).
  { destruct Hu as (Hl & Hpre & Hf & Hb).
    rewrite Hl, kept_lines_app, Hpre. cbn [kept_lines]. rewrite Hf.
    rewrite (kept_lines_buffered _ Hb). reflexivity. }
  split; [exact E|]. rewrite <- E. apply safe_remove_code_blocks_kept.
Qed.

Lemma unclosed_block_leaves_placeholder_witness :
  kept_lines false (Py.split Py.NL ex_unclosed)
  = kept_lines false ["intro"] ++ ["[CODE BLOCK]"]
  /\ exists w',
      safe_remove_code_blocks ex_unclosed (world0 None)
      = Ok (Py.join NLs (kept_lines false ["intro"] ++ ["[CODE BLOCK]"])) w'.
Proof.
  apply (@unclosed_block_leaves_placeholder ex_unclosed ["intro"] "```python"
           ["x = 1"] (world0 None)).
  repeat split; reflexivity.
Defined.

(** ** The table of two lines *)

(** C3, as stated, fails: the call does not return [A | B]. *)
Lemma table_row_not_trimmed_of_pipes :
  returned (convert_markdown_to_text ex_table false (Some (Logger true [])))
  <> Some "A | B".
Proof. vm_compute. discriminate. Qed.

(** C3, amended. For the two lines [| A | B |] and [|---|---|] the call
    returns [| A | B |], the data row with its pipes; the separator line is
    not in the output, and a fresh enabled logger ends with exactly that
    line under [table_separators]. *)
Theorem table_separator_only :
  forall debug : bool,
  exists w',
    convert_markdown_to_text ex_table debug (Some (Logger true []))
    = Ok "| A | B |" w'
    /\ section (sections (logger w')) "table_separators" = ["|---|---|"].
Proof.
  intros debug. destruct debug; vm_compute; eexists; split; reflexivity.
Qed.

(** ** Escapes *)

Lemma escapable_markup b :
  Re.cls_ok (Re.CSet Pat.escapable) b = Py.mem b markup_punctuation.
Proof.
  destruct b as [[] [] [] [] [] [] [] []]; reflexivity.
Qed.

Lemma markup_allowed b :
  Py.mem b markup_punctuation = true ->
  Py.contains (String b "") "`*_{}[]()#+-.!\\" = true.
Proof.
  destruct b as [[] [] [] [] [] [] [] []]; intros H; try reflexivity;
    discriminate H.
Qed.

Lemma succ_sub p : S p - p = 1.
Proof. lia. Qed.

Lemma succ_succ_sub p : S (S p) - p = 2.
Proof. lia. Qed.

(** An attempt of the pattern of the escapes. *)
Lemma try_escape bf p a t :
  Re.try_at false Pat.escape false (Re.Cursor bf p (String a t))
  = match t with
    | String b s' =>
        if Ascii.eqb a Pat.BS && Py.mem b markup_punctuation
        then Some (Re.Mtch p 2 (String a (String b "")) [(1, String b "")])
        else None
    | EmptyString => None
    end.
Proof.
  unfold Re.try_at, Pat.escape. cbn [Re.seq Re.m Re.lit Re.rest Re.pos].
  unfold Re.cls_ok at 1.
  destruct (Ascii.eqb a Pat.BS); cbn [andb]; [|destruct t; reflexivity].
  destruct t as [|b s']; [reflexivity|]. cbn [Re.rest Re.pos].
  rewrite escapable_markup.
  destruct (Py.mem b markup_punctuation); [|reflexivity].
  cbn [andb Re.pos]. rewrite Nat.sub_succ, succ_sub, succ_succ_sub.
  destruct s'; reflexivity.
Qed.

Lemma try_escape_end bf p :
  Re.try_at false Pat.escape false (Re.Cursor bf p "") = None.
Proof. reflexivity. Qed.

(** One round of the loop of step 9. *)
Lemma escape_round n :
  forall text, String.length text <= n ->
  forall bf p,
    yields quiet
      (subst_M replace_escape (Re.scan false Pat.escape 0 bf p text))
      (unescape text).
Proof.
  induction n as [|n IH]; intros text Hn bf p.
  - destruct text; [|simpl in Hn; lia]. simpl. quiet_ret.
  - destruct text as [|a t]; [simpl; quiet_ret|].
    cbn [Re.scan]. rewrite try_escape. cbn [unescape].
    destruct t as [|b s'].
    + cbn [Re.scan subst_M]. rewrite try_escape_end. cbn [subst_M].
      quiet_bind; quiet_ret.
    + destruct (Ascii.eqb a Pat.BS && Py.mem b markup_punctuation) eqn:E.
      * cbn [Re.m_len Re.scan subst_M].
        apply andb_true_iff in E. destruct E as [_ Eb].
        quiet_bind.
        { unfold replace_escape, Re.grp. cbn [Re.m_groups Re.group Nat.eqb].
          rewrite (markup_allowed _ Eb).
          quiet_bind; [apply yields_log; reflexivity|quiet_ret]. }
        quiet_bind; [|quiet_ret].
        apply IH. simpl in Hn. lia.
      * cbn [subst_M]. quiet_bind; [|quiet_ret].
        apply IH. simpl in Hn |- *. lia.
Qed.

Lemma escaped_characters_spec text :
  yields quiet (escaped_characters text) (unescape (unescape text)).
Proof.
  unfold escaped_characters, sub_M, Re.segments. cbn [for_fold].
  quiet_bind; [eapply escape_round; apply le_n|].
  quiet_bind; [eapply escape_round; apply le_n|quiet_ret].
Qed.

(** C8, as stated, fails on its first example: the whole conversion does
    not turn the escaped asterisks into asterisks, because the italic
    pass of step 4 has consumed them before step 9 runs. *)
Lemma escaped_asterisks_lost :
  convert "\*literal\*" = Some "\literal\"
  /\ convert "\*literal\*" <> Some "*literal*".
Proof. split; vm_compute; [reflexivity|discriminate]. Qed.

(** C8, amended. The escape pass on its own, which is two rounds of
    [unescape], turns [\*literal\*] into [*literal*] and leaves [\q]; a
    round drops the backslash before a character of the markup
    punctuation and leaves every other one.  The whole conversion leaves
    [\q] as it is. *)
Theorem escape_resolution :
  (forall text, yields quiet (escaped_characters text)
                  (unescape (unescape text)))
  /\ unescape (unescape "\*literal\*") = "*literal*"
  /\ unescape (unescape "\q") = "\q"
  /\ (forall b s,
        unescape (String Pat.BS (String b s))
        = if Py.mem b markup_punctuation then String b (unescape s)
          else String Pat.BS (unescape (String b s)))
  /\ convert "\q" = Some "\q".
Proof.
  split; [exact escaped_characters_spec|].
  split; [reflexivity|]. split; [reflexivity|].
  split; [|vm_compute; reflexivity].
  intros b s. cbn [unescape]. rewrite Ascii.eqb_refl. reflexivity.
Qed.

(** ** Greedy runs over one class of characters *)

Module Runs.
Import Re.

Lemma pos_eat f s : forall bf p, p <= pos (eat f bf p s).
Proof.
  induction s as [|a s IH]; intros bf p; simpl; auto.
  destruct (f a); simpl; auto. specialize (IH (Some a) (S p)). lia.
Qed.

Lemma pos_eat_length f s :
  forall bf p, pos (eat f bf p s) = p + String.length (take_while f s).
Proof.
  induction s as [|a s IH]; intros bf p; simpl; auto.
  destruct (f a); simpl; [rewrite IH|]; lia.
Qed.

Lemma rest_eat f s : forall bf p, rest (eat f bf p s) = drop_while f s.
Proof.
  induction s as [|a s IH]; intros bf p; simpl; auto.
  destruct (f a); simpl; auto.
Qed.

Lemma length_drop_while f s :
  String.length (drop_while f s) <= String.length s.
Proof.
  induction s as [|a s IH]; simpl; auto. destruct (f a); simpl; lia.
Qed.

Lemma take_drop_while f s : (take_while f s ++ drop_while f s)%string = s.
Proof.
  induction s as [|a s IH]; simpl; auto.
  destruct (f a); simpl; congruence.
Qed.

(** [drop_while] stops at the end or at a character that fails [f]. *)
Lemma drop_while_head f s a t : drop_while f s = String a t -> f a = false.
Proof.
  induction s as [|b s IH]; simpl; [discriminate|].
  destruct (f b) eqn:E; auto. intros H. inversion H; subst. exact E.
Qed.

Lemma rep_loop_greedy body lo k n i c g :
  rep_loop body true lo k (S n) i c g
  = match body (fun c' g' =>
             if pos c <? pos c' then rep_loop body true lo k n (S i) c' g'
             else None) c g
    with
    | Some x => Some x
    | None => if lo <=? i then k c g else None
    end.
Proof. reflexivity. Qed.

Lemma rep_loop_lazy body lo k n i c g :
  rep_loop body false lo k (S n) i c g
  = match (if lo <=? i then k c g else None) with
    | Some x => Some x
    | None =>
        body (fun c' g' =>
          if pos c <? pos c' then rep_loop body false lo k n (S i) c' g'
          else None) c g
    end.
Proof. reflexivity. Qed.

Lemma rep_loop_end body greedy lo k i c g :
  rep_loop body greedy lo k 0 i c g = if lo <=? i then k c g else None.
Proof. reflexivity. Qed.

Lemma m_one ml cl k bf p a s g :
  m ml (One cl) k (Cursor bf p (String a s)) g
  = if cls_ok cl a then k (Cursor (Some a) (S p) s) g else None.
Proof. reflexivity. Qed.

Lemma m_one_end ml cl k bf p g :
  m ml (One cl) k (Cursor bf p "") g = None.
Proof. reflexivity. Qed.

Lemma m_seq ml r1 r2 k c g :
  m ml (Seq r1 r2) k c g = m ml r1 (m ml r2 k) c g.
Proof. reflexivity. Qed.

Lemma m_rep ml greedy lo hi r k c g :
  m ml (Rep greedy lo hi r) k c g
  = rep_loop (m ml r) greedy lo k
      (match hi with Some h => h | None => String.length (rest c) end) 0 c g.
Proof. reflexivity. Qed.

Lemma ltb_succ p q : p <= q -> (p <? S q) = true.
Proof. intros H. apply Nat.ltb_lt. lia. Qed.

(** A greedy repetition of one class takes the longest run when the
    continuation accepts the position after it. *)
Lemma greedy_run ml cl lo k s :
  forall n i bf p g x,
    String.length s <= n ->
    lo <= i + String.length (take_while (cls_ok cl) s) ->
    k (eat (cls_ok cl) bf p s) g = Some x ->
    rep_loop (m ml (One cl)) true lo k n i (Cursor bf p s) g = Some x.
Proof.
  induction s as [|a s IH]; intros n i bf p g x Hn Hlo Hk.
  - simpl in Hlo, Hk.
    assert (E : (lo <=? i) = true) by (apply Nat.leb_le; lia).
    destruct n; [rewrite rep_loop_end|rewrite rep_loop_greedy, m_one_end];
      rewrite E; exact Hk.
  - destruct n as [|n]; [simpl in Hn; lia|].
    rewrite rep_loop_greedy, m_one. simpl in Hlo, Hk.
    destruct (cls_ok cl a) eqn:Ea.
    + cbn [pos]. rewrite ltb_succ by lia.
      rewrite (IH n (S i) (Some a) (S p) g x); auto.
      * simpl in Hn. lia.
      * simpl in Hlo. lia.
    + assert (E : (lo <=? i) = true) by (apply Nat.leb_le; simpl in Hlo; lia).
      rewrite E. exact Hk.
Qed.

Lemma eat_ext f f' s :
  (forall a, f a = f' a) -> forall bf p, eat f bf p s = eat f' bf p s.
Proof.
  intros H. induction s as [|a s IH]; intros bf p; simpl; auto.
  rewrite H. destruct (f' a); auto.
Qed.

Lemma take_while_ext f f' s :
  (forall a, f a = f' a) -> take_while f s = take_while f' s.
Proof.
  intros H. induction s as [|a s IH]; simpl; auto.
  rewrite H, IH. reflexivity.
Qed.

Lemma cls_ws a : cls_ok (CSet [ISpace]) a = Py.is_space a.
Proof. simpl. apply orb_false_r. Qed.

(** [\s*], greedy, before a continuation that accepts after the run. *)
Lemma greedy_ws ml k s n bf p g x :
  String.length s <= n ->
  k (eat Py.is_space bf p s) g = Some x ->
  rep_loop (m ml ws) true 0 k n 0 (Cursor bf p s) g = Some x.
Proof.
  intros Hn Hk. apply greedy_run; auto; [lia|].
  rewrite (@eat_ext _ _ s cls_ws). exact Hk.
Qed.

(** Eating a larger class after a smaller one. *)
Lemma eat_eat f f' s :
  (forall a, f a = true -> f' a = true) ->
  forall bf p,
    eat f' (before (eat f bf p s)) (pos (eat f bf p s)) (rest (eat f bf p s))
    = eat f' bf p s.
Proof.
  intros H. induction s as [|a s IH]; intros bf p; simpl; auto.
  destruct (f a) eqn:E; simpl.
  - rewrite (H a E). apply IH.
  - reflexivity.
Qed.

End Runs.

(** ** The blockquote pass *)

Module Quote.
Import Re ReFacts Runs Pat.

Lemma quote_chr_space a : Py.is_space a = true -> quote_chr a = true.
Proof. intros H. unfold quote_chr. rewrite H. reflexivity. Qed.

Lemma gt_not_space : Py.is_space ">" = false.
Proof. reflexivity. Qed.

(** The loop of [(?:>\s* )+], entered at a character that is not white
    space: it runs to the end of the markers. *)
Lemma marker_loop n :
  forall s, String.length s <= n ->
  forall n' i bf p g,
    String.length s <= n' ->
    (forall a t, s = String a t -> Py.is_space a = false) ->
    (1 <= i \/ exists t, s = String ">" t) ->
    rep_loop (m false (Seq (lit ">") (star ws))) true 1 accept n' i
      (Cursor bf p s) g
    = Some (eat quote_chr bf p s, g).
Proof.
  induction n as [|n IH]; intros s Hn n' i bf p g Hn' Hsp Hi.
  - destruct s; [|simpl in Hn; lia].
    destruct Hi as [Hi|(t & E)]; [|discriminate].
    assert (E : (1 <=? i) = true) by (apply Nat.leb_le; lia).
    destruct n'; [rewrite rep_loop_end|rewrite rep_loop_greedy];
      try rewrite m_seq; try (unfold lit; rewrite m_one_end);
      rewrite E; reflexivity.
  - destruct s as [|a s].
    { destruct Hi as [Hi|(t & E)]; [|discriminate].
      assert (E : (1 <=? i) = true) by (apply Nat.leb_le; lia).
      destruct n'; [rewrite rep_loop_end|rewrite rep_loop_greedy];
        try rewrite m_seq; try (unfold lit; rewrite m_one_end);
        rewrite E; reflexivity. }
    destruct (Ascii.eqb_spec a ">") as [->|Ha].
    + destruct n' as [|n']; [simpl in Hn'; lia|].
      rewrite rep_loop_greedy. rewrite m_seq.
      unfold lit at 1. rewrite m_one. cbn [cls_ok]. rewrite Ascii.eqb_refl.
      unfold star. rewrite m_rep. cbn [rest].
      rewrite (@greedy_ws false _ s (String.length s) (Some ">"%char) (S p) g
                 (eat quote_chr bf p (String ">" s), g)); auto.
      cbn [pos].
      assert (Elt : (p <? pos (eat Py.is_space (Some ">"%char) (S p) s))
                    = true).
      { apply Nat.ltb_lt.
        pose proof (pos_eat Py.is_space s (Some ">"%char) (S p)). lia. }
      rewrite Elt.
      destruct (eat Py.is_space (Some ">"%char) (S p) s) as [bf1 p1 s1] eqn:E1.
      rewrite (IH s1); auto.
      * pose proof (@eat_eat Py.is_space quote_chr s quote_chr_space
                      (Some ">"%char) (S p)) as E2.
        rewrite E1 in E2. cbn [before pos rest] in E2. rewrite E2.
        reflexivity.
      * pose proof (rest_eat Py.is_space s (Some ">"%char) (S p)) as E2.
        rewrite E1 in E2. cbn [rest] in E2. rewrite E2.
        pose proof (length_drop_while Py.is_space s). simpl in Hn. lia.
      * pose proof (rest_eat Py.is_space s (Some ">"%char) (S p)) as E2.
        rewrite E1 in E2. cbn [rest] in E2. rewrite E2.
        pose proof (length_drop_while Py.is_space s). simpl in Hn'. lia.
      * pose proof (rest_eat Py.is_space s (Some ">"%char) (S p)) as E2.
        rewrite E1 in E2. cbn [rest] in E2. intros a t Es.
        rewrite Es in E2. symmetry in E2.
        apply (drop_while_head _ _ E2).
      * left. lia.
    + destruct Hi as [Hi|(t & E)]; [|congruence].
      assert (E : (1 <=? i) = true) by (apply Nat.leb_le; lia).
      assert (Eq : eat quote_chr bf p (String a s) = Cursor bf p (String a s)).
      { simpl. unfold quote_chr. rewrite (Hsp a s eq_refl).
        destruct (Ascii.eqb_spec a ">"); [contradiction|reflexivity]. }
      rewrite Eq.
      destruct n'; [rewrite rep_loop_end|rewrite rep_loop_greedy];
        try rewrite m_seq; try (unfold lit; rewrite m_one);
        cbn [cls_ok];
        try (destruct (Ascii.eqb_spec a ">"); [contradiction|]);
        rewrite E; reflexivity.
Qed.

Lemma first_marker line :
  Py.mem ">" (take_while quote_chr line) = true ->
  exists t, drop_while Py.is_space line = String ">" t.
Proof.
  induction line as [|a s IH]; cbn [take_while drop_while Py.mem];
    [discriminate|].
  unfold quote_chr at 1.
  destruct (Py.is_space a) eqn:Es; cbn [orb Py.mem].
  - destruct (Ascii.eqb_spec ">" a) as [<-|_]; [discriminate Es|]. exact IH.
  - destruct (Ascii.eqb_spec a ">") as [->|_]; cbn [Py.mem];
      [eauto|discriminate].
Qed.

Lemma marker_after_space v t :
  all_chr Py.is_space v = true ->
  Py.mem ">" (take_while quote_chr (v ++ String ">" t)) = true.
Proof.
  induction v as [|a v IH]; cbn [all_chr append take_while]; intros H.
  - reflexivity.
  - apply andb_true_iff in H. destruct H as [Ha Hv].
    rewrite (quote_chr_space _ Ha). cbn [Py.mem]. rewrite (IH Hv).
    apply orb_true_r.
Qed.

Lemma all_chr_ext f f' s :
  (forall a, f a = f' a) -> all_chr f s = all_chr f' s.
Proof.
  intros H. induction s as [|a s IH]; simpl; auto. rewrite H, IH. auto.
Qed.

(** The attempt of [quote_prefix] at the start of a line. *)
Lemma try_quote_prefix line :
  try_at false quote_prefix false (Cursor None 0 line)
  = if Py.mem ">" (take_while quote_chr line)
    then Some (Mtch 0 (String.length (take_while quote_chr line))
                 (substring 0 (String.length (take_while quote_chr line)) line)
                 [])
    else None.
Proof.
  destruct (Py.mem ">" (take_while quote_chr line)) eqn:E.
  - destruct (first_marker line E) as (t & Et).
    assert (Hm : m false quote_prefix accept (Cursor None 0 line) []
                 = Some (eat quote_chr None 0 line, [])).
    { unfold quote_prefix. cbn [seq]. rewrite m_seq.
      cbn [m at_bol before]. unfold star at 1. rewrite m_rep. cbn [rest].
      apply greedy_ws; auto.
      unfold plus. rewrite m_rep.
      destruct (eat Py.is_space None 0 line) as [bf1 p1 s1] eqn:E1.
      pose proof (rest_eat Py.is_space line None 0) as Er.
      rewrite E1 in Er. cbn [rest] in Er. cbn [rest].
      change marker with (Seq (lit ">") (star ws)).
      rewrite (@marker_loop (String.length s1) s1 (le_n _)); auto.
      - pose proof (@eat_eat Py.is_space quote_chr line quote_chr_space
                      None 0) as E2.
        rewrite E1 in E2. cbn [before pos rest] in E2. rewrite E2.
        reflexivity.
      - intros a t' Es. rewrite Es in Er. symmetry in Er.
        apply (drop_while_head _ _ Er).
      - right. exists t. congruence. }
    unfold try_at. cbn [andb]. change (fun c' g => Some (c', g)) with accept.
    rewrite Hm. cbn [pos rest]. rewrite pos_eat_length.
    rewrite Nat.add_0_l, Nat.sub_0_r. reflexivity.
  - apply try_at_none. intros c' H.
    unfold quote_prefix in H. cbn [seq matches] in H.
    destruct H as (c1 & [_ ->] & c2 & (j & _ & _ & Hws) & (j' & Hj' & _ & Hq)).
    apply iter_class in Hws. destruct Hws as (v & [Ev _] & _ & Av).
    destruct j' as [|j']; [lia|]. cbn [iter] in Hq.
    destruct Hq as (c3 & Hmk & _).
    unfold marker in Hmk. cbn [seq matches] in Hmk.
    destruct Hmk as (c4 & (a & Ha & (t & Et & _)) & _).
    cbn [cls_ok] in Ha. apply Ascii.eqb_eq in Ha. subst a.
    cbn [rest] in Ev. rewrite Et in Ev. rewrite Ev in E.
    rewrite marker_after_space in E; [discriminate|].
    rewrite <- Av. apply all_chr_ext. intros a. symmetry. apply cls_ws.
Qed.

(** A pattern that begins with [^], without [re.MULTILINE], matches
    nowhere after the first character. *)
Lemma anchored_rest r repl s :
  forall n a p,
    subst repl (scan false (Seq Bol r) n (Some a) p s) = Py.slice_from n s
    /\ hits (scan false (Seq Bol r) n (Some a) p s) = [].
Proof.
  induction s as [|b s IH]; intros n a p.
  - destruct n; simpl; auto.
  - destruct n as [|n].
    + cbn [scan]. change (try_at false (Seq Bol r) false
                            (Cursor (Some a) p (String b s))) with (@None mtch).
      cbn [subst hits Py.slice_from].
      destruct (IH 0 b (S p)) as [E1 E2]. rewrite E1, E2.
      split; [destruct s|]; reflexivity.
    + cbn [scan Py.slice_from]. apply IH.
Qed.

Lemma slice_from_take_while f s :
  Py.slice_from (String.length (take_while f s)) s = drop_while f s.
Proof.
  induction s as [|a s IH]; simpl; auto. destruct (f a); simpl; auto.
Qed.

(** [re.sub] of the prefix. *)
Lemma sub_quote_prefix repl line :
  sub false quote_prefix repl line
  = if Py.mem ">" (take_while quote_chr line)
    then (repl (Mtch 0 (String.length (take_while quote_chr line))
                  (substring 0 (String.length (take_while quote_chr line))
                     line) [])
          ++ drop_while quote_chr line)%string
    else line.
Proof.
  unfold sub, segments. destruct line as [|a s].
  - reflexivity.
  - cbn [scan]. rewrite try_quote_prefix.
    destruct (Py.mem ">" (take_while quote_chr (String a s))) eqn:E.
    + cbn [m_len].
      destruct (String.length (take_while quote_chr (String a s)))
        as [|n] eqn:El.
      { destruct (take_while quote_chr (String a s)); discriminate. }
      cbn [subst]. f_equal. unfold quote_prefix. cbn [seq].
      destruct (@anchored_rest (Seq (star ws) (plus marker)) repl s n a 1)
        as [E1 _].
      rewrite E1, <- slice_from_take_while, El. reflexivity.
    + cbn [subst]. unfold quote_prefix. cbn [seq].
      destruct (@anchored_rest (Seq (star ws) (plus marker)) repl s 0 a 1)
        as [E1 _].
      rewrite E1. reflexivity.
Qed.

(** [len(re.findall(r'>', line))] *)
Lemma count_gt line :
  forall bf p,
    List.length (hits (scan false gt 0 bf p line)) = count_chr ">" line.
Proof.
  induction line as [|a s IH]; intros bf p.
  - reflexivity.
  - cbn [scan count_chr]. unfold try_at, gt, lit. rewrite m_one.
    cbn [cls_ok]. destruct (Ascii.eqb a ">").
    + cbn [andb pos m_len]. rewrite succ_sub. cbn [hits List.length].
      rewrite IH. reflexivity.
    + cbn [hits]. rewrite IH. reflexivity.
Qed.

Lemma lstrip_spaces k t : Py.lstrip (Py.repeat_chr " " k ++ t) = Py.lstrip t.
Proof. induction k as [|k IH]; simpl; auto. Qed.

Lemma lstrip_quoted line :
  Py.lstrip (drop_while quote_chr line) = drop_while quote_chr line.
Proof.
  destruct (drop_while quote_chr line) as [|a t] eqn:E; [reflexivity|].
  apply drop_while_head in E. unfold quote_chr in E.
  apply orb_false_iff in E. destruct E as [E _]. simpl. rewrite E. reflexivity.
Qed.

Lemma substring_prefix a b :
  substring 0 (String.length a) (a ++ b) = a.
Proof.
  induction a as [|c a IH]; simpl.
  - destruct b; reflexivity.
  - rewrite IH. reflexivity.
Qed.

Lemma mem_all_chr f c s :
  Py.mem c s = true -> all_chr f s = true -> f c = true.
Proof.
  induction s as [|a s IH]; simpl; [discriminate|].
  intros H A. apply andb_true_iff in A. destruct A as [Fa A].
  destruct (Ascii.eqb_spec c a) as [->|_]; auto.
Qed.

Lemma all_space_repeat k : all_chr Py.is_space (Py.repeat_chr " " k) = true.
Proof. induction k; simpl; auto. Qed.

Lemma all_chr_space s : all_chr Py.is_space s = all_space s.
Proof. induction s as [|a s IH]; simpl; congruence. Qed.

Lemma all_chr_app f s t : all_chr f (s ++ t) = all_chr f s && all_chr f t.
Proof.
  induction s as [|a s IH]; simpl; auto. rewrite IH, andb_assoc. auto.
Qed.

Lemma all_chr_take_while f s : all_chr f (take_while f s) = true.
Proof.
  induction s as [|a s IH]; simpl; auto.
  destruct (f a) eqn:E; simpl; auto. rewrite E. auto.
Qed.

(** A string with a [>] is not blank, and is no run of blanks. *)
Lemma marker_not_blank s :
  Py.mem ">" s = true -> Py.strip s <> "".
Proof.
  intros H E. apply PyFacts.strip_empty_iff in E.
  rewrite <- all_chr_space in E.
  pose proof (mem_all_chr _ _ _ H E) as Hs. discriminate Hs.
Qed.

Lemma app_inv_tail_length (a b t : string) :
  (a ++ t)%string = (b ++ t)%string -> String.length a = String.length b.
Proof.
  intros H. apply (f_equal String.length) in H.
  rewrite !append_length in H. lia.
Qed.

Lemma app_inv_head_length (a b t u : string) :
  (a ++ t)%string = (b ++ u)%string -> String.length a = String.length b ->
  a = b.
Proof.
  revert b. induction a as [|c a IH]; intros [|d b] H L; simpl in *;
    try discriminate; auto.
  inversion H; subst. f_equal. apply IH; auto.
Qed.

Lemma slice_to_prefix a b :
  Py.slice_to (Z.of_nat (String.length (a ++ b)) - Z.of_nat (String.length b))
    (a ++ b) = a.
Proof.
  unfold Py.slice_to. rewrite append_length.
  replace (Z.of_nat (String.length a + String.length b)
           - Z.of_nat (String.length b))%Z
    with (Z.of_nat (String.length a)) by lia.
  destruct (Z.ltb_spec (Z.of_nat (String.length a)) 0); [lia|].
  rewrite Nat2Z.id. apply substring_prefix.
Qed.

(** The body of the loop of step 10, on any line. *)
Lemma blockquote_line_spec line w :
  blockquote_line line w
  = if Py.mem ">" (take_while quote_chr line)
    then Ok (Py.repeat_chr " " (count_chr ">" line + 1)
             ++ drop_while quote_chr line)%string
           (World (logger_log (logger w) "blockquotes"
                     (take_while quote_chr line))
              (stdout w) (stderr w))
    else Ok line w.
Proof.
  unfold blockquote_line. rewrite sub_quote_prefix.
  unfold finditer, segments. rewrite count_gt.
  destruct (Py.mem ">" (take_while quote_chr line)) eqn:E.
  - pose proof (take_drop_while quote_chr line) as Hl.
    set (lead := take_while quote_chr line) in *.
    set (text := drop_while quote_chr line) in *.
    set (sp := Py.repeat_chr " " (count_chr ">" line + 1)).
    destruct (String.eqb_spec line (sp ++ text)) as [Eq|_].
    + exfalso. rewrite <- Hl in Eq at 1.
      pose proof (app_inv_tail_length _ _ _ Eq) as L.
      pose proof (app_inv_head_length _ _ _ _ Eq L) as El.
      pose proof (all_space_repeat (count_chr ">" line + 1)) as A.
      fold sp in A. rewrite <- El in A.
      pose proof (mem_all_chr _ _ _ E A) as Hs. discriminate Hs.
    + cbn [negb]. unfold bind, log, ret. do 3 f_equal.
      unfold sp. rewrite lstrip_spaces. unfold text. rewrite lstrip_quoted.
      change (drop_while quote_chr line) with text. rewrite <- Hl.
      apply slice_to_prefix.
  - rewrite String.eqb_refl. reflexivity.
Qed.

End Quote.

(** C5, as stated, fails: on the line [> a > b] the number of spaces is
    three, one more than the two [>] of the whole line, and not two, one
    more than the single leading marker. *)
Lemma blockquote_counts_every_gt :
  returned (blockquote_line "> a > b" (world0 None)) = Some "   a > b"
  /\ returned (blockquote_line "> a > b" (world0 None))
     <> Some (Py.repeat_chr " " (count_chr ">" (quote_markers "> a > b") + 1)
              ++ quoted_text "> a > b")%string.
Proof. split; vm_compute; [reflexivity|discriminate]. Qed.

(** C5, amended. Every line is its leading markers followed by its text.
    When it has no leading marker the pass returns it as it is and logs
    nothing.  When it has, the pass replaces the markers by spaces, one
    more than the number of [>] in the whole line, and passes exactly the
    markers to the logger under [blockquotes], which an enabled logger
    records. *)
Theorem blockquote_pass :
  forall (line : string) (w : world),
    line = (quote_markers line ++ quoted_text line)%string
    /\ (quote_markers line = "" -> blockquote_line line w = Ok line w)
    /\ (quote_markers line <> "" ->
        blockquote_line line w
        = Ok (Py.repeat_chr " " (count_chr ">" line + 1)
              ++ quoted_text line)%string
            (World (logger_log (logger w) "blockquotes" (quote_markers line))
               (stdout w) (stderr w))
        /\ (enabled (logger w) = true ->
            logger_log (logger w) "blockquotes" (quote_markers line)
            = Logger true
                (sections_append "blockquotes" (quote_markers line)
                   (sections (logger w))))).
Proof.
  intros line w. rewrite Quote.blockquote_line_spec.
  unfold quote_markers, quoted_text.
  destruct (Py.mem ">" (take_while quote_chr line)) eqn:E.
  - split; [symmetry; apply Runs.take_drop_while|].
    split.
    + intros H. rewrite H in E. discriminate.
    + intros _. split; [reflexivity|].
      intros He. unfold logger_log. rewrite He.
      destruct (String.eqb_spec (Py.strip (take_while quote_chr line)) "")
        as [Es|_]; [|reflexivity].
      exfalso. revert Es. apply Quote.marker_not_blank. exact E.
  - split; [reflexivity|]. split; [reflexivity|].
    intros H. contradiction H. reflexivity.
Qed.

(** ** Horizontal rules *)

Module Rule.
Import Re ReFacts Runs Pat.





Lemma some_chr_app f s t : some_chr f (s ++ t) = some_chr f s || some_chr f t.
Proof.
  induction s as [|a s IH]; simpl; auto. rewrite IH, orb_assoc. auto.
Qed.


(** A run of characters of one class is matched by the repetition. *)
Lemma run_matches ml cl :
  forall v c s,
    rest c = (v ++ s)%string -> all_chr (cls_ok cl) v = true ->
    exists c', iter (matches ml (One cl)) (String.length v) c c'
               /\ rest c' = s /\ pos c' = pos c + String.length v.
Proof.
  induction v as [|a v IH]; intros c s E A.
  - exists c. simpl. repeat split; auto.
  - simpl in A. apply andb_true_iff in A. destruct A as [Ha Av].
    destruct (IH (Cursor (Some a) (S (pos c)) (v ++ s)) s eq_refl Av)
      as (c' & Hit & Er & Ep).
    exists c'. split; [|split; auto].
    + cbn [String.length iter].
      exists (Cursor (Some a) (S (pos c)) (v ++ s)). split; [|split].
      * cbn [matches]. exists a. split; auto. exists (v ++ s)%string. auto.
      * simpl. lia.
      * exact Hit.
    + rewrite Ep. simpl. lia.
Qed.


Lemma space_class v :
  all_chr Py.is_space v = true -> all_chr (cls_ok (CSet [ISpace])) v = true.
Proof.
  intros H. rewrite <- H. apply Quote.all_chr_ext. apply cls_ws.
Qed.





End Rule.




(** ** The cap of the inline constructs *)

Module Cap.
Import Re ReFacts Pat.

Lemma mem_app c s t : Py.mem c (s ++ t) = Py.mem c s || Py.mem c t.
Proof.
  induction s as [|a s IH]; simpl; auto. rewrite IH, orb_assoc. auto.
Qed.







Lemma reach_split c0 c :
  reach c0 c -> exists pre, rest c0 = (pre ++ rest c)%string.
Proof.
  induction 1 as [|c0 a c1 c' Hn _ (pre & E)].
  - exists "". reflexivity.
  - destruct Hn as (s' & E0 & ->). cbn [rest] in E.
    exists (String a pre). rewrite E0, E. reflexivity.
Qed.





(** *** Spans between two equal delimiters *)






(** *** Constructs in brackets *)












End Cap.





(** ** Text without markup *)

Module Clean.
Import Re ReFacts.

Lemma in_all_ascii a : In a all_ascii.
Proof.
  unfold all_ascii. rewrite <- (ascii_nat_embedding a).
  apply in_map. apply in_seq. pose proof (nat_ascii_bounded a). lia.
Qed.

Lemma iter_needs (R : cursor -> cursor -> Prop) f :
  (forall c c', R c c' -> exists v, between c v c' /\ some_chr f v = true) ->
  forall j c c', 1 <= j -> iter R j c c' ->
    exists v, between c v c' /\ some_chr f v = true.
Proof.
  intros HR j c c' Hj H. destruct j as [|j]; [lia|]. cbn [iter] in H.
  destruct H as (c1 & H1 & _ & H2).
  apply HR in H1. destruct H1 as (v1 & B1 & S1).
  assert (G : forall j c1 c', iter R j c1 c' -> exists v, between c1 v c').
  { clear - HR. induction j as [|j IH]; cbn [iter]; intros c1 c' H.
    - subst. exists "". apply between_refl.
    - destruct H as (c2 & H1 & _ & H2). apply HR in H1.
      destruct H1 as (v1 & B1 & _). apply IH in H2. destruct H2 as (v2 & B2).
      eexists. eapply between_trans; eauto. }
  apply G in H2. destruct H2 as (v2 & B2).
  exists (v1 ++ v2)%string. split; [eapply between_trans; eauto|].
  rewrite Rule.some_chr_app, S1. reflexivity.
Qed.

(** A match of a pattern that needs [f] has a character that satisfies
    it. *)
Lemma needs_sound ml f r :
  needs f r = true ->
  forall c c', matches ml r c c' ->
    exists v, between c v c' /\ some_chr f v = true.
Proof.
  induction r as [|cl| | |r1 IH1 r2 IH2|greedy lo hi r1 IH|i r1 IH|a|a];
    cbn [needs]; intros Hn c c' H; try discriminate.
  - cbn [matches] in H. destruct H as (a & Ha & Hx).
    exists (String a ""). split; [apply next_between; exact Hx|].
    rewrite forallb_forall in Hn. specialize (Hn a (in_all_ascii a)).
    rewrite Ha in Hn. simpl in Hn. simpl. rewrite Hn. reflexivity.
  - cbn [matches] in H. destruct H as (c1 & H1 & H2).
    apply orb_true_iff in Hn. destruct Hn as [Hn|Hn].
    + destruct (IH1 Hn _ _ H1) as (v1 & B1 & S1).
      destruct (matches_between _ _ _ _ H2) as (v2 & B2).
      exists (v1 ++ v2)%string. split; [eapply between_trans; eauto|].
      rewrite Rule.some_chr_app, S1. reflexivity.
    + destruct (matches_between _ _ _ _ H1) as (v1 & B1).
      destruct (IH2 Hn _ _ H2) as (v2 & B2 & S2).
      exists (v1 ++ v2)%string. split; [eapply between_trans; eauto|].
      rewrite Rule.some_chr_app, S2. apply orb_true_r.
  - apply andb_true_iff in Hn. destruct Hn as [Hlo Hn].
    apply Nat.leb_le in Hlo.
    cbn [matches] in H. destruct H as (j & Hj & _ & H).
    apply (@iter_needs (matches ml r1) f (IH Hn) j c c'); [lia|exact H].
  - cbn [matches] in H. apply (IH Hn _ _ H).
Qed.

Lemma all_none f v : all_chr (fun a => negb (f a)) v = true -> some_chr f v = false.
Proof.
  induction v as [|a v IH]; simpl; auto. intros H.
  apply andb_true_iff in H. destruct H as [Ha Hv].
  apply negb_true_iff in Ha. rewrite Ha, (IH Hv). reflexivity.
Qed.

(** A pattern that needs a markup character finds nothing in a plain
    text. *)
Lemma plain_untouched ml r s :
  needs markup r = true -> plain s = true ->
  finditer ml r s = [] /\ (forall repl, sub ml r repl s = s)
  /\ rmatch ml r s = None.
Proof.
  intros Hn Hs. apply nothing_matches. intros c c' Hr Hm.
  apply Cap.reach_split in Hr. destruct Hr as (pre & E).
  destruct (needs_sound ml _ _ Hn _ _ Hm) as (v & [Ev _] & Sv).
  cbn [start rest] in E. rewrite Ev in E. unfold plain in Hs.
  rewrite E, !Quote.all_chr_app in Hs.
  apply andb_true_iff in Hs. destruct Hs as [_ Hs].
  apply andb_true_iff in Hs. destruct Hs as [Hv _].
  rewrite (all_none _ _ Hv) in Sv. discriminate.
Qed.

(** *** Lines *)

Lemma join_cons x l :
  Py.join NLs (x :: l)
  = match l with [] => x | _ :: _ => (x ++ NLs ++ Py.join NLs l)%string end.
Proof. destruct l; reflexivity. Qed.

Lemma split_aux_nonempty sep s cur : Py.split_aux sep s cur <> [].
Proof.
  revert cur. induction s as [|a s IH]; intros cur; simpl; [discriminate|].
  destruct (Ascii.eqb a sep); [discriminate|apply IH].
Qed.

Lemma join_split_aux s :
  forall cur,
    Py.join NLs (Py.split_aux Py.NL s cur) = (Py.rev cur ++ s)%string.
Proof.
  induction s as [|a s IH]; intros cur; cbn [Py.split_aux].
  - rewrite append_nil_r. reflexivity.
  - destruct (Ascii.eqb_spec a Py.NL) as [->|Ha].
    + rewrite join_cons.
      destruct (Py.split_aux Py.NL s "") eqn:E.
      * exfalso. revert E. apply split_aux_nonempty.
      * rewrite <- E, IH. reflexivity.
    + rewrite IH, PyFacts.rev_cons, append_assoc. reflexivity.
Qed.

(** [chr(10).join(s.split(chr(10)))] is [s]. *)
Lemma join_split s : Py.join NLs (Py.split Py.NL s) = s.
Proof. unfold Py.split. apply join_split_aux. Qed.

Lemma all_chr_rev f s : all_chr f (Py.rev s) = all_chr f s.
Proof.
  induction s as [|a s IH]; auto.
  rewrite PyFacts.rev_cons, Quote.all_chr_app, IH. simpl.
  rewrite andb_true_r, andb_comm. reflexivity.
Qed.

Lemma all_chr_split_aux f s :
  forall cur,
    all_chr f cur = true -> all_chr f s = true ->
    Forall (fun l => all_chr f l = true) (Py.split_aux Py.NL s cur).
Proof.
  induction s as [|a s IH]; intros cur Hc Hs; cbn [Py.split_aux].
  - constructor; [rewrite all_chr_rev; exact Hc|constructor].
  - simpl in Hs. apply andb_true_iff in Hs. destruct Hs as [Ha Hs].
    destruct (Ascii.eqb a Py.NL).
    + constructor; [rewrite all_chr_rev; exact Hc|].
      apply IH; auto.
    + apply IH; auto. simpl. rewrite Ha, Hc. reflexivity.
Qed.

(** The lines of a text have only characters of the text. *)
Lemma all_chr_split f s :
  all_chr f s = true -> Forall (fun l => all_chr f l = true) (Py.split Py.NL s).
Proof. intros H. apply all_chr_split_aux; auto. Qed.

Lemma all_chr_lstrip f s : all_chr f s = true -> all_chr f (Py.lstrip s) = true.
Proof.
  induction s as [|a s IH]; simpl; auto. intros H.
  destruct (Py.is_space a); [|exact H].
  apply andb_true_iff in H. destruct H as [_ H]. auto.
Qed.

Lemma all_chr_strip f s : all_chr f s = true -> all_chr f (Py.strip s) = true.
Proof.
  intros H. unfold Py.strip, Py.rstrip.
  rewrite all_chr_rev. apply all_chr_lstrip.
  rewrite all_chr_rev. apply all_chr_lstrip. exact H.
Qed.

(** *** The passes on a plain text *)

Lemma log_and_sub_plain ml r_find step_name fmt r_sub repl text w :
  needs markup r_find = true -> needs markup r_sub = true ->
  plain text = true ->
  log_and_sub ml r_find step_name fmt r_sub repl text w = Ok text w.
Proof.
  intros H1 H2 Hp. unfold log_and_sub, bind.
  destruct (plain_untouched ml _ _ H1 Hp) as (E1 & _ & _).
  destruct (plain_untouched ml _ _ H2 Hp) as (_ & E2 & _).
  rewrite E1, E2. reflexivity.
Qed.

Ltac plain_sub :=
  apply log_and_sub_plain; [vm_compute; reflexivity|vm_compute; reflexivity|
                            assumption].

Lemma for_collect_id (body : string -> M string) ls :
  (forall l w, In l ls -> body l w = Ok l w) ->
  forall w, for_collect ls body w = Ok ls w.
Proof.
  induction ls as [|l ls IH]; intros H w; cbn [for_collect].
  - reflexivity.
  - unfold bind. rewrite (H l w (or_introl eq_refl)).
    rewrite IH; [reflexivity|]. intros l' w' Hl. apply H. right. exact Hl.
Qed.

(** A pass that works line by line, on a plain text. *)
Lemma lines_plain (body : string -> M string) y w :
  (forall l w, plain l = true -> body l w = Ok l w) ->
  plain y = true ->
  (ls <- for_collect (Py.split Py.NL y) body ;; ret (Py.join NLs ls)) w
  = Ok y w.
Proof.
  intros Hb Hp. unfold bind. rewrite for_collect_id.
  - unfold ret. rewrite join_split. reflexivity.
  - intros l w' Hl. apply Hb.
    pose proof (all_chr_split _ _ Hp) as Hf.
    rewrite Forall_forall in Hf. apply Hf. exact Hl.
Qed.

Lemma inline_code_plain y w : plain y = true -> inline_code y w = Ok y w.
Proof. intros Hp. unfold inline_code. plain_sub. Qed.

Lemma hash_headers_plain y w : plain y = true -> hash_headers y w = Ok y w.
Proof. intros Hp. unfold hash_headers. plain_sub. Qed.

Lemma emphasis_line_plain l w : plain l = true -> emphasis_line l w = Ok l w.
Proof.
  intros Hp. unfold emphasis_line.
  repeat (unfold bind at 1; rewrite log_and_sub_plain;
          [|vm_compute; reflexivity|vm_compute; reflexivity|assumption]).
  plain_sub.
Qed.

Lemma safe_remove_emphasis_plain y w :
  plain y = true -> safe_remove_emphasis y w = Ok y w.
Proof.
  intros Hp. unfold safe_remove_emphasis.
  apply lines_plain; [|exact Hp]. intros. apply emphasis_line_plain. auto.
Qed.

Lemma reference_links_plain y w :
  plain y = true -> reference_links y w = Ok y w.
Proof.
  intros Hp. unfold reference_links. unfold bind at 1.
  rewrite log_and_sub_plain;
    [|vm_compute; reflexivity|vm_compute; reflexivity|assumption].
  plain_sub.
Qed.

Lemma links_line_plain l w : plain l = true -> links_line l w = Ok l w.
Proof.
  intros Hp. unfold links_line.
  destruct (@plain_untouched false Pat.image l) as (E1 & E2 & _);
    [vm_compute; reflexivity|exact Hp|].
  destruct (@plain_untouched false Pat.link l) as (E3 & E4 & _);
    [vm_compute; reflexivity|exact Hp|].
  rewrite E1, E2, E3, E4. reflexivity.
Qed.

Lemma links_and_images_plain y w :
  plain y = true -> links_and_images y w = Ok y w.
Proof.
  intros Hp. unfold links_and_images.
  apply lines_plain; [|exact Hp]. intros. apply links_line_plain. auto.
Qed.

Lemma task_lists_plain y w : plain y = true -> task_lists y w = Ok y w.
Proof. intros Hp. unfold task_lists. plain_sub. Qed.

Lemma regular_lists_plain y w : plain y = true -> regular_lists y w = Ok y w.
Proof.
  intros Hp. unfold regular_lists. unfold bind at 1.
  rewrite log_and_sub_plain;
    [|vm_compute; reflexivity|vm_compute; reflexivity|assumption].
  plain_sub.
Qed.

Lemma subst_M_nothing repl l w :
  hits l = [] -> subst_M repl l w = Ok (subst (fun _ => "") l) w.
Proof.
  induction l as [|[a|x] l IH]; cbn [hits subst_M subst]; intros H.
  - reflexivity.
  - unfold bind. rewrite (IH H). reflexivity.
  - discriminate.
Qed.

Lemma escaped_characters_plain y w :
  plain y = true -> escaped_characters y w = Ok y w.
Proof.
  intros Hp. unfold escaped_characters, sub_M. cbn [for_fold].
  destruct (@plain_untouched false Pat.escape y) as (E1 & E2 & _);
    [vm_compute; reflexivity|exact Hp|].
  unfold finditer in E1. unfold sub in E2.
  unfold bind. rewrite (subst_M_nothing _ _ _ E1), E2.
  rewrite (subst_M_nothing _ _ _ E1), E2. reflexivity.
Qed.

Lemma blockquote_line_plain l w :
  plain l = true -> blockquote_line l w = Ok l w.
Proof.
  intros Hp. unfold blockquote_line.
  destruct (@plain_untouched false Pat.quote_prefix l) as (_ & E2 & _);
    [vm_compute; reflexivity|exact Hp|].
  rewrite E2, String.eqb_refl. reflexivity.
Qed.

Lemma blockquotes_plain y w : plain y = true -> blockquotes y w = Ok y w.
Proof.
  intros Hp. unfold blockquotes.
  apply lines_plain; [|exact Hp]. intros. apply blockquote_line_plain. auto.
Qed.

Lemma html_tags_plain y w : plain y = true -> html_tags y w = Ok y w.
Proof.
  intros Hp. unfold html_tags.
  apply lines_plain; [|exact Hp]. intros l w' Hl. unfold html_line. plain_sub.
Qed.

Lemma strikethrough_plain y w : plain y = true -> strikethrough y w = Ok y w.
Proof. intros Hp. unfold strikethrough. plain_sub. Qed.

Lemma footnotes_plain y w : plain y = true -> footnotes y w = Ok y w.
Proof.
  intros Hp. unfold footnotes. unfold bind at 1.
  rewrite log_and_sub_plain;
    [|vm_compute; reflexivity|vm_compute; reflexivity|assumption].
  plain_sub.
Qed.

End Clean.

(** ** The shape of a converted text *)

Module Norm.
Import Py PyFacts.

Lemma lstrip_fixed a t : is_space a = false -> lstrip (String a t) = String a t.
Proof. intros H. simpl. rewrite H. reflexivity. Qed.

Lemma lstrip_idem s : lstrip (lstrip s) = lstrip s.
Proof.
  destruct (lstrip s) as [|a t] eqn:E; [reflexivity|].
  apply lstrip_fixed. apply (lstrip_head _ E).
Qed.

Lemma rstrip_idem s : rstrip (rstrip s) = rstrip s.
Proof.
  unfold rstrip. rewrite rev_involutive, lstrip_idem. reflexivity.
Qed.

Lemma lstrip_app s t :
  lstrip (s ++ t) = if all_space s then lstrip t else (lstrip s ++ t)%string.
Proof.
  induction s as [|a s IH]; simpl; auto.
  destruct (is_space a); simpl; auto.
Qed.

(** [rstrip], from the left. *)
Lemma rstrip_cons a s :
  rstrip (String a s)
  = if all_space (String a s) then "" else String a (rstrip s).
Proof.
  unfold rstrip. rewrite rev_cons, lstrip_app, all_space_rev.
  cbn [all_space]. destruct (all_space s) eqn:Es.
  - rewrite andb_true_r. simpl. destruct (is_space a); [reflexivity|].
    rewrite (lstrip_all_space (rev s)) by (rewrite all_space_rev; exact Es).
    reflexivity.
  - rewrite andb_false_r. rewrite rev_app. reflexivity.
Qed.

Lemma rstrip_empty : rstrip "" = "".
Proof. reflexivity. Qed.

Lemma rstrip_all_space s : all_space s = true -> rstrip s = "".
Proof.
  intros H. destruct s as [|a s]; [reflexivity|]. rewrite rstrip_cons, H.
  reflexivity.
Qed.

Lemma rstrip_app s t :
  rstrip (s ++ t) = if all_space t then rstrip s else (s ++ rstrip t)%string.
Proof.
  induction s as [|a s IH]; cbn [append].
  - destruct (all_space t) eqn:E; [|reflexivity].
    rewrite (rstrip_all_space _ E). reflexivity.
  - rewrite !rstrip_cons, IH. cbn [all_space]. rewrite all_space_app.
    destruct (all_space t) eqn:Et.
    + rewrite andb_true_r. reflexivity.
    + rewrite !andb_false_r. reflexivity.
Qed.

(** [rstrip] keeps the first character of what it keeps. *)
Lemma rstrip_head s a t : rstrip s = String a t -> exists u, s = String a u.
Proof.
  destruct s as [|b s]; [discriminate|]. rewrite rstrip_cons.
  destruct (all_space (String b s)); [discriminate|].
  intros H. inversion H; subst. eauto.
Qed.

Lemma strip_head s a t : strip s = String a t -> is_space a = false.
Proof.
  unfold strip. intros H. apply rstrip_head in H. destruct H as (u & H).
  apply (lstrip_head _ H).
Qed.

Lemma strip_idem s : strip (strip s) = strip s.
Proof.
  unfold strip at 1.
  assert (E : lstrip (strip s) = strip s).
  { destruct (strip s) as [|a t] eqn:Es; [reflexivity|].
    apply lstrip_fixed. apply (strip_head _ Es). }
  rewrite E. unfold strip. apply rstrip_idem.
Qed.

Lemma trimmed_strip l : mem NL l = false -> trimmed (strip l).
Proof.
  intros H. split; [apply strip_idem|].
  assert (A : all_chr (fun a => negb (Ascii.eqb NL a)) l = true).
  { induction l as [|a l IH]; simpl in *; auto.
    apply orb_false_iff in H. destruct H as [Ha Hl].
    rewrite Ha, (IH Hl). reflexivity. }
  apply (Clean.all_chr_strip _ _) in A.
  induction (strip l) as [|a u IH]; simpl in *; auto.
  apply andb_true_iff in A. destruct A as [Ha Hu].
  apply negb_true_iff in Ha. rewrite Ha, (IH Hu). reflexivity.
Qed.

(** A trimmed line is empty or begins and ends with a character that is
    not white space; it is blank only when it is empty. *)
Lemma trimmed_lstrip l : trimmed l -> lstrip l = l.
Proof.
  intros [H _]. destruct l as [|a t]; [reflexivity|].
  apply lstrip_fixed. apply (strip_head _ H).
Qed.

Lemma trimmed_rstrip l : trimmed l -> rstrip l = l.
Proof.
  intros [H _]. rewrite <- H at 1. unfold strip. rewrite rstrip_idem.
  exact H.
Qed.

Lemma trimmed_blank l : trimmed l -> all_space l = String.eqb l "".
Proof.
  intros [H _]. destruct (all_space l) eqn:E.
  - apply strip_empty_iff in E. rewrite H in E. subst. reflexivity.
  - destruct l; [discriminate|reflexivity].
Qed.

(** *** Lines joined by newlines *)

Lemma join_two x y l :
  join NLs (x :: y :: l) = (x ++ NLs ++ join NLs (y :: l))%string.
Proof. reflexivity. Qed.

Lemma all_space_join L :
  Forall trimmed L -> all_space (join NLs L) = all_blank L.
Proof.
  induction 1 as [|l L Hl HL IH]; [reflexivity|].
  destruct L as [|l2 L2].
  - cbn [join all_blank forallb]. rewrite andb_true_r.
    apply trimmed_blank. exact Hl.
  - rewrite join_two, !all_space_app, IH.
    cbn [all_space NLs all_blank forallb].
    rewrite (trimmed_blank Hl). cbn [andb]. reflexivity.
Qed.

Lemma lstrip_join L :
  Forall trimmed L -> lstrip (join NLs L) = join NLs (drop_blank L).
Proof.
  induction 1 as [|l L Hl HL IH]; [reflexivity|].
  cbn [drop_blank]. destruct (String.eqb_spec l "") as [->|Hne].
  - destruct L as [|l2 L2]; [reflexivity|].
    rewrite join_two. cbn [append NLs lstrip]. exact IH.
  - destruct l as [|a t]; [contradiction|].
    assert (Ha : is_space a = false) by (destruct Hl as [H _];
                                          apply (strip_head _ H)).
    destruct L as [|l2 L2]; cbn [join]; [apply lstrip_fixed; exact Ha|].
    cbn [append]. apply lstrip_fixed. exact Ha.
Qed.

Lemma drop_blank_end_nil L : all_blank L = true -> drop_blank_end L = [].
Proof. intros H. destruct L; simpl in *; [reflexivity|rewrite H; reflexivity]. Qed.

Lemma drop_blank_end_cons L :
  all_blank L = false -> drop_blank_end L <> [].
Proof.
  intros H. destruct L; simpl in *; [discriminate|]. rewrite H. discriminate.
Qed.

Lemma rstrip_join L :
  Forall trimmed L -> rstrip (join NLs L) = join NLs (drop_blank_end L).
Proof.
  induction 1 as [|l L Hl HL IH]; [reflexivity|].
  destruct L as [|l2 L2].
  - cbn [join drop_blank_end all_blank forallb]. rewrite andb_true_r.
    rewrite (trimmed_rstrip Hl).
    destruct (String.eqb_spec l ""); [subst; reflexivity|reflexivity].
  - rewrite join_two, rstrip_app.
    change (NLs ++ join NLs (l2 :: L2))%string
      with (String NL (join NLs (l2 :: L2))).
    cbn [all_space]. change (is_space NL) with true. cbn [andb].
    rewrite (all_space_join HL), rstrip_cons. cbn [all_space].
    change (is_space NL) with true. cbn [andb].
    rewrite (all_space_join HL), IH.
    change (drop_blank_end (l :: l2 :: L2))
      with (if all_blank (l :: l2 :: L2) then []
            else l :: drop_blank_end (l2 :: L2)).
    change (all_blank (l :: l2 :: L2))
      with (String.eqb l "" && all_blank (l2 :: L2)).
    destruct (all_blank (l2 :: L2)) eqn:Eb.
    + rewrite (trimmed_rstrip Hl), (drop_blank_end_nil _ Eb), andb_true_r.
      destruct (String.eqb_spec l ""); [subst; reflexivity|reflexivity].
    + rewrite andb_false_r.
      pose proof (drop_blank_end_cons _ Eb) as Hne.
      destruct (drop_blank_end (l2 :: L2)) as [|x X]; [contradiction|].
      reflexivity.
Qed.

Lemma drop_blank_trimmed L : Forall trimmed L -> Forall trimmed (drop_blank L).
Proof.
  induction 1 as [|l L Hl HL IH]; cbn [drop_blank]; [constructor|].
  destruct (String.eqb l ""); [exact IH|constructor; assumption].
Qed.

Lemma drop_blank_end_trimmed L :
  Forall trimmed L -> Forall trimmed (drop_blank_end L).
Proof.
  induction 1 as [|l L Hl HL IH]; [constructor|].
  change (drop_blank_end (l :: L))
    with (if all_blank (l :: L) then [] else l :: drop_blank_end L).
  destruct (all_blank (l :: L)); constructor; assumption.
Qed.

Lemma split_aux_line l :
  mem NL l = false ->
  forall s cur,
    split_aux NL (l ++ s) cur = split_aux NL s (rev_onto l cur).
Proof.
  induction l as [|a l IH]; intros H s cur; cbn [append rev_onto].
  - reflexivity.
  - cbn [mem] in H. apply orb_false_iff in H. destruct H as [Ha Hl].
    cbn [split_aux]. rewrite Ascii.eqb_sym, Ha. apply IH. exact Hl.
Qed.

Lemma split_line l : mem NL l = false -> split NL l = [l].
Proof.
  intros H. unfold split.
  rewrite <- (ReFacts.append_nil_r l) at 1.
  rewrite (split_aux_line _ H). cbn [split_aux].
  change (rev_onto l "") with (rev l). rewrite rev_involutive. reflexivity.
Qed.

(** [chr(10).join(ls).split(chr(10))] is [ls], for lines without a
    newline. *)
Lemma split_join L :
  L <> [] -> Forall trimmed L -> split NL (join NLs L) = L.
Proof.
  intros Hne H. induction H as [|l L Hl HL IH]; [contradiction|].
  destruct Hl as [_ Hl]. destruct L as [|l2 L2].
  - cbn [join]. apply split_line. exact Hl.
  - rewrite join_two. unfold split. rewrite (split_aux_line _ Hl).
    cbn [NLs append split_aux]. rewrite Ascii.eqb_refl.
    change (rev_onto l "") with (rev l). rewrite rev_involutive.
    f_equal. apply IH. discriminate.
Qed.

Lemma split_aux_no_newline s :
  forall cur,
    mem NL cur = false ->
    Forall (fun l => mem NL l = false) (split_aux NL s cur).
Proof.
  assert (R : forall cur, mem NL cur = false -> mem NL (rev cur) = false).
  { intros cur H. induction cur as [|a cur IH]; auto.
    cbn [mem] in H. apply orb_false_iff in H. destruct H as [Ha Hc].
    rewrite rev_cons, Cap.mem_app, (IH Hc). cbn [mem]. rewrite Ha.
    reflexivity. }
  induction s as [|a s IH]; intros cur H; cbn [split_aux].
  - constructor; [apply R; exact H|constructor].
  - destruct (Ascii.eqb_spec a NL) as [->|Ha].
    + constructor; [apply R; exact H|]. apply IH. reflexivity.
    + apply IH. cbn [mem]. rewrite H, orb_false_r.
      destruct (Ascii.eqb_spec NL a); [congruence|reflexivity].
Qed.

Lemma map_strip_trimmed L : Forall trimmed L -> map strip L = L.
Proof.
  induction 1 as [|l L [Hl _] _ IH]; [reflexivity|].
  cbn [map]. rewrite Hl, IH. reflexivity.
Qed.

(** The last step returns a normal text. *)
Lemma normal_output t :
  normal (strip (join NLs (map strip (split NL t)))).
Proof.
  split; [apply strip_idem|].
  assert (HL : Forall trimmed (map strip (split NL t))).
  { pose proof (split_aux_no_newline t "" eq_refl) as H.
    fold (split NL t) in H.
    induction H as [|l L Hl _ IH]; constructor; auto.
    apply trimmed_strip. exact Hl. }
  assert (Ey : strip (join NLs (map strip (split NL t)))
               = join NLs (drop_blank_end
                             (drop_blank (map strip (split NL t))))).
  { unfold strip at 1. rewrite (lstrip_join HL).
    apply (rstrip_join (drop_blank_trimmed HL)). }
  rewrite Ey.
  pose proof (drop_blank_end_trimmed (drop_blank_trimmed HL)) as HL'.
  destruct (drop_blank_end (drop_blank (map strip (split NL t))))
    as [|x X] eqn:E.
  - reflexivity.
  - rewrite split_join; [|discriminate|exact HL'].
    apply map_strip_trimmed. exact HL'.
Qed.

End Norm.

(** ** A second run on a converted text *)

Module Again.
Import Re ReFacts.

Lemma clean_whitespace_value text :
  yields quiet (clean_whitespace text)
    (Py.join NLs
       (map Py.strip
          (Py.split Py.NL
             (sub false Pat.newlines3 (fun _ => (NLs ++ NLs)%string) text)))).
Proof.
  unfold clean_whitespace. quiet_bind; [|quiet_ret].
  destruct (Re.finditer false Pat.newlines3 text);
    [quiet_ret|apply yields_log; reflexivity].
Qed.

(** The value of the later steps is what the last of them returns. *)
Lemma steps_2_to_16_shape text out :
  yields quiet (steps_2_to_16 false text) out ->
  exists t, out = Py.join NLs (map Py.strip (Py.split Py.NL t)).
Proof.
  intros H.
  destruct (inline_code_total text) as (t2 & H2).
  destruct (hash_headers_total t2) as (t3 & H3).
  destruct (underline_headers_total t3) as (t3b & H3b).
  destruct (safe_remove_emphasis_total t3b) as (t4 & H4).
  destruct (reference_links_total t4) as (t5 & H5).
  destruct (links_and_images_total t5) as (t6 & H6).
  destruct (task_lists_total t6) as (t7 & H7).
  destruct (regular_lists_total t7) as (t8 & H8).
  destruct (escaped_characters_total t8) as (t9 & H9).
  destruct (blockquotes_total t9) as (t10 & H10).
  destruct (horizontal_rules_total t10) as (t11 & H11).
  destruct (conservative_remove_tables_total t11) as (t12 & H12).
  destruct (html_tags_total t12) as (t13 & H13).
  destruct (strikethrough_total t13) as (t14 & H14).
  destruct (footnotes_total t14) as (t15 & H15).
  pose proof (clean_whitespace_value t15) as H16.
  eexists.
  assert (G : yields quiet (steps_2_to_16 false text)
                (Py.join NLs
                   (map Py.strip
                      (Py.split Py.NL
                         (sub false Pat.newlines3
                            (fun _ => (NLs ++ NLs)%string) t15))))).
  { unfold steps_2_to_16.
    repeat (quiet_bind; [apply step_yields; eassumption|]).
    apply step_yields. assumption. }
  destruct (G (world0 None)) as (w1 & E1 & _).
  destruct (@yields_value _ _ _ _ _ _ _ H E1) as [-> _]. reflexivity.
Qed.

(** What [convert] returns is normal. *)
Lemma convert_normal x y : convert x = Some y -> normal y.
Proof.
  unfold convert, convert_markdown_to_text. intros H.
  destruct (safe_remove_code_blocks_total (content_of x)) as (t1 & H1).
  destruct (steps_2_to_16_total t1) as (t2 & H2).
  destruct (H1 (World (Logger false []) [] [])) as (w1 & E1 & _).
  destruct (@convert_body_spec false x (World (Logger false []) [] [])
              t1 w1 t2 E1 (H2 false)) as (w' & E & _).
  rewrite E in H. cbn [returned] in H. inversion H; subst.
  destruct (steps_2_to_16_shape (H2 false)) as (t & ->).
  apply Norm.normal_output.
Qed.

Lemma startswith_markup a p s :
  markup a = true -> plain s = true -> Py.startswith (String a p) s = false.
Proof.
  intros Ha Hs. destruct s as [|b s]; [reflexivity|]. cbn [Py.startswith].
  destruct (Ascii.eqb_spec a b) as [->|_]; [|reflexivity].
  unfold plain in Hs. cbn [all_chr] in Hs. rewrite Ha in Hs. discriminate.
Qed.

Lemma plain_strip s : plain s = true -> plain (Py.strip s) = true.
Proof. apply Clean.all_chr_strip. Qed.

Lemma is_fence_plain l : plain l = true -> is_fence l = false.
Proof.
  intros H. unfold is_fence. apply startswith_markup; [reflexivity|].
  apply plain_strip. exact H.
Qed.

Lemma kept_lines_plain ls :
  Forall (fun l => plain l = true) ls -> kept_lines false ls = ls.
Proof.
  induction 1 as [|l ls Hl _ IH]; cbn [kept_lines]; [reflexivity|].
  rewrite (is_fence_plain _ Hl), IH. reflexivity.
Qed.

Lemma safe_remove_code_blocks_plain y w :
  plain y = true -> exists w', safe_remove_code_blocks y w = Ok y w'.
Proof.
  intros Hp. destruct (safe_remove_code_blocks_kept y w) as (w' & E).
  exists w'. rewrite E, kept_lines_plain, Clean.join_split; [reflexivity|].
  apply Clean.all_chr_split. exact Hp.
Qed.

Lemma underline_loop_plain lines :
  Forall (fun l => plain l = true) lines ->
  forall suffix k acc w,
    for_fold (combine (List.seq k (List.length suffix)) suffix) (acc, false)
      (underline_body lines) w
    = Ok (acc ++ suffix, false) w.
Proof.
  intros Hp. induction suffix as [|line suffix IH]; intros k acc w;
    cbn [List.length List.seq combine for_fold].
  - rewrite app_nil_r. reflexivity.
  - unfold bind at 1.
    assert (E : underline_body lines (acc, false) (k, line) w
                = Ok (acc ++ [line], false) w).
    { unfold underline_body.
      destruct (Z.ltb_spec (Z.of_nat k) (Z.of_nat (List.length lines) - 1));
        [|reflexivity].
      unfold bind, index.
      destruct (nth_error lines (k + 1)) as [next_line|] eqn:En.
      - assert (Hn : plain next_line = true).
        { rewrite Forall_forall in Hp. apply Hp.
          apply (nth_error_In _ _ En). }
        destruct (@Clean.plain_untouched false (Pat.underline "=") next_line)
          as (_ & _ & E1); [vm_compute; reflexivity|exact Hn|].
        destruct (@Clean.plain_untouched false (Pat.underline "-") next_line)
          as (_ & _ & E2); [vm_compute; reflexivity|exact Hn|].
        unfold ret. rewrite E1, E2. reflexivity.
      - apply nth_error_None in En. lia. }
    rewrite E, IH, <- app_assoc. reflexivity.
Qed.

Lemma underline_headers_plain y w :
  plain y = true -> underline_headers y w = Ok y w.
Proof.
  intros Hp. unfold underline_headers, enumerate, bind.
  rewrite underline_loop_plain by (apply Clean.all_chr_split; exact Hp).
  cbn [fst app]. rewrite Clean.join_split. reflexivity.
Qed.

Lemma rules_loop_plain ls :
  Forall (fun l => plain l = true) ls ->
  forall acc w, for_fold ls acc rules_body w = Ok (acc ++ ls) w.
Proof.
  induction 1 as [|l ls Hl _ IH]; intros acc w; cbn [for_fold].
  - rewrite app_nil_r. reflexivity.
  - unfold bind at 1. unfold rules_body at 1, is_horizontal_rule.
    destruct (@Clean.plain_untouched false Pat.horizontal_rule l)
      as (_ & _ & E); [vm_compute; reflexivity|exact Hl|].
    rewrite E. cbn [is_some]. unfold ret at 1.
    rewrite IH, <- app_assoc. reflexivity.
Qed.

Lemma horizontal_rules_plain y w :
  plain y = true -> horizontal_rules y w = Ok y w.
Proof.
  intros Hp. unfold horizontal_rules, bind.
  rewrite rules_loop_plain by (apply Clean.all_chr_split; exact Hp).
  cbn [app]. rewrite Clean.join_split. reflexivity.
Qed.

Lemma is_table_separator_plain l :
  plain l = true -> is_table_separator l = false.
Proof.
  intros H. unfold is_table_separator.
  rewrite startswith_markup; [reflexivity|reflexivity|].
  apply plain_strip. exact H.
Qed.

Lemma tables_loop_plain suffix :
  Forall (fun l => plain l = true) suffix ->
  forall k acc w,
    for_fold (combine (List.seq k (List.length suffix)) suffix) acc
      tables_body w
    = Ok (acc ++ suffix) w.
Proof.
  induction 1 as [|l ls Hl _ IH]; intros k acc w;
    cbn [List.length List.seq combine for_fold].
  - rewrite app_nil_r. reflexivity.
  - unfold bind at 1. unfold tables_body at 1.
    rewrite (is_table_separator_plain _ Hl). unfold ret at 1.
    rewrite IH, <- app_assoc. reflexivity.
Qed.

Lemma conservative_remove_tables_plain y w :
  plain y = true -> conservative_remove_tables y w = Ok y w.
Proof.
  intros Hp. unfold conservative_remove_tables, enumerate, bind.
  rewrite tables_loop_plain by (apply Clean.all_chr_split; exact Hp).
  cbn [app]. rewrite Clean.join_split. reflexivity.
Qed.




Lemma stays F (p : string -> M string) y :
  (forall w, F w w) -> (forall w, p y w = Ok y w) -> yields F (p y) y.
Proof. intros HF H w. exists w. split; [apply H|apply HF]. Qed.


Lemma content_of_plain y : plain y = true -> content_of y = y.
Proof.
  intros Hp. unfold content_of, unwrap.
  rewrite (startswith_markup Pat.DQ "" y eq_refl Hp). reflexivity.
Qed.

End Again.




(* ================================================================== *)
(** * Further properties *)
(* ================================================================== *)

(** ** The logger *)

Module Ledger.

Lemma enabled_log lg k c : enabled (logger_log lg k c) = enabled lg.
Proof. unfold logger_log. destruct (negb (enabled lg) || _); reflexivity. Qed.

Lemma enabled_log_all entries :
  forall lg, enabled (log_all lg entries) = enabled lg.
Proof.
  induction entries as [|e entries IH]; intros lg; cbn [log_all fold_left].
  - reflexivity.
  - fold (log_all (logger_log lg (fst e) (snd e)) entries).
    rewrite IH. apply enabled_log.
Qed.

Lemma log_all_cons lg e entries :
  log_all lg (e :: entries) = log_all (logger_log lg (fst e) (snd e)) entries.
Proof. reflexivity. Qed.

Lemma log_all_app lg l1 l2 :
  log_all lg (l1 ++ l2) = log_all (log_all lg l1) l2.
Proof. unfold log_all. apply fold_left_app. Qed.

Lemma log_disabled lg k c : enabled lg = false -> logger_log lg k c = lg.
Proof. intros H. unfold logger_log. rewrite H. reflexivity. Qed.

Lemma log_all_disabled entries :
  forall lg, enabled lg = false -> log_all lg entries = lg.
Proof.
  induction entries as [|e entries IH]; intros lg H; [reflexivity|].
  rewrite log_all_cons, (log_disabled _ _ _ H). apply IH. exact H.
Qed.

(** One call, seen from a section. *)
Lemma section_log lg k c k' :
  section (sections (logger_log lg k c)) k'
  = section (sections lg) k'
    ++ (if enabled lg && String.eqb k k' && recordable c then [c] else []).
Proof.
  unfold logger_log, recordable.
  destruct (enabled lg); cbn [negb orb andb]; [|rewrite app_nil_r; reflexivity].
  destruct (String.eqb (Py.strip c) ""); cbn [negb];
    [rewrite andb_false_r, app_nil_r; reflexivity|].
  rewrite andb_true_r. cbn [sections].
  destruct (String.eqb_spec k k') as [->|Hk].
  - apply section_append_same.
  - rewrite app_nil_r. apply section_append_other.
    apply String.eqb_neq. exact Hk.
Qed.

Lemma section_log_all entries :
  forall lg k,
    section (sections (log_all lg entries)) k
    = section (sections lg) k
      ++ (if enabled lg then recorded k entries else []).
Proof.
  induction entries as [|e entries IH]; intros lg k.
  - cbn [log_all fold_left]. destruct (enabled lg); rewrite app_nil_r;
      reflexivity.
  - rewrite log_all_cons, IH, section_log, enabled_log, <- app_assoc.
    f_equal. unfold recorded. cbn [filter].
    destruct (enabled lg); cbn [andb]; [|reflexivity].
    destruct (String.eqb (fst e) k && recordable (snd e)); reflexivity.
Qed.

(** The keys after one call. *)
Lemma keys_append k c secs :
  map fst (sections_append k c secs)
  = if existsb (String.eqb k) (map fst secs) then map fst secs
    else map fst secs ++ [k].
Proof.
  induction secs as [|[k0 v0] secs IH]; cbn [sections_append map fst existsb].
  - reflexivity.
  - rewrite (String.eqb_sym k k0).
    destruct (String.eqb k0 k); cbn [orb map fst]; [reflexivity|].
    rewrite IH. destruct (existsb _ _); reflexivity.
Qed.

Lemma existsb_eqb_In k l : existsb (String.eqb k) l = true <-> In k l.
Proof.
  rewrite existsb_exists. split.
  - intros (x & Hx & E). apply String.eqb_eq in E. subst. exact Hx.
  - intros H. exists k. split; [exact H|apply String.eqb_refl].
Qed.

Lemma well_formed_append k c secs :
  recordable c = true -> well_formed secs ->
  well_formed (sections_append k c secs).
Proof.
  intros Hc [Hn Hf]. split.
  - rewrite keys_append. destruct (existsb _ _) eqn:E; [exact Hn|].
    assert (Hk : ~ In k (map fst secs)).
    { intros H. apply existsb_eqb_In in H. congruence. }
    clear E. induction (map fst secs) as [|x l IH]; cbn [app].
    + constructor; [intros []|constructor].
    + inversion Hn; subst. constructor.
      * rewrite in_app_iff. intros [H|[H|[]]]; [contradiction|].
        apply Hk. left. auto.
      * apply IH; auto. intros H. apply Hk. right. exact H.
  - clear Hn. induction Hf as [|[k0 v0] secs [H1 H2] Hf IH];
      cbn [sections_append].
    + constructor; [|constructor]. cbn [snd]. split; [discriminate|].
      constructor; [exact Hc|constructor].
    + destruct (String.eqb k0 k).
      * constructor; [|exact Hf]. cbn [snd] in *. split.
        -- destruct v0; discriminate.
        -- apply Forall_app. split; [exact H2|].
           constructor; [exact Hc|constructor].
      * constructor; [split; assumption|exact IH].
Qed.

Lemma well_formed_log lg k c :
  well_formed (sections lg) -> well_formed (sections (logger_log lg k c)).
Proof.
  intros H. unfold logger_log.
  destruct (enabled lg); cbn [negb orb]; [|exact H].
  destruct (String.eqb (Py.strip c) "") eqn:E; [exact H|].
  cbn [sections]. apply well_formed_append; [|exact H].
  unfold recordable. rewrite E. reflexivity.
Qed.

Lemma well_formed_log_all entries :
  forall lg, well_formed (sections lg) ->
             well_formed (sections (log_all lg entries)).
Proof.
  induction entries as [|e entries IH]; intros lg H; [exact H|].
  rewrite log_all_cons. apply IH. apply well_formed_log. exact H.
Qed.

Lemma well_formed_nil : well_formed [].
Proof. split; constructor. Qed.

Lemma first_seen_ext names :
  forall seen seen',
    (forall k, In k seen <-> In k seen') ->
    first_seen seen names = first_seen seen' names.
Proof.
  induction names as [|k names IH]; intros seen seen' H; cbn [first_seen].
  - reflexivity.
  - assert (E : existsb (String.eqb k) seen = existsb (String.eqb k) seen').
    { apply eq_true_iff_eq. rewrite !existsb_eqb_In. apply H. }
    rewrite E. destruct (existsb _ seen'); [apply IH; exact H|].
    f_equal. apply IH. intros k'. cbn [In]. rewrite H. reflexivity.
Qed.

Lemma keys_log lg k c :
  map fst (sections (logger_log lg k c))
  = map fst (sections lg)
    ++ (if enabled lg && recordable c
           && negb (existsb (String.eqb k) (map fst (sections lg)))
        then [k] else []).
Proof.
  unfold logger_log, recordable.
  destruct (enabled lg); cbn [negb orb andb]; [|rewrite app_nil_r; reflexivity].
  destruct (String.eqb (Py.strip c) ""); cbn [negb andb];
    [rewrite app_nil_r; reflexivity|].
  cbn [sections]. rewrite keys_append.
  destruct (existsb _ _); cbn [negb]; [rewrite app_nil_r|]; reflexivity.
Qed.

Lemma keys_log_all entries :
  forall lg,
    enabled lg = true ->
    map fst (sections (log_all lg entries))
    = map fst (sections lg)
      ++ first_seen (map fst (sections lg))
           (map fst (filter (fun e => recordable (snd e)) entries)).
Proof.
  induction entries as [|e entries IH]; intros lg He.
  - cbn [log_all fold_left filter map first_seen]. rewrite app_nil_r.
    reflexivity.
  - rewrite log_all_cons, IH by (rewrite enabled_log; exact He).
    rewrite keys_log, He. cbn [andb filter].
    destruct (recordable (snd e)); cbn [andb map first_seen];
      [|rewrite app_nil_r; reflexivity].
    destruct (existsb _ _) eqn:E; cbn [negb].
    + rewrite app_nil_r. reflexivity.
    + rewrite <- app_assoc. cbn [app]. do 2 f_equal.
      apply first_seen_ext. intros k. rewrite in_app_iff. cbn [In].
      tauto.
Qed.


(** *** What [save_to_file] writes *)







End Ledger.

(** X1. [StrippedContentLogger.log], call after call: under every step
    name an enabled logger holds what it held before, followed by the
    contents logged under that name that are not blank, in the order of
    the calls; a disabled logger holds what it held before.  The flag
    [enabled] never changes. *)
Theorem log_records_by_step :
  forall (lg : StrippedContentLogger) (entries : list (string * string))
         (step_name : string),
    section (sections (log_all lg entries)) step_name
    = section (sections lg) step_name
      ++ (if enabled lg then recorded step_name entries else [])
    /\ enabled (log_all lg entries) = enabled lg.
Proof.
  intros lg entries step_name. split.
  - apply Ledger.section_log_all.
  - apply Ledger.enabled_log_all.
Qed.

(** X2. The sections of a logger that starts empty, after any calls of
    [log]: no key twice, no key with an empty list, no blank content; and
    the keys of an enabled one are the step names of the calls whose
    content was not blank, each once, in the order of their first call. *)
Theorem log_builds_well_formed_sections :
  forall (b : bool) (entries : list (string * string)),
    well_formed (sections (log_all (Logger b []) entries))
    /\ map fst (sections (log_all (Logger true []) entries))
       = first_seen []
           (map fst (filter (fun e => recordable (snd e)) entries)).
Proof.
  intros b entries. split.
  - apply Ledger.well_formed_log_all. apply Ledger.well_formed_nil.
  - rewrite Ledger.keys_log_all by reflexivity. reflexivity.
Qed.

Lemma first_seen_nil names : first_seen [] names = [] -> names = [].
Proof. destruct names; [reflexivity|discriminate]. Qed.

Lemma filter_nil A (f : A -> bool) l :
  filter f l = [] <-> Forall (fun x => f x = false) l.
Proof.
  induction l as [|x l IH]; cbn [filter].
  - split; [constructor|reflexivity].
  - destruct (f x) eqn:E.
    + split; [discriminate|]. intros H. inversion H; congruence.
    + rewrite IH. split; [constructor; assumption|].
      intros H. inversion H; assumption.
Qed.

(** X3. [save_to_file] opens no file exactly when the logger is disabled
    or nothing that is not blank was logged. *)
Theorem save_to_file_skips_an_empty_log :
  forall (b : bool) (entries : list (string * string)),
    save_to_file (log_all (Logger b []) entries) = None
    <-> (b = false
         \/ Forall (fun e => recordable (snd e) = false) entries).
Proof.
  intros b entries. unfold save_to_file.
  rewrite Ledger.enabled_log_all. cbn [enabled].
  destruct b; cbn [negb orb].
  - pose proof (@Ledger.keys_log_all entries (Logger true []) eq_refl) as K.
    cbn [sections map app] in K.
    destruct (sections (log_all (Logger true []) entries)) as [|kv secs] eqn:E.
    + split; [|reflexivity]. intros _. right. apply filter_nil.
      cbn [map] in K. symmetry in K. apply first_seen_nil in K.
      destruct (filter _ entries); [reflexivity|discriminate].
    + split; [discriminate|]. intros [H|H]; [discriminate|].
      apply filter_nil in H. rewrite H in K. discriminate.
  - split; auto.
Qed.



(** ** What the conversion does to the logger and the streams *)

Module Effects.

Lemma logs_refl w : logs w w.
Proof. exists []. destruct w as [lg so se]; reflexivity. Qed.

Lemma logs_trans w1 w2 w3 : logs w1 w2 -> logs w2 w3 -> logs w1 w3.
Proof.
  intros (e1 & ->) (e2 & ->). exists (e1 ++ e2). cbn [logger stdout stderr].
  rewrite Ledger.log_all_app. reflexivity.
Qed.

Lemma logs_log k c : yields logs (log k c) tt.
Proof.
  intros w. eexists. split; [reflexivity|]. exists [(k, c)]. reflexivity.
Qed.

(** A computation has one outcome: two frames hold of it together. *)
Lemma yields_both (F G : world -> world -> Prop) A (x : M A) a :
  yields F x a -> yields G x a -> yields (fun w w' => F w w' /\ G w w') x a.
Proof.
  intros HF HG w. destruct (HF w) as (w1 & E1 & F1).
  destruct (HG w) as (w2 & E2 & G2). rewrite E1 in E2.
  inversion E2; subst. eauto.
Qed.

Ltac l_bind := eapply yields_bind; [exact logs_trans| |].
Ltac l_ret := apply yields_ret; exact logs_refl.

Lemma logs_log_and_sub ml r_find step_name fmt r_sub repl text :
  yields logs (log_and_sub ml r_find step_name fmt r_sub repl text)
    (Re.sub ml r_sub repl text).
Proof.
  unfold log_and_sub. l_bind; [|l_ret].
  apply yields_for; [exact logs_refl|exact logs_trans|].
  intros x _. apply logs_log.
Qed.

Ltac l_sub := apply logs_log_and_sub.

Lemma logs_lines (body : string -> M string) text :
  (forall line, exists out, yields logs (body line) out) ->
  exists out,
    yields logs
      (ls <- for_collect (Py.split Py.NL text) body ;; ret (Py.join NLs ls))
      out.
Proof.
  intros H.
  destruct (@yields_for_collect logs logs_refl logs_trans _
              (Py.split Py.NL text) body) as (ys & Hys).
  { intros x _. apply H. }
  exists (Py.join NLs ys). l_bind; [exact Hys|l_ret].
Qed.

Lemma inline_code_logs text : exists out, yields logs (inline_code text) out.
Proof. eexists. unfold inline_code. l_sub. Qed.

Lemma hash_headers_logs text : exists out, yields logs (hash_headers text) out.
Proof. eexists. unfold hash_headers. l_sub. Qed.

Lemma logs_index A (lst : list A) i x :
  nth_error lst i = Some x -> yields logs (index lst i) x.
Proof. intros H. unfold index. rewrite H. l_ret. Qed.

Lemma underline_body_logs lines st il :
  In il (enumerate lines) ->
  exists st', yields logs (underline_body lines st il) st'.
Proof.
  destruct st as [processed_lines skip_next]. destruct il as [i line].
  intros Hin. pose proof (nth_error_enumerate _ _ _ Hin) as Hi.
  unfold underline_body. destruct skip_next.
  - eexists. l_bind; [apply logs_index; exact Hi|].
    l_bind; [apply logs_log|l_ret].
  - destruct (Z.ltb_spec (Z.of_nat i) (Z.of_nat (List.length lines) - 1)).
    + destruct (nth_error lines (i + 1)) as [next_line|] eqn:E.
      * destruct (is_some (Re.rmatch false (Pat.underline "=") next_line)
                  || is_some (Re.rmatch false (Pat.underline "-") next_line))
          eqn:Eu; eexists;
          (l_bind; [apply logs_index; exact E|]); rewrite Eu; l_ret.
      * apply nth_error_None in E. lia.
    + eexists. l_ret.
Qed.

Lemma underline_headers_logs text :
  exists out, yields logs (underline_headers text) out.
Proof.
  unfold underline_headers.
  destruct (@yields_for_fold logs logs_refl logs_trans _ _
              (enumerate (Py.split Py.NL text))
              (underline_body (Py.split Py.NL text)))
    with (st := (@nil string, false)) as (st' & H).
  { intros st x Hx. apply underline_body_logs. exact Hx. }
  exists (Py.join NLs (fst st')). l_bind; [exact H|l_ret].
Qed.

Lemma emphasis_line_logs line : exists out, yields logs (emphasis_line line) out.
Proof.
  eexists. unfold emphasis_line. repeat (l_bind; [l_sub|]). l_sub.
Qed.

Lemma safe_remove_emphasis_logs text :
  exists out, yields logs (safe_remove_emphasis text) out.
Proof. apply logs_lines. apply emphasis_line_logs. Qed.

Lemma reference_links_logs text :
  exists out, yields logs (reference_links text) out.
Proof. eexists. unfold reference_links. l_bind; l_sub. Qed.

Lemma log_full_match_logs r r' step_name line :
  (forall c c', Re.matches false r c c' -> Re.matches false r' c c') ->
  yields logs
    (for_ (Re.finditer false r line) (fun _ =>
       full_match <- group0 (Re.search false r' line) ;;
       log step_name full_match)) tt.
Proof.
  intros Hsub.
  destruct (Re.finditer false r line) as [|x l] eqn:E.
  - simpl. l_ret.
  - destruct (@ReFacts.finditer_search false r r' line Hsub) as (y & Hy).
    { rewrite E. discriminate. }
    rewrite Hy. apply yields_for; [exact logs_refl|exact logs_trans|].
    intros _ _. simpl. l_bind; [l_ret|]. apply logs_log.
Qed.

Lemma links_line_logs line : exists out, yields logs (links_line line) out.
Proof.
  eexists. unfold links_line.
  l_bind. { apply log_full_match_logs. intros c c' H. exact H. }
  l_bind; [|l_ret].
  apply log_full_match_logs. intros c c' H. exact H.
Qed.

Lemma links_and_images_logs text :
  exists out, yields logs (links_and_images text) out.
Proof. apply logs_lines. apply links_line_logs. Qed.

Lemma task_lists_logs text : exists out, yields logs (task_lists text) out.
Proof. eexists. unfold task_lists. l_sub. Qed.

Lemma regular_lists_logs text :
  exists out, yields logs (regular_lists text) out.
Proof. eexists. unfold regular_lists. l_bind; l_sub. Qed.

Lemma subst_M_logs (repl : Re.mtch -> M string) l :
  (forall x, exists y, yields logs (repl x) y) ->
  exists t, yields logs (subst_M repl l) t.
Proof.
  intros H. induction l as [|[a|x] l (t & IH)]; simpl.
  - eexists. l_ret.
  - eexists. l_bind; [exact IH|l_ret].
  - destruct (H x) as (y & Hy). eexists.
    l_bind; [exact Hy|]. l_bind; [exact IH|l_ret].
Qed.

Lemma replace_escape_logs x : exists y, yields logs (replace_escape x) y.
Proof.
  eexists. unfold replace_escape. l_bind; [apply logs_log|l_ret].
Qed.

Lemma escaped_characters_logs text :
  exists out, yields logs (escaped_characters text) out.
Proof.
  unfold escaped_characters, sub_M. simpl.
  destruct (subst_M_logs replace_escape (Re.segments false Pat.escape text)
              replace_escape_logs) as (t1 & H1).
  destruct (subst_M_logs replace_escape (Re.segments false Pat.escape t1)
              replace_escape_logs) as (t2 & H2).
  exists t2. l_bind; [exact H1|]. l_bind; [exact H2|l_ret].
Qed.

Lemma blockquote_line_logs line :
  exists out, yields logs (blockquote_line line) out.
Proof.
  eexists. unfold blockquote_line. l_bind; [|l_ret].
  destruct (negb _); [apply logs_log|l_ret].
Qed.

Lemma blockquotes_logs text : exists out, yields logs (blockquotes text) out.
Proof. apply logs_lines. apply blockquote_line_logs. Qed.

Lemma horizontal_rules_logs text :
  exists out, yields logs (horizontal_rules text) out.
Proof.
  unfold horizontal_rules.
  destruct (@yields_for_fold logs logs_refl logs_trans _ _
              (Py.split Py.NL text) rules_body) with (st := @nil string)
    as (st' & H).
  { intros st x _. unfold rules_body. destruct (is_horizontal_rule x); eexists.
    - l_bind; [apply logs_log|l_ret].
    - l_ret. }
  exists (Py.join NLs st'). l_bind; [exact H|l_ret].
Qed.

Lemma conservative_remove_tables_logs text :
  exists out, yields logs (conservative_remove_tables text) out.
Proof.
  unfold conservative_remove_tables.
  destruct (@yields_for_fold logs logs_refl logs_trans _ _
              (enumerate (Py.split Py.NL text)) tables_body)
    with (st := @nil string) as (st' & H).
  { intros st [i line] _. unfold tables_body.
    destruct (is_table_separator line); eexists.
    - l_bind; [apply logs_log|l_ret].
    - l_ret. }
  exists (Py.join NLs st'). l_bind; [exact H|l_ret].
Qed.

Lemma html_tags_logs text : exists out, yields logs (html_tags text) out.
Proof.
  apply logs_lines. intros line. eexists. unfold html_line. l_sub.
Qed.

Lemma strikethrough_logs text :
  exists out, yields logs (strikethrough text) out.
Proof. eexists. unfold strikethrough. l_sub. Qed.

Lemma footnotes_logs text : exists out, yields logs (footnotes text) out.
Proof. eexists. unfold footnotes. l_bind; l_sub. Qed.

Lemma clean_whitespace_logs text :
  exists out, yields logs (clean_whitespace text) out.
Proof.
  eexists. unfold clean_whitespace. l_bind; [|l_ret].
  destruct (Re.finditer false Pat.newlines3 text); [l_ret|apply logs_log].
Qed.

(** The loop of the first pass. *)
Lemma cb_loop_logs lines :
  forall k st,
  exists st',
    yields logs
      (for_fold (combine (List.seq k (List.length lines)) lines) st cb_body)
      st'.
Proof.
  intros k st.
  apply (@yields_for_fold logs logs_refl logs_trans).
  intros st0 [i line] _. unfold cb_body.
  destruct (is_fence line); [destruct (negb (in_code_block st0))|
                             destruct (in_code_block st0)]; eexists;
    try l_ret.
  l_bind; [apply logs_log|l_ret].
Qed.

End Effects.

Module Trace.

Lemma traced_logs debug w w' : logs w w' -> traced debug [] [] w w'.
Proof.
  intros (entries & ->). exists entries.
  destruct debug; rewrite !app_nil_r; reflexivity.
Qed.

Lemma traced_bind debug A B (x : M A) (f : A -> M B) a b l1 e1 l2 e2 :
  yields (traced debug l1 e1) x a ->
  yields (traced debug l2 e2) (f a) b ->
  yields (traced debug (l1 ++ l2) (e1 ++ e2)) (bind x f) b.
Proof.
  intros Hx Hf w. destruct (Hx w) as (w1 & E1 & (n1 & ->)).
  match type of E1 with _ = Ok _ ?w1 =>
    destruct (Hf w1) as (w2 & E2 & (n2 & ->)) end.
  exists (World (log_all (logger w) (n1 ++ n2))
            (stdout w ++ (if debug then l1 ++ l2 else []))
            (stderr w ++ e1 ++ e2)).
  unfold bind. rewrite E1. split.
  - rewrite E2. cbn [logger stdout stderr].
    rewrite Ledger.log_all_app, <- !app_assoc.
    destruct debug; reflexivity.
  - exists (n1 ++ n2). reflexivity.
Qed.

Lemma traced_print debug l :
  yields (traced debug [l] []) (if debug then print l else ret tt) tt.
Proof.
  intros w. destruct debug; eexists; (split; [reflexivity|]); exists [];
    destruct w as [lg so se]; cbn [logger stdout stderr log_all fold_left];
    rewrite !app_nil_r; reflexivity.
Qed.

Lemma traced_ret debug A (a : A) : yields (traced debug [] []) (ret a) a.
Proof.
  intros w. eexists. split; [reflexivity|]. apply traced_logs.
  apply Effects.logs_refl.
Qed.

Lemma traced_eq debug A (x : M A) a l e l' e' :
  l = l' -> e = e' ->
  yields (traced debug l e) x a -> yields (traced debug l' e') x a.
Proof. intros -> ->. auto. Qed.

(** A numbered step around a pass. *)
Lemma traced_step debug step_name pass text out errs :
  yields (traced debug [] errs) (pass text) out ->
  yields
    (traced debug
       [Out_step step_name (String.length text) (String.length out)
          (Z.of_nat (String.length text) - Z.of_nat (String.length out))]
       errs)
    (step debug step_name pass text) out.
Proof.
  intros H. unfold step.
  assert (G : yields
                (traced debug
                   ([] ++ [Out_step step_name (String.length text)
                             (String.length out)
                             (Z.of_nat (String.length text)
                              - Z.of_nat (String.length out))] ++ [])
                   (errs ++ [] ++ []))
                (text0 <- pass text ;;
                 debug_step debug step_name text text0 ;;; ret text0) out).
  { eapply traced_bind; [exact H|]. eapply traced_bind; [|apply traced_ret].
    unfold debug_step. apply traced_print. }
  revert G. apply traced_eq; [reflexivity|].
  rewrite !app_nil_r. reflexivity.
Qed.

Lemma traced_pass debug (pass : string -> M string) text out :
  yields logs (pass text) out -> yields (traced debug [] []) (pass text) out.
Proof. apply yields_weaken. intros w w'. apply traced_logs. Qed.

(** Steps 2 to 16: what they return and what they print. *)
Lemma steps_2_to_16_traced t1 :
  exists texts,
    List.length texts = 16
    /\ forall debug,
      yields (traced debug (step_lines (tl step_names) t1 texts) [])
        (steps_2_to_16 debug t1) (last texts t1).
Proof.
  destruct (Effects.inline_code_logs t1) as (t2 & H2).
  destruct (Effects.hash_headers_logs t2) as (t3 & H3).
  destruct (Effects.underline_headers_logs t3) as (t3b & H3b).
  destruct (Effects.safe_remove_emphasis_logs t3b) as (t4 & H4).
  destruct (Effects.reference_links_logs t4) as (t5 & H5).
  destruct (Effects.links_and_images_logs t5) as (t6 & H6).
  destruct (Effects.task_lists_logs t6) as (t7 & H7).
  destruct (Effects.regular_lists_logs t7) as (t8 & H8).
  destruct (Effects.escaped_characters_logs t8) as (t9 & H9).
  destruct (Effects.blockquotes_logs t9) as (t10 & H10).
  destruct (Effects.horizontal_rules_logs t10) as (t11 & H11).
  destruct (Effects.conservative_remove_tables_logs t11) as (t12 & H12).
  destruct (Effects.html_tags_logs t12) as (t13 & H13).
  destruct (Effects.strikethrough_logs t13) as (t14 & H14).
  destruct (Effects.footnotes_logs t14) as (t15 & H15).
  destruct (Effects.clean_whitespace_logs t15) as (t16 & H16).
  exists [t2; t3; t3b; t4; t5; t6; t7; t8; t9; t10; t11; t12; t13; t14; t15;
          t16].
  split; [reflexivity|]. intros debug. unfold steps_2_to_16.
  cbn [step_names tl step_lines last].
  repeat (eapply (@traced_bind debug _ _ _ _ _ _ [_] [] _ []);
          [apply traced_step; apply traced_pass; eassumption|]).
  apply traced_step. apply traced_pass. assumption.
Qed.

(** The first pass: the lines it keeps, and the warning. *)
Lemma safe_remove_code_blocks_traced text :
  exists n,
    forall debug,
      yields
        (traced debug []
           (if fence_open false (Py.split Py.NL text)
            then [Warn_unclosed n] else []))
        (safe_remove_code_blocks text)
        (Py.join NLs (kept_lines false (Py.split Py.NL text))).
Proof.
  destruct (cb_loop_spec (Py.split Py.NL text) 0 cb_init)
    as (st & Hq & Hr & Hi).
  cbn [cb_init result_lines in_code_block app] in Hr, Hi.
  exists (code_block_start_line st + 1)%Z. intros debug w.
  destruct (Effects.cb_loop_logs (Py.split Py.NL text) 0 cb_init)
    as (st2 & Hl).
  destruct (Hl w) as (w1 & E1 & (entries & ->)).
  destruct (@yields_value _ _ _ _ _ _ _ Hq E1) as [<- _].
  unfold safe_remove_code_blocks, enumerate. unfold bind at 1. rewrite E1.
  rewrite Hi, <- Hr.
  destruct (fence_open false (Py.split Py.NL text)).
  - unfold bind, eprint, ret. cbn [logger stdout stderr].
    destruct (current_code_block st) as [|l ls].
    + eexists. split; [reflexivity|]. exists entries.
      destruct debug; rewrite !app_nil_r; reflexivity.
    + unfold log. cbn [logger stdout stderr].
      eexists. split; [reflexivity|].
      exists (entries ++ [("code_blocks_unclosed", Py.join NLs (l :: ls))]).
      rewrite Ledger.log_all_app.
      destruct debug; rewrite !app_nil_r; reflexivity.
  - unfold bind, ret. eexists. split; [reflexivity|]. exists entries.
    destruct debug; rewrite !app_nil_r; reflexivity.
Qed.

Lemma last_cons A (x : A) l : forall d, last (x :: l) d = last l x.
Proof.
  revert x. induction l as [|y l IH]; intros x d; [reflexivity|].
  change (last (x :: y :: l) d) with (last (y :: l) d).
  rewrite (IH y d). symmetry. apply (IH y x).
Qed.

(** The whole call: the string it returns and the world it leaves. *)
Lemma convert_world markdown_content :
  let content := content_of markdown_content in
  exists texts n,
    List.length texts = 17
    /\ forall debug lg,
      exists entries,
        convert_markdown_to_text markdown_content debug lg
        = Ok (Py.strip (last texts content))
            (World
               (log_all (logger (world0 lg)) entries)
               (if debug then debug_trace content texts else [])
               (if fence_open false (Py.split Py.NL content)
                then [Warn_unclosed n] else [])).
Proof.
  intros content.
  destruct (safe_remove_code_blocks_traced content) as (n & H1).
  set (t1 := Py.join NLs (kept_lines false (Py.split Py.NL content))) in *.
  destruct (steps_2_to_16_traced t1) as (texts & Hlen & H2).
  exists (t1 :: texts), n. split; [cbn [List.length]; congruence|].
  intros debug lg. unfold convert_markdown_to_text.
  fold (world0 lg). unfold convert_body. unfold bind at 1.
  rewrite unwrap_value. fold content.
  set (errs := if fence_open false (Py.split Py.NL content)
               then [Warn_unclosed n] else []) in *.
  assert (E : last (t1 :: texts) content = last texts t1).
  { apply last_cons. }
  rewrite E.
  assert (H : yields
                (traced debug
                   ([Out_start (String.length content)]
                    ++ [Out_step "Step 1 - Code blocks"
                          (String.length content) (String.length t1)
                          (Z.of_nat (String.length content)
                           - Z.of_nat (String.length t1))]
                    ++ step_lines (tl step_names) t1 texts
                    ++ [Out_final (String.length (Py.strip (last texts t1)))
                          (Z.of_nat (String.length content)
                           - Z.of_nat
                               (String.length (Py.strip (last texts t1))))]
                    ++ [])
                   ([] ++ errs ++ [] ++ [] ++ []))
                ((if debug
                  then print (Out_start (String.length content))
                  else ret tt) ;;;
                 text <- step debug "Step 1 - Code blocks"
                           safe_remove_code_blocks content ;;
                 text0 <- steps_2_to_16 debug text ;;
                 (if debug
                  then print
                         (Out_final (String.length (Py.strip text0))
                            (Z.of_nat (String.length content)
                             - Z.of_nat (String.length (Py.strip text0))))
                  else ret tt) ;;;
                 ret (Py.strip text0))
                (Py.strip (last texts t1))).
  { eapply traced_bind; [apply traced_print|].
    eapply traced_bind; [apply traced_step; apply H1|].
    eapply traced_bind; [apply H2|].
    eapply traced_bind; [apply traced_print|apply traced_ret]. }
  destruct (H (world0 lg)) as (w' & Ew & (entries & ->)).
  exists entries. rewrite Ew. unfold world0. cbn [logger stdout stderr app].
  rewrite !app_nil_r. unfold debug_trace. rewrite E.
  cbn [step_names step_lines tl]. destruct debug; reflexivity.
Qed.

End Trace.

(** X5. A call with a disabled logger leaves the logger as it was,
    whatever it held. *)
Theorem disabled_logger_is_left_alone :
  forall (markdown_content : string) (debug : bool)
         (secs : list (string * list string)),
    logger (final_world
              (convert_markdown_to_text markdown_content debug
                 (Some (Logger false secs))))
    = Logger false secs.
Proof.
  intros markdown_content debug secs.
  destruct (Trace.convert_world markdown_content) as (texts & n & _ & H).
  destruct (H debug (Some (Logger false secs))) as (entries & ->).
  cbn [final_world logger world0].
  apply Ledger.log_all_disabled. reflexivity.
Qed.

(** X6. A call changes the logger only by calls of [log]: what the
    logger held stays where it was, and every section ends with the
    contents that were logged under its name and are not blank. *)
Theorem conversion_only_appends_to_the_log :
  forall (markdown_content : string) (debug : bool)
         (lg : StrippedContentLogger),
  exists entries : list (string * string),
    logger (final_world
              (convert_markdown_to_text markdown_content debug (Some lg)))
    = log_all lg entries
    /\ forall step_name,
        section
          (sections
             (logger (final_world
                        (convert_markdown_to_text markdown_content debug
                           (Some lg))))) step_name
        = section (sections lg) step_name
          ++ (if enabled lg then recorded step_name entries else []).
Proof.
  intros markdown_content debug lg.
  destruct (Trace.convert_world markdown_content) as (texts & n & _ & H).
  destruct (H debug (Some lg)) as (entries & ->).
  exists entries. cbn [final_world logger world0]. split; [reflexivity|].
  intros step_name. apply Ledger.section_log_all.
Qed.

(** X7. What a call prints: nothing without the debug flag; with it, the
    message of the start, one message for each of the seventeen steps,
    in their order, and the final message.  The length a step starts from
    is the length the step before it ended with, the first starts from
    the length of the text after the JSON prelude, and the final length
    is the length of the returned string. *)
Theorem debug_messages :
  forall (markdown_content : string) (lg : option StrippedContentLogger),
  exists texts : list string,
    List.length texts = 17
    /\ stdout (final_world (convert_markdown_to_text markdown_content true lg))
       = debug_trace (content_of markdown_content) texts
    /\ returned (convert_markdown_to_text markdown_content true lg)
       = Some (Py.strip (last texts (content_of markdown_content)))
    /\ stdout (final_world (convert_markdown_to_text markdown_content false lg))
       = [].
Proof.
  intros markdown_content lg.
  destruct (Trace.convert_world markdown_content) as (texts & n & L & H).
  exists texts. split; [exact L|].
  destruct (H true lg) as (e1 & ->). destruct (H false lg) as (e2 & ->).
  repeat split.
Qed.

Lemma step_diffs_app a b :
  step_diffs (a ++ b) = (step_diffs a + step_diffs b)%Z.
Proof.
  induction a as [|[] a IH]; cbn [app step_diffs]; rewrite ?IH; lia.
Qed.

Lemma last_after_len_app a b d :
  last_after_len (a ++ b) d = last_after_len b (last_after_len a d).
Proof.
  revert d. induction a as [|[] a IH]; intros d; cbn [app last_after_len];
    rewrite ?IH; reflexivity.
Qed.

Lemma final_message_steps names :
  forall before texts, final_message (step_lines names before texts) = None.
Proof.
  induction names as [|name names IH]; intros before [|t texts];
    cbn [step_lines final_message]; auto.
Qed.

Lemma final_message_app a b :
  final_message a = None -> final_message (a ++ b) = final_message b.
Proof.
  induction a as [|[] a IH]; cbn [app final_message]; auto.
  destruct (final_message a); discriminate.
Qed.

(** The differences of steps that follow one another add up. *)
Lemma step_lines_sum names :
  forall before texts d,
    List.length texts <= List.length names ->
    step_diffs (step_lines names before texts)
    = (Z.of_nat (String.length before)
       - Z.of_nat (String.length (last texts before)))%Z
    /\ last_after_len (step_lines names before texts) d
       = match texts with
         | [] => d
         | _ :: _ => String.length (last texts before)
         end.
Proof.
  induction names as [|name names IH]; intros before [|t texts] d L;
    cbn [step_lines step_diffs last_after_len].
  - split; [cbn [last]; lia|reflexivity].
  - cbn [List.length] in L. lia.
  - split; [cbn [last]; lia|reflexivity].
  - cbn [List.length] in L.
    destruct (IH t texts (String.length t)) as [A B]; [lia|].
    rewrite A, B, Trace.last_cons. split; [lia|].
    destruct texts; reflexivity.
Qed.

(** X8. In debug mode the numbers add up: the total reduction of the
    final message is the sum of the differences the steps report, plus
    what the final trimming takes from the length the last step
    reports; and the final length is the length of the returned
    string. *)
Theorem debug_differences_add_up :
  forall (markdown_content : string) (lg : option StrippedContentLogger),
  exists (out : string) (reduction : Z),
    returned (convert_markdown_to_text markdown_content true lg) = Some out
    /\ final_message
         (stdout (final_world
                    (convert_markdown_to_text markdown_content true lg)))
       = Some (String.length out, reduction)
    /\ (step_diffs
          (stdout (final_world
                     (convert_markdown_to_text markdown_content true lg)))
        + (Z.of_nat
             (last_after_len
                (stdout (final_world
                           (convert_markdown_to_text markdown_content true
                              lg))) 0)
           - Z.of_nat (String.length out))
        = reduction)%Z.
Proof.
  intros markdown_content lg.
  destruct (Trace.convert_world markdown_content) as (texts & n & L & H).
  destruct (H true lg) as (e1 & ->). cbn [returned final_world stdout].
  eexists. eexists. split; [reflexivity|].
  unfold debug_trace. cbn [final_message step_diffs last_after_len].
  rewrite final_message_app by apply final_message_steps.
  rewrite step_diffs_app, last_after_len_app.
  destruct (@step_lines_sum step_names (content_of markdown_content) texts 0)
    as [A B]; [rewrite L; cbn; lia|].
  rewrite A, B. cbn [final_message step_diffs last_after_len].
  split; [reflexivity|].
  destruct texts; [discriminate L|]. lia.
Qed.

(** X9. A call writes at most one warning to [sys.stderr], and writes
    it exactly when the text, after the JSON prelude, ends inside a code
    block. *)
Theorem one_warning_when_a_block_is_open :
  forall (markdown_content : string) (debug : bool)
         (lg : option StrippedContentLogger),
    List.length
      (stderr (final_world
                 (convert_markdown_to_text markdown_content debug lg)))
    = if fence_open false (Py.split Py.NL (content_of markdown_content))
      then 1 else 0.
Proof.
  intros markdown_content debug lg.
  destruct (Trace.convert_world markdown_content) as (texts & n & _ & H).
  destruct (H debug lg) as (entries & ->). cbn [final_world stderr].
  destruct (fence_open _ _); reflexivity.
Qed.

(** ** More on the first pass *)

Module Fences.

Lemma cb_loop_outside lines :
  no_fence lines = true ->
  forall k res start cur w,
    for_fold (combine (List.seq k (List.length lines)) lines)
      (CB res false start cur) cb_body w
    = Ok (CB (res ++ lines) false start cur) w.
Proof.
  induction lines as [|l lines IH]; intros H k res start cur w;
    cbn [List.length List.seq combine for_fold].
  - rewrite app_nil_r. reflexivity.
  - cbn [no_fence forallb] in H. apply andb_true_iff in H.
    destruct H as [Hl Hb]. apply negb_true_iff in Hl.
    unfold bind at 1. unfold cb_body at 1. rewrite Hl.
    cbn [in_code_block result_lines code_block_start_line
         current_code_block]. unfold ret at 1.
    rewrite (IH Hb), <- app_assoc. reflexivity.
Qed.

Lemma cb_loop_inside body :
  no_fence body = true ->
  forall k res start cur w,
    for_fold (combine (List.seq k (List.length body)) body)
      (CB res true start cur) cb_body w
    = Ok (CB res true start (cur ++ body)) w.
Proof.
  induction body as [|l body IH]; intros H k res start cur w;
    cbn [List.length List.seq combine for_fold].
  - rewrite app_nil_r. reflexivity.
  - cbn [no_fence forallb] in H. apply andb_true_iff in H.
    destruct H as [Hl Hb]. apply negb_true_iff in Hl.
    unfold bind at 1. unfold cb_body at 1. rewrite Hl.
    cbn [in_code_block result_lines code_block_start_line
         current_code_block]. unfold ret at 1.
    rewrite (IH Hb), <- app_assoc. reflexivity.
Qed.

Lemma safe_remove_code_blocks_no_fence text w :
  no_fence (Py.split Py.NL text) = true ->
  safe_remove_code_blocks text w = Ok text w.
Proof.
  intros H. unfold safe_remove_code_blocks, enumerate, cb_init.
  unfold bind at 1. rewrite (cb_loop_outside _ H).
  cbn [in_code_block result_lines app]. unfold bind, ret.
  rewrite Clean.join_split. reflexivity.
Qed.

Lemma kept_lines_no_fence lines :
  forall open, no_fence (kept_lines open lines) = true.
Proof.
  unfold no_fence.
  induction lines as [|l lines IH]; intros open; cbn [kept_lines];
    [reflexivity|].
  destruct (is_fence l) eqn:E; destruct open; auto.
  - cbn [forallb]. rewrite (IH true). reflexivity.
  - cbn [forallb]. rewrite E. apply IH.
Qed.

Lemma kept_lines_no_newline lines :
  Forall (fun l => Py.mem Py.NL l = false) lines ->
  forall open, Forall (fun l => Py.mem Py.NL l = false) (kept_lines open lines).
Proof.
  induction 1 as [|l lines Hl _ IH]; intros open; cbn [kept_lines];
    [constructor|].
  destruct (is_fence l); destruct open; auto; constructor; auto.
Qed.

Lemma kept_lines_nonempty l lines : kept_lines false (l :: lines) <> [].
Proof. cbn [kept_lines]. destruct (is_fence l); discriminate. Qed.

(** [chr(10).join(ls).split(chr(10))] is [ls], for lines without a
    newline. *)
Lemma split_join_lines L :
  L <> [] -> Forall (fun l => Py.mem Py.NL l = false) L ->
  Py.split Py.NL (Py.join NLs L) = L.
Proof.
  intros Hne H. induction H as [|l L Hl HL IH]; [contradiction|].
  destruct L as [|l2 L2].
  - cbn [Py.join]. apply Norm.split_line. exact Hl.
  - rewrite Norm.join_two. unfold Py.split.
    rewrite (Norm.split_aux_line _ Hl).
    cbn [NLs append Py.split_aux]. rewrite Ascii.eqb_refl.
    change (Py.rev_onto l "") with (Py.rev l). rewrite PyFacts.rev_involutive.
    f_equal. apply IH. discriminate.
Qed.

Lemma split_no_newline text :
  Forall (fun l => Py.mem Py.NL l = false) (Py.split Py.NL text).
Proof. apply Norm.split_aux_no_newline. reflexivity. Qed.

Lemma split_nonempty text : Py.split Py.NL text <> [].
Proof. apply Clean.split_aux_nonempty. Qed.

(** The lines of what the first pass returns. *)
Lemma lines_of_kept text :
  Py.split Py.NL (Py.join NLs (kept_lines false (Py.split Py.NL text)))
  = kept_lines false (Py.split Py.NL text).
Proof.
  apply split_join_lines.
  - pose proof (split_nonempty text) as H.
    destruct (Py.split Py.NL text) as [|l ls]; [contradiction|].
    apply kept_lines_nonempty.
  - apply kept_lines_no_newline. apply split_no_newline.
Qed.

End Fences.

(** X10. What the first pass returns has no line that is a fence: every
    fence line of the input is replaced by the placeholder or dropped. *)
Theorem code_blocks_leave_no_fence :
  forall (text : string) (w : world),
  exists out w',
    safe_remove_code_blocks text w = Ok out w'
    /\ no_fence (Py.split Py.NL out) = true.
Proof.
  intros text w. destruct (safe_remove_code_blocks_kept text w) as (w' & E).
  eexists. exists w'. split; [exact E|].
  rewrite Fences.lines_of_kept. apply Fences.kept_lines_no_fence.
Qed.

(** X11. The first pass on a text without a fence line returns the text,
    logs nothing and writes no warning. *)
Theorem text_without_fence_is_kept :
  forall (text : string) (w : world),
    no_fence (Py.split Py.NL text) = true ->
    safe_remove_code_blocks text w = Ok text w.
Proof.
  intros text w H. apply Fences.safe_remove_code_blocks_no_fence. exact H.
Qed.

Lemma text_without_fence_is_kept_witness :
  safe_remove_code_blocks "a `b` c" (world0 (Some (Logger true [])))
  = Ok "a `b` c" (world0 (Some (Logger true []))).
Proof.
  apply (@text_without_fence_is_kept "a `b` c").
  reflexivity.
Defined.

(** X12. The first pass run again on what it returned changes nothing:
    it returns the same text and leaves the logger and the streams as
    they are. *)
Theorem code_blocks_pass_is_idempotent :
  forall (text : string) (w : world),
  exists out w',
    safe_remove_code_blocks text w = Ok out w'
    /\ forall w2, safe_remove_code_blocks out w2 = Ok out w2.
Proof.
  intros text w. destruct (safe_remove_code_blocks_kept text w) as (w' & E).
  eexists. exists w'. split; [exact E|].
  intros w2. apply Fences.safe_remove_code_blocks_no_fence.
  rewrite Fences.lines_of_kept. apply Fences.kept_lines_no_fence.
Qed.

(** X13. A block that is closed, in a text with no other fence: the
    lines from the opening fence to the closing fence are replaced by the
    one line [[CODE BLOCK]], the lines before and after stay, the block
    is logged whole, both fences included, under [code_blocks], and
    nothing is written to [sys.stderr]. *)
Theorem closed_block_is_replaced_and_logged :
  forall (text : string) (pre : list string) (f1 : string)
         (body : list string) (f2 : string) (post : list string) (w : world),
    Py.split Py.NL text = pre ++ f1 :: body ++ f2 :: post ->
    no_fence pre = true -> is_fence f1 = true -> no_fence body = true ->
    is_fence f2 = true -> no_fence post = true ->
    safe_remove_code_blocks text w
    = Ok (Py.join NLs (pre ++ "[CODE BLOCK]" :: post))
        (World
           (logger_log (logger w) "code_blocks"
              (Py.join NLs (f1 :: body ++ [f2])))
           (stdout w) (stderr w)).
Proof.
  intros text pre f1 body f2 post w Hl Hpre Hf1 Hbody Hf2 Hpost.
  unfold safe_remove_code_blocks, enumerate, cb_init. rewrite Hl.
  unfold bind at 1.
  rewrite enumerate_from_app, for_fold_app, (Fences.cb_loop_outside _ Hpre).
  cbn [List.length List.seq combine for_fold app].
  unfold bind at 1. unfold cb_body at 1. rewrite Hf1.
  cbn [in_code_block negb result_lines]. unfold ret at 1.
  rewrite enumerate_from_app, for_fold_app.
  rewrite (Fences.cb_loop_inside _ Hbody).
  cbn [List.length List.seq combine for_fold].
  unfold bind at 1. unfold cb_body at 1. rewrite Hf2.
  cbn [in_code_block negb result_lines current_code_block
       code_block_start_line].
  unfold bind at 1. unfold log at 1. unfold ret at 1.
  rewrite (Fences.cb_loop_outside _ Hpost).
  cbn [in_code_block result_lines]. unfold bind, ret.
  rewrite <- app_assoc. reflexivity.
Qed.

Lemma closed_block_is_replaced_and_logged_witness :
  safe_remove_code_blocks (Py.join NLs ["a"; "```py"; "x = 1"; "```"; "b"])
    (world0 (Some (Logger true [])))
  = Ok (Py.join NLs (["a"] ++ "[CODE BLOCK]" :: ["b"]))
      (World
         (logger_log (logger (world0 (Some (Logger true [])))) "code_blocks"
            (Py.join NLs ("```py" :: ["x = 1"] ++ ["```"])))
         (stdout (world0 (Some (Logger true []))))
         (stderr (world0 (Some (Logger true []))))).
Proof.
  apply (@closed_block_is_replaced_and_logged
           (Py.join NLs ["a"; "```py"; "x = 1"; "```"; "b"])
           ["a"] "```py" ["x = 1"] "```" ["b"]);
    reflexivity.
Defined.

(** ** The shape of what is returned, and the JSON prelude *)

(** X14. Whatever the input, the flag and the logger, the returned string
    is trimmed and so is every one of its lines: it neither starts nor
    ends with white space, and no line of it does. *)
Theorem output_is_trimmed :
  forall (markdown_content : string) (debug : bool)
         (lg : option StrippedContentLogger),
  exists out w',
    convert_markdown_to_text markdown_content debug lg = Ok out w'
    /\ Py.strip out = out
    /\ map Py.strip (Py.split Py.NL out) = Py.split Py.NL out.
Proof.
  intros markdown_content debug lg.
  destruct (convert_value markdown_content) as (out & H).
  destruct (H debug lg) as (w' & E). exists out, w'. split; [exact E|].
  apply (@Again.convert_normal markdown_content out).
  unfold convert. destruct (H false None) as (w0 & E0). rewrite E0.
  reflexivity.
Qed.

Module Prelude.


End Prelude.



(** ** The table pass *)

Module Tables.
Import Re ReFacts.

Lemma all_chr_of_lstrip f s :
  (forall a, Py.is_space a = true -> f a = true) ->
  all_chr f (Py.lstrip s) = true -> all_chr f s = true.
Proof.
  intros Hf. induction s as [|a s IH]; cbn [Py.lstrip all_chr]; auto.
  destruct (Py.is_space a) eqn:E; [|auto].
  intros H. rewrite (Hf a E), (IH H). reflexivity.
Qed.

Lemma all_chr_of_strip f s :
  (forall a, Py.is_space a = true -> f a = true) ->
  all_chr f (Py.strip s) = true -> all_chr f s = true.
Proof.
  intros Hf H. unfold Py.strip, Py.rstrip in H.
  rewrite Clean.all_chr_rev in H. apply (all_chr_of_lstrip _ _ Hf) in H.
  rewrite Clean.all_chr_rev in H. apply (all_chr_of_lstrip _ _ Hf) in H.
  exact H.
Qed.

Lemma init_last s :
  s <> "" -> exists init z, s = (init ++ String z "")%string.
Proof.
  induction s as [|a s IH]; intros H; [contradiction|].
  destruct s as [|b s].
  - exists "", a. reflexivity.
  - destruct IH as (init & z & E); [discriminate|].
    exists (String a init), z. cbn [append]. rewrite <- E. reflexivity.
Qed.

(** The characters of a string between two pipes. *)
Lemma all_chr_between_pipes f s :
  f "|"%char = true ->
  Py.startswith "|" s = true -> Py.endswith "|" s = true ->
  all_chr f (Py.slice_1_m1 s) = true -> all_chr f s = true.
Proof.
  intros Hp Hs He Hc. destruct s as [|c0 s']; [reflexivity|].
  cbn [Py.startswith] in Hs. rewrite andb_true_r in Hs.
  apply Ascii.eqb_eq in Hs. subst c0. cbn [all_chr]. rewrite Hp.
  cbn [andb]. destruct s' as [|b s2]; [reflexivity|].
  destruct (@init_last (String b s2)) as (init & z & E); [discriminate|].
  rewrite E in *. clear E b s2.
  unfold Py.slice_1_m1 in Hc.
  replace (String.length (init ++ String z "") - 1)
    with (String.length init) in Hc
    by (rewrite append_length; cbn [String.length]; lia).
  rewrite Quote.substring_prefix in Hc.
  unfold Py.endswith in He.
  change (Py.rev "|") with "|" in He.
  rewrite PyFacts.rev_cons, PyFacts.rev_app in He.
  cbn [Py.rev Py.rev_onto append Py.startswith] in He.
  rewrite andb_true_r in He. apply Ascii.eqb_eq in He. subst z.
  rewrite Quote.all_chr_app, Hc. cbn [all_chr]. rewrite Hp. reflexivity.
Qed.

Lemma separator_class a :
  cls_ok (CSet [ISpace; ILit "-"; ILit ":"; ILit "|"; ILit "|"]) a = true ->
  separator_chr a = true.
Proof.
  destruct a as [[] [] [] [] [] [] [] []]; intros H; try reflexivity;
    discriminate H.
Qed.

Lemma all_chr_weaken (f g : ascii -> bool) s :
  (forall a, f a = true -> g a = true) ->
  all_chr f s = true -> all_chr g s = true.
Proof.
  intros H. induction s as [|a s IH]; cbn [all_chr]; auto.
  intros E. apply andb_true_iff in E. destruct E as [Ea Es].
  rewrite (H a Ea), (IH Es). reflexivity.
Qed.

(** What the pattern of the separator characters accepts. *)
Lemma separator_chars_sound s x :
  rmatch false Pat.separator_chars s = Some x ->
  all_chr separator_chr s = true.
Proof.
  intros H. apply try_at_some in H. destruct H as (c' & Hm & _).
  unfold Pat.separator_chars in Hm. cbn [seq matches] in Hm.
  destruct Hm as (c1 & [_ ->] & c2 & (j & _ & _ & Hit) & [He ->]).
  apply (@iter_class false
           (CSet [ISpace; ILit "-"; ILit ":"; ILit "|"; ILit "|"])) in Hit.
  destruct Hit as (v & [Ev _] & _ & Av).
  cbn [start rest] in Ev. rewrite Ev, Quote.all_chr_app.
  rewrite (all_chr_weaken _ _ _ separator_class Av). cbn [andb].
  unfold at_eol in He. destruct (rest c2) as [|a t]; [reflexivity|].
  cbn [orb] in He. apply andb_true_iff in He. destruct He as [Ha Ht].
  apply Ascii.eqb_eq in Ha. subst a. destruct t; [reflexivity|discriminate].
Qed.

Lemma is_table_separator_chars line :
  is_table_separator line = true -> all_chr separator_chr line = true.
Proof.
  unfold is_table_separator. intros H.
  destruct (Py.startswith "|" (Py.strip line)) eqn:Es; [|discriminate].
  destruct (Py.endswith "|" (Py.strip line)) eqn:Ee; [|discriminate].
  cbn [andb] in H.
  destruct (rmatch false Pat.separator_chars (Py.slice_1_m1 (Py.strip line)))
    as [x|] eqn:Em; [|discriminate].
  apply all_chr_of_strip.
  { intros a Ha. unfold separator_chr. rewrite Ha. apply orb_true_r. }
  apply all_chr_between_pipes; auto.
  apply (separator_chars_sound _ Em).
Qed.

(** The loop of the pass. *)
Lemma tables_loop lines :
  forall k acc w,
    for_fold (combine (List.seq k (List.length lines)) lines) acc
      tables_body w
    = Ok (acc ++ filter (fun l => negb (is_table_separator l)) lines)
        (World
           (log_all (logger w)
              (map (fun l => ("table_separators", l))
                 (filter is_table_separator lines)))
           (stdout w) (stderr w)).
Proof.
  induction lines as [|l lines IH]; intros k acc w;
    cbn [List.length List.seq combine for_fold filter map].
  - rewrite app_nil_r. destruct w as [lg so se]. reflexivity.
  - unfold bind at 1. unfold tables_body at 1.
    destruct (is_table_separator l); cbn [negb map].
    + unfold bind, log, ret. rewrite IH. reflexivity.
    + unfold ret at 1. rewrite IH, <- app_assoc. reflexivity.
Qed.

End Tables.

(** X16. The table pass keeps, in their order, the lines that are not
    separator rows, and passes every separator row to the logger under
    [table_separators], in their order; it prints nothing. *)
Theorem table_pass_drops_separator_rows_only :
  forall (text : string) (w : world),
    conservative_remove_tables text w
    = Ok (Py.join NLs
            (filter (fun l => negb (is_table_separator l))
               (Py.split Py.NL text)))
        (World
           (log_all (logger w)
              (map (fun l => ("table_separators", l))
                 (filter is_table_separator (Py.split Py.NL text))))
           (stdout w) (stderr w)).
Proof.
  intros text w. unfold conservative_remove_tables, enumerate.
  unfold bind. rewrite Tables.tables_loop. reflexivity.
Qed.

(** X17. A line the table pass takes for a separator row has no character
    other than the pipe, the dash, the colon and white space: a row with
    any other character, a data row with text in a cell for one, is never
    removed. *)
Theorem table_separator_has_no_text :
  forall line : string,
    is_table_separator line = true -> all_chr separator_chr line = true.
Proof. intros line H. apply Tables.is_table_separator_chars. exact H. Qed.

Lemma table_separator_has_no_text_witness :
  all_chr separator_chr " | :--- | ---: |" = true.
Proof.
  apply (@table_separator_has_no_text " | :--- | ---: |"). reflexivity.
Defined.

(** ** Underlined headers *)

Module Underline.
Import Re ReFacts Runs.

Lemma drop_while_run f v w :
  all_chr f v = true -> drop_while f (v ++ w) = drop_while f w.
Proof.
  induction v as [|a v IH]; cbn [append all_chr drop_while]; auto.
  intros H. apply andb_true_iff in H. destruct H as [Ha Hv].
  rewrite Ha. apply IH. exact Hv.
Qed.

Lemma drop_while_space c w :
  Py.is_space c = false -> all_space w = true ->
  drop_while (fun b => Ascii.eqb b c) w = w.
Proof.
  intros Hc Hw. destruct w as [|a w]; [reflexivity|].
  cbn [drop_while]. cbn [all_space] in Hw.
  apply andb_true_iff in Hw. destruct Hw as [Ha _].
  destruct (Ascii.eqb_spec a c) as [->|_]; [congruence|reflexivity].
Qed.

Lemma all_space_chr v : all_chr Py.is_space v = all_space v.
Proof. induction v as [|a v IH]; cbn [all_chr all_space]; congruence. Qed.

Lemma underline_sound c line c' :
  Py.is_space c = false ->
  matches false (Pat.underline c) (start line) c' ->
  exists t, line = String c t
            /\ all_space (drop_while (fun b => Ascii.eqb b c) line) = true.
Proof.
  intros Hc. unfold Pat.underline. cbn [seq matches].
  intros (c1 & [_ ->] & c2 & (j1 & Hj1 & _ & H1) & c3 & (j2 & _ & _ & H2)
          & He & ->).
  apply (@iter_class false (CLit c)) in H1.
  destruct H1 as (v1 & B1 & L1 & A1).
  apply (@iter_class false (CSet [ISpace])) in H2.
  destruct H2 as (v2 & B2 & _ & A2).
  destruct B1 as [E1 _]. destruct B2 as [E2 _].
  cbn [start rest] in E1. rewrite E2 in E1.
  assert (Hw : all_space (v2 ++ rest c3) = true).
  { rewrite <- all_space_chr, Quote.all_chr_app.
    rewrite (Quote.all_chr_ext _ _ v2 cls_ws) in A2. rewrite A2. cbn [andb].
    unfold at_eol in He. destruct (rest c3) as [|a [|b t]]; auto.
    - rewrite orb_true_r, andb_true_r in He. apply Ascii.eqb_eq in He.
      subst. reflexivity.
    - rewrite andb_false_r in He. discriminate. }
  rewrite E1.
  assert (Hd : all_space
                 (drop_while (fun b => Ascii.eqb b c) (v1 ++ v2 ++ rest c3))
               = true).
  { change (cls_ok (CLit c)) with (fun b => Ascii.eqb b c) in A1.
    rewrite (@drop_while_run _ _ _ A1), (@drop_while_space _ _ Hc Hw).
    exact Hw. }
  destruct v1 as [|a v1]; [simpl in L1; lia|].
  cbn [all_chr cls_ok] in A1. apply andb_true_iff in A1.
  destruct A1 as [Ha _]. apply Ascii.eqb_eq in Ha. subst a.
  eexists. split; [reflexivity|exact Hd].
Qed.

Lemma underline_complete c t :
  all_space (drop_while (fun b => Ascii.eqb b c) (String c t)) = true ->
  exists c', matches false (Pat.underline c) (start (String c t)) c'.
Proof.
  intros Hw. set (line := String c t) in *.
  pose proof (take_drop_while (fun b => Ascii.eqb b c) line) as Et.
  pose proof (Quote.all_chr_take_while (fun b => Ascii.eqb b c) line) as Av.
  destruct (@Rule.run_matches false (CLit c) _ (start line) _
              (eq_sym Et) Av) as (c2 & Hit & Er & Ep).
  rewrite <- all_space_chr in Hw.
  destruct (@Rule.run_matches false (CSet [ISpace]) _ c2 ""
              (eq_trans Er (eq_sym (append_nil_r _)))
              (Rule.space_class _ Hw)) as (c3 & Hit3 & Er3 & _).
  exists c3. unfold Pat.underline. cbn [seq matches].
  exists (start line). split; [split; reflexivity|].
  exists c2. split.
  { exists (String.length (take_while (fun b => Ascii.eqb b c) line)).
    split; [|split; [exact I|exact Hit]].
    unfold line. cbn [take_while]. rewrite Ascii.eqb_refl.
    cbn [String.length]. lia. }
  exists c3. split.
  { eexists. split; [|split; [exact I|exact Hit3]]. lia. }
  split; [|reflexivity]. unfold at_eol. rewrite Er3. reflexivity.
Qed.

Lemma rmatch_underline c line :
  Py.is_space c = false ->
  is_some (rmatch false (Pat.underline c) line)
  = match line with
    | EmptyString => false
    | String a _ =>
        Ascii.eqb a c
        && all_space (drop_while (fun b => Ascii.eqb b a) line)
    end.
Proof.
  intros Hc. unfold rmatch.
  destruct (try_at false (Pat.underline c) false (start line)) as [x|] eqn:E.
  - apply try_at_some in E. destruct E as (c' & Hm & _).
    apply (@underline_sound _ _ _ Hc) in Hm. destruct Hm as (t & -> & Hw).
    rewrite Ascii.eqb_refl, Hw. reflexivity.
  - cbn [is_some]. destruct line as [|a t]; [reflexivity|].
    destruct (Ascii.eqb_spec a c) as [->|_]; [|reflexivity].
    cbn [andb].
    destruct (all_space (drop_while (fun b => Ascii.eqb b c) (String c t)))
      eqn:Hw; [|reflexivity].
    exfalso. destruct (@underline_complete _ _ Hw) as (c' & Hm).
    revert E. eapply try_at_complete. exact Hm.
Qed.

Lemma is_underline_spec line :
  is_some (rmatch false (Pat.underline "=") line)
  || is_some (rmatch false (Pat.underline "-") line)
  = underline_like line.
Proof.
  rewrite !rmatch_underline by reflexivity. unfold underline_like.
  destruct line as [|a t]; [reflexivity|].
  destruct (Ascii.eqb a "="), (Ascii.eqb a "-"); cbn [andb orb];
    rewrite ?orb_false_r, ?orb_diag; reflexivity.
Qed.

(** The loop of step 3b on what is left of the lines. *)
Lemma underline_loop prefix :
  forall suffix acc skip w,
  exists b,
    for_fold
      (combine (List.seq (List.length prefix) (List.length suffix)) suffix)
      (acc, skip) (underline_body (prefix ++ suffix)) w
    = Ok (acc ++ underline_kept skip suffix, b)
        (World
           (log_all (logger w)
              (map (fun l => ("underline_headers", l))
                 (underline_dropped skip suffix)))
           (stdout w) (stderr w)).
Proof.
  intros suffix. revert prefix.
  induction suffix as [|l rest IH]; intros prefix acc skip w;
    cbn [List.length List.seq combine for_fold underline_kept
         underline_dropped map].
  - exists skip. rewrite app_nil_r. destruct w as [lg so se]. reflexivity.
  - assert (Ei : nth_error (prefix ++ l :: rest) (List.length prefix)
                 = Some l).
    { rewrite nth_error_app2, Nat.sub_diag by lia. reflexivity. }
    assert (El : prefix ++ l :: rest = (prefix ++ [l]) ++ rest).
    { rewrite <- app_assoc. reflexivity. }
    assert (En : S (List.length prefix) = List.length (prefix ++ [l])).
    { rewrite length_app. cbn [List.length]. lia. }
    unfold bind at 1. unfold underline_body at 1. destruct skip.
    + unfold bind, index. rewrite Ei. unfold ret, log.
      rewrite El, En.
      destruct (IH (prefix ++ [l]) acc false
                  (World
                     (logger_log (logger w) "underline_headers" l)
                     (stdout w) (stderr w))) as (b & E).
      exists b. rewrite E. reflexivity.
    + destruct rest as [|u rest'].
      * destruct (Z.ltb_spec (Z.of_nat (List.length prefix))
                    (Z.of_nat (List.length (prefix ++ [l])) - 1)) as [H|_].
        { rewrite length_app in H. cbn [List.length] in H. lia. }
        unfold ret. cbn [for_fold combine List.seq List.length
                         underline_kept underline_dropped map].
        exists false. destruct w as [lg so se]. reflexivity.
      * destruct (Z.ltb_spec (Z.of_nat (List.length prefix))
                    (Z.of_nat (List.length (prefix ++ l :: u :: rest')) - 1))
          as [_|H].
        2:{ rewrite length_app in H. cbn [List.length] in H. lia. }
        unfold bind at 1. unfold index.
        assert (Eu : nth_error (prefix ++ l :: u :: rest')
                       (List.length prefix + 1) = Some u).
        { rewrite nth_error_app2 by lia.
          replace (List.length prefix + 1 - List.length prefix) with 1
            by lia. reflexivity. }
        rewrite Eu. unfold ret at 1. rewrite is_underline_spec.
        rewrite El, En.
        destruct (underline_like u) eqn:Eul; unfold ret at 1;
          [destruct (IH (prefix ++ [l]) (acc ++ [l]) true w) as (b & E)
          |destruct (IH (prefix ++ [l]) (acc ++ [l]) false w) as (b & E)];
          exists b; rewrite E, <- app_assoc; reflexivity.
Qed.

End Underline.

(** X18. The test of step 3b for the line under a header: the two
    patterns accept exactly the lines that start with [=] or with [-],
    go on with the same character, and end with white space only. *)
Theorem underline_test_is_a_run_then_white_space :
  forall line : string,
    is_some (Re.rmatch false (Pat.underline "=") line)
    || is_some (Re.rmatch false (Pat.underline "-") line)
    = underline_like line.
Proof. exact Underline.is_underline_spec. Qed.

(** X19. Step 3b keeps a header and drops the line that underlines it: a
    line is dropped, and passed to the logger under [underline_headers],
    exactly when it is an underline and the line before it was kept.  So
    the first line is always kept, an underline under an underline stays,
    and the index into the lines never leaves them. *)
Theorem underline_headers_drop_the_underline :
  forall (text : string) (w : world),
    underline_headers text w
    = Ok (Py.join NLs (underline_kept false (Py.split Py.NL text)))
        (World
           (log_all (logger w)
              (map (fun l => ("underline_headers", l))
                 (underline_dropped false (Py.split Py.NL text))))
           (stdout w) (stderr w)).
Proof.
  intros text w. unfold underline_headers, enumerate. unfold bind.
  destruct (Underline.underline_loop [] (Py.split Py.NL text) [] false w)
    as (b & E).
  cbn [app List.length] in E. rewrite E. reflexivity.
Qed.

(** ** The last step *)

Module Squeeze.
Import Re ReFacts Runs.

Lemma squeeze_after_run r s :
  Py.startswith NLs s = false -> squeeze r s = squeeze 0 s.
Proof.
  destruct s as [|a s]; [reflexivity|]. cbn [NLs Py.startswith squeeze].
  rewrite andb_true_r, Ascii.eqb_sym. intros ->. reflexivity.
Qed.

Lemma drop_while_no_newline s :
  Py.startswith NLs (drop_while (cls_ok (CLit Py.NL)) s) = false.
Proof.
  destruct (drop_while (cls_ok (CLit Py.NL)) s) as [|a t] eqn:E;
    [reflexivity|].
  apply drop_while_head in E. cbn [cls_ok] in E.
  cbn [NLs Py.startswith]. rewrite Ascii.eqb_sym, E. reflexivity.
Qed.

(** [squeeze] on a run of newlines and what follows it. *)
Lemma squeeze_run v t :
  all_chr (cls_ok (CLit Py.NL)) v = true ->
  Py.startswith NLs t = false ->
  forall r,
    squeeze r (v ++ t)
    = (Py.repeat_chr Py.NL (Nat.min (String.length v) (2 - r))
       ++ squeeze 0 t)%string.
Proof.
  intros Hv Ht. induction v as [|a v IH]; intros r.
  - cbn [append String.length Nat.min Py.repeat_chr].
    apply squeeze_after_run. exact Ht.
  - cbn [all_chr cls_ok] in Hv. apply andb_true_iff in Hv.
    destruct Hv as [Ha Hv]. apply Ascii.eqb_eq in Ha. subst a.
    cbn [append squeeze String.length]. rewrite Ascii.eqb_refl.
    rewrite (IH Hv).
    destruct (Nat.ltb_spec r 2) as [Hr|Hr].
    + replace (2 - r) with (S (2 - S r)) by lia.
      rewrite <- Nat.succ_min_distr. reflexivity.
    + replace (2 - r) with 0 by lia. replace (2 - S r) with 0 by lia.
      rewrite !Nat.min_0_r. reflexivity.
Qed.

Lemma try_newlines_some bf p s :
  3 <= String.length (take_while (cls_ok (CLit Py.NL)) s) ->
  exists x,
    try_at false Pat.newlines3 false (Cursor bf p s) = Some x
    /\ m_len x = String.length (take_while (cls_ok (CLit Py.NL)) s).
Proof.
  intros H. unfold try_at, Pat.newlines3, lit, Pat.NL. rewrite m_rep.
  cbn [rest]. erewrite greedy_run; [| | |reflexivity].
  - eexists. split; [reflexivity|]. cbn [m_len pos].
    rewrite pos_eat_length. lia.
  - apply le_n.
  - cbn [Nat.add]. exact H.
Qed.

Lemma try_newlines_none bf p s :
  String.length (take_while (cls_ok (CLit Py.NL)) s) < 3 ->
  try_at false Pat.newlines3 false (Cursor bf p s) = None.
Proof.
  intros H. apply try_at_none. intros c' Hm.
  unfold Pat.newlines3, Pat.NL in Hm. cbn [matches] in Hm.
  destruct Hm as (j & Hj & _ & Hit).
  apply (@iter_class false (CLit Py.NL)) in Hit.
  destruct Hit as (v & [Ev _] & L & A). cbn [rest] in Ev.
  assert (G : forall v t, all_chr (cls_ok (CLit Py.NL)) v = true ->
              String.length v
              <= String.length (take_while (cls_ok (CLit Py.NL)) (v ++ t))).
  { clear. induction v as [|a v IH]; intros t A; cbn [append String.length].
    - lia.
    - cbn [all_chr] in A. apply andb_true_iff in A. destruct A as [Ha Av].
      cbn [take_while]. rewrite Ha. cbn [String.length].
      specialize (IH t Av). lia. }
  specialize (G v (rest c') A). rewrite <- Ev in G. lia.
Qed.

(** The scan passes the characters of a match that was found. *)
Lemma scan_skip ml r v :
  forall t bf p,
  exists bf',
    scan ml r (String.length v) bf p (v ++ t)
    = scan ml r 0 bf' (p + String.length v) t.
Proof.
  induction v as [|a v IH]; intros t bf p; cbn [String.length append].
  - exists bf. rewrite Nat.add_0_r. reflexivity.
  - cbn [scan]. destruct (IH t (Some a) (S p)) as (bf' & E).
    exists bf'. rewrite E. f_equal. lia.
Qed.

Lemma take_while_run v t :
  all_chr (cls_ok (CLit Py.NL)) v = true ->
  Py.startswith NLs t = false ->
  take_while (cls_ok (CLit Py.NL)) (v ++ t) = v.
Proof.
  intros Hv Ht. induction v as [|a v IH]; cbn [append].
  - destruct t as [|b t]; [reflexivity|]. cbn [take_while cls_ok].
    cbn [NLs Py.startswith] in Ht. rewrite andb_true_r, Ascii.eqb_sym in Ht.
    rewrite Ht. reflexivity.
  - cbn [all_chr] in Hv. apply andb_true_iff in Hv. destruct Hv as [Ha Hv].
    cbn [take_while]. rewrite Ha, (IH Hv). reflexivity.
Qed.

Lemma sub_newlines_run n
  (IH : forall s, String.length s <= n ->
        forall bf p,
          subst (fun _ => (NLs ++ NLs)%string)
            (scan false Pat.newlines3 0 bf p s) = squeeze 0 s) :
  forall v t,
    all_chr (cls_ok (CLit Py.NL)) v = true ->
    Py.startswith NLs t = false ->
    String.length (v ++ t) <= S n ->
    forall bf p,
      subst (fun _ => (NLs ++ NLs)%string)
        (scan false Pat.newlines3 0 bf p (v ++ t))
      = squeeze 0 (v ++ t).
Proof.
  intros v t Hv Ht Hn bf p.
  pose proof (take_while_run _ _ Hv Ht) as Etw.
  destruct v as [|a v].
  - cbn [append] in *. destruct t as [|b t]; [reflexivity|].
    cbn [scan]. rewrite try_newlines_none by (rewrite Etw; cbn; lia).
    cbn [subst]. rewrite IH by (cbn [String.length] in Hn; lia).
    cbn [NLs Py.startswith] in Ht. rewrite andb_true_r, Ascii.eqb_sym in Ht.
    cbn [squeeze]. rewrite Ht. reflexivity.
  - pose proof Hv as Hv0.
    cbn [all_chr cls_ok] in Hv. apply andb_true_iff in Hv.
    destruct Hv as [Ha Hv]. apply Ascii.eqb_eq in Ha. subst a.
    destruct (Nat.lt_ge_cases (String.length (String Py.NL v)) 3) as [Hr|Hr].
    + cbn [append scan].
      change (String Py.NL (v ++ t)) with (String Py.NL v ++ t)%string.
      rewrite try_newlines_none by (rewrite Etw; exact Hr).
      cbn [subst]. rewrite IH by (cbn [append String.length] in Hn; lia).
      rewrite (squeeze_run _ _ Hv0 Ht 0), (squeeze_run _ _ Hv Ht 0).
      cbn [String.length] in Hr |- *.
      destruct v as [|b [|c v]]; cbn [String.length] in Hr; try lia;
        reflexivity.
    + destruct (try_newlines_some bf p (String Py.NL v ++ t))
        as (x & Ex & Lx); [rewrite Etw; exact Hr|].
      rewrite Etw in Lx. cbn [String.length] in Lx.
      cbn [append scan].
      change (String Py.NL (v ++ t)) with (String Py.NL v ++ t)%string.
      rewrite Ex, Lx. cbn [subst].
      destruct (scan_skip false Pat.newlines3 v t (Some Py.NL) (S p))
        as (bf' & E).
      rewrite E, IH.
      * rewrite (squeeze_run _ _ Hv0 Ht 0).
        replace (Nat.min (String.length (String Py.NL v)) (2 - 0)) with 2
          by lia.
        reflexivity.
      * cbn [append String.length] in Hn. rewrite append_length in Hn. lia.
Qed.

Lemma sub_newlines n :
  forall s, String.length s <= n ->
  forall bf p,
    subst (fun _ => (NLs ++ NLs)%string) (scan false Pat.newlines3 0 bf p s)
    = squeeze 0 s.
Proof.
  induction n as [|n IH]; intros s Hn bf p.
  - destruct s; [|simpl in Hn; lia]. reflexivity.
  - rewrite <- (take_drop_while (cls_ok (CLit Py.NL)) s) in Hn |- *.
    apply (sub_newlines_run IH); auto.
    + apply Quote.all_chr_take_while.
    + apply drop_while_no_newline.
Qed.

Lemma sub_newlines3 text :
  sub false Pat.newlines3 (fun _ => (NLs ++ NLs)%string) text
  = squeeze 0 text.
Proof. unfold sub, segments. eapply sub_newlines. apply le_n. Qed.

End Squeeze.

(** X20. The last step cuts every run of three or more newlines to two
    and then trims every line.  It cuts before it trims, so lines of
    blanks between empty lines can leave a longer run behind. *)
Theorem clean_whitespace_cuts_runs_then_trims :
  forall text : string,
    yields quiet (clean_whitespace text)
      (Py.join NLs (map Py.strip (Py.split Py.NL (squeeze 0 text)))).
Proof.
  intros text. rewrite <- Squeeze.sub_newlines3.
  apply Again.clean_whitespace_value.
Qed.

Lemma steps_2_to_16_on_plain_text y :
  plain y = true ->
  forall debug,
    yields quiet (steps_2_to_16 debug y)
      (Py.join NLs (map Py.strip (Py.split Py.NL (squeeze 0 y)))).
Proof.
  intros Hp debug. unfold steps_2_to_16.
  repeat (quiet_bind;
          [apply step_yields; apply Again.stays; [apply quiet_refl|];
           intros w;
           first [ apply Clean.inline_code_plain
                 | apply Clean.hash_headers_plain
                 | apply Again.underline_headers_plain
                 | apply Clean.safe_remove_emphasis_plain
                 | apply Clean.reference_links_plain
                 | apply Clean.links_and_images_plain
                 | apply Clean.task_lists_plain
                 | apply Clean.regular_lists_plain
                 | apply Clean.escaped_characters_plain
                 | apply Clean.blockquotes_plain
                 | apply Again.horizontal_rules_plain
                 | apply Again.conservative_remove_tables_plain
                 | apply Clean.html_tags_plain
                 | apply Clean.strikethrough_plain
                 | apply Clean.footnotes_plain ]; exact Hp|]).
  apply step_yields. rewrite <- Squeeze.sub_newlines3.
  apply Again.clean_whitespace_value.
Qed.

(** X21. On a text that has none of the characters a construct needs
    (the backtick, [* _ # [ > < ~ | - + = \], the double quote and the
    digits) the whole conversion is the clean-up of white space alone:
    runs of newlines are cut to two, every line is trimmed, and the text
    is trimmed.  The words of the text and their order are never
    touched. *)
Theorem plain_text_is_only_cleaned :
  forall (y : string) (debug : bool) (lg : option StrippedContentLogger),
    plain y = true ->
    returned (convert_markdown_to_text y debug lg)
    = Some (Py.strip
              (Py.join NLs (map Py.strip (Py.split Py.NL (squeeze 0 y))))).
Proof.
  intros y debug lg Hp. unfold convert_markdown_to_text.
  match goal with |- context [convert_body _ _ ?w] => set (w0 := w) end.
  destruct (@Again.safe_remove_code_blocks_plain y
              (if debug
               then World (logger w0)
                      (stdout w0 ++ [Out_start (String.length (content_of y))])
                      (stderr w0)
               else w0) Hp) as (w1 & E1).
  rewrite <- (Again.content_of_plain y Hp) in E1 at 1.
  destruct (@convert_body_spec debug y w0 y w1 _ E1
              (@steps_2_to_16_on_plain_text y Hp debug)) as (w' & E & _).
  rewrite E. reflexivity.
Qed.

Lemma plain_text_is_only_cleaned_witness :
  returned
    (convert_markdown_to_text (Py.join NLs [" one "; ""; ""; ""; "two."])
       true None)
  = Some (Py.strip
            (Py.join NLs
               (map Py.strip
                  (Py.split Py.NL
                     (squeeze 0 (Py.join NLs [" one "; ""; ""; ""; "two."])))))).
Proof.
  apply (@plain_text_is_only_cleaned
           (Py.join NLs [" one "; ""; ""; ""; "two."]) true None).
  reflexivity.
Defined.

(** ** Where a pattern matches: the scan, step by step *)

Module Scan.
Import Re ReFacts Runs.

Lemma last_chr_app bf v w : last_chr bf (v ++ w) = last_chr (last_chr bf v) w.
Proof.
  revert bf. induction v as [|a v IH]; intros bf; cbn [append last_chr];
    auto.
Qed.

(** The characters of a match that was found are passed. *)
Lemma scan_passes ml r v :
  forall t bf p,
    scan ml r (String.length v) bf p (v ++ t)
    = scan ml r 0 (last_chr bf v) (p + String.length v) t.
Proof.
  induction v as [|a v IH]; intros t bf p; cbn [String.length append last_chr].
  - rewrite Nat.add_0_r. reflexivity.
  - cbn [scan]. rewrite IH. f_equal. lia.
Qed.

(** Characters at which no attempt succeeds are kept. *)
Lemma scan_keeps ml r (f : ascii -> bool) :
  (forall bf p a s,
      f a = false -> try_at ml r false (Cursor bf p (String a s)) = None) ->
  forall pre s bf p,
    all_chr (fun a => negb (f a)) pre = true ->
    (forall repl,
        subst repl (scan ml r 0 bf p (pre ++ s))
        = (pre ++ subst repl
                    (scan ml r 0 (last_chr bf pre) (p + String.length pre) s))
          %string)
    /\ hits (scan ml r 0 bf p (pre ++ s))
       = hits (scan ml r 0 (last_chr bf pre) (p + String.length pre) s).
Proof.
  intros Hf. induction pre as [|a pre IH]; intros s bf p H;
    cbn [append String.length last_chr].
  - rewrite Nat.add_0_r. split; reflexivity.
  - cbn [all_chr] in H. apply andb_true_iff in H. destruct H as [Ha Hp].
    apply negb_true_iff in Ha. cbn [scan]. rewrite (Hf _ _ _ _ Ha).
    destruct (IH s (Some a) (S p) Hp) as [E1 E2].
    replace (p + S (String.length pre)) with (S p + String.length pre) by lia.
    split; [intros repl; cbn [subst]; rewrite E1; reflexivity|].
    cbn [hits]. exact E2.
Qed.

(** A match that is not empty, and what follows it. *)
Lemma scan_hits ml r bf p a s x n :
  try_at ml r false (Cursor bf p (String a s)) = Some x ->
  m_len x = S n ->
  scan ml r 0 bf p (String a s) = Hit x :: scan ml r n (Some a) (S p) s.
Proof. intros E L. cbn [scan]. rewrite E, L. reflexivity. Qed.

Lemma scan_end ml r bf p :
  try_at ml r false (Cursor bf p "") = None -> scan ml r 0 bf p "" = [].
Proof. intros E. cbn [scan]. rewrite E. reflexivity. Qed.

(** A literal string, against the text it is in front of. *)
Lemma m_str ml d :
  d <> "" ->
  forall k bf p s g,
    m ml (str d) k (Cursor bf p (d ++ s)) g
    = k (Cursor (last_chr bf d) (p + String.length d) s) g.
Proof.
  induction d as [|a d IH]; intros Hd k bf p s g; [contradiction|].
  destruct d as [|b d].
  - change (str (String a "")) with (One (CLit a)).
    change (String a "" ++ s)%string with (String a s).
    rewrite m_one. cbn [cls_ok].
    rewrite Ascii.eqb_refl. cbn [last_chr String.length].
    replace (p + 1) with (S p) by lia. reflexivity.
  - change (str (String a (String b d)))
      with (Seq (lit a) (str (String b d))).
    rewrite m_seq. unfold lit at 1.
    change (String a (String b d) ++ s)%string
      with (String a (String b d ++ s)).
    rewrite m_one. cbn [cls_ok]. rewrite Ascii.eqb_refl.
    rewrite IH by discriminate. cbn [last_chr String.length].
    replace (S p + S (String.length d)) with (p + S (S (String.length d)))
      by lia.
    reflexivity.
Qed.

(** A literal string fails on another first character, and at the
    end. *)
Lemma m_str_other ml c d k bf p a s g :
  Ascii.eqb a c = false ->
  m ml (str (String c d)) k (Cursor bf p (String a s)) g = None.
Proof.
  intros H. destruct d as [|b d].
  - change (str (String c "")) with (One (CLit c)).
    rewrite m_one. cbn [cls_ok]. rewrite H. reflexivity.
  - change (str (String c (String b d)))
      with (Seq (lit c) (str (String b d))).
    rewrite m_seq. unfold lit at 1. rewrite m_one. cbn [cls_ok].
    rewrite H. reflexivity.
Qed.

Lemma m_str_end ml c d k bf p g :
  m ml (str (String c d)) k (Cursor bf p "") g = None.
Proof.
  destruct d as [|b d].
  - reflexivity.
  - change (str (String c (String b d)))
      with (Seq (lit c) (str (String b d))).
    rewrite m_seq. reflexivity.
Qed.

(** A lazy repetition of one class, in front of a run that the
    continuation refuses to stop in and accepts the end of: it takes the
    run. *)
Lemma lazy_run ml cl lo k s x :
  forall v n i bf p g,
    all_chr (cls_ok cl) v = true ->
    String.length v <= n ->
    lo <= i + String.length v ->
    (forall v1 a v2 g',
        v = (v1 ++ String a v2)%string ->
        k (Cursor (last_chr bf v1) (p + String.length v1)
             (String a v2 ++ s)) g' = None) ->
    k (Cursor (last_chr bf v) (p + String.length v) s) g = Some x ->
    rep_loop (m ml (One cl)) false lo k n i (Cursor bf p (v ++ s)) g
    = Some x.
Proof.
  induction v as [|a v IH]; intros n i bf p g Hv Hn Hlo Hk Hx.
  - cbn [append String.length last_chr] in *. rewrite Nat.add_0_r in *.
    assert (E : (lo <=? i) = true) by (apply Nat.leb_le; lia).
    destruct n as [|n]; [rewrite rep_loop_end, E; exact Hx|].
    rewrite rep_loop_lazy, E, Hx. reflexivity.
  - cbn [all_chr] in Hv. apply andb_true_iff in Hv. destruct Hv as [Ha Hv].
    destruct n as [|n]; [cbn [String.length] in Hn; lia|].
    rewrite rep_loop_lazy.
    assert (E0 : (if lo <=? i
                  then k (Cursor bf p (String a v ++ s)) g else None)
                 = None).
    { destruct (lo <=? i); [|reflexivity].
      specialize (Hk "" a v g eq_refl).
      cbn [last_chr String.length] in Hk. rewrite Nat.add_0_r in Hk.
      exact Hk. }
    rewrite E0. cbn [append]. rewrite m_one, Ha. cbn [pos].
    rewrite ltb_succ by lia.
    apply IH; auto.
    + cbn [String.length] in Hn. lia.
    + cbn [String.length] in Hlo. lia.
    + intros v1 b v2 g' Ev.
      specialize (Hk (String a v1) b v2 g').
      cbn [append last_chr String.length] in Hk.
      replace (p + S (String.length v1)) with (S p + String.length v1) in Hk
        by lia.
      apply Hk. rewrite Ev. reflexivity.
    + cbn [last_chr String.length] in Hx.
      replace (p + S (String.length v)) with (S p + String.length v) in Hx
        by lia.
      exact Hx.
Qed.

(** A greedy repetition of one class, in front of a run that ends where
    the class ends, and that the continuation accepts the end of: it
    takes the run. *)
Lemma greedy_run_to ml cl lo k s x :
  match s with
  | EmptyString => True
  | String b _ => cls_ok cl b = false
  end ->
  forall v n i bf p g,
    all_chr (cls_ok cl) v = true ->
    String.length v <= n ->
    lo <= i + String.length v ->
    k (Cursor (last_chr bf v) (p + String.length v) s) g = Some x ->
    rep_loop (m ml (One cl)) true lo k n i (Cursor bf p (v ++ s)) g
    = Some x.
Proof.
  intros Hs. induction v as [|a v IH]; intros n i bf p g Hv Hn Hlo Hx.
  - cbn [append String.length last_chr] in *. rewrite Nat.add_0_r in *.
    assert (E : (lo <=? i) = true) by (apply Nat.leb_le; lia).
    destruct n as [|n]; [rewrite rep_loop_end, E; exact Hx|].
    rewrite rep_loop_greedy.
    destruct s as [|b s]; [rewrite m_one_end, E; exact Hx|].
    rewrite m_one, Hs, E. exact Hx.
  - cbn [all_chr] in Hv. apply andb_true_iff in Hv. destruct Hv as [Ha Hv].
    destruct n as [|n]; [cbn [String.length] in Hn; lia|].
    rewrite rep_loop_greedy. cbn [append]. rewrite m_one, Ha. cbn [pos].
    rewrite ltb_succ by lia.
    rewrite (IH n (S i) (Some a) (S p) g); auto.
    + cbn [String.length] in Hn. lia.
    + cbn [String.length] in Hlo. lia.
    + cbn [last_chr String.length] in Hx.
      replace (p + S (String.length v)) with (S p + String.length v) in Hx
        by lia.
      exact Hx.
Qed.

(** The scan up to the first match and past it. *)
Lemma scan_one ml r (f : ascii -> bool) pre a mt rest x bf p :
  (forall bf p a s,
      f a = false -> try_at ml r false (Cursor bf p (String a s)) = None) ->
  all_chr (fun a => negb (f a)) pre = true ->
  try_at ml r false
    (Cursor (last_chr bf pre) (p + String.length pre) (String a mt ++ rest))
  = Some x ->
  m_len x = S (String.length mt) ->
  hits (scan ml r 0 bf p (pre ++ String a mt ++ rest))
  = x :: hits (scan ml r 0 (last_chr (Some a) mt)
                 (p + String.length pre + S (String.length mt)) rest)
  /\ forall repl,
      subst repl (scan ml r 0 bf p (pre ++ String a mt ++ rest))
      = (pre ++ repl x
         ++ subst repl
              (scan ml r 0 (last_chr (Some a) mt)
                 (p + String.length pre + S (String.length mt)) rest))%string.
Proof.
  intros Hf Hpre Ex Lx.
  destruct (@scan_keeps ml r f Hf pre (String a mt ++ rest) bf p Hpre)
    as [K1 K2].
  assert (Es : scan ml r 0 (last_chr bf pre) (p + String.length pre)
                 (String a mt ++ rest)
               = Hit x
                 :: scan ml r 0 (last_chr (Some a) mt)
                      (p + String.length pre + S (String.length mt)) rest).
  { cbn [append] in Ex |- *.
    rewrite (@scan_hits ml r _ _ a (mt ++ rest) x (String.length mt) Ex Lx).
    rewrite scan_passes. do 2 f_equal. lia. }
  split.
  - rewrite K2, Es. reflexivity.
  - intros repl. rewrite K1, Es. reflexivity.
Qed.

(** The scan of a text in which no attempt succeeds. *)
Lemma scan_none ml r (f : ascii -> bool) post bf p :
  (forall bf p a s,
      f a = false -> try_at ml r false (Cursor bf p (String a s)) = None) ->
  (forall bf p, try_at ml r false (Cursor bf p "") = None) ->
  all_chr (fun a => negb (f a)) post = true ->
  hits (scan ml r 0 bf p post) = []
  /\ forall repl, subst repl (scan ml r 0 bf p post) = post.
Proof.
  intros Hf He Hpost.
  destruct (@scan_keeps ml r f Hf post "" bf p Hpost) as [P1 P2].
  rewrite append_nil_r in P1, P2. rewrite scan_end in P1, P2 by apply He.
  split; [exact P2|]. intros repl. rewrite P1. cbn [subst].
  apply append_nil_r.
Qed.

Lemma substring_all s t : substring 0 (String.length s) (s ++ t) = s.
Proof. apply Quote.substring_prefix. Qed.

End Scan.

(** ** Spans between two equal delimiters *)

Module Span.
Import Re ReFacts Runs Scan.

Lemma without_all c s :
  without c s = true -> all_chr (fun a => negb (Ascii.eqb a c)) s = true.
Proof.
  unfold without. induction s as [|a s IH]; cbn [Py.mem all_chr]; auto.
  rewrite negb_orb. intros H. apply andb_true_iff in H. destruct H as [Ha Hs].
  rewrite (IH Hs), andb_true_r, Ascii.eqb_sym. exact Ha.
Qed.

Lemma without_app c s t : without c (s ++ t) = without c s && without c t.
Proof. unfold without. rewrite Cap.mem_app, negb_orb. reflexivity. Qed.

Lemma without_head c a s : without c (String a s) = true -> Ascii.eqb a c = false.
Proof.
  unfold without. cbn [Py.mem]. rewrite negb_orb. intros H.
  apply andb_true_iff in H. destruct H as [Ha _].
  apply negb_true_iff in Ha. rewrite Ascii.eqb_sym. exact Ha.
Qed.

(** The class of the interior of a span. *)
Lemma interior_class c t :
  without c t = true -> without Py.NL t = true ->
  all_chr (cls_ok (CNot [ILit c; ILit Pat.NL])) t = true.
Proof.
  unfold without. induction t as [|a t IH]; cbn [Py.mem all_chr]; auto.
  rewrite !negb_orb. intros H1 H2.
  apply andb_true_iff in H1. destruct H1 as [Ha1 Ht1].
  apply andb_true_iff in H2. destruct H2 as [Ha2 Ht2].
  rewrite (IH Ht1 Ht2), andb_true_r.
  cbn [cls_ok existsb item_ok]. rewrite orb_false_r, negb_orb.
  rewrite (Ascii.eqb_sym a c), (Ascii.eqb_sym a Pat.NL).
  unfold Pat.NL. rewrite Ha1, Ha2. reflexivity.
Qed.

Lemma span_interior_parts c t :
  span_interior c t = true ->
  1 <= String.length t /\ String.length t <= 125
  /\ without c t = true /\ without Py.NL t = true.
Proof.
  unfold span_interior. intros H.
  apply andb_true_iff in H. destruct H as [H H4].
  apply andb_true_iff in H. destruct H as [H H3].
  apply andb_true_iff in H. destruct H as [H1 H2].
  apply Nat.leb_le in H1, H2. auto.
Qed.

(** A span at the position of its opening delimiter. *)
Lemma try_span c d' t post bf p :
  span_interior c t = true ->
  try_at false (Pat.span (String c d') c) false
    (Cursor bf p (String c d' ++ t ++ String c d' ++ post))
  = Some (Mtch p
            (String.length (String c d') + String.length t
             + String.length (String c d'))
            (String c d' ++ t ++ String c d') [(1, t)]).
Proof.
  intros Ht. apply span_interior_parts in Ht.
  destruct Ht as (L1 & L2 & Hc & Hn).
  set (d := String c d'). unfold try_at, Pat.span. cbn [seq].
  rewrite m_seq, m_str by discriminate. rewrite m_seq.
  cbn [m]. unfold Pat.not_chr_nl.
  rewrite (@lazy_run false (CNot [ILit c; ILit Pat.NL]) 1 _
             (d ++ post)
             (Cursor (last_chr (last_chr (last_chr bf d) t) d)
                (p + String.length d + String.length t + String.length d)
                post, [(1, t)]) t 125 0).
  - cbn [pos rest]. f_equal.
    replace (p + String.length d + String.length t + String.length d - p)
      with (String.length (d ++ t ++ d))
      by (rewrite !append_length; lia).
    rewrite <- (append_assoc t d post), <- (append_assoc d (t ++ d) post).
    rewrite substring_all, !append_length. f_equal. lia.
  - apply interior_class; assumption.
  - exact L2.
  - lia.
  - intros v1 a v2 g' E. cbn [pos rest].
    assert (Ha : Ascii.eqb a c = false).
    { rewrite E, without_app in Hc. apply andb_true_iff in Hc.
      destruct Hc as [_ Hc]. apply (without_head _ _ _ Hc). }
    cbn [append]. unfold d. apply m_str_other. exact Ha.
  - cbn [pos rest]. rewrite m_str by discriminate.
    cbn [andb].
    replace (p + String.length d + String.length t - (p + String.length d))
      with (String.length t) by lia.
    rewrite substring_all. reflexivity.
Qed.

Lemma try_span_other c d' b bf p a s :
  Ascii.eqb a c = false ->
  try_at false (Pat.span (String c d') c) b (Cursor bf p (String a s)) = None.
Proof.
  intros H. unfold try_at, Pat.span. cbn [seq].
  rewrite m_seq, m_str_other by exact H. reflexivity.
Qed.

Lemma try_span_end c d' b bf p :
  try_at false (Pat.span (String c d') c) b (Cursor bf p "") = None.
Proof.
  unfold try_at, Pat.span. cbn [seq]. rewrite m_seq, m_str_end. reflexivity.
Qed.

Lemma length_append_3 (a b c : string) :
  String.length (a ++ b ++ c)
  = String.length a + String.length b + String.length c.
Proof. rewrite !append_length. lia. Qed.

(** The scan of a text with one span, between texts without the
    delimiter character. *)
Lemma scan_span c d' pre t post bf p :
  without c pre = true -> span_interior c t = true ->
  without c post = true ->
  let d := String c d' in
  let x := Mtch (p + String.length pre)
             (String.length d + String.length t + String.length d)
             (d ++ t ++ d) [(1, t)] in
  hits (scan false (Pat.span d c) 0 bf p (pre ++ d ++ t ++ d ++ post)) = [x]
  /\ forall repl,
      subst repl (scan false (Pat.span d c) 0 bf p (pre ++ d ++ t ++ d ++ post))
      = (pre ++ repl x ++ post)%string.
Proof.
  intros Hpre Ht Hpost d x.
  assert (Hf : forall bf p a s,
             Ascii.eqb a c = false ->
             try_at false (Pat.span d c) false (Cursor bf p (String a s))
             = None).
  { intros. apply try_span_other. assumption. }
  destruct (@scan_keeps false (Pat.span d c) (fun a => Ascii.eqb a c) Hf
              pre (d ++ t ++ d ++ post) bf p (without_all _ _ Hpre))
    as [K1 K2].
  pose proof (@try_span c d' t post (last_chr bf pre) (p + String.length pre)
                Ht) as Ex.
  fold d in Ex. fold x in Ex.
  assert (Es : scan false (Pat.span d c) 0 (last_chr bf pre)
                 (p + String.length pre) (d ++ t ++ d ++ post)
               = Hit x
                 :: scan false (Pat.span d c) 0
                      (last_chr (Some c) (d' ++ t ++ d))
                      (S (p + String.length pre)
                       + String.length (d' ++ t ++ d)) post).
  { change (d ++ t ++ d ++ post)%string
      with (String c (d' ++ t ++ d ++ post)).
    rewrite (@scan_hits false (Pat.span d c) (last_chr bf pre)
               (p + String.length pre) c (d' ++ t ++ d ++ post) x
               (String.length (d' ++ t ++ d))).
    - f_equal.
      replace (d' ++ t ++ d ++ post)%string
        with ((d' ++ t ++ d) ++ post)%string
        by (rewrite !append_assoc; reflexivity).
      apply scan_passes.
    - exact Ex.
    - unfold x. cbn [m_len]. rewrite length_append_3. unfold d.
      cbn [String.length]. lia. }
  assert (Ep : forall bf p,
             hits (scan false (Pat.span d c) 0 bf p post) = []
             /\ forall repl,
                 subst repl (scan false (Pat.span d c) 0 bf p post) = post).
  { intros bf0 p0.
    destruct (@scan_keeps false (Pat.span d c) (fun a => Ascii.eqb a c) Hf
                post "" bf0 p0 (without_all _ _ Hpost)) as [P1 P2].
    rewrite append_nil_r in P1, P2.
    rewrite scan_end in P1, P2 by apply try_span_end.
    split; [exact P2|]. intros repl. rewrite P1. cbn [subst].
    apply append_nil_r. }
  split.
  - rewrite K2, Es. cbn [hits]. destruct (Ep (last_chr (Some c) (d' ++ t ++ d))
                      (S (p + String.length pre)
                       + String.length (d' ++ t ++ d))) as [-> _].
    reflexivity.
  - intros repl. rewrite K1, Es. cbn [subst].
    destruct (Ep (last_chr (Some c) (d' ++ t ++ d))
                (S (p + String.length pre) + String.length (d' ++ t ++ d)))
      as [_ ->].
    reflexivity.
Qed.

(** The three lines of a pass, for a text with one span. *)
Lemma log_and_sub_span c d' name pre t post w :
  without c pre = true -> span_interior c t = true ->
  without c post = true ->
  let d := String c d' in
  log_and_sub false (Pat.span d c) name (wrap d d) (Pat.span d c) group1
    (pre ++ d ++ t ++ d ++ post) w
  = Ok (pre ++ t ++ post)%string
      (World (logger_log (logger w) name (d ++ t ++ d)) (stdout w) (stderr w)).
Proof.
  intros Hpre Ht Hpost d.
  destruct (@scan_span c d' pre t post None 0 Hpre Ht Hpost) as [H1 H2].
  fold d in H1, H2.
  unfold log_and_sub, finditer, sub, segments. rewrite H1, H2.
  reflexivity.
Qed.

(** *** The patterns of italic text *)

Lemma try_italic c t post bf p :
  bf <> Some c -> span_interior c t = true ->
  Py.startswith (String c "") post = false ->
  try_at false (Pat.italic c) false
    (Cursor bf p (String c (t ++ String c post)))
  = Some (Mtch p (S (String.length t + 1)) (String c (t ++ String c ""))
            [(1, t)]).
Proof.
  intros Hbf Ht Hpost. apply span_interior_parts in Ht.
  destruct Ht as (L1 & L2 & Hc & Hn).
  unfold try_at, Pat.italic. cbn [seq]. rewrite m_seq.
  assert (Eb : forall k g,
             m false (NotBehind c) k
               (Cursor bf p (String c (t ++ String c post))) g
             = k (Cursor bf p (String c (t ++ String c post))) g).
  { intros k g. cbn [m before]. destruct bf as [b|]; [|reflexivity].
    destruct (Ascii.eqb_spec b c) as [->|_]; [congruence|reflexivity]. }
  rewrite Eb, m_seq. unfold lit at 1. rewrite m_one. cbn [cls_ok].
  rewrite Ascii.eqb_refl, m_seq. cbn [m]. unfold Pat.not_chr_nl.
  rewrite (@lazy_run false (CNot [ILit c; ILit Pat.NL]) 1 _
             (String c post)
             (Cursor (Some c) (S (S p + String.length t)) post, [(1, t)])
             t 125 0).
  - cbn [pos rest]. f_equal.
    replace (S (S p + String.length t) - p) with (S (String.length t + 1))
      by lia.
    f_equal. cbn [substring]. f_equal.
    replace (t ++ String c post)%string
      with ((t ++ String c "") ++ post)%string
      by (rewrite append_assoc; reflexivity).
    replace (String.length t + 1) with (String.length (t ++ String c ""))
      by (rewrite append_length; reflexivity).
    apply substring_all.
  - apply interior_class; assumption.
  - exact L2.
  - lia.
  - intros v1 a v2 g' E. cbn [pos rest].
    assert (Ha : Ascii.eqb a c = false).
    { rewrite E, without_app in Hc. apply andb_true_iff in Hc.
      destruct Hc as [_ Hc]. apply (without_head _ _ _ Hc). }
    cbn [append]. unfold lit. rewrite m_one. cbn [cls_ok]. rewrite Ha.
    reflexivity.
  - cbn [pos rest]. unfold lit. rewrite m_one. cbn [cls_ok].
    rewrite Ascii.eqb_refl. cbn [m rest].
    replace (S p + String.length t - S p) with (String.length t) by lia.
    rewrite substring_all.
    destruct post as [|b post]; [reflexivity|].
    cbn [Py.startswith] in Hpost. rewrite andb_true_r in Hpost.
    rewrite Ascii.eqb_sym, Hpost. reflexivity.
Qed.

Lemma m_not_behind ml c k cur g :
  m ml (NotBehind c) k cur g = None
  \/ m ml (NotBehind c) k cur g = k cur g.
Proof.
  cbn [m]. destruct (before cur) as [b|]; [|right; reflexivity].
  destruct (Ascii.eqb b c); [left|right]; reflexivity.
Qed.

Lemma m_lit_other ml c r k bf p a s g :
  Ascii.eqb a c = false ->
  m ml (Seq (lit c) r) k (Cursor bf p (String a s)) g = None.
Proof.
  intros H. rewrite m_seq. unfold lit. rewrite m_one. cbn [cls_ok].
  rewrite H. reflexivity.
Qed.

Lemma m_lit_end ml c r k bf p g :
  m ml (Seq (lit c) r) k (Cursor bf p "") g = None.
Proof. reflexivity. Qed.

Lemma try_italic_other c b bf p a s :
  Ascii.eqb a c = false ->
  try_at false (Pat.italic c) b (Cursor bf p (String a s)) = None.
Proof.
  intros H. unfold try_at, Pat.italic. cbn [seq]. rewrite m_seq.
  destruct (m_not_behind false c
              (m false
                 (Seq (lit c)
                    (Seq (Grp 1 (Rep false 1 (Some 125) (Pat.not_chr_nl c)))
                       (Seq (lit c) (NotAhead c))))
                 (fun c' g =>
                    if b && (pos c' =? pos (Cursor bf p (String a s)))
                    then None else Some (c', g)))
              (Cursor bf p (String a s)) []) as [E|E]; rewrite E;
    [reflexivity|].
  rewrite m_lit_other by exact H. reflexivity.
Qed.

Lemma try_italic_end c b bf p :
  try_at false (Pat.italic c) b (Cursor bf p "") = None.
Proof.
  unfold try_at, Pat.italic. cbn [seq]. rewrite m_seq.
  destruct (m_not_behind false c
              (m false
                 (Seq (lit c)
                    (Seq (Grp 1 (Rep false 1 (Some 125) (Pat.not_chr_nl c)))
                       (Seq (lit c) (NotAhead c))))
                 (fun c' g =>
                    if b && (pos c' =? pos (Cursor bf p ""))
                    then None else Some (c', g)))
              (Cursor bf p "") []) as [E|E]; rewrite E; reflexivity.
Qed.

Lemma last_chr_without c pre :
  forall bf, bf <> Some c -> without c pre = true ->
             last_chr bf pre <> Some c.
Proof.
  induction pre as [|a pre IH]; intros bf Hbf H; cbn [last_chr]; auto.
  pose proof (without_head _ _ _ H) as Ha.
  apply IH.
  - intros E. inversion E; subst. rewrite Ascii.eqb_refl in Ha. discriminate.
  - unfold without in *. cbn [Py.mem] in H. rewrite negb_orb in H.
    apply andb_true_iff in H. tauto.
Qed.

Lemma startswith_without c s :
  without c s = true -> Py.startswith (String c "") s = false.
Proof.
  destruct s as [|a s]; [reflexivity|]. intros H.
  apply without_head in H. cbn [Py.startswith].
  rewrite Ascii.eqb_sym, H. reflexivity.
Qed.

Lemma log_and_sub_italic c name pre t post w :
  without c pre = true -> span_interior c t = true ->
  without c post = true ->
  let d := String c "" in
  log_and_sub false (Pat.italic c) name (wrap d d) (Pat.italic c) group1
    (pre ++ d ++ t ++ d ++ post) w
  = Ok (pre ++ t ++ post)%string
      (World (logger_log (logger w) name (d ++ t ++ d)) (stdout w) (stderr w)).
Proof.
  intros Hpre Ht Hpost d.
  assert (Hf : forall bf p a s,
             Ascii.eqb a c = false ->
             try_at false (Pat.italic c) false (Cursor bf p (String a s))
             = None).
  { intros. apply try_italic_other. assumption. }
  destruct (@scan_keeps false (Pat.italic c) (fun a => Ascii.eqb a c) Hf
              pre (d ++ t ++ d ++ post) None 0 (without_all _ _ Hpre))
    as [K1 K2].
  set (x := Mtch (0 + String.length pre) (S (String.length t + 1))
              (String c (t ++ String c "")) [(1, t)]).
  assert (Ex : try_at false (Pat.italic c) false
                 (Cursor (last_chr None pre) (0 + String.length pre)
                    (String c (t ++ String c post))) = Some x).
  { apply try_italic; auto.
    - apply last_chr_without; [discriminate|exact Hpre].
    - apply startswith_without. exact Hpost. }
  assert (Es : scan false (Pat.italic c) 0 (last_chr None pre)
                 (0 + String.length pre) (d ++ t ++ d ++ post)
               = Hit x
                 :: scan false (Pat.italic c) 0
                      (last_chr (Some c) (t ++ d))
                      (S (0 + String.length pre) + String.length (t ++ d))
                      post).
  { change (d ++ t ++ d ++ post)%string
      with (String c (t ++ String c post)).
    rewrite (@scan_hits false (Pat.italic c) (last_chr None pre)
               (0 + String.length pre) c (t ++ String c post) x
               (String.length (t ++ d)) Ex).
    - f_equal.
      replace (t ++ String c post)%string with ((t ++ d) ++ post)%string
        by (rewrite append_assoc; reflexivity).
      apply scan_passes.
    - unfold x. cbn [m_len]. rewrite append_length. reflexivity. }
  assert (Ep : forall bf p,
             hits (scan false (Pat.italic c) 0 bf p post) = []
             /\ forall repl,
                 subst repl (scan false (Pat.italic c) 0 bf p post) = post).
  { intros bf0 p0.
    destruct (@scan_keeps false (Pat.italic c) (fun a => Ascii.eqb a c) Hf
                post "" bf0 p0 (without_all _ _ Hpost)) as [P1 P2].
    rewrite append_nil_r in P1, P2.
    rewrite scan_end in P1, P2 by apply try_italic_end.
    split; [exact P2|]. intros repl. rewrite P1. cbn [subst].
    apply append_nil_r. }
  unfold log_and_sub, finditer, sub, segments.
  rewrite K2, K1, Es. cbn [hits subst].
  destruct (Ep (last_chr (Some c) (t ++ d))
              (S (0 + String.length pre) + String.length (t ++ d)))
    as [-> ->].
  reflexivity.
Qed.

(** *** Texts a pattern finds nothing in *)

(** A pattern that needs a character the text lacks finds nothing. *)
Lemma lacking ml f r s :
  needs f r = true -> all_chr (fun a => negb (f a)) s = true ->
  finditer ml r s = [] /\ (forall repl, sub ml r repl s = s).
Proof.
  intros Hn Hs.
  destruct (@nothing_matches ml r s) as (E1 & E2 & _); [|auto].
  intros c0 c' Hr Hm.
  apply Cap.reach_split in Hr. destruct Hr as (pre & E).
  destruct (Clean.needs_sound ml _ _ Hn _ _ Hm) as (v & [Ev _] & Sv).
  cbn [start rest] in E. rewrite Ev in E.
  rewrite E, !Quote.all_chr_app in Hs.
  apply andb_true_iff in Hs. destruct Hs as [_ Hs].
  apply andb_true_iff in Hs. destruct Hs as [Hv _].
  rewrite (Clean.all_none _ _ Hv) in Sv. discriminate.
Qed.

Lemma log_and_sub_lacking c ml r_find step_name fmt r_sub repl text w :
  needs (fun a => Ascii.eqb a c) r_find = true ->
  needs (fun a => Ascii.eqb a c) r_sub = true ->
  without c text = true ->
  log_and_sub ml r_find step_name fmt r_sub repl text w = Ok text w.
Proof.
  intros H1 H2 Hw. unfold log_and_sub, bind.
  destruct (@lacking ml _ _ text H1 (without_all _ _ Hw)) as [E1 _].
  destruct (@lacking ml _ _ text H2 (without_all _ _ Hw)) as [_ E2].
  rewrite E1, E2. reflexivity.
Qed.

(** A literal run of [n] characters [c] fails on a shorter run. *)
Lemma m_str_short ml c :
  forall j n k bf p s g,
    j < n -> Py.startswith (String c "") s = false ->
    m ml (str (Py.repeat_chr c n)) k (Cursor bf p (Py.repeat_chr c j ++ s)) g
    = None.
Proof.
  assert (Hs : forall n k bf p s g,
             Py.startswith (String c "") s = false ->
             m ml (str (Py.repeat_chr c (S n))) k (Cursor bf p s) g = None).
  { intros n k bf p s g H. cbn [Py.repeat_chr].
    destruct s as [|a s]; [apply m_str_end|].
    apply m_str_other. cbn [Py.startswith] in H.
    rewrite andb_true_r, Ascii.eqb_sym in H. exact H. }
  induction j as [|j IH]; intros n k bf p s g Hj H.
  - destruct n as [|n]; [lia|]. cbn [Py.repeat_chr append]. apply Hs.
    exact H.
  - destruct n as [|[|n]]; [lia|lia|].
    change (str (Py.repeat_chr c (S (S n))))
      with (Seq (lit c) (str (Py.repeat_chr c (S n)))).
    cbn [Py.repeat_chr append]. rewrite m_seq. unfold lit. rewrite m_one.
    cbn [cls_ok]. rewrite Ascii.eqb_refl.
    change (String c (Py.repeat_chr c n)) with (Py.repeat_chr c (S n)).
    apply IH; [lia|exact H].
Qed.

(** The scan keeps a run of the delimiter character that is shorter than
    the delimiter. *)
Lemma scan_short_run c n t :
  forall j s bf p,
    j < n -> Py.startswith (String c "") s = false ->
    hits (scan false
            (Seq (str (Py.repeat_chr c n)) t) 0 bf p (Py.repeat_chr c j ++ s))
    = hits (scan false (Seq (str (Py.repeat_chr c n)) t) 0
              (last_chr bf (Py.repeat_chr c j)) (p + j) s)
    /\ forall repl,
        subst repl
          (scan false (Seq (str (Py.repeat_chr c n)) t) 0 bf p
             (Py.repeat_chr c j ++ s))
        = (Py.repeat_chr c j
           ++ subst repl
                (scan false (Seq (str (Py.repeat_chr c n)) t) 0
                   (last_chr bf (Py.repeat_chr c j)) (p + j) s))%string.
Proof.
  induction j as [|j IH]; intros s bf p Hj Hs.
  - cbn [Py.repeat_chr append last_chr]. rewrite Nat.add_0_r.
    split; reflexivity.
  - cbn [Py.repeat_chr append last_chr scan].
    assert (E : try_at false (Seq (str (Py.repeat_chr c n)) t) false
                  (Cursor bf p (String c (Py.repeat_chr c j ++ s))) = None).
    { unfold try_at. rewrite m_seq.
      change (String c (Py.repeat_chr c j ++ s))
        with (Py.repeat_chr c (S j) ++ s)%string.
      rewrite m_str_short by assumption. reflexivity. }
    rewrite E. destruct (IH s (Some c) (S p)) as [E1 E2]; [lia|exact Hs|].
    replace (p + S j) with (S p + j) by lia.
    split; [cbn [hits]; exact E1|].
    intros repl. cbn [subst]. rewrite E2. reflexivity.
Qed.

Lemma repeat_length c n : String.length (Py.repeat_chr c n) = n.
Proof. induction n as [|n IH]; cbn [Py.repeat_chr String.length]; auto. Qed.

(** A pass for the delimiter of [S n] characters, on a text whose
    delimiters are shorter: nothing is found. *)
Lemma log_and_sub_short c n j name fmt repl pre t post w :
  j < S n ->
  without c pre = true -> without c t = true -> t <> "" ->
  without c post = true ->
  let e := Py.repeat_chr c j in
  let r := Pat.span (Py.repeat_chr c (S n)) c in
  log_and_sub false r name fmt r repl (pre ++ e ++ t ++ e ++ post) w
  = Ok (pre ++ e ++ t ++ e ++ post)%string w.
Proof.
  intros Hj Hpre Ht Hne Hpost e r.
  assert (Hf : forall bf p a s,
             Ascii.eqb a c = false ->
             try_at false r false (Cursor bf p (String a s)) = None).
  { intros. unfold r. cbn [Py.repeat_chr]. apply try_span_other.
    assumption. }
  assert (Hst : forall s, Py.startswith (String c "") (t ++ s) = false).
  { intros s. destruct t as [|a t']; [contradiction|].
    apply without_head in Ht. cbn [append Py.startswith].
    rewrite Ascii.eqb_sym, Ht. reflexivity. }
  assert (G : forall bf p,
             hits (scan false r 0 bf p (pre ++ e ++ t ++ e ++ post)) = []
             /\ forall repl,
                 subst repl (scan false r 0 bf p (pre ++ e ++ t ++ e ++ post))
                 = (pre ++ e ++ t ++ e ++ post)%string).
  { intros bf p.
    destruct (@scan_keeps false r (fun a => Ascii.eqb a c) Hf
                pre (e ++ t ++ e ++ post) bf p (without_all _ _ Hpre))
      as [A1 A2].
    destruct (@scan_short_run c (S n)
                (Seq (Grp 1 (Rep false 1 (Some 125) (Pat.not_chr_nl c)))
                   (str (Py.repeat_chr c (S n))))
                j (t ++ e ++ post) (last_chr bf pre)
                (p + String.length pre) Hj (Hst _)) as [B1 B2].
    destruct (@scan_keeps false r (fun a => Ascii.eqb a c) Hf
                t (e ++ post) (last_chr (last_chr bf pre) e)
                (p + String.length pre + j) (without_all _ _ Ht))
      as [C1 C2].
    destruct (@scan_short_run c (S n)
                (Seq (Grp 1 (Rep false 1 (Some 125) (Pat.not_chr_nl c)))
                   (str (Py.repeat_chr c (S n))))
                j post (last_chr (last_chr (last_chr bf pre) e) t)
                (p + String.length pre + j + String.length t) Hj
                (startswith_without _ _ Hpost)) as [D1 D2].
    destruct (@scan_keeps false r (fun a => Ascii.eqb a c) Hf
                post ""
                (last_chr (last_chr (last_chr (last_chr bf pre) e) t) e)
                (p + String.length pre + j + String.length t + j)
                (without_all _ _ Hpost)) as [E1 E2].
    rewrite append_nil_r in E1, E2.
    rewrite scan_end in E1, E2
      by (unfold r; cbn [Py.repeat_chr]; apply try_span_end).
    change (Seq (str (Py.repeat_chr c (S n)))
              (Seq (Grp 1 (Rep false 1 (Some 125) (Pat.not_chr_nl c)))
                 (str (Py.repeat_chr c (S n))))) with r in B1, B2, D1, D2.
    fold e in B1, B2, D1, D2.
    split.
    - rewrite A2, B1, C2, D1, E2. reflexivity.
    - intros repl0. rewrite A1, B2, C1, D2, E1. cbn [subst].
      rewrite append_nil_r. reflexivity. }
  unfold log_and_sub, finditer, sub, segments, bind.
  destruct (G None 0) as [-> ->]. reflexivity.
Qed.

End Span.

(** ** Emphasis *)

Module Emphasis.
Import Span.

Lemma unmarked_parts s :
  unmarked s = true ->
  without "*" s = true /\ without "_" s = true /\ without Py.NL s = true.
Proof.
  unfold unmarked, no_emphasis. intros H.
  apply andb_true_iff in H. destruct H as [H H3].
  apply andb_true_iff in H. destruct H as [H1 H2]. auto.
Qed.

Lemma emphasised_parts t :
  emphasised t = true ->
  unmarked t = true /\ span_interior "*" t = true
  /\ span_interior "_" t = true /\ t <> "".
Proof.
  unfold emphasised, span_interior. intros H.
  apply andb_true_iff in H. destruct H as [H H3].
  apply andb_true_iff in H. destruct H as [H1 H2].
  destruct (unmarked_parts _ H1) as (A & B & C).
  rewrite H2, H3, A, B, C. repeat split; auto.
  intros ->. discriminate H2.
Qed.

Lemma without_3 c pre t post :
  without c pre = true -> without c t = true -> without c post = true ->
  without c (pre ++ t ++ post) = true.
Proof. intros A B C. rewrite !without_app, A, B, C. reflexivity. Qed.

Lemma bind_ok A B (x : M A) (f : A -> M B) w a w1 r :
  x w = Ok a w1 -> f a w1 = r -> bind x f w = r.
Proof. intros E1 E2. unfold bind. rewrite E1. exact E2. Qed.

Ltac lack c :=
  apply (@log_and_sub_lacking c);
  [vm_compute; reflexivity|vm_compute; reflexivity
  |apply without_3; assumption].

Ltac lack_in c :=
  apply (@log_and_sub_lacking c);
  [vm_compute; reflexivity|vm_compute; reflexivity
  |rewrite !without_app;
   repeat match goal with H : without _ _ = true |- _ => rewrite H end;
   reflexivity].

Ltac short_of j n :=
  apply (@log_and_sub_short _ n j); first [lia|assumption].

(** The body of the loop of [safe_remove_emphasis], on a line with one
    emphasised text. *)
Lemma emphasis_line_one d name pre t post w :
  In (d, name) emphasis_forms ->
  unmarked pre = true -> emphasised t = true -> unmarked post = true ->
  emphasis_line (pre ++ d ++ t ++ d ++ post) w
  = Ok (pre ++ t ++ post)%string
      (World (logger_log (logger w) name (d ++ t ++ d)) (stdout w) (stderr w)).
Proof.
  intros Hin Hpre Ht Hpost.
  destruct (unmarked_parts _ Hpre) as (Pa & Pu & _).
  destruct (unmarked_parts _ Hpost) as (Qa & Qu & _).
  destruct (emphasised_parts _ Ht) as (Hu & Sa & Su & Hne).
  destruct (unmarked_parts _ Hu) as (Ta & Tu & _).
  unfold emphasis_line.
  cbn [In emphasis_forms] in Hin.
  destruct Hin as [E|[E|[E|[E|[E|[]]]]]]; inversion E; subst d name; clear E.
  - (* bold and italic *)
    eapply bind_ok; [apply (@log_and_sub_span "*" "**"); assumption|].
    eapply bind_ok; [lack "*"%char|].
    eapply bind_ok; [lack "_"%char|].
    eapply bind_ok; [lack "*"%char|].
    lack "_"%char.
  - (* bold, with asterisks *)
    eapply bind_ok; [short_of 2 2|].
    eapply bind_ok; [apply (@log_and_sub_span "*" "*"); assumption|].
    eapply bind_ok; [lack "_"%char|].
    eapply bind_ok; [lack "*"%char|].
    lack "_"%char.
  - (* bold, with underscores *)
    eapply bind_ok; [lack_in "*"%char|].
    eapply bind_ok; [lack_in "*"%char|].
    eapply bind_ok; [apply (@log_and_sub_span "_" "_"); assumption|].
    eapply bind_ok; [lack "*"%char|].
    lack "_"%char.
  - (* italic, with asterisks *)
    eapply bind_ok; [short_of 1 2|].
    eapply bind_ok; [short_of 1 1|].
    eapply bind_ok; [lack_in "_"%char|].
    eapply bind_ok; [apply (@log_and_sub_italic "*"); assumption|].
    lack "_"%char.
  - (* italic, with underscores *)
    eapply bind_ok; [lack_in "*"%char|].
    eapply bind_ok; [lack_in "*"%char|].
    eapply bind_ok; [short_of 1 1|].
    eapply bind_ok; [lack_in "*"%char|].
    apply (@log_and_sub_italic "_"); assumption.
Qed.

Lemma without_literal c d s :
  without c d = true -> without c s = true -> without c (d ++ s) = true.
Proof. intros A B. rewrite without_app, A, B. reflexivity. Qed.

End Emphasis.

(** X22. [safe_remove_emphasis] on a line with one emphasised text, in any
    of the five forms [***t***], [**t**], [__t__], [*t*] and [_t_], where
    [t] has one to 125 characters and neither it nor the rest of the
    line has an asterisk, an underscore or a newline: the delimiters are
    removed, the text and the rest of the line stay, and the emphasised
    text is logged once, with its delimiters, under the name of its
    form. *)
Theorem emphasis_is_unwrapped :
  forall (d name pre t post : string) (w : world),
    In (d, name) emphasis_forms ->
    unmarked pre = true -> emphasised t = true -> unmarked post = true ->
    safe_remove_emphasis (pre ++ d ++ t ++ d ++ post) w
    = Ok (pre ++ t ++ post)%string
        (World (logger_log (logger w) name (d ++ t ++ d))
           (stdout w) (stderr w)).
Proof.
  intros d name pre t post w Hin Hpre Ht Hpost.
  assert (Hnl : Py.mem Py.NL (pre ++ d ++ t ++ d ++ post) = false).
  { destruct (Emphasis.unmarked_parts _ Hpre) as (_ & _ & A).
    destruct (Emphasis.emphasised_parts _ Ht) as (Hu & _).
    destruct (Emphasis.unmarked_parts _ Hu) as (_ & _ & B).
    destruct (Emphasis.unmarked_parts _ Hpost) as (_ & _ & C).
    assert (D : without Py.NL d = true).
    { cbn [In emphasis_forms] in Hin.
      destruct Hin as [E|[E|[E|[E|[E|[]]]]]]; inversion E; reflexivity. }
    apply negb_true_iff. fold (without Py.NL (pre ++ d ++ t ++ d ++ post)).
    rewrite !Span.without_app, A, B, C, D. reflexivity. }
  unfold safe_remove_emphasis. rewrite (Norm.split_line _ Hnl).
  cbn [for_collect].
  eapply Emphasis.bind_ok.
  - eapply Emphasis.bind_ok;
      [apply Emphasis.emphasis_line_one; eassumption|reflexivity].
  - reflexivity.
Qed.

Lemma emphasis_is_unwrapped_witness :
  safe_remove_emphasis ("some " ++ "**" ++ "bold" ++ "**" ++ " text")
    (world0 (Some (Logger true [])))
  = Ok ("some " ++ "bold" ++ " text")%string
      (World
         (logger_log (logger (world0 (Some (Logger true []))))
            "bold_asterisks" ("**" ++ "bold" ++ "**"))
         (stdout (world0 (Some (Logger true []))))
         (stderr (world0 (Some (Logger true []))))).
Proof.
  apply (@emphasis_is_unwrapped "**" "bold_asterisks" "some " "bold" " text");
    [right; left; reflexivity|reflexivity|reflexivity|reflexivity].
Defined.

(** X23. Step 14 on a text with one struck-through text [~~t~~], where
    [t] has one to 125 characters, no tilde and no newline, and the rest
    of the text has no tilde: the tildes are removed, everything else
    stays, and [~~t~~] is logged under [strikethrough]. *)
Theorem strikethrough_is_unwrapped :
  forall (pre t post : string) (w : world),
    without "~" pre = true -> span_interior "~" t = true ->
    without "~" post = true ->
    strikethrough (pre ++ "~~" ++ t ++ "~~" ++ post) w
    = Ok (pre ++ t ++ post)%string
        (World (logger_log (logger w) "strikethrough" ("~~" ++ t ++ "~~"))
           (stdout w) (stderr w)).
Proof.
  intros pre t post w Hpre Ht Hpost. unfold strikethrough.
  apply (@Span.log_and_sub_span "~" "~"); assumption.
Qed.

Lemma strikethrough_is_unwrapped_witness :
  strikethrough ("was " ++ "~~" ++ "old" ++ "~~" ++ " new")
    (world0 (Some (Logger true [])))
  = Ok ("was " ++ "old" ++ " new")%string
      (World
         (logger_log (logger (world0 (Some (Logger true []))))
            "strikethrough" ("~~" ++ "old" ++ "~~"))
         (stdout (world0 (Some (Logger true []))))
         (stderr (world0 (Some (Logger true []))))).
Proof.
  apply (@strikethrough_is_unwrapped "was " "old" " new"); reflexivity.
Defined.

(** ** Inline code, links and images *)

Module Inline.
Import Re ReFacts Runs Scan Span.

Lemma head_fails c l s :
  match (String c s) with
  | EmptyString => True
  | String b _ => cls_ok (CNot (ILit c :: l)) b = false
  end.
Proof. cbn [cls_ok existsb item_ok]. rewrite Ascii.eqb_refl. reflexivity. Qed.

Lemma code_interior_parts t :
  code_interior t = true ->
  1 <= String.length t /\ without "`" t = true /\ without Py.NL t = true.
Proof.
  unfold code_interior. intros H.
  apply andb_true_iff in H. destruct H as [H H3].
  apply andb_true_iff in H. destruct H as [H1 H2].
  apply Nat.leb_le in H1. auto.
Qed.

(** An inline code span at the position of its opening backtick. *)
Lemma try_inline_code t tail bf p :
  code_interior t = true ->
  try_at false Pat.inline_code false
    (Cursor bf p (String "`" (t ++ String "`" tail)))
  = Some (Mtch p (S (String.length t + 1)) (String "`" (t ++ "`"))
            [(1, t)]).
Proof.
  intros Ht. apply code_interior_parts in Ht. destruct Ht as (L & Hc & Hn).
  unfold try_at, Pat.inline_code. cbn [seq]. rewrite m_seq.
  unfold lit at 1. rewrite m_one. cbn [cls_ok]. rewrite Ascii.eqb_refl.
  rewrite m_seq. cbn [m]. unfold Pat.not_chr_nl, plus. rewrite m_rep.
  cbn [pos rest].
  rewrite (@greedy_run_to false (CNot [ILit "`"; ILit Pat.NL]) 1 _
             (String "`" tail)
             (Cursor (Some "`"%char) (S (S p + String.length t)) tail,
              [(1, t)])
             (head_fails "`" [ILit Pat.NL] tail) t).
  - cbn [pos rest]. f_equal.
    replace (S (S p + String.length t) - p) with (S (String.length t + 1))
      by lia.
    f_equal. cbn [substring]. f_equal.
    replace (t ++ String "`" tail)%string with ((t ++ "`") ++ tail)%string
      by (rewrite append_assoc; reflexivity).
    replace (String.length t + 1) with (String.length (t ++ "`"))
      by (rewrite append_length; reflexivity).
    apply substring_all.
  - apply interior_class; assumption.
  - cbn [rest]. rewrite append_length. lia.
  - lia.
  - cbn [pos rest]. unfold lit. rewrite m_one. cbn [cls_ok].
    rewrite Ascii.eqb_refl. cbn [andb].
    replace (S p + String.length t - S p) with (String.length t) by lia.
    rewrite substring_all. reflexivity.
Qed.

Lemma try_inline_code_other b bf p a s :
  Ascii.eqb a "`" = false ->
  try_at false Pat.inline_code b (Cursor bf p (String a s)) = None.
Proof.
  intros H. unfold try_at, Pat.inline_code. cbn [seq].
  rewrite m_lit_other by exact H. reflexivity.
Qed.

Lemma try_inline_code_end b bf p :
  try_at false Pat.inline_code b (Cursor bf p "") = None.
Proof. reflexivity. Qed.

End Inline.

(** X24. Step 2 on a text with one inline code span [`t`], where [t] has
    at least one character, no backtick and no newline, and the rest of
    the text has no backtick: the backticks are removed, everything else
    stays, and the span is logged with its backticks under
    [inline_code].  The length of [t] has no bound. *)
Theorem inline_code_is_unwrapped :
  forall (pre t post : string) (w : world),
    without "`" pre = true -> code_interior t = true ->
    without "`" post = true ->
    inline_code (pre ++ "`" ++ t ++ "`" ++ post) w
    = Ok (pre ++ t ++ post)%string
        (World (logger_log (logger w) "inline_code" ("`" ++ t ++ "`"))
           (stdout w) (stderr w)).
Proof.
  intros pre t post w Hpre Ht Hpost.
  assert (Hf : forall bf p a s,
             Ascii.eqb a "`" = false ->
             Re.try_at false Pat.inline_code false
               (Re.Cursor bf p (String a s)) = None).
  { intros. apply Inline.try_inline_code_other. assumption. }
  destruct (@Scan.scan_one false Pat.inline_code
              (fun a => Ascii.eqb a "`") pre "`" (t ++ "`") post
              (Re.Mtch (0 + String.length pre) (S (String.length t + 1))
                 (String "`" (t ++ "`")) [(1, t)])
              None 0 Hf (Span.without_all _ _ Hpre)) as [H1 H2].
  { cbn [append]. rewrite ReFacts.append_assoc. cbn [append].
    apply Inline.try_inline_code. exact Ht. }
  { cbn [Re.m_len]. rewrite ReFacts.append_length. reflexivity. }
  destruct (@Scan.scan_none false Pat.inline_code
              (fun a => Ascii.eqb a "`") post
              (last_chr (Some "`"%char) (t ++ "`"))
              (0 + String.length pre + S (String.length (t ++ "`")))
              Hf (Inline.try_inline_code_end false)
              (Span.without_all _ _ Hpost)) as [P1 P2].
  unfold inline_code, log_and_sub, Re.finditer, Re.sub, Re.segments.
  replace (pre ++ "`" ++ t ++ "`" ++ post)%string
    with (pre ++ String "`" (t ++ "`") ++ post)%string
    by (cbn [append]; rewrite ReFacts.append_assoc; reflexivity).
  rewrite H1, H2, P1, P2. reflexivity.
Qed.

Lemma inline_code_is_unwrapped_witness :
  inline_code ("run " ++ "`" ++ "make all" ++ "`" ++ " now")
    (world0 (Some (Logger true [])))
  = Ok ("run " ++ "make all" ++ " now")%string
      (World
         (logger_log (logger (world0 (Some (Logger true []))))
            "inline_code" ("`" ++ "make all" ++ "`"))
         (stdout (world0 (Some (Logger true []))))
         (stderr (world0 (Some (Logger true []))))).
Proof.
  apply (@inline_code_is_unwrapped "run " "make all" " now"); reflexivity.
Defined.

(** ** Links and images *)

Module Links.
Import Re ReFacts Runs Scan Span.

Lemma bracketed_parts lo c t :
  bracketed lo c t = true ->
  lo <= String.length t /\ String.length t <= 125
  /\ without c t = true /\ without Py.NL t = true.
Proof.
  unfold bracketed. intros H.
  apply andb_true_iff in H. destruct H as [H H4].
  apply andb_true_iff in H. destruct H as [H H3].
  apply andb_true_iff in H. destruct H as [H1 H2].
  apply Nat.leb_le in H1, H2. auto.
Qed.

(** The text between an opening character and the closing one. *)
Lemma bracket_body lo c t s (K : cont) x bf p g :
  bracketed lo c t = true ->
  K (Cursor (last_chr bf t) (p + String.length t) (String c s)) g = Some x ->
  rep_loop (m false (One (CNot [ILit c; ILit Pat.NL]))) true lo K 125 0
    (Cursor bf p (t ++ String c s)) g
  = Some x.
Proof.
  intros Ht HK. apply bracketed_parts in Ht.
  destruct Ht as (L1 & L2 & Hc & Hn).
  apply greedy_run_to; auto.
  - apply (Inline.head_fails c [ILit Pat.NL] s).
  - apply interior_class; assumption.
Qed.

(** The target of a link, in its parentheses. *)
Lemma m_target k u tl bf p g x :
  bracketed 1 ")" u = true ->
  k (Cursor (Some ")"%char) (S (S p + String.length u)) tl) g = Some x ->
  m false Pat.target k (Cursor bf p (String "(" (u ++ String ")" tl))) g
  = Some x.
Proof.
  intros Hu Hk. unfold Pat.target. cbn [seq]. rewrite m_seq.
  unfold lit at 1. rewrite m_one. cbn [cls_ok]. rewrite Ascii.eqb_refl.
  rewrite m_seq, m_rep. unfold Pat.not_chr_nl.
  apply bracket_body; [exact Hu|].
  unfold lit. rewrite m_one. cbn [cls_ok]. rewrite Ascii.eqb_refl.
  exact Hk.
Qed.

Lemma link_text_shape t u tl :
  (link_text t u ++ tl)%string
  = String "[" (t ++ String "]" (String "(" (u ++ String ")" tl))).
Proof.
  unfold link_text. cbn [append]. f_equal.
  rewrite !append_assoc. cbn [append]. do 3 f_equal.
  rewrite append_assoc. reflexivity.
Qed.

Lemma link_text_length t u :
  String.length (link_text t u) = String.length t + String.length u + 4.
Proof.
  unfold link_text. rewrite !append_length. cbn [String.length].
  rewrite ?append_length. cbn [String.length]. lia.
Qed.

(** A link at the position of its opening bracket, for the pattern with
    the group and for the one without. *)
Lemma try_link t u tl bf p :
  bracketed 1 "]" t = true -> bracketed 1 ")" u = true ->
  try_at false Pat.link false (Cursor bf p (link_text t u ++ tl))
  = Some (Mtch p (String.length (link_text t u)) (link_text t u) [(1, t)]).
Proof.
  intros Ht Hu. rewrite link_text_shape.
  unfold try_at, Pat.link. cbn [seq]. rewrite m_seq.
  unfold lit at 1. rewrite m_one. cbn [cls_ok]. rewrite Ascii.eqb_refl.
  rewrite m_seq. cbn [m]. unfold Pat.not_chr_nl.
  rewrite (@bracket_body 1 "]" t _ _
             (Cursor (Some ")"%char)
                (S (S (S (S p + String.length t)) + String.length u)) tl,
              [(1, t)]) (Some "["%char) (S p) [] Ht).
  - cbn [pos rest]. rewrite link_text_length. f_equal. f_equal; [lia|].
    rewrite <- link_text_shape.
    replace (S (S (S (S p + String.length t)) + String.length u) - p)
      with (String.length (link_text t u))
      by (rewrite link_text_length; lia).
    apply substring_all.
  - cbn [pos rest]. unfold lit at 1. rewrite m_one.
    cbn [cls_ok]. rewrite Ascii.eqb_refl.
    apply m_target; [exact Hu|]. cbn [andb].
    replace (S p + String.length t - S p) with (String.length t) by lia.
    rewrite substring_all. reflexivity.
Qed.

Lemma try_link_whole t u tl bf p :
  bracketed 1 "]" t = true -> bracketed 1 ")" u = true ->
  try_at false Pat.link_whole false (Cursor bf p (link_text t u ++ tl))
  = Some (Mtch p (String.length (link_text t u)) (link_text t u) []).
Proof.
  intros Ht Hu. rewrite link_text_shape.
  unfold try_at, Pat.link_whole. cbn [seq]. rewrite m_seq.
  unfold lit at 1. rewrite m_one. cbn [cls_ok]. rewrite Ascii.eqb_refl.
  rewrite m_seq, m_rep. unfold Pat.not_chr_nl.
  rewrite (@bracket_body 1 "]" t _ _
             (Cursor (Some ")"%char)
                (S (S (S (S p + String.length t)) + String.length u)) tl,
              []) (Some "["%char) (S p) [] Ht).
  - cbn [pos rest]. rewrite link_text_length. f_equal. f_equal; [lia|].
    rewrite <- link_text_shape.
    replace (S (S (S (S p + String.length t)) + String.length u) - p)
      with (String.length (link_text t u))
      by (rewrite link_text_length; lia).
    apply substring_all.
  - rewrite m_seq. unfold lit at 1. rewrite m_one.
    cbn [cls_ok]. rewrite Ascii.eqb_refl.
    apply m_target; [exact Hu|]. reflexivity.
Qed.

Lemma try_link_other r b bf p a s :
  r = Pat.link \/ r = Pat.link_whole ->
  Ascii.eqb a "[" = false ->
  try_at false r b (Cursor bf p (String a s)) = None.
Proof.
  intros [->| ->] H; unfold try_at, Pat.link, Pat.link_whole; cbn [seq];
    rewrite m_lit_other by exact H; reflexivity.
Qed.

Lemma try_link_end r b bf p :
  r = Pat.link \/ r = Pat.link_whole ->
  try_at false r b (Cursor bf p "") = None.
Proof. intros [->| ->]; reflexivity. Qed.

(** [re.search] passes the characters no attempt succeeds at. *)
Lemma search_keeps ml r (f : ascii -> bool) :
  (forall bf p a s,
      f a = false -> try_at ml r false (Cursor bf p (String a s)) = None) ->
  forall pre s bf p,
    all_chr (fun a => negb (f a)) pre = true ->
    search_from ml r bf p (pre ++ s)
    = search_from ml r (last_chr bf pre) (p + String.length pre) s.
Proof.
  intros Hf. induction pre as [|a pre IH]; intros s bf p H;
    cbn [append String.length last_chr].
  - rewrite Nat.add_0_r. reflexivity.
  - cbn [all_chr] in H. apply andb_true_iff in H. destruct H as [Ha Hp].
    apply negb_true_iff in Ha. cbn [search_from]. rewrite (Hf _ _ _ _ Ha).
    rewrite (IH s (Some a) (S p) Hp). f_equal. lia.
Qed.

Lemma search_here ml r bf p s x :
  try_at ml r false (Cursor bf p s) = Some x ->
  search_from ml r bf p s = Some x.
Proof. intros E. destruct s; cbn [search_from]; rewrite E; reflexivity. Qed.



Lemma try_link_first bf p a s :
  Ascii.eqb a "[" = false ->
  try_at false Pat.link false (Cursor bf p (String a s)) = None.
Proof. apply try_link_other. left. reflexivity. Qed.

(** The links of a line of links, and the line without them. *)
Lemma scan_links l post :
  forallb link_ok l = true -> without "[" post = true ->
  forall bf p,
    List.length (hits (scan false Pat.link 0 bf p (with_links l post)))
    = List.length l
    /\ subst group1 (scan false Pat.link 0 bf p (with_links l post))
       = with_texts l post.
Proof.
  induction l as [|[[pre t] u] l IH]; intros Hl Hpost bf p;
    cbn [with_links with_texts].
  - destruct (@scan_none false Pat.link (fun a => Ascii.eqb a "[") post bf p
                try_link_first
                (fun bf p => try_link_end false bf p (or_introl eq_refl))
                (Span.without_all _ _ Hpost)) as [P1 P2].
    rewrite P1, P2. split; reflexivity.
  - cbn [forallb link_ok] in Hl. apply andb_true_iff in Hl.
    destruct Hl as [Hx Hl]. apply andb_true_iff in Hx.
    destruct Hx as [Hx Hu]. apply andb_true_iff in Hx.
    destruct Hx as [Hpre Ht].
    set (tl := with_links l post).
    destruct (@scan_one false Pat.link (fun a => Ascii.eqb a "[") pre "["
                (t ++ "](" ++ u ++ ")") tl
                (Mtch (p + String.length pre) (String.length (link_text t u))
                   (link_text t u) [(1, t)])
                bf p try_link_first (Span.without_all _ _ Hpre))
      as [H1 H2].
    { apply (@try_link t u tl _ _ Ht Hu). }
    { reflexivity. }
    change (String "[" (t ++ "](" ++ u ++ ")")) with (link_text t u)
      in H1, H2.
    rewrite H1, H2. cbn [List.length]. unfold tl.
    destruct (IH Hl Hpost
                (last_chr (Some "["%char) (t ++ "](" ++ u ++ ")"))
                (p + String.length pre
                 + S (String.length (t ++ "](" ++ u ++ ")"))))
      as [I1 I2].
    rewrite I1, I2. split; reflexivity.
Qed.

(** [re.search] finds the first link of a line of links. *)
Lemma search_link pre t u tl :
  without "[" pre = true ->
  bracketed 1 "]" t = true -> bracketed 1 ")" u = true ->
  exists x,
    search false Pat.link_whole (pre ++ link_text t u ++ tl) = Some x
    /\ m_text x = link_text t u.
Proof.
  intros Hpre Ht Hu. eexists. split.
  - unfold search.
    rewrite (@search_keeps false Pat.link_whole (fun a => Ascii.eqb a "[")
               (fun bf p a s H =>
                  @try_link_other Pat.link_whole false bf p a s
                    (or_intror eq_refl) H)
               pre _ None 0 (Span.without_all _ _ Hpre)).
    apply search_here. apply try_link_whole; assumption.
  - reflexivity.
Qed.

(** *** Images *)

Lemma image_text_shape alt u tl :
  (image_text alt u ++ tl)%string
  = String "!" (link_text alt u ++ tl).
Proof. reflexivity. Qed.

Lemma image_text_length alt u :
  String.length (image_text alt u)
  = String.length alt + String.length u + 5.
Proof.
  change (image_text alt u) with (String "!" (link_text alt u)).
  cbn [String.length]. rewrite link_text_length. lia.
Qed.

Lemma try_image alt u tl bf p :
  bracketed 0 "]" alt = true -> bracketed 1 ")" u = true ->
  try_at false Pat.image false (Cursor bf p (image_text alt u ++ tl))
  = Some (Mtch p (String.length (image_text alt u)) (image_text alt u)
            [(1, alt)]).
Proof.
  intros Ht Hu. rewrite image_text_shape, link_text_shape.
  unfold try_at, Pat.image. cbn [seq]. rewrite m_seq.
  unfold lit at 1. rewrite m_one. cbn [cls_ok rest]. rewrite Ascii.eqb_refl.
  rewrite m_seq.
  unfold lit at 1. rewrite m_one. cbn [cls_ok rest]. rewrite Ascii.eqb_refl.
  rewrite m_seq. cbn [m]. unfold Pat.not_chr_nl.
  rewrite (@bracket_body 0 "]" alt _ _
             (Cursor (Some ")"%char)
                (S (S (S (S (S p) + String.length alt)) + String.length u))
                tl,
              [(1, alt)]) (Some "["%char) (S (S p)) [] Ht).
  - cbn [pos rest]. rewrite image_text_length. f_equal. f_equal; [lia|].
    rewrite <- link_text_shape, <- image_text_shape.
    replace (S (S (S (S (S p) + String.length alt)) + String.length u) - p)
      with (String.length (image_text alt u))
      by (rewrite image_text_length; lia).
    apply substring_all.
  - cbn [pos rest]. unfold lit at 1. rewrite m_one.
    cbn [cls_ok]. rewrite Ascii.eqb_refl.
    apply m_target; [exact Hu|]. cbn [andb].
    replace (S (S p) + String.length alt - S (S p))
      with (String.length alt) by lia.
    rewrite substring_all. reflexivity.
Qed.

Lemma try_image_whole alt u tl bf p :
  bracketed 0 "]" alt = true -> bracketed 1 ")" u = true ->
  try_at false Pat.image_whole false (Cursor bf p (image_text alt u ++ tl))
  = Some (Mtch p (String.length (image_text alt u)) (image_text alt u) []).
Proof.
  intros Ht Hu. rewrite image_text_shape, link_text_shape.
  unfold try_at, Pat.image_whole. cbn [seq]. rewrite m_seq.
  unfold lit at 1. rewrite m_one. cbn [cls_ok rest]. rewrite Ascii.eqb_refl.
  rewrite m_seq.
  unfold lit at 1. rewrite m_one. cbn [cls_ok rest]. rewrite Ascii.eqb_refl.
  rewrite m_seq, m_rep. unfold Pat.not_chr_nl.
  rewrite (@bracket_body 0 "]" alt _ _
             (Cursor (Some ")"%char)
                (S (S (S (S (S p) + String.length alt)) + String.length u))
                tl,
              []) (Some "["%char) (S (S p)) [] Ht).
  - cbn [pos rest]. rewrite image_text_length. f_equal. f_equal; [lia|].
    rewrite <- link_text_shape, <- image_text_shape.
    replace (S (S (S (S (S p) + String.length alt)) + String.length u) - p)
      with (String.length (image_text alt u))
      by (rewrite image_text_length; lia).
    apply substring_all.
  - rewrite m_seq. unfold lit at 1. rewrite m_one.
    cbn [cls_ok]. rewrite Ascii.eqb_refl.
    apply m_target; [exact Hu|]. reflexivity.
Qed.

Lemma try_image_other r b bf p a s :
  r = Pat.image \/ r = Pat.image_whole ->
  Ascii.eqb a "!" = false ->
  try_at false r b (Cursor bf p (String a s)) = None.
Proof.
  intros [->| ->] H; unfold try_at, Pat.image, Pat.image_whole; cbn [seq];
    rewrite m_lit_other by exact H; reflexivity.
Qed.

Lemma try_image_end r b bf p :
  r = Pat.image \/ r = Pat.image_whole ->
  try_at false r b (Cursor bf p "") = None.
Proof. intros [->| ->]; reflexivity. Qed.

Lemma try_image_first bf p a s :
  Ascii.eqb a "!" = false ->
  try_at false Pat.image false (Cursor bf p (String a s)) = None.
Proof. apply try_image_other. left. reflexivity. Qed.

Lemma image_ok_parts pre alt u :
  image_ok (pre, alt, u) = true ->
  without "!" pre = true /\ without "[" pre = true
  /\ bracketed 0 "]" alt = true /\ without "[" alt = true
  /\ bracketed 1 ")" u = true.
Proof.
  unfold image_ok. intros H.
  apply andb_true_iff in H. destruct H as [H H5].
  apply andb_true_iff in H. destruct H as [H H4].
  apply andb_true_iff in H. destruct H as [H H3].
  apply andb_true_iff in H. destruct H as [H1 H2]. auto.
Qed.

(** The images of a line of images, and the line without them. *)
Lemma scan_images l post :
  forallb image_ok l = true -> without "!" post = true ->
  forall bf p,
    List.length (hits (scan false Pat.image 0 bf p (with_images l post)))
    = List.length l
    /\ subst group1 (scan false Pat.image 0 bf p (with_images l post))
       = with_texts l post.
Proof.
  induction l as [|[[pre t] u] l IH]; intros Hl Hpost bf p;
    cbn [with_images with_texts].
  - destruct (@scan_none false Pat.image (fun a => Ascii.eqb a "!") post bf p
                try_image_first
                (fun bf p => try_image_end false bf p (or_introl eq_refl))
                (Span.without_all _ _ Hpost)) as [P1 P2].
    rewrite P1, P2. split; reflexivity.
  - cbn [forallb] in Hl. apply andb_true_iff in Hl.
    destruct Hl as [Hx Hl]. apply image_ok_parts in Hx.
    destruct Hx as (Hpre & _ & Ht & _ & Hu).
    set (tl := with_images l post).
    destruct (@scan_one false Pat.image (fun a => Ascii.eqb a "!") pre "!"
                (link_text t u) tl
                (Mtch (p + String.length pre) (String.length (image_text t u))
                   (image_text t u) [(1, t)])
                bf p try_image_first (Span.without_all _ _ Hpre))
      as [H1 H2].
    { apply (@try_image t u tl _ _ Ht Hu). }
    { reflexivity. }
    change (String "!" (link_text t u)) with (image_text t u) in H1, H2.
    rewrite H1, H2. cbn [List.length]. unfold tl.
    destruct (IH Hl Hpost
                (last_chr (Some "!"%char) (link_text t u))
                (p + String.length pre + S (String.length (link_text t u))))
      as [I1 I2].
    rewrite I1, I2. split; reflexivity.
Qed.

Lemma search_image pre alt u tl :
  without "!" pre = true ->
  bracketed 0 "]" alt = true -> bracketed 1 ")" u = true ->
  exists x,
    search false Pat.image_whole (pre ++ image_text alt u ++ tl) = Some x
    /\ m_text x = image_text alt u.
Proof.
  intros Hpre Ht Hu. eexists. split.
  - unfold search.
    rewrite (@search_keeps false Pat.image_whole (fun a => Ascii.eqb a "!")
               (fun bf p a s H =>
                  @try_image_other Pat.image_whole false bf p a s
                    (or_intror eq_refl) H)
               pre _ None 0 (Span.without_all _ _ Hpre)).
    apply search_here. apply try_image_whole; assumption.
  - reflexivity.
Qed.

(** The texts left by the images have no opening bracket. *)
Lemma with_texts_without l post :
  forallb image_ok l = true -> without "[" post = true ->
  without "[" (with_texts l post) = true.
Proof.
  induction l as [|[[pre t] u] l IH]; intros Hl Hpost; cbn [with_texts].
  - exact Hpost.
  - cbn [forallb] in Hl. apply andb_true_iff in Hl.
    destruct Hl as [Hx Hl]. apply image_ok_parts in Hx.
    destruct Hx as (_ & Hpre & _ & Ht & _).
    rewrite !Span.without_app, Hpre, Ht, (IH Hl Hpost). reflexivity.
Qed.

(** A loop whose every round logs the same content. *)
Lemma for_same A (xs : list A) (body : M unit) k v :
  (forall w, body w
             = Ok tt (World (logger_log (logger w) k v) (stdout w)
                        (stderr w))) ->
  forall w,
    for_ xs (fun _ => body) w
    = Ok tt (World (log_all (logger w) (repeat (k, v) (List.length xs)))
               (stdout w) (stderr w)).
Proof.
  intros Hb. induction xs as [|x xs IH]; intros w.
  - destruct w as [lg so se]. reflexivity.
  - cbn [for_]. unfold bind. rewrite Hb, IH. reflexivity.
Qed.

End Links.


(** X25. Step 6 on a line of inline links [[t](u)], with no exclamation
    mark in the line and no other opening bracket outside the links: each
    link is replaced by its text, and what is logged under [links] is the
    first link of the line, once for each link found; the later links are
    not logged. *)
Theorem links_keep_their_text :
  forall (l : list (string * string * string)) (post : string) (w : world),
    forallb link_ok l = true -> without "[" post = true ->
    without "!" (with_links l post) = true ->
    links_line (with_links l post) w
    = Ok (with_texts l post)
        (World (log_all (logger w) (first_each_time "links" link_text l))
           (stdout w) (stderr w)).
Proof.
  intros l post w Hl Hpost Hbang.
  destruct (@Span.lacking false (fun a => Ascii.eqb a "!") Pat.image
              (with_links l post) eq_refl (Span.without_all _ _ Hbang))
    as [E1 E2].
  destruct (@Links.scan_links l post Hl Hpost None 0) as [S1 S2].
  unfold links_line. rewrite E1, E2. cbn [for_].
  eapply Emphasis.bind_ok; [reflexivity|].
  destruct l as [|[[pre t] u] l].
  - cbn [with_links] in *.
    apply length_zero_iff_nil in S1. unfold Re.finditer, Re.segments.
    rewrite S1. unfold Re.sub, Re.segments. rewrite S2.
    destruct w as [lg so se]. reflexivity.
  - cbn [forallb link_ok] in Hl. apply andb_true_iff in Hl.
    destruct Hl as [Hx _]. apply andb_true_iff in Hx.
    destruct Hx as [Hx Hu]. apply andb_true_iff in Hx.
    destruct Hx as [Hpre Ht].
    cbn [with_links] in *.
    destruct (@Links.search_link pre t u (with_links l post) Hpre Ht Hu)
      as (x & Ex & Tx).
    rewrite Ex. eapply Emphasis.bind_ok.
    + apply (@Links.for_same _ _ _ "links" (link_text t u)).
      intros w0. unfold bind, group0, ret, log. rewrite Tx. reflexivity.
    + unfold Re.finditer, Re.segments. rewrite S1.
      unfold Re.sub, Re.segments. rewrite S2. reflexivity.
Qed.

Lemma links_keep_their_text_witness :
  links_line
    (with_links [("see ", "the guide", "guide.md");
                 (" and ", "the notes", "notes.md")] ".")
    (world0 (Some (Logger true [])))
  = Ok (with_texts [("see ", "the guide", "guide.md");
                    (" and ", "the notes", "notes.md")] ".")
      (World
         (log_all (logger (world0 (Some (Logger true []))))
            (first_each_time "links" link_text
               [("see ", "the guide", "guide.md");
                (" and ", "the notes", "notes.md")]))
         (stdout (world0 (Some (Logger true []))))
         (stderr (world0 (Some (Logger true []))))).
Proof.
  apply (@links_keep_their_text
           [("see ", "the guide", "guide.md");
            (" and ", "the notes", "notes.md")] "."); reflexivity.
Defined.

(** X26. Step 6 on a line of inline images [![alt](u)], with no other
    exclamation mark and no opening bracket outside the images or in an
    alternative text: each image is replaced by its alternative text,
    which may be empty, and what is logged under [images] is the first
    image of the line, once for each image found. *)
Theorem images_keep_their_alt_text :
  forall (l : list (string * string * string)) (post : string) (w : world),
    forallb image_ok l = true ->
    without "!" post = true -> without "[" post = true ->
    links_line (with_images l post) w
    = Ok (with_texts l post)
        (World (log_all (logger w) (first_each_time "images" image_text l))
           (stdout w) (stderr w)).
Proof.
  intros l post w Hl Hpost Hbr.
  destruct (@Links.scan_images l post Hl Hpost None 0) as [S1 S2].
  destruct (@Span.lacking false (fun a => Ascii.eqb a "[") Pat.link
              (with_texts l post) eq_refl
              (Span.without_all _ _ (@Links.with_texts_without l post Hl Hbr)))
    as [E1 E2].
  unfold links_line.
  assert (G : forall w1,
             (for_ (Re.finditer false Pat.link
                      (Re.sub false Pat.image group1 (with_images l post)))
                (fun _ =>
                   full_match <-
                     group0
                       (Re.search false Pat.link_whole
                          (Re.sub false Pat.image group1
                             (with_images l post))) ;;
                   log "links" full_match) ;;;
              ret (Re.sub false Pat.link group1
                     (Re.sub false Pat.image group1 (with_images l post))))
               w1
             = Ok (with_texts l post) w1).
  { intros w1. unfold Re.sub at 1 2 4, Re.segments. rewrite S2.
    rewrite E1, E2. reflexivity. }
  destruct l as [|[[pre t] u] l].
  - cbn [with_images] in *.
    apply length_zero_iff_nil in S1. unfold Re.finditer at 1, Re.segments.
    rewrite S1. cbn [for_]. eapply Emphasis.bind_ok; [reflexivity|].
    rewrite G. destruct w as [lg so se]. reflexivity.
  - cbn [forallb] in Hl. apply andb_true_iff in Hl.
    destruct Hl as [Hx _]. apply Links.image_ok_parts in Hx.
    destruct Hx as (Hpre & _ & Ht & _ & Hu).
    cbn [with_images] in *.
    destruct (@Links.search_image pre t u (with_images l post) Hpre Ht Hu)
      as (x & Ex & Tx).
    rewrite Ex. eapply Emphasis.bind_ok.
    + apply (@Links.for_same _ _ _ "images" (image_text t u)).
      intros w0. unfold bind, group0, ret, log. rewrite Tx. reflexivity.
    + rewrite G. unfold Re.finditer, Re.segments. rewrite S1. reflexivity.
Qed.

Lemma images_keep_their_alt_text_witness :
  links_line
    (with_images [("logo ", "the logo", "logo.png");
                  (" chart ", "", "chart.png")] " end")
    (world0 (Some (Logger true [])))
  = Ok (with_texts [("logo ", "the logo", "logo.png");
                    (" chart ", "", "chart.png")] " end")
      (World
         (log_all (logger (world0 (Some (Logger true []))))
            (first_each_time "images" image_text
               [("logo ", "the logo", "logo.png");
                (" chart ", "", "chart.png")]))
         (stdout (world0 (Some (Logger true []))))
         (stderr (world0 (Some (Logger true []))))).
Proof.
  apply (@images_keep_their_alt_text
           [("logo ", "the logo", "logo.png");
            (" chart ", "", "chart.png")] " end"); reflexivity.
Defined.


(** ** Step 13 on a line with tags *)

Module Html.
Import Re ReFacts Runs Scan.

Lemma tag_text_shape t tl :
  (tag_text t ++ tl)%string = String "<" (t ++ String ">" tl).
Proof.
  unfold tag_text. cbn [append]. f_equal.
  rewrite append_assoc. reflexivity.
Qed.

Lemma tag_text_length t : String.length (tag_text t) = String.length t + 2.
Proof.
  unfold tag_text. cbn [append String.length]. rewrite append_length.
  cbn [String.length]. lia.
Qed.

Lemma try_html_tag t tl bf p :
  bracketed 0 ">" t = true ->
  try_at false Pat.html_tag false (Cursor bf p (tag_text t ++ tl))
  = Some (Mtch p (String.length (tag_text t)) (tag_text t) []).
Proof.
  intros Ht. rewrite tag_text_shape.
  unfold try_at, Pat.html_tag. cbn [seq]. rewrite m_seq.
  unfold lit at 1. rewrite m_one. cbn [cls_ok rest]. rewrite Ascii.eqb_refl.
  rewrite m_seq, m_rep. unfold Pat.not_chr_nl.
  rewrite (@Links.bracket_body 0 ">" t _ _
             (Cursor (Some ">"%char) (S (S p + String.length t)) tl, [])
             (Some "<"%char) (S p) [] Ht).
  - cbn [pos rest]. rewrite tag_text_length. f_equal. f_equal; [lia|].
    rewrite <- tag_text_shape.
    replace (S (S p + String.length t) - p)
      with (String.length (tag_text t))
      by (rewrite tag_text_length; lia).
    apply substring_all.
  - unfold lit. rewrite m_one. cbn [cls_ok rest]. rewrite Ascii.eqb_refl.
    reflexivity.
Qed.

Lemma try_html_tag_other bf p a s :
  Ascii.eqb a "<" = false ->
  try_at false Pat.html_tag false (Cursor bf p (String a s)) = None.
Proof.
  intros H. unfold try_at, Pat.html_tag. cbn [seq].
  rewrite Span.m_lit_other by exact H. reflexivity.
Qed.

Lemma try_html_tag_end bf p :
  try_at false Pat.html_tag false (Cursor bf p "") = None.
Proof. reflexivity. Qed.

(** The tags of a line with tags, and the line without them. *)
Lemma scan_tags l post :
  forallb tag_ok l = true -> without "<" post = true ->
  forall bf p,
    map m_text (hits (scan false Pat.html_tag 0 bf p (with_tags l post)))
    = map (fun x => tag_text (snd x)) l
    /\ subst nothing (scan false Pat.html_tag 0 bf p (with_tags l post))
       = without_tags l post.
Proof.
  induction l as [|[pre t] l IH]; intros Hl Hpost bf p;
    cbn [with_tags without_tags].
  - destruct (@scan_none false Pat.html_tag (fun a => Ascii.eqb a "<") post
                bf p try_html_tag_other try_html_tag_end
                (Span.without_all _ _ Hpost)) as [P1 P2].
    rewrite P1, P2. split; reflexivity.
  - cbn [forallb] in Hl. apply andb_true_iff in Hl.
    destruct Hl as [Hx Hl]. unfold tag_ok in Hx. cbn [fst snd] in Hx.
    apply andb_true_iff in Hx. destruct Hx as [Hpre Ht].
    set (tl := with_tags l post).
    destruct (@scan_one false Pat.html_tag (fun a => Ascii.eqb a "<") pre "<"
                (t ++ ">") tl
                (Mtch (p + String.length pre) (String.length (tag_text t))
                   (tag_text t) [])
                bf p try_html_tag_other (Span.without_all _ _ Hpre))
      as [H1 H2].
    { apply (@try_html_tag t tl _ _ Ht). }
    { reflexivity. }
    change (String "<" (t ++ ">")) with (tag_text t) in H1, H2.
    rewrite H1, H2. cbn [map snd m_text nothing append]. unfold tl.
    destruct (IH Hl Hpost
                (last_chr (Some "<"%char) (t ++ ">"))
                (p + String.length pre + S (String.length (t ++ ">"))))
      as [I1 I2].
    rewrite I1, I2. split; reflexivity.
Qed.

(** A loop that logs one content per round. *)
Lemma for_log A (xs : list A) k (fmt : A -> string) :
  forall w,
    for_ xs (fun x => log k (fmt x)) w
    = Ok tt (World (log_all (logger w) (map (fun x => (k, fmt x)) xs))
               (stdout w) (stderr w)).
Proof.
  induction xs as [|x xs IH]; intros w.
  - destruct w as [lg so se]. reflexivity.
  - cbn [for_]. unfold bind. unfold log at 1. rewrite IH. reflexivity.
Qed.

End Html.

(** X27. Step 13 on a line with tags [<t>], where no tag has more than
    125 characters between its angle brackets and there is no other
    opening angle bracket: the tags are taken out, an empty one [<>]
    too, the text around them stays, and each tag is logged as it is
    written under [html_tags], in the order of the line. *)
Theorem html_tags_are_taken_out :
  forall (l : list (string * string)) (post : string) (w : world),
    forallb tag_ok l = true -> without "<" post = true ->
    html_line (with_tags l post) w
    = Ok (without_tags l post)
        (World
           (log_all (logger w)
              (map (fun x => ("html_tags", tag_text (snd x))) l))
           (stdout w) (stderr w)).
Proof.
  intros l post w Hl Hpost.
  destruct (@Html.scan_tags l post Hl Hpost None 0) as [S1 S2].
  unfold html_line, log_and_sub.
  eapply Emphasis.bind_ok; [apply Html.for_log|].
  unfold Re.sub, Re.finditer, Re.segments. rewrite S2.
  rewrite <- (map_map Re.m_text (fun s => ("html_tags", s))), S1, map_map.
  reflexivity.
Qed.

Lemma html_tags_are_taken_out_witness :
  html_line (with_tags [("a ", "b"); ("bold", "/b"); (" and ", "")] " z")
    (world0 (Some (Logger true [])))
  = Ok (without_tags [("a ", "b"); ("bold", "/b"); (" and ", "")] " z")
      (World
         (log_all (logger (world0 (Some (Logger true []))))
            (map (fun x => ("html_tags", tag_text (snd x)))
               [("a ", "b"); ("bold", "/b"); (" and ", "")]))
         (stdout (world0 (Some (Logger true []))))
         (stderr (world0 (Some (Logger true []))))).
Proof.
  apply (@html_tags_are_taken_out
           [("a ", "b"); ("bold", "/b"); (" and ", "")] " z"); reflexivity.
Defined.


(** ** Step 3a on a header *)

Module Headers.
Import Re ReFacts Runs Scan.

Lemma m_bol ml k c g :
  m ml Bol k c g = if at_bol ml c then k c g else None.
Proof. reflexivity. Qed.

Lemma m_eol ml k c g :
  m ml Eol k c g = if at_eol ml c then k c g else None.
Proof. reflexivity. Qed.

Lemma m_grp ml i r k c g :
  m ml (Grp i r) k c g
  = m ml r (fun c' g' =>
      k c' ((i, substring 0 (pos c' - pos c) (rest c)) :: g')) c g.
Proof. reflexivity. Qed.

(** A repetition that has to take a character fails on another one. *)
Lemma rep_head_fails ml cl greedy lo k n bf p a s g :
  cls_ok cl a = false -> 1 <= lo ->
  rep_loop (m ml (One cl)) greedy lo k n 0 (Cursor bf p (String a s)) g
  = None.
Proof.
  intros Ha Hlo.
  assert (E : (lo <=? 0) = false) by (apply Nat.leb_gt; lia).
  destruct n as [|n]; [rewrite rep_loop_end, E; reflexivity|].
  destruct greedy.
  - rewrite rep_loop_greedy, m_one, Ha, E. reflexivity.
  - rewrite rep_loop_lazy, m_one, Ha, E. reflexivity.
Qed.

Lemma rep_end_fails ml cl greedy lo k n bf p g :
  1 <= lo ->
  rep_loop (m ml (One cl)) greedy lo k n 0 (Cursor bf p "") g = None.
Proof.
  intros Hlo.
  assert (E : (lo <=? 0) = false) by (apply Nat.leb_gt; lia).
  destruct n as [|n]; [rewrite rep_loop_end, E; reflexivity|].
  destruct greedy.
  - rewrite rep_loop_greedy, m_one_end, E. reflexivity.
  - rewrite rep_loop_lazy, m_one_end, E. reflexivity.
Qed.

Lemma all_repeat c n : all_chr (cls_ok (CLit c)) (Py.repeat_chr c n) = true.
Proof.
  induction n as [|n IH]; cbn [Py.repeat_chr all_chr cls_ok]; auto.
  rewrite Ascii.eqb_refl. exact IH.
Qed.

Lemma space_is_no_hash a : Py.is_space a = true -> Ascii.eqb a "#" = false.
Proof.
  intros H. destruct (Ascii.eqb_spec a "#") as [->|]; [discriminate|].
  reflexivity.
Qed.

Lemma gap_parts gap :
  gap_ok gap = true ->
  1 <= String.length gap
  /\ all_chr (cls_ok (CSet [ISpace])) gap = true
  /\ exists a gap', gap = String a gap' /\ Py.is_space a = true.
Proof.
  unfold gap_ok. intros H. apply andb_true_iff in H. destruct H as [H1 H2].
  apply Nat.leb_le in H1. split; [exact H1|]. split.
  - rewrite <- H2. clear.
    induction gap as [|a gap IH]; cbn [all_chr];
      [reflexivity|rewrite cls_ws, IH; reflexivity].
  - destruct gap as [|a gap']; [cbn in H1; lia|].
    exists a, gap'. split; [reflexivity|]. cbn [all_chr] in H2.
    apply andb_true_iff in H2. tauto.
Qed.

Lemma title_parts title :
  title_ok title = true ->
  (exists a title', title = String a title' /\ Py.is_space a = false)
  /\ all_chr (cls_ok CDot) title = true
  /\ without "#" title = true.
Proof.
  unfold title_ok. intros H. apply andb_true_iff in H. destruct H as [H H3].
  apply andb_true_iff in H. destruct H as [H1 H2]. split; [|split].
  - destruct title as [|a title']; [discriminate|].
    exists a, title'. split; [reflexivity|].
    apply negb_true_iff. exact H1.
  - apply Span.without_all in H2. rewrite <- H2. clear.
    induction title as [|a t IH]; cbn [all_chr cls_ok];
      [reflexivity|rewrite IH; reflexivity].
  - exact H3.
Qed.

Lemma at_bol_after bf p s :
  after_newline bf = true -> at_bol true (Cursor bf p s) = true.
Proof. destruct bf as [a|]; intros H; [exact H|reflexivity]. Qed.

Lemma at_eol_starts bf p post :
  starts_line post = true -> at_eol true (Cursor bf p post) = true.
Proof.
  destruct post as [|a s]; intros H; [reflexivity|].
  unfold at_eol. cbn [rest starts_line] in *. rewrite H. reflexivity.
Qed.

(** The pattern that finds a header, on a header. *)
Lemma m_header_find K n gap title post bf p g x :
  1 <= n <= 6 -> gap_ok gap = true -> title_ok title = true ->
  starts_line post = true -> after_newline bf = true ->
  K (Cursor
       (last_chr (last_chr (last_chr bf (Py.repeat_chr "#" n)) gap) title)
       (p + n + String.length gap + String.length title) post)
    ((1, (Py.repeat_chr "#" n ++ gap ++ title)%string) :: g) = Some x ->
  m true Pat.hash_header_find K
    (Cursor bf p (Py.repeat_chr "#" n ++ gap ++ title ++ post)) g = Some x.
Proof.
  intros Hn Hg Ht Hp Hb HK.
  destruct (gap_parts _ Hg) as (G1 & G2 & a & gap' & Eg & Ga).
  destruct (title_parts _ Ht) as ((b & title' & Eb & Tb) & T2 & T3).
  unfold Pat.hash_header_find. cbn [seq].
  rewrite m_seq, m_bol, at_bol_after by exact Hb.
  rewrite m_seq, m_grp, m_seq, m_rep.
  unfold lit. apply greedy_run_to.
  - rewrite Eg. cbn [append cls_ok]. apply space_is_no_hash. exact Ga.
  - apply all_repeat.
  - rewrite Span.repeat_length. lia.
  - rewrite Span.repeat_length. lia.
  - rewrite m_seq. unfold plus. rewrite m_rep. unfold ws.
    apply greedy_run_to.
    + rewrite Eb. cbn [append]. rewrite cls_ws. exact Tb.
    + exact G2.
    + cbn [rest]. rewrite append_length. lia.
    + lia.
    + unfold star. rewrite m_rep. apply greedy_run_to.
      * destruct post as [|c post']; [exact I|].
        cbn [starts_line] in Hp. cbn [cls_ok]. rewrite Hp. reflexivity.
      * exact T2.
      * cbn [rest]. rewrite append_length. lia.
      * lia.
      * rewrite m_eol, at_eol_starts by exact Hp.
        cbn [pos rest]. rewrite Span.repeat_length.
        replace (p + n + String.length gap + String.length title - p)
          with (String.length (Py.repeat_chr "#" n ++ gap ++ title))
          by (rewrite !append_length, Span.repeat_length; lia).
        replace (Py.repeat_chr "#" n ++ gap ++ title ++ post)%string
          with ((Py.repeat_chr "#" n ++ gap ++ title) ++ post)%string
          by (rewrite !append_assoc; reflexivity).
        rewrite substring_all. exact HK.
Qed.

(** The pattern that takes the marker of a header out, on a header. *)
Lemma m_header_sub K n gap title post bf p g x :
  1 <= n <= 6 -> gap_ok gap = true -> title_ok title = true ->
  after_newline bf = true ->
  K (Cursor (last_chr (last_chr bf (Py.repeat_chr "#" n)) gap)
       (p + n + String.length gap) (title ++ post)) g = Some x ->
  m true Pat.hash_header_sub K
    (Cursor bf p (Py.repeat_chr "#" n ++ gap ++ title ++ post)) g = Some x.
Proof.
  intros Hn Hg Ht Hb HK.
  destruct (gap_parts _ Hg) as (G1 & G2 & a & gap' & Eg & Ga).
  destruct (title_parts _ Ht) as ((b & title' & Eb & Tb) & T2 & T3).
  unfold Pat.hash_header_sub. cbn [seq].
  rewrite m_seq, m_bol, at_bol_after by exact Hb.
  rewrite m_seq, m_rep.
  unfold lit. apply greedy_run_to.
  - rewrite Eg. cbn [append cls_ok]. apply space_is_no_hash. exact Ga.
  - apply all_repeat.
  - rewrite Span.repeat_length. lia.
  - rewrite Span.repeat_length. lia.
  - unfold plus. rewrite m_rep. unfold ws.
    apply greedy_run_to.
    + rewrite Eb. cbn [append]. rewrite cls_ws. exact Tb.
    + exact G2.
    + cbn [rest]. rewrite append_length. lia.
    + lia.
    + rewrite Span.repeat_length. exact HK.
Qed.

Lemma try_header_find n gap title post bf p :
  1 <= n <= 6 -> gap_ok gap = true -> title_ok title = true ->
  starts_line post = true -> after_newline bf = true ->
  try_at true Pat.hash_header_find false
    (Cursor bf p ((Py.repeat_chr "#" n ++ gap ++ title) ++ post))
  = Some (Mtch p (String.length (Py.repeat_chr "#" n ++ gap ++ title))
            (Py.repeat_chr "#" n ++ gap ++ title)
            [(1, (Py.repeat_chr "#" n ++ gap ++ title)%string)]).
Proof.
  intros Hn Hg Ht Hp Hb. unfold try_at.
  replace ((Py.repeat_chr "#" n ++ gap ++ title) ++ post)%string
    with (Py.repeat_chr "#" n ++ gap ++ title ++ post)%string
    by (rewrite !append_assoc; reflexivity).
  erewrite m_header_find; try eassumption; [|reflexivity].
  cbn [pos rest].
  replace (p + n + String.length gap + String.length title - p)
    with (String.length (Py.repeat_chr "#" n ++ gap ++ title))
    by (rewrite !append_length, Span.repeat_length; lia).
  replace (Py.repeat_chr "#" n ++ gap ++ title ++ post)%string
    with ((Py.repeat_chr "#" n ++ gap ++ title) ++ post)%string
    by (rewrite !append_assoc; reflexivity).
  rewrite substring_all. reflexivity.
Qed.

Lemma try_header_sub n gap title post bf p :
  1 <= n <= 6 -> gap_ok gap = true -> title_ok title = true ->
  after_newline bf = true ->
  try_at true Pat.hash_header_sub false
    (Cursor bf p ((Py.repeat_chr "#" n ++ gap) ++ title ++ post))
  = Some (Mtch p (String.length (Py.repeat_chr "#" n ++ gap))
            (Py.repeat_chr "#" n ++ gap) []).
Proof.
  intros Hn Hg Ht Hb. unfold try_at.
  replace ((Py.repeat_chr "#" n ++ gap) ++ title ++ post)%string
    with (Py.repeat_chr "#" n ++ gap ++ title ++ post)%string
    by (rewrite !append_assoc; reflexivity).
  erewrite m_header_sub; try eassumption; [|reflexivity].
  cbn [pos rest].
  replace (p + n + String.length gap - p)
    with (String.length (Py.repeat_chr "#" n ++ gap))
    by (rewrite !append_length, Span.repeat_length; lia).
  replace (Py.repeat_chr "#" n ++ gap ++ title ++ post)%string
    with ((Py.repeat_chr "#" n ++ gap) ++ title ++ post)%string
    by (rewrite !append_assoc; reflexivity).
  rewrite substring_all. reflexivity.
Qed.

(** Neither pattern matches where there is no hash. *)
Lemma try_header_other r b bf p a s :
  r = Pat.hash_header_find \/ r = Pat.hash_header_sub ->
  Ascii.eqb a "#" = false ->
  try_at true r b (Cursor bf p (String a s)) = None.
Proof.
  intros [->| ->] H; unfold try_at, Pat.hash_header_find, Pat.hash_header_sub;
    cbn [seq]; rewrite m_seq, m_bol; destruct (at_bol _ _); try reflexivity.
  - rewrite m_seq, m_grp, m_seq, m_rep. unfold lit.
    rewrite rep_head_fails; [reflexivity|exact H|lia].
  - rewrite m_seq, m_rep. unfold lit.
    rewrite rep_head_fails; [reflexivity|exact H|lia].
Qed.

Lemma try_header_end r b bf p :
  r = Pat.hash_header_find \/ r = Pat.hash_header_sub ->
  try_at true r b (Cursor bf p "") = None.
Proof.
  intros [->| ->]; unfold try_at, Pat.hash_header_find, Pat.hash_header_sub;
    cbn [seq]; rewrite m_seq, m_bol; destruct (at_bol _ _); try reflexivity.
Qed.

End Headers.

(** X28. Step 3a on a text with one header: at the start of a line, one
    to six hashes, white space and a title that ends the line, in a text
    with no other hash.  The hashes and the white space are taken out,
    the title and everything else stay, and the header is logged as it
    is written under [hash_headers]. *)
Theorem hash_header_keeps_its_title :
  forall (pre : string) (n : nat) (gap title post : string) (w : world),
    without "#" pre = true -> ends_line pre = true ->
    1 <= n <= 6 -> gap_ok gap = true -> title_ok title = true ->
    without "#" post = true -> starts_line post = true ->
    hash_headers (pre ++ Py.repeat_chr "#" n ++ gap ++ title ++ post) w
    = Ok (pre ++ title ++ post)%string
        (World
           (logger_log (logger w) "hash_headers"
              (Py.repeat_chr "#" n ++ gap ++ title))
           (stdout w) (stderr w)).
Proof.
  intros pre n gap title post w Hpre Hl Hn Hg Ht Hpost Hs.
  destruct (Headers.title_parts _ Ht) as (_ & _ & T3).
  destruct n as [|k]; [lia|].
  assert (Hf : forall r, r = Pat.hash_header_find \/ r = Pat.hash_header_sub ->
             forall bf p a s,
               Ascii.eqb a "#" = false ->
               Re.try_at true r false (Re.Cursor bf p (String a s)) = None).
  { intros r Hr bf p a s H. apply Headers.try_header_other; assumption. }
  (* what is found *)
  destruct (@Scan.scan_one true Pat.hash_header_find
              (fun a => Ascii.eqb a "#") pre "#"
              (Py.repeat_chr "#" k ++ gap ++ title) post
              (Re.Mtch (0 + String.length pre)
                 (String.length (Py.repeat_chr "#" (S k) ++ gap ++ title))
                 (Py.repeat_chr "#" (S k) ++ gap ++ title)
                 [(1, (Py.repeat_chr "#" (S k) ++ gap ++ title)%string)])
              None 0 (Hf _ (or_introl eq_refl))
              (Span.without_all _ _ Hpre)) as [F1 _].
  { apply (@Headers.try_header_find (S k) gap title post); assumption. }
  { reflexivity. }
  destruct (@Scan.scan_none true Pat.hash_header_find
              (fun a => Ascii.eqb a "#") post
              (last_chr (Some "#"%char) (Py.repeat_chr "#" k ++ gap ++ title))
              (0 + String.length pre
               + S (String.length (Py.repeat_chr "#" k ++ gap ++ title)))
              (Hf _ (or_introl eq_refl))
              (fun bf p => Headers.try_header_end false bf p
                             (or_introl eq_refl))
              (Span.without_all _ _ Hpost)) as [F2 _].
  (* what is taken out *)
  destruct (@Scan.scan_one true Pat.hash_header_sub
              (fun a => Ascii.eqb a "#") pre "#"
              (Py.repeat_chr "#" k ++ gap) (title ++ post)
              (Re.Mtch (0 + String.length pre)
                 (String.length (Py.repeat_chr "#" (S k) ++ gap))
                 (Py.repeat_chr "#" (S k) ++ gap) [])
              None 0 (Hf _ (or_intror eq_refl))
              (Span.without_all _ _ Hpre)) as [_ S1].
  { apply (@Headers.try_header_sub (S k) gap title post); assumption. }
  { reflexivity. }
  assert (Htp : without "#" (title ++ post) = true)
    by (rewrite Span.without_app, T3, Hpost; reflexivity).
  destruct (@Scan.scan_none true Pat.hash_header_sub
              (fun a => Ascii.eqb a "#") (title ++ post)
              (last_chr (Some "#"%char) (Py.repeat_chr "#" k ++ gap))
              (0 + String.length pre
               + S (String.length (Py.repeat_chr "#" k ++ gap)))
              (Hf _ (or_intror eq_refl))
              (fun bf p => Headers.try_header_end false bf p
                             (or_intror eq_refl))
              (Span.without_all _ _ Htp)) as [_ S2].
  unfold hash_headers, log_and_sub, Re.finditer, Re.sub, Re.segments.
  replace (pre ++ Py.repeat_chr "#" (S k) ++ gap ++ title ++ post)%string
    with (pre ++ String "#" (Py.repeat_chr "#" k ++ gap ++ title) ++ post)
           %string
    by (cbn [Py.repeat_chr append]; rewrite !ReFacts.append_assoc;
        reflexivity).
  rewrite F1, F2.
  replace (pre ++ String "#" (Py.repeat_chr "#" k ++ gap ++ title) ++ post)
            %string
    with (pre ++ String "#" (Py.repeat_chr "#" k ++ gap) ++ title ++ post)
           %string
    by (cbn [append]; rewrite !ReFacts.append_assoc; reflexivity).
  rewrite S1, S2. reflexivity.
Qed.

Lemma hash_header_keeps_its_title_witness :
  hash_headers
    ("intro" ++ NLs ++ Py.repeat_chr "#" 2 ++ " " ++ "Usage notes"
     ++ (NLs ++ "text"))
    (world0 (Some (Logger true [])))
  = Ok ("intro" ++ NLs ++ "Usage notes" ++ (NLs ++ "text"))%string
      (World
         (logger_log (logger (world0 (Some (Logger true []))))
            "hash_headers" (Py.repeat_chr "#" 2 ++ " " ++ "Usage notes"))
         (stdout (world0 (Some (Logger true []))))
         (stderr (world0 (Some (Logger true []))))).
Proof.
  apply (@hash_header_keeps_its_title ("intro" ++ NLs) 2 " "
           "Usage notes" (NLs ++ "text"));
    try reflexivity; lia.
Defined.


(** ** Step 8 on a list item *)

Module Lists.
Import Re ReFacts Runs Scan.

Lemma every_position_app ok s t bf :
  every_position ok bf (s ++ t)
  = every_position ok bf s && every_position ok (last_chr bf s) t.
Proof.
  revert bf. induction s as [|a s IH]; intros bf;
    cbn [append every_position last_chr]; [reflexivity|].
  rewrite IH, andb_assoc. reflexivity.
Qed.

(** Characters at which no attempt succeeds are kept, when that depends
    on the character before as well. *)
Lemma scan_keeps_at ml r (ok : option ascii -> ascii -> bool) :
  (forall bf p a s,
      ok bf a = true -> try_at ml r false (Cursor bf p (String a s)) = None) ->
  forall pre s bf p,
    every_position ok bf pre = true ->
    (forall repl,
        subst repl (scan ml r 0 bf p (pre ++ s))
        = (pre ++ subst repl
                    (scan ml r 0 (last_chr bf pre) (p + String.length pre) s))
          %string)
    /\ hits (scan ml r 0 bf p (pre ++ s))
       = hits (scan ml r 0 (last_chr bf pre) (p + String.length pre) s).
Proof.
  intros Hf. induction pre as [|a pre IH]; intros s bf p H;
    cbn [append String.length last_chr].
  - rewrite Nat.add_0_r. split; reflexivity.
  - cbn [every_position] in H. apply andb_true_iff in H.
    destruct H as [Ha Hp].
    cbn [scan]. rewrite (Hf _ _ _ _ Ha).
    destruct (IH s (Some a) (S p) Hp) as [E1 E2].
    replace (p + S (String.length pre)) with (S p + String.length pre) by lia.
    split; [intros repl; cbn [subst]; rewrite E1; reflexivity|].
    cbn [hits]. exact E2.
Qed.

(** The scan up to the first match and past it. *)
Lemma scan_step ml r (ok : option ascii -> ascii -> bool) pre mt tl x bf p :
  (forall bf p a s,
      ok bf a = true -> try_at ml r false (Cursor bf p (String a s)) = None) ->
  every_position ok bf pre = true ->
  try_at ml r false
    (Cursor (last_chr bf pre) (p + String.length pre) (mt ++ tl))
  = Some x ->
  m_len x = String.length mt -> 1 <= String.length mt ->
  hits (scan ml r 0 bf p (pre ++ mt ++ tl))
  = x :: hits (scan ml r 0 (last_chr (last_chr bf pre) mt)
                 (p + String.length pre + String.length mt) tl)
  /\ forall repl,
      subst repl (scan ml r 0 bf p (pre ++ mt ++ tl))
      = (pre ++ repl x
         ++ subst repl
              (scan ml r 0 (last_chr (last_chr bf pre) mt)
                 (p + String.length pre + String.length mt) tl))%string.
Proof.
  intros Hf Hpre Ex Lx L1.
  destruct (@scan_keeps_at ml r ok Hf pre (mt ++ tl) bf p Hpre) as [K1 K2].
  destruct mt as [|a mt]; [cbn in L1; lia|].
  assert (Es : scan ml r 0 (last_chr bf pre) (p + String.length pre)
                 (String a mt ++ tl)
               = Hit x
                 :: scan ml r 0 (last_chr (last_chr bf pre) (String a mt))
                      (p + String.length pre + String.length (String a mt))
                      tl).
  { cbn [append String.length last_chr] in Ex, Lx |- *.
    rewrite (@scan_hits ml r _ _ a (mt ++ tl) x (String.length mt) Ex Lx).
    rewrite scan_passes. do 2 f_equal. lia. }
  split.
  - rewrite K2, Es. reflexivity.
  - intros repl. rewrite K1, Es. reflexivity.
Qed.

(** The scan of a text in which no attempt succeeds. *)
Lemma scan_none_at ml r (ok : option ascii -> ascii -> bool) post bf p :
  (forall bf p a s,
      ok bf a = true -> try_at ml r false (Cursor bf p (String a s)) = None) ->
  (forall bf p, try_at ml r false (Cursor bf p "") = None) ->
  every_position ok bf post = true ->
  hits (scan ml r 0 bf p post) = []
  /\ forall repl, subst repl (scan ml r 0 bf p post) = post.
Proof.
  intros Hf He Hpost.
  destruct (@scan_keeps_at ml r ok Hf post "" bf p Hpost) as [P1 P2].
  rewrite append_nil_r in P1, P2. rewrite scan_end in P1, P2 by apply He.
  split; [exact P2|]. intros repl. rewrite P1. cbn [subst].
  apply append_nil_r.
Qed.

(** A greedy repetition that may take nothing, on a character it does
    not take. *)
Lemma rep_skips ml cl k n bf p a s g :
  cls_ok cl a = false ->
  rep_loop (m ml (One cl)) true 0 k n 0 (Cursor bf p (String a s)) g
  = k (Cursor bf p (String a s)) g.
Proof.
  intros Ha. destruct n as [|n]; [reflexivity|].
  rewrite rep_loop_greedy, m_one, Ha. reflexivity.
Qed.

Lemma at_bol_is bf p s : at_bol true (Cursor bf p s) = after_newline bf.
Proof. destruct bf; reflexivity. Qed.

Lemma start_cases (x y : bool) :
  negb (x && y) = true -> x = false \/ y = false.
Proof.
  intros H. apply negb_true_iff in H. apply andb_false_iff in H. exact H.
Qed.

Lemma cls_bullet a :
  cls_ok (CSet [ILit "-"; ILit "*"; ILit "+"]) a = is_bullet a.
Proof.
  unfold is_bullet. cbn [cls_ok existsb item_ok].
  rewrite orb_false_r, orb_assoc. reflexivity.
Qed.

Lemma cls_digit a : cls_ok (CSet [IDigit]) a = Py.is_digit a.
Proof. cbn [cls_ok existsb item_ok]. apply orb_false_r. Qed.

(** The patterns of a kind of list do not match where no item of the
    kind can start. *)
Lemma try_unordered_other r b bf p a s :
  r = Pat.unordered_find \/ r = Pat.unordered_sub ->
  no_bullet_start bf a = true ->
  try_at true r b (Cursor bf p (String a s)) = None.
Proof.
  intros Hr H. unfold no_bullet_start in H.
  apply start_cases in H. unfold try_at.
  destruct H as [H|H].
  - destruct Hr as [->| ->];
      unfold Pat.unordered_find, Pat.unordered_sub; cbn [seq];
      rewrite m_seq, Headers.m_bol, at_bol_is, H; reflexivity.
  - apply orb_false_iff in H. destruct H as [H1 H2].
    destruct Hr as [->| ->];
      unfold Pat.unordered_find, Pat.unordered_sub, Pat.bullet; cbn [seq];
      rewrite m_seq, Headers.m_bol; destruct (at_bol _ _); try reflexivity;
      rewrite ?m_seq, ?Headers.m_grp, ?m_seq; unfold star, ws;
      rewrite m_rep, rep_skips by (rewrite cls_ws; exact H1);
      rewrite m_seq, m_one, cls_bullet, H2; reflexivity.
Qed.

Lemma try_ordered_other r b bf p a s :
  r = Pat.ordered_find \/ r = Pat.ordered_sub ->
  no_number_start bf a = true ->
  try_at true r b (Cursor bf p (String a s)) = None.
Proof.
  intros Hr H. unfold no_number_start in H.
  apply start_cases in H. unfold try_at.
  destruct H as [H|H].
  - destruct Hr as [->| ->];
      unfold Pat.ordered_find, Pat.ordered_sub; cbn [seq];
      rewrite m_seq, Headers.m_bol, at_bol_is, H; reflexivity.
  - apply orb_false_iff in H. destruct H as [H1 H3].
    destruct Hr as [->| ->];
      unfold Pat.ordered_find, Pat.ordered_sub, Pat.number; cbn [seq];
      rewrite m_seq, Headers.m_bol; destruct (at_bol _ _); try reflexivity;
      rewrite ?m_seq, ?Headers.m_grp, ?m_seq; unfold star, ws;
      rewrite m_rep, rep_skips by (rewrite cls_ws; exact H1);
      rewrite !m_seq; unfold plus; rewrite m_rep;
      (rewrite Headers.rep_head_fails;
       [reflexivity|rewrite cls_digit; exact H3|lia]).
Qed.

Lemma try_list_end r b bf p :
  In r [Pat.unordered_find; Pat.unordered_sub;
        Pat.ordered_find; Pat.ordered_sub] ->
  try_at true r b (Cursor bf p "") = None.
Proof.
  intros Hr. cbn [In] in Hr.
  destruct Hr as [<-|[<-|[<-|[<-|[]]]]]; destruct bf as [c|];
    unfold try_at; cbn; try destruct (Ascii.eqb c Py.NL); reflexivity.
Qed.

Lemma every_position_weaken (ok ok' : option ascii -> ascii -> bool) :
  (forall bf a, ok bf a = true -> ok' bf a = true) ->
  forall s bf,
    every_position ok bf s = true -> every_position ok' bf s = true.
Proof.
  intros Hw. induction s as [|a s IH]; intros bf H; [reflexivity|].
  cbn [every_position] in *. apply andb_true_iff in H.
  destruct H as [H1 H2]. rewrite (Hw _ _ H1), (IH _ H2). reflexivity.
Qed.

Lemma no_item_no_bullet bf a :
  no_item_start bf a = true -> no_bullet_start bf a = true.
Proof.
  unfold no_item_start, no_bullet_start. intros H.
  apply start_cases in H. apply negb_true_iff, andb_false_iff.
  destruct H as [H|H]; [left; exact H|right].
  apply orb_false_iff in H. tauto.
Qed.

Lemma no_item_no_number bf a :
  no_item_start bf a = true -> no_number_start bf a = true.
Proof.
  unfold no_item_start, no_number_start. intros H.
  apply start_cases in H. apply negb_true_iff, andb_false_iff.
  destruct H as [H|H]; [left; exact H|right].
  apply orb_false_iff in H. destruct H as [H H3].
  apply orb_false_iff in H. destruct H as [H1 H2].
  rewrite H1, H3. reflexivity.
Qed.

Lemma without_tail c a s :
  without c (String a s) = true -> without c s = true.
Proof.
  unfold without. cbn [Py.mem]. rewrite negb_orb. intros H.
  apply andb_true_iff in H. tauto.
Qed.

(** Inside a line nothing is at the start of a line. *)
Lemma inner_line (f : ascii -> bool) v :
  forall bf,
    after_newline bf = false -> without Py.NL v = true ->
    every_position (fun bf a => negb (after_newline bf && f a)) bf v = true.
Proof.
  induction v as [|a v IH]; intros bf Hb Hv; [reflexivity|].
  cbn [every_position]. rewrite Hb. cbn [andb negb].
  apply IH.
  - cbn [after_newline]. apply (Span.without_head _ _ _ Hv).
  - apply (without_tail _ _ _ Hv).
Qed.

(** The last character of a text that is not empty. *)
Lemma last_chr_some s :
  1 <= String.length s -> forall bf bf', last_chr bf s = last_chr bf' s.
Proof.
  destruct s as [|a s]; [cbn; lia|]. intros _ bf bf'. reflexivity.
Qed.

Lemma last_chr_inner s :
  without Py.NL s = true ->
  forall bf, after_newline bf = false -> after_newline (last_chr bf s) = false.
Proof.
  induction s as [|a s IH]; intros Hs bf Hb; [exact Hb|].
  cbn [last_chr]. apply IH; [apply (without_tail _ _ _ Hs)|].
  cbn [after_newline]. apply (Span.without_head _ _ _ Hs).
Qed.

Lemma bullet_is_no_space b : is_bullet b = true -> Py.is_space b = false.
Proof.
  unfold is_bullet. intros H.
  apply orb_true_iff in H. destruct H as [H|H];
    [apply orb_true_iff in H; destruct H as [H|H]|];
    apply Ascii.eqb_eq in H; subst; reflexivity.
Qed.

Lemma digit_is_no_space a : Py.is_digit a = true -> Py.is_space a = false.
Proof.
  unfold Py.is_digit, Py.is_space. intros H.
  apply andb_true_iff in H. destruct H as [H1 H2].
  apply Nat.leb_le in H1, H2.
  repeat (apply orb_false_iff; split);
    try apply andb_false_iff; try (apply Nat.eqb_neq; lia);
    try (left; apply Nat.leb_gt; lia); right; apply Nat.leb_gt; lia.
Qed.

Lemma all_space_class v :
  all_chr Py.is_space v = true -> all_chr (cls_ok (CSet [ISpace])) v = true.
Proof.
  intros H. rewrite <- H. clear H.
  induction v as [|a v IH]; cbn [all_chr];
    [reflexivity|rewrite cls_ws, IH; reflexivity].
Qed.

Lemma item_parts item :
  item_text_ok item = true ->
  1 <= String.length item /\ all_chr (cls_ok CDot) item = true.
Proof.
  unfold item_text_ok. intros H. apply andb_true_iff in H.
  destruct H as [H1 H2]. apply Nat.leb_le in H1. split; [exact H1|].
  apply Span.without_all in H2. rewrite <- H2. clear.
  induction item as [|a t IH]; cbn [all_chr cls_ok];
    [reflexivity|rewrite IH; reflexivity].
Qed.

(** [(.+)] on what a list item marks. *)
Lemma m_item_text i K item post bf p g x :
  item_text_ok item = true -> starts_line post = true ->
  K (Cursor (last_chr bf item) (p + String.length item) post)
    ((i, item) :: g) = Some x ->
  m true (Grp i (plus (One CDot))) K (Cursor bf p (item ++ post)) g = Some x.
Proof.
  intros Hi Hp HK. destruct (item_parts _ Hi) as [L1 L2].
  rewrite Headers.m_grp. unfold plus. rewrite m_rep.
  apply greedy_run_to.
  - destruct post as [|c post']; [exact I|].
    cbn [starts_line] in Hp. cbn [cls_ok]. rewrite Hp. reflexivity.
  - exact L2.
  - cbn [rest]. rewrite append_length. lia.
  - lia.
  - cbn [pos rest].
    replace (p + String.length item - p) with (String.length item) by lia.
    rewrite substring_all. exact HK.
Qed.

(** *** A marker and what it marks

    The patterns of the two kinds of list differ in the middle of the
    marker only: a bullet, or a number and a full stop. *)

Section Marker.

Variable core : re.
Variable ctxt : string.

Hypothesis core_takes : forall K bf p tl g x,
  K (Cursor (last_chr bf ctxt) (p + String.length ctxt) tl) g = Some x ->
  m true core K (Cursor bf p (ctxt ++ tl)) g = Some x.

Hypothesis ctxt_head :
  exists a t, ctxt = String a t /\ Py.is_space a = false.

Lemma m_marker K indent gap tl bf p g x :
  all_chr Py.is_space indent = true -> gap_ok gap = true ->
  match tl with
  | EmptyString => True
  | String a _ => Py.is_space a = false
  end ->
  K (Cursor (last_chr (last_chr (last_chr bf indent) ctxt) gap)
       (p + String.length indent + String.length ctxt + String.length gap)
       tl) g = Some x ->
  m true (Seq (star ws) (Seq core (plus ws))) K
    (Cursor bf p (indent ++ ctxt ++ gap ++ tl)) g = Some x.
Proof.
  intros Hi Hg Ht HK.
  destruct (Headers.gap_parts _ Hg) as (G1 & G2 & _).
  destruct ctxt_head as (a & t & Ec & Ha).
  rewrite m_seq. unfold star at 1, ws at 1. rewrite m_rep.
  apply greedy_run_to.
  - rewrite Ec. cbn [append]. rewrite cls_ws. exact Ha.
  - apply all_space_class. exact Hi.
  - cbn [rest]. rewrite append_length. lia.
  - lia.
  - rewrite m_seq. apply core_takes.
    unfold plus, ws. rewrite m_rep. apply greedy_run_to.
    + destruct tl as [|b tl']; [exact I|]. rewrite cls_ws. exact Ht.
    + exact G2.
    + cbn [rest]. rewrite append_length. lia.
    + lia.
    + exact HK.
Qed.

Lemma marker_length indent gap :
  String.length (indent ++ ctxt ++ gap)
  = String.length indent + String.length ctxt + String.length gap.
Proof. rewrite !append_length. lia. Qed.

Lemma try_find indent gap item post bf p :
  after_newline bf = true ->
  all_chr Py.is_space indent = true -> gap_ok gap = true ->
  item_text_ok item = true ->
  match item with
  | EmptyString => True
  | String a _ => Py.is_space a = false
  end ->
  starts_line post = true ->
  try_at true
    (Seq Bol (Seq (Grp 1 (Seq (star ws) (Seq core (plus ws))))
                (Grp 2 (plus (One CDot)))))
    false (Cursor bf p (((indent ++ ctxt ++ gap) ++ item) ++ post))
  = Some (Mtch p (String.length ((indent ++ ctxt ++ gap) ++ item))
            ((indent ++ ctxt ++ gap) ++ item)
            [(2, item); (1, (indent ++ ctxt ++ gap)%string)]).
Proof.
  intros Hb Hi Hg Ht Hh Hp. unfold try_at.
  rewrite m_seq, Headers.m_bol, Headers.at_bol_after by exact Hb.
  rewrite m_seq, Headers.m_grp.
  replace (((indent ++ ctxt ++ gap) ++ item) ++ post)%string
    with (indent ++ ctxt ++ gap ++ item ++ post)%string
    by (rewrite !append_assoc; reflexivity).
  rewrite (@m_marker _ indent gap (item ++ post) bf p []
             (Cursor
                (last_chr
                   (last_chr (last_chr (last_chr bf indent) ctxt) gap) item)
                (p + String.length indent + String.length ctxt
                 + String.length gap + String.length item) post,
              [(2, item); (1, (indent ++ ctxt ++ gap)%string)]) Hi Hg).
  - cbn [pos rest].
    replace (p + String.length indent + String.length ctxt
             + String.length gap + String.length item - p)
      with (String.length ((indent ++ ctxt ++ gap) ++ item))
      by (rewrite append_length, marker_length; lia).
    replace (indent ++ ctxt ++ gap ++ item ++ post)%string
      with (((indent ++ ctxt ++ gap) ++ item) ++ post)%string
      by (rewrite !append_assoc; reflexivity).
    rewrite substring_all. reflexivity.
  - destruct item as [|a item']; [discriminate|].
    cbn [append]. exact Hh.
  - cbn [pos rest]. apply m_item_text; [exact Ht|exact Hp|].
    replace (p + String.length indent + String.length ctxt
             + String.length gap - p)
      with (String.length (indent ++ ctxt ++ gap))
      by (rewrite marker_length; lia).
    replace (indent ++ ctxt ++ gap ++ item ++ post)%string
      with ((indent ++ ctxt ++ gap) ++ item ++ post)%string
      by (rewrite !append_assoc; reflexivity).
    rewrite substring_all. reflexivity.
Qed.

Lemma try_sub indent gap item post bf p :
  after_newline bf = true ->
  all_chr Py.is_space indent = true -> gap_ok gap = true ->
  item_text_ok item = true ->
  match item with
  | EmptyString => True
  | String a _ => Py.is_space a = false
  end ->
  starts_line post = true ->
  try_at true
    (Seq Bol (Seq (star ws) (Seq core (Seq (plus ws)
                                         (Grp 1 (plus (One CDot)))))))
    false (Cursor bf p (((indent ++ ctxt ++ gap) ++ item) ++ post))
  = Some (Mtch p (String.length ((indent ++ ctxt ++ gap) ++ item))
            ((indent ++ ctxt ++ gap) ++ item) [(1, item)]).
Proof.
  intros Hb Hi Hg Ht Hh Hp. unfold try_at.
  rewrite m_seq, Headers.m_bol, Headers.at_bol_after by exact Hb.
  replace (((indent ++ ctxt ++ gap) ++ item) ++ post)%string
    with (indent ++ ctxt ++ gap ++ item ++ post)%string
    by (rewrite !append_assoc; reflexivity).
  match goal with
  | |- context [m true (Seq (star ws) (Seq core (Seq (plus ws) ?R))) ?K ?c ?g]
    => change (m true (Seq (star ws) (Seq core (Seq (plus ws) R))) K c g)
         with (m true (Seq (star ws) (Seq core (plus ws))) (m true R K) c g)
  end.
  rewrite (@m_marker _ indent gap (item ++ post) bf p []
             (Cursor
                (last_chr
                   (last_chr (last_chr (last_chr bf indent) ctxt) gap) item)
                (p + String.length indent + String.length ctxt
                 + String.length gap + String.length item) post,
              [(1, item)]) Hi Hg).
  - cbn [pos rest].
    replace (p + String.length indent + String.length ctxt
             + String.length gap + String.length item - p)
      with (String.length ((indent ++ ctxt ++ gap) ++ item))
      by (rewrite append_length, marker_length; lia).
    replace (indent ++ ctxt ++ gap ++ item ++ post)%string
      with (((indent ++ ctxt ++ gap) ++ item) ++ post)%string
      by (rewrite !append_assoc; reflexivity).
    rewrite substring_all. reflexivity.
  - destruct item as [|a item']; [discriminate|].
    cbn [append]. exact Hh.
  - apply m_item_text; [exact Ht|exact Hp|]. reflexivity.
Qed.

End Marker.

Lemma bullet_takes b :
  is_bullet b = true ->
  forall K bf p tl g x,
    K (Cursor (last_chr bf (String b "")) (p + String.length (String b ""))
         tl) g = Some x ->
    m true Pat.bullet K (Cursor bf p (String b "" ++ tl)) g = Some x.
Proof.
  intros Hb K bf p tl g x HK. unfold Pat.bullet. cbn [append].
  rewrite m_one, cls_bullet, Hb.
  cbn [last_chr String.length] in HK. rewrite Nat.add_1_r in HK. exact HK.
Qed.

Lemma digits_parts digits :
  digits_ok digits = true ->
  1 <= String.length digits
  /\ all_chr (cls_ok (CSet [IDigit])) digits = true
  /\ exists a t, digits = String a t /\ Py.is_digit a = true.
Proof.
  unfold digits_ok. intros H. apply andb_true_iff in H. destruct H as [H1 H2].
  apply Nat.leb_le in H1. split; [exact H1|]. split.
  - rewrite <- H2. clear.
    induction digits as [|a d IH]; cbn [all_chr];
      [reflexivity|rewrite cls_digit, IH; reflexivity].
  - destruct digits as [|a t]; [cbn in H1; lia|].
    exists a, t. split; [reflexivity|]. cbn [all_chr] in H2.
    apply andb_true_iff in H2. tauto.
Qed.

Lemma number_takes digits :
  digits_ok digits = true ->
  forall K bf p tl g x,
    K (Cursor (last_chr bf (digits ++ "."))
         (p + String.length (digits ++ ".")) tl) g = Some x ->
    m true Pat.number K (Cursor bf p ((digits ++ ".") ++ tl)) g = Some x.
Proof.
  intros Hd K bf p tl g x HK.
  destruct (digits_parts _ Hd) as (D1 & D2 & _).
  unfold Pat.number. cbn [seq]. rewrite m_seq. unfold plus. rewrite m_rep.
  rewrite append_assoc. cbn [append].
  apply greedy_run_to.
  - reflexivity.
  - exact D2.
  - cbn [rest]. rewrite append_length. lia.
  - lia.
  - unfold lit. rewrite m_one. cbn [cls_ok]. rewrite Ascii.eqb_refl.
    rewrite last_chr_app, append_length in HK.
    cbn [last_chr String.length] in HK.
    replace (p + (String.length digits + 1))
      with (S (p + String.length digits)) in HK by lia.
    exact HK.
Qed.

(** A line whose first character is not one an item starts with. *)
Lemma line_positions (f : ascii -> bool) v bf :
  without Py.NL v = true ->
  match v with
  | EmptyString => True
  | String a _ => f a = false
  end ->
  every_position (fun bf a => negb (after_newline bf && f a)) bf v = true.
Proof.
  destruct v as [|a v]; intros Hv Ha; [reflexivity|].
  cbn [every_position]. rewrite Ha, andb_false_r. cbn [negb andb].
  apply inner_line; [|apply (without_tail _ _ _ Hv)].
  cbn [after_newline]. apply (Span.without_head _ _ _ Hv).
Qed.

Lemma digit_is_no_bullet a : Py.is_digit a = true -> is_bullet a = false.
Proof.
  intros H. unfold is_bullet.
  destruct (Ascii.eqb_spec a "-") as [->|]; [discriminate|].
  destruct (Ascii.eqb_spec a "*") as [->|]; [discriminate|].
  destruct (Ascii.eqb_spec a "+") as [->|]; [discriminate|].
  reflexivity.
Qed.

Lemma digits_without_newline digits :
  all_chr Py.is_digit digits = true -> without Py.NL digits = true.
Proof.
  unfold without. induction digits as [|a d IH]; intros H; [reflexivity|].
  cbn [all_chr] in H. apply andb_true_iff in H. destruct H as [H1 H2].
  cbn [Py.mem]. rewrite negb_orb, (IH H2), andb_true_r.
  destruct (Ascii.eqb_spec Py.NL a) as [<-|]; [discriminate|reflexivity].
Qed.

(** *** The three lines of a step, on a text with one match *)

Lemma log_and_sub_none_at ml r_find r_sub
  (ok : option ascii -> ascii -> bool) name fmt repl text w :
  (forall bf p a s,
      ok bf a = true ->
      try_at ml r_find false (Cursor bf p (String a s)) = None) ->
  (forall bf p, try_at ml r_find false (Cursor bf p "") = None) ->
  (forall bf p a s,
      ok bf a = true ->
      try_at ml r_sub false (Cursor bf p (String a s)) = None) ->
  (forall bf p, try_at ml r_sub false (Cursor bf p "") = None) ->
  every_position ok None text = true ->
  log_and_sub ml r_find name fmt r_sub repl text w = Ok text w.
Proof.
  intros F1 F2 S1 S2 H.
  destruct (@scan_none_at ml r_find ok text None 0 F1 F2 H) as [E1 _].
  destruct (@scan_none_at ml r_sub ok text None 0 S1 S2 H) as [_ E2].
  unfold log_and_sub, finditer, sub, segments. rewrite E1, E2. reflexivity.
Qed.

Lemma log_and_sub_one_at ml r_find r_sub
  (ok : option ascii -> ascii -> bool) name fmt repl pre mt post xf xs w :
  (forall bf p a s,
      ok bf a = true ->
      try_at ml r_find false (Cursor bf p (String a s)) = None) ->
  (forall bf p, try_at ml r_find false (Cursor bf p "") = None) ->
  (forall bf p a s,
      ok bf a = true ->
      try_at ml r_sub false (Cursor bf p (String a s)) = None) ->
  (forall bf p, try_at ml r_sub false (Cursor bf p "") = None) ->
  every_position ok None pre = true ->
  every_position ok (last_chr (last_chr None pre) mt) post = true ->
  1 <= String.length mt ->
  try_at ml r_find false
    (Cursor (last_chr None pre) (0 + String.length pre) (mt ++ post))
  = Some xf ->
  m_len xf = String.length mt ->
  try_at ml r_sub false
    (Cursor (last_chr None pre) (0 + String.length pre) (mt ++ post))
  = Some xs ->
  m_len xs = String.length mt ->
  log_and_sub ml r_find name fmt r_sub repl (pre ++ mt ++ post) w
  = Ok (pre ++ repl xs ++ post)%string
      (World (logger_log (logger w) name (fmt xf)) (stdout w) (stderr w)).
Proof.
  intros F1 F2 S1 S2 Hpre Hpost L Ef Lf Es Ls.
  destruct (@scan_step ml r_find ok pre mt post xf None 0 F1 Hpre Ef Lf L)
    as [A1 _].
  destruct (@scan_step ml r_sub ok pre mt post xs None 0 S1 Hpre Es Ls L)
    as [_ B1].
  destruct (@scan_none_at ml r_find ok post
              (last_chr (last_chr None pre) mt)
              (0 + String.length pre + String.length mt) F1 F2 Hpost)
    as [A2 _].
  destruct (@scan_none_at ml r_sub ok post
              (last_chr (last_chr None pre) mt)
              (0 + String.length pre + String.length mt) S1 S2 Hpost)
    as [_ B2].
  unfold log_and_sub, finditer, sub, segments.
  rewrite A1, A2, B1, B2. reflexivity.
Qed.

End Lists.


(** X29. Step 8 on a text with one item of an unordered list: at the
    start of a line, white space or none, a bullet, white space, and the
    item up to the end of the line; no other line starts with white
    space, a bullet or a digit, nor does the item.  The marker is taken
    out with the white space around it, the item and everything else
    stay, and the marker is logged under [unordered_lists]. *)
Theorem unordered_item_loses_its_marker :
  forall (pre indent : string) (b : ascii) (gap item post : string)
         (w : world),
    ends_line pre = true -> all_chr Py.is_space indent = true ->
    is_bullet b = true -> gap_ok gap = true ->
    item_text_ok item = true -> starts_line post = true ->
    plain_lines None (pre ++ item ++ post) = true ->
    regular_lists (pre ++ (indent ++ String b gap) ++ item ++ post) w
    = Ok (pre ++ item ++ post)%string
        (World
           (logger_log (logger w) "unordered_lists" (indent ++ String b gap))
           (stdout w) (stderr w)).
Proof.
  intros pre indent b gap item post w Hl Hi Hb Hg Ht Hp Hpl.
  pose proof Hpl as Hall.
  unfold plain_lines in Hpl. rewrite !Lists.every_position_app in Hpl.
  apply andb_true_iff in Hpl. destruct Hpl as [P1 P23].
  apply andb_true_iff in P23. destruct P23 as [P2 P3].
  destruct (Lists.item_parts _ Ht) as [L1 L2].
  assert (Hh : match item with
               | EmptyString => True
               | String a _ => Py.is_space a = false
               end).
  { destruct item as [|a item']; [exact I|].
    cbn [every_position] in P2. apply andb_true_iff in P2.
    destruct P2 as [P2 _]. unfold no_item_start in P2.
    apply Lists.start_cases in P2. unfold ends_line in Hl.
    destruct P2 as [P2|P2]; [congruence|].
    apply orb_false_iff in P2. destruct P2 as [P2 _].
    apply orb_false_iff in P2. tauto. }
  assert (Hbf : last_chr (last_chr None pre)
                  ((indent ++ String b "" ++ gap) ++ item)
                = last_chr (last_chr None pre) item).
  { rewrite Scan.last_chr_app. apply Lists.last_chr_some. exact L1. }
  assert (Hhead : exists a t,
             String b "" = String a t /\ Py.is_space a = false).
  { exists b, "". split; [reflexivity|].
    apply Lists.bullet_is_no_space. exact Hb. }
  assert (Etxt : (pre ++ (indent ++ String b gap) ++ item ++ post)%string
                 = (pre ++ ((indent ++ String b "" ++ gap) ++ item) ++ post)
                     %string).
  { cbn [append]. rewrite !ReFacts.append_assoc. cbn [append].
    rewrite ?ReFacts.append_assoc. reflexivity. }
  rewrite Etxt.
  unfold regular_lists. eapply Emphasis.bind_ok.
  - apply (@Lists.log_and_sub_one_at true Pat.unordered_find
             Pat.unordered_sub no_bullet_start "unordered_lists" group1
             group1 pre ((indent ++ String b "" ++ gap) ++ item) post
             (Re.Mtch (0 + String.length pre)
                (String.length ((indent ++ String b "" ++ gap) ++ item))
                ((indent ++ String b "" ++ gap) ++ item)
                [(2, item); (1, (indent ++ String b "" ++ gap)%string)])
             (Re.Mtch (0 + String.length pre)
                (String.length ((indent ++ String b "" ++ gap) ++ item))
                ((indent ++ String b "" ++ gap) ++ item) [(1, item)])).
    + intros bf p a s H.
      apply Lists.try_unordered_other; [left; reflexivity|exact H].
    + intros bf p. apply Lists.try_list_end. cbn [In]. auto.
    + intros bf p a s H.
      apply Lists.try_unordered_other; [right; reflexivity|exact H].
    + intros bf p. apply Lists.try_list_end. cbn [In]. auto.
    + apply (Lists.every_position_weaken _ _ Lists.no_item_no_bullet).
      exact P1.
    + rewrite Hbf.
      apply (Lists.every_position_weaken _ _ Lists.no_item_no_bullet).
      exact P3.
    + rewrite ReFacts.append_length. lia.
    + apply (@Lists.try_find Pat.bullet (String b "")
               (@Lists.bullet_takes b Hb) Hhead); auto.
    + reflexivity.
    + apply (@Lists.try_sub Pat.bullet (String b "")
               (@Lists.bullet_takes b Hb) Hhead); auto.
    + reflexivity.
  - apply (@Lists.log_and_sub_none_at true Pat.ordered_find Pat.ordered_sub
             no_number_start).
    + intros bf p a s H.
      apply Lists.try_ordered_other; [left; reflexivity|exact H].
    + intros bf p. apply Lists.try_list_end. cbn [In]. auto.
    + intros bf p a s H.
      apply Lists.try_ordered_other; [right; reflexivity|exact H].
    + intros bf p. apply Lists.try_list_end. cbn [In]. auto.
    + apply (Lists.every_position_weaken _ _ Lists.no_item_no_number).
      exact Hall.
Qed.

Lemma unordered_item_loses_its_marker_witness :
  regular_lists
    (("To do:" ++ NLs) ++ ("  " ++ String "-" " ") ++ "buy milk"
     ++ (NLs ++ "Done."))
    (world0 (Some (Logger true [])))
  = Ok (("To do:" ++ NLs) ++ "buy milk" ++ (NLs ++ "Done."))%string
      (World
         (logger_log (logger (world0 (Some (Logger true []))))
            "unordered_lists" ("  " ++ String "-" " "))
         (stdout (world0 (Some (Logger true []))))
         (stderr (world0 (Some (Logger true []))))).
Proof.
  apply (@unordered_item_loses_its_marker ("To do:" ++ NLs) "  " "-" " "
           "buy milk" (NLs ++ "Done.")); reflexivity.
Defined.

(** X30. Step 8 on a text with one item of an ordered list: at the start
    of a line, a number, a full stop, white space within the line, and
    the item up to the end of the line; no other line starts with white
    space, a bullet or a digit, nor does the item.  The number, the full
    stop and the white space are taken out, the item and everything else
    stay, and what was taken out is logged under [ordered_lists]. *)
Theorem ordered_item_loses_its_number :
  forall (pre digits gap item post : string) (w : world),
    ends_line pre = true -> digits_ok digits = true ->
    gap_ok gap = true -> without Py.NL gap = true ->
    item_text_ok item = true -> starts_line post = true ->
    plain_lines None (pre ++ item ++ post) = true ->
    regular_lists (pre ++ ((digits ++ ".") ++ gap) ++ item ++ post) w
    = Ok (pre ++ item ++ post)%string
        (World
           (logger_log (logger w) "ordered_lists" ((digits ++ ".") ++ gap))
           (stdout w) (stderr w)).
Proof.
  intros pre digits gap item post w Hl Hd Hg Hgn Ht Hp Hpl.
  pose proof Hpl as Hall.
  unfold plain_lines in Hpl. rewrite !Lists.every_position_app in Hpl.
  apply andb_true_iff in Hpl. destruct Hpl as [P1 P23].
  apply andb_true_iff in P23. destruct P23 as [P2 P3].
  destruct (Lists.item_parts _ Ht) as [L1 L2].
  destruct (Lists.digits_parts _ Hd) as (D1 & D2 & d & digits' & Ed & Dd).
  assert (Hin : without Py.NL item = true).
  { unfold item_text_ok in Ht. apply andb_true_iff in Ht. tauto. }
  assert (Hdn : without Py.NL digits = true).
  { apply Lists.digits_without_newline. unfold digits_ok in Hd.
    apply andb_true_iff in Hd. tauto. }
  assert (Hh : match item with
               | EmptyString => True
               | String a _ => Py.is_space a = false
               end).
  { destruct item as [|a item']; [exact I|].
    cbn [every_position] in P2. apply andb_true_iff in P2.
    destruct P2 as [P2 _]. unfold no_item_start in P2.
    apply Lists.start_cases in P2. unfold ends_line in Hl.
    destruct P2 as [P2|P2]; [congruence|].
    apply orb_false_iff in P2. destruct P2 as [P2 _].
    apply orb_false_iff in P2. tauto. }
  assert (Hhead : exists a t,
             (digits ++ ".")%string = String a t /\ Py.is_space a = false).
  { exists d, (digits' ++ ".")%string. split; [rewrite Ed; reflexivity|].
    apply Lists.digit_is_no_space. exact Dd. }
  assert (Hbf : last_chr (last_chr None pre)
                  (((digits ++ ".") ++ gap) ++ item)
                = last_chr (last_chr None pre) item).
  { rewrite Scan.last_chr_app. apply Lists.last_chr_some. exact L1. }
  assert (Etxt : (pre ++ ((digits ++ ".") ++ gap) ++ item ++ post)%string
                 = (pre ++ (((digits ++ ".") ++ gap) ++ item) ++ post)
                     %string).
  { rewrite !ReFacts.append_assoc. reflexivity. }
  rewrite Etxt.
  unfold regular_lists. eapply Emphasis.bind_ok.
  - apply (@Lists.log_and_sub_none_at true Pat.unordered_find
             Pat.unordered_sub no_bullet_start).
    + intros bf p a s H.
      apply Lists.try_unordered_other; [left; reflexivity|exact H].
    + intros bf p. apply Lists.try_list_end. cbn [In]. auto.
    + intros bf p a s H.
      apply Lists.try_unordered_other; [right; reflexivity|exact H].
    + intros bf p. apply Lists.try_list_end. cbn [In]. auto.
    + rewrite (@Lists.every_position_app no_bullet_start pre _ None).
      rewrite (@Lists.every_position_app no_bullet_start
                 (((digits ++ ".") ++ gap) ++ item) post).
      apply andb_true_iff. split; [|apply andb_true_iff; split].
      * apply (Lists.every_position_weaken _ _ Lists.no_item_no_bullet).
        exact P1.
      * apply (@Lists.line_positions
                 (fun a => Py.is_space a || is_bullet a)).
        -- rewrite !Span.without_app, Hdn, Hgn, Hin. reflexivity.
        -- rewrite Ed. cbn [append].
           rewrite (Lists.digit_is_no_space _ Dd),
             (Lists.digit_is_no_bullet _ Dd).
           reflexivity.
      * rewrite Hbf.
        apply (Lists.every_position_weaken _ _ Lists.no_item_no_bullet).
        exact P3.
  - apply (@Lists.log_and_sub_one_at true Pat.ordered_find
             Pat.ordered_sub no_number_start "ordered_lists" group1
             group1 pre (((digits ++ ".") ++ gap) ++ item) post
             (Re.Mtch (0 + String.length pre)
                (String.length (((digits ++ ".") ++ gap) ++ item))
                (((digits ++ ".") ++ gap) ++ item)
                [(2, item); (1, ((digits ++ ".") ++ gap)%string)])
             (Re.Mtch (0 + String.length pre)
                (String.length (((digits ++ ".") ++ gap) ++ item))
                (((digits ++ ".") ++ gap) ++ item) [(1, item)])).
    + intros bf p a s H.
      apply Lists.try_ordered_other; [left; reflexivity|exact H].
    + intros bf p. apply Lists.try_list_end. cbn [In]. auto.
    + intros bf p a s H.
      apply Lists.try_ordered_other; [right; reflexivity|exact H].
    + intros bf p. apply Lists.try_list_end. cbn [In]. auto.
    + apply (Lists.every_position_weaken _ _ Lists.no_item_no_number).
      exact P1.
    + rewrite Hbf.
      apply (Lists.every_position_weaken _ _ Lists.no_item_no_number).
      exact P3.
    + rewrite ReFacts.append_length. lia.
    + apply (@Lists.try_find Pat.number (digits ++ ".")
               (@Lists.number_takes digits Hd) Hhead ""); auto.
    + reflexivity.
    + apply (@Lists.try_sub Pat.number (digits ++ ".")
               (@Lists.number_takes digits Hd) Hhead ""); auto.
    + reflexivity.
Qed.

Lemma ordered_item_loses_its_number_witness :
  regular_lists
    (("Steps:" ++ NLs) ++ (("12" ++ ".") ++ " ") ++ "re-run the tests"
     ++ "")
    (world0 (Some (Logger true [])))
  = Ok (("Steps:" ++ NLs) ++ "re-run the tests" ++ "")%string
      (World
         (logger_log (logger (world0 (Some (Logger true []))))
            "ordered_lists" (("12" ++ ".") ++ " "))
         (stdout (world0 (Some (Logger true []))))
         (stderr (world0 (Some (Logger true []))))).
Proof.
  apply (@ordered_item_loses_its_number ("Steps:" ++ NLs) "12" " "
           "re-run the tests" ""); reflexivity.
Defined.

(** ** The embedding on known inputs

    The matcher on three behaviours of Python's [re] that its
    documentation states, and the conversion on the inputs of the
    program's description. *)

Module Examples.

(** [re.sub('x*', '-', 'abxd')] is ['-a-b--d-'] since Python 3.7. *)
Example sub_empty_matches :
  Re.sub false (Re.star (Re.lit "x")) (fun _ => "-") "abxd" = "-a-b--d-".
Proof. reflexivity. Qed.

(** [<.*>] is greedy and [<.*?>] is not. *)
Example greedy_and_lazy :
  map Re.m_text
    (Re.finditer false
       (Re.seq [Re.lit "<"; Re.star (Re.One Re.CDot); Re.lit ">"]) "<a> <b>")
  = ["<a> <b>"]
  /\ map Re.m_text
       (Re.finditer false
          (Re.seq [Re.lit "<"; Re.Rep false 0 None (Re.One Re.CDot);
                   Re.lit ">"]) "<a> <b>")
     = ["<a>"; "<b>"].
Proof. split; reflexivity. Qed.

Example emphasis_example :
  convert_markdown_to_text "**bold** and *italic* and ***both***" false
    (Some (Logger true []))
  = Ok "bold and italic and both"
      (World
         (Logger true
            [("bold_italic", ["***both***"]); ("bold_asterisks", ["**bold**"]);
             ("italic_asterisks", ["*italic*"])]) [] []).
Proof. vm_compute. reflexivity. Qed.

Example link_example :
  convert "[Example](http://example.com)" = Some "Example"
  /\ convert "![alt text](img.png)" = Some "alt text".
Proof. split; vm_compute; reflexivity. Qed.

Example fenced_block_example :
  convert_markdown_to_text (Py.join NLs ["```"; "code"; "```"]) false
    (Some (Logger true []))
  = Ok "[CODE BLOCK]"
      (World
         (Logger true [("code_blocks", [Py.join NLs ["```"; "code"; "```"]])])
         [] []).
Proof. vm_compute. reflexivity. Qed.

Example blank_lines_example :
  convert (Py.join NLs ["one"; ""; ""; ""; ""; "two"])
  = Some (Py.join NLs ["one"; ""; "two"]).
Proof. vm_compute. reflexivity. Qed.

Example unclosed_example :
  convert ex_unclosed = Some (Py.join NLs ["intro"; "[CODE BLOCK]"]).
Proof. vm_compute. reflexivity. Qed.

End Examples.
